(** * gh-notice-board: interactions, interest scoring, feed and push delivery

    A shallow embedding of the request handlers and model methods of the
    [interactions], [news] and [tags] applications, over an explicit
    relational store, and the properties of the specification that the
    handlers do or do not satisfy.

    Conventions of the embedding.
    - A table is the list of its rows together with the next value of its
      auto-increment primary key.  [unique_together] and [unique=True]
      are not built into the representation: they are checked by the
      operations that Django checks them in, and proved as invariants.
    - A handler is a function in a state-and-exception monad over the
      store.  An exception leaves the writes made before it in place
      (Django's default autocommit mode).
    - Timestamps are integers (seconds); the clock is an argument.
    - A number is a rational.  The rating average, which the statistics
      round, is the rational a double holds ([binary64]); an interest or
      feed score is read as the rational its float approximates. *)

From Stdlib Require Import ZArith QArith Qround Qabs Qpower.
From Stdlib Require Import List String Ascii Bool Lia Lqa.
From Stdlib Require Import Sorted DecimalString DecimalNat.
Import ListNotations.
Open Scope Z_scope.

(** ** Exceptions and the handler monad *)

Inductive Exc : Type :=
| DoesNotExist
| MultipleObjectsReturned
| IntegrityError
| ValidationError
| NotAuthenticated
| Http404
| DatabaseError
| ValueError
| RecursionError
| AttributeError
| ImportError.

Definition M (S A : Type) : Type := S -> S * (Exc + A).

Definition ret {S A : Type} (a : A) : M S A := fun s => (s, inr a).

Definition raise {S A : Type} (e : Exc) : M S A := fun s => (s, inl e).

Definition bind {S A B : Type} (m : M S A) (k : A -> M S B) : M S B :=
  fun s =>
    match m s with
    | (s', inl e) => (s', inl e)
    | (s', inr a) => k a s'
    end.

Definition gets {S A : Type} (f : S -> A) : M S A := fun s => (s, inr (f s)).

Definition modify {S : Type} (f : S -> S) : M S unit := fun s => (f s, inr tt).

Definition lift {S A : Type} (r : Exc + A) : M S A := fun s => (s, r).

Declare Scope orm_scope.
Delimit Scope orm_scope with orm.
Notation "x <- m ;; k" := (bind m (fun x => k))
  (at level 61, m at next level, right associativity) : orm_scope.
Notation "' pat <- m ;; k" := (bind m (fun x => match x with pat => k end))
  (at level 61, pat pattern, m at next level, right associativity) : orm_scope.
Notation "m ;;; k" := (bind m (fun _ => k))
  (at level 61, right associativity) : orm_scope.
Open Scope orm_scope.

(** The store a handler leaves behind, and what it returned. *)
Definition store_of {S A : Type} (r : S * (Exc + A)) : S := fst r.
Definition outcome_of {S A : Type} (r : S * (Exc + A)) : Exc + A := snd r.

(** ** Tables *)

Record Table (A : Type) : Type := mkTable { rows : list A; next_pk : Z }.
Arguments mkTable {A} _ _.
Arguments rows {A} _.
Arguments next_pk {A} _.

Definition empty_table {A : Type} : Table A := mkTable [] 1.

(** [QuerySet.count()] *)
Definition count {A : Type} (p : A -> bool) (t : Table A) : nat :=
  List.length (filter p (rows t)).

(** [QuerySet.exists()] *)
Definition exists_ {A : Type} (p : A -> bool) (t : Table A) : bool :=
  existsb p (rows t).

(** [QuerySet.delete()] *)
Definition delete_where {A : Type} (p : A -> bool) (t : Table A) : Table A :=
  mkTable (filter (fun r => negb (p r)) (rows t)) (next_pk t).

(** [Model.objects.get(...)] *)
Definition get_where {A : Type} (p : A -> bool) (t : Table A) : Exc + A :=
  match filter p (rows t) with
  | [] => inl DoesNotExist
  | [r] => inr r
  | _ :: _ :: _ => inl MultipleObjectsReturned
  end.


(** ** Text

    [str.strip()] as applied by the serializers' [CharField]
    ([trim_whitespace=True]), on the ASCII white space. *)

Definition is_space (a : ascii) : bool :=
  let n := nat_of_ascii a in
  (Nat.eqb n 32 || (Nat.leb 9 n && Nat.leb n 13)
   || (Nat.leb 28 n && Nat.leb n 31))%bool.

Fixpoint lstrip (l : list ascii) : list ascii :=
  match l with
  | a :: l' => if is_space a then lstrip l' else l
  | [] => []
  end.

Definition strip (s : string) : string :=
  string_of_list_ascii
    (rev (lstrip (rev (lstrip (list_ascii_of_string s))))).

(** ** Ordering

    [order_by] and [list.sort]: a stable insertion sort by a total
    preorder [leb]; rows that compare equal keep their relative order. *)

Fixpoint insert_sorted {A : Type} (leb : A -> A -> bool) (x : A)
    (l : list A) : list A :=
  match l with
  | [] => [x]
  | y :: l' => if leb x y then x :: l else y :: insert_sorted leb x l'
  end.

Definition sort_by {A : Type} (leb : A -> A -> bool) (l : list A) : list A :=
  fold_right (insert_sorted leb) [] l.

(** [a] may come before [b] in a list ordered by [leb]. *)
Definition ordered_by {A : Type} (leb : A -> A -> bool) (a b : A) : Prop :=
  leb a b = true.

(** A Python slice [l[start:stop]] of a list, with negative and
    out-of-range bounds as Python clamps them. *)
Definition clamp_index (len i : Z) : Z :=
  if i <? 0 then Z.max (i + len) 0 else Z.min i len.

Definition slice {A : Type} (l : list A) (start stop : Z) : list A :=
  let len := Z.of_nat (List.length l) in
  let a := clamp_index len start in
  let b := clamp_index len stop in
  firstn (Z.to_nat (b - a)) (skipn (Z.to_nat a) l).

(** ** Proof tools *)

Ltac split_ands :=
  repeat match goal with |- _ /\ _ => split end.

(** ** The interactions application *)

Module Interactions.

(** [django.contrib.contenttypes.models.ContentType] *)
Record ContentType : Type := mkContentType {
  ct_id : Z;
  app_label : string;
  model : string
}.

(** [Like], [Dislike] and [Bookmark] (interactions/models.py) declare the
    same columns and the same [unique_together = user, content_type,
    object_id]; one record type holds a row of any of the three tables. *)
Record Interaction : Type := mkInteraction {
  id : Z;
  user : Z;
  content_type : Z;
  object_id : string;      (* CharField: integer and UUID keys as text *)
  created_at : Z
}.

Abbreviation Like := Interaction (only parsing).
Abbreviation Dislike := Interaction (only parsing).
Abbreviation Bookmark := Interaction (only parsing).

(** [Review] *)
Record Review : Type := mkReview {
  review_id : Z;
  review_user : Z;
  review_content_type : Z;
  review_object_id : string;
  rating : Z;
  title : string;
  comment : string;
  is_approved : bool;
  review_created_at : Z;
  review_updated_at : Z
}.

(** [news.models.NewsArticle], the columns the handlers read or write. *)
Record NewsArticle : Type := mkNewsArticle {
  article_id : string;     (* UUIDField primary key *)
  slug : string;
  status : string;
  views_count : Z;
  likes_count : Z;         (* PositiveIntegerField *)
  bookmarks_count : Z
}.

Record DB : Type := mkDB {
  content_types : list ContentType;
  likes : Table Like;
  dislikes : Table Dislike;
  bookmarks : Table Bookmark;
  reviews : Table Review;
  news_articles : list NewsArticle
}.

Definition set_likes (t : Table Like) (db : DB) : DB :=
  mkDB (content_types db) t (dislikes db) (bookmarks db) (reviews db)
       (news_articles db).
Definition set_dislikes (t : Table Dislike) (db : DB) : DB :=
  mkDB (content_types db) (likes db) t (bookmarks db) (reviews db)
       (news_articles db).
Definition set_bookmarks (t : Table Bookmark) (db : DB) : DB :=
  mkDB (content_types db) (likes db) (dislikes db) t (reviews db)
       (news_articles db).
Definition set_reviews (t : Table Review) (db : DB) : DB :=
  mkDB (content_types db) (likes db) (dislikes db) (bookmarks db) t
       (news_articles db).
Definition set_news_articles (l : list NewsArticle) (db : DB) : DB :=
  mkDB (content_types db) (likes db) (dislikes db) (bookmarks db)
       (reviews db) l.
Definition set_content_types (l : list ContentType) (db : DB) : DB :=
  mkDB l (likes db) (dislikes db) (bookmarks db) (reviews db)
       (news_articles db).

(** *** Managers *)

(** The lookup [user=..., content_type=..., object_id=...]. *)
Definition for_pair (u ct : Z) (oid : string) (r : Interaction) : bool :=
  (user r =? u) && (content_type r =? ct) && String.eqb (object_id r) oid.

(** The lookup [content_type=..., object_id=...]. *)
Definition for_target (ct : Z) (oid : string) (r : Interaction) : bool :=
  (content_type r =? ct) && String.eqb (object_id r) oid.

Definition has_pk (k : Z) (r : Interaction) : bool := id r =? k.

(** [Model.objects.get_or_create(user=..., content_type=..., object_id=...)]:
    the matching row and [False], or a new row and [True]. *)
Definition get_or_create (u ct : Z) (oid : string) (now : Z)
    (t : Table Interaction) : Exc + (Table Interaction * Interaction * bool) :=
  match filter (for_pair u ct oid) (rows t) with
  | [] =>
      let r := mkInteraction (next_pk t) u ct oid now in
      inr (mkTable (rows t ++ [r]) (next_pk t + 1), r, true)
  | [r] => inr (t, r, false)
  | _ :: _ :: _ => inl MultipleObjectsReturned
  end.

(** [instance.delete()]: the row with the instance's primary key. *)
Definition delete_instance (r : Interaction) (t : Table Interaction)
    : Table Interaction :=
  delete_where (has_pk (id r)) t.

(** *** Requests and responses *)

Record Request : Type := mkRequest {
  request_user : option Z;            (* None: anonymous *)
  data_content_type : option Z;       (* request.data.get('content_type') *)
  data_object_id : option string      (* request.data.get('object_id') *)
}.

Inductive Body : Type :=
| ErrorBody (error : string)
| ToggleBody (message : string) (state : bool) (obj : option Interaction).

Record Response : Type := mkResponse { status_code : Z; data : Body }.

Definition HTTP_200_OK : Z := 200.
Definition HTTP_201_CREATED : Z := 201.
Definition HTTP_400_BAD_REQUEST : Z := 400.

(** The flag a toggle response reports ([liked], [disliked],
    [bookmarked]). *)
Definition applied (r : Response) : option bool :=
  match data r with
  | ToggleBody _ b _ => Some b
  | ErrorBody _ => None
  end.

(** [permission_classes = IsAuthenticated] *)
Definition authenticated (request : Request) : M DB Z :=
  match request_user request with
  | Some u => ret u
  | None => raise NotAuthenticated
  end.

(** [if not content_type_id or not object_id]: a missing value, the
    integer 0 and the empty string are false. *)
Definition required_fields (request : Request) : option (Z * string) :=
  match data_content_type request, data_object_id request with
  | Some ct, Some oid =>
      if (ct =? 0) || String.eqb oid "" then None else Some (ct, oid)
  | _, _ => None
  end.

(** [ContentType.objects.get(id=content_type_id)]; ids are unique. *)
Definition ContentType_get (k : Z) : M DB ContentType :=
  fun db =>
    match find (fun c => ct_id c =? k) (content_types db) with
    | Some c => (db, inr c)
    | None => (db, inl DoesNotExist)
    end.

(** [try: ... except ContentType.DoesNotExist:] *)
Definition try_ContentType_get (k : Z) : M DB (option ContentType) :=
  fun db =>
    match ContentType_get k db with
    | (db', inr c) => (db', inr (Some c))
    | (db', inl DoesNotExist) => (db', inr None)
    | (db', inl e) => (db', inl e)
    end.

Definition Like_get_or_create (u ct : Z) (oid : string) (now : Z)
    : M DB (Like * bool) :=
  fun db =>
    match get_or_create u ct oid now (likes db) with
    | inl e => (db, inl e)
    | inr (t, r, created) => (set_likes t db, inr (r, created))
    end.

Definition Dislike_get_or_create (u ct : Z) (oid : string) (now : Z)
    : M DB (Dislike * bool) :=
  fun db =>
    match get_or_create u ct oid now (dislikes db) with
    | inl e => (db, inl e)
    | inr (t, r, created) => (set_dislikes t db, inr (r, created))
    end.

Definition Bookmark_get_or_create (u ct : Z) (oid : string) (now : Z)
    : M DB (Bookmark * bool) :=
  fun db =>
    match get_or_create u ct oid now (bookmarks db) with
    | inl e => (db, inl e)
    | inr (t, r, created) => (set_bookmarks t db, inr (r, created))
    end.

Definition bad_request (msg : string) : Response :=
  mkResponse HTTP_400_BAD_REQUEST (ErrorBody msg).

(** *** interactions/views.py *)

(** [LikeToggleView.post] *)
Definition LikeToggleView_post (request : Request) (now : Z) : M DB Response :=
  u <- authenticated request ;;
  match required_fields request with
  | None => ret (bad_request "content_type and object_id are required")
  | Some (content_type_id, object_id) =>
      c <- try_ContentType_get content_type_id ;;
      match c with
      | None => ret (bad_request "Invalid content_type")
      | Some content_type =>
          '(like, created) <-
             Like_get_or_create u (ct_id content_type) object_id now ;;
          if negb created then
            (* Unlike *)
            modify (fun db => set_likes (delete_instance like (likes db)) db) ;;;
            ret (mkResponse HTTP_200_OK (ToggleBody "Unliked" false None))
          else
            (* Remove dislike if exists *)
            modify (fun db =>
              set_dislikes
                (delete_where (for_pair u (ct_id content_type) object_id)
                              (dislikes db)) db) ;;;
            ret (mkResponse HTTP_201_CREATED
                            (ToggleBody "Liked" true (Some like)))
      end
  end.

(** [DislikeToggleView.post] *)
Definition DislikeToggleView_post (request : Request) (now : Z)
    : M DB Response :=
  u <- authenticated request ;;
  match required_fields request with
  | None => ret (bad_request "content_type and object_id are required")
  | Some (content_type_id, object_id) =>
      c <- try_ContentType_get content_type_id ;;
      match c with
      | None => ret (bad_request "Invalid content_type")
      | Some content_type =>
          '(dislike, created) <-
             Dislike_get_or_create u (ct_id content_type) object_id now ;;
          if negb created then
            (* Remove dislike *)
            modify (fun db =>
              set_dislikes (delete_instance dislike (dislikes db)) db) ;;;
            ret (mkResponse HTTP_200_OK
                            (ToggleBody "Dislike removed" false None))
          else
            (* Remove like if exists *)
            modify (fun db =>
              set_likes
                (delete_where (for_pair u (ct_id content_type) object_id)
                              (likes db)) db) ;;;
            ret (mkResponse HTTP_201_CREATED
                            (ToggleBody "Disliked" true (Some dislike)))
      end
  end.

(** [BookmarkToggleView.post] *)
Definition BookmarkToggleView_post (request : Request) (now : Z)
    : M DB Response :=
  u <- authenticated request ;;
  match required_fields request with
  | None => ret (bad_request "content_type and object_id are required")
  | Some (content_type_id, object_id) =>
      c <- try_ContentType_get content_type_id ;;
      match c with
      | None => ret (bad_request "Invalid content_type")
      | Some content_type =>
          '(bookmark, created) <-
             Bookmark_get_or_create u (ct_id content_type) object_id now ;;
          if negb created then
            (* Remove bookmark *)
            modify (fun db =>
              set_bookmarks (delete_instance bookmark (bookmarks db)) db) ;;;
            ret (mkResponse HTTP_200_OK
                            (ToggleBody "Bookmark removed" false None))
          else
            ret (mkResponse HTTP_201_CREATED
                            (ToggleBody "Bookmarked" true (Some bookmark)))
      end
  end.

(** [ReviewSerializer]: the writable fields of a submission.  [user],
    [is_approved] and the timestamps are read-only. *)
Record ReviewData : Type := mkReviewData {
  submitted_content_type : option Z;
  submitted_object_id : option string;
  submitted_rating : option Z;
  submitted_title : option string;
  submitted_comment : option string
}.

Record ReviewRequest : Type := mkReviewRequest {
  review_request_user : option Z;
  review_request_data : ReviewData
}.

Record ValidatedReview : Type := mkValidatedReview {
  validated_content_type : Z;
  validated_object_id : string;
  validated_rating : Z;
  validated_title : string;
  validated_comment : string
}.

(** A required [CharField]: present, and not blank once trimmed, within
    [max_length] when the column has one. *)
Definition required_text (v : option string) (max_length : option nat)
    : option string :=
  match v with
  | None => None
  | Some s =>
      let s' := strip s in
      if String.eqb s' "" then None
      else match max_length with
           | Some n => if Nat.leb (String.length s') n then Some s' else None
           | None => Some s'
           end
  end.

(** [ReviewSerializer.is_valid()].  The rating passes the column's
    validators (1..5) and [validate_rating].  The serializer carries no
    uniqueness validator: [user] is read-only, so the
    [unique_together] of the model is left to the database. *)
Definition ReviewSerializer_validate (d : ReviewData) (db : DB)
    : option ValidatedReview :=
  match submitted_content_type d, required_text (submitted_object_id d) (Some 255%nat),
        submitted_rating d, required_text (submitted_comment d) None with
  | Some ct, Some oid, Some value, Some text =>
      if existsb (fun c => ct_id c =? ct) (content_types db) then
        if (value <? 1) || (value >? 5) then None
        else
          let t := match submitted_title d with
                   | Some t => strip t
                   | None => ""%string
                   end in
          if Nat.leb (String.length t) 200
          then Some (mkValidatedReview ct oid value t text)
          else None
      else None
  | _, _, _, _ => None
  end.

Definition review_for_pair (u ct : Z) (oid : string) (r : Review) : bool :=
  (review_user r =? u) && (review_content_type r =? ct)
  && String.eqb (review_object_id r) oid.

Definition review_for_target (ct : Z) (oid : string) (r : Review) : bool :=
  (review_content_type r =? ct) && String.eqb (review_object_id r) oid.

(** [Review.objects.create(...)]: the insert is refused by the
    [unique_together] constraint of [Review.Meta] when the user already
    has a review of the target. *)
Definition Review_create (u : Z) (v : ValidatedReview) (now : Z)
    : M DB Review :=
  fun db =>
    let t := reviews db in
    if exists_ (review_for_pair u (validated_content_type v)
                                (validated_object_id v)) t
    then (db, inl IntegrityError)
    else
      let r := mkReview (next_pk t) u (validated_content_type v)
                 (validated_object_id v) (validated_rating v)
                 (validated_title v) (validated_comment v) true now now in
      (set_reviews (mkTable (r :: rows t) (next_pk t + 1)) db, inr r).

(** [ReviewListCreateView]: POST.  [IsAuthenticatedOrReadOnly] admits only
    an authenticated user; [perform_create] saves with that user. *)
Definition ReviewListCreateView_create (request : ReviewRequest) (now : Z)
    : M DB Review :=
  match review_request_user request with
  | None => raise NotAuthenticated
  | Some u =>
      v <- (fun db =>
              match ReviewSerializer_validate (review_request_data request) db with
              | Some v => (db, inr v)
              | None => (db, inl ValidationError)
              end) ;;
      Review_create u v now
  end.

(** [ReviewListCreateView.get_queryset] *)
Definition ReviewListCreateView_get_queryset (request : Request) (db : DB)
    : list Review :=
  match data_content_type request, data_object_id request with
  | Some ct, Some oid =>
      if (ct =? 0) || String.eqb oid "" then
        filter is_approved (rows (reviews db))
      else
        filter (fun r => review_for_target ct oid r && is_approved r)
               (rows (reviews db))
  | _, _ => filter is_approved (rows (reviews db))
  end.

(** *** Statistics *)

Record Stats : Type := mkStats {
  stats_likes_count : nat;
  stats_dislikes_count : nat;
  stats_reviews_count : nat;
  stats_average_rating : Q;
  stats_user_liked : bool;
  stats_user_disliked : bool;
  stats_user_bookmarked : bool;
  stats_user_review : option Review
}.

Definition sum_Z (l : list Z) : Z := fold_right Z.add 0 l.

(** The integer nearest to [x], a tie going to the even one. *)
Definition round_half_even (x : Q) : Z :=
  let f := Qfloor x in
  match Qcompare (x - inject_Z f) (1 # 2) with
  | Lt => f
  | Gt => f + 1
  | Eq => if Z.even f then f else f + 1
  end.

(** The exponent of the last place of the double nearest to [q]: the
    [e] for which [q / 2 ^ e] has 53 binary digits before the point.
    The difference of the binary logarithms of numerator and denominator
    gives the exponent of [q] up to one. *)
Definition ulp_exponent (q : Q) : Z :=
  let k := Z.log2 (Z.abs (Qnum q)) - Z.log2 (Zpos (Qden q)) in
  if Qle_bool (2 ^ 52) (Qabs q / 2 ^ (k - 52)) then k - 52 else k - 53.

(** A Python [float]: the double nearest to [q], a tie going to the even
    significand (IEEE 754 binary64, round to nearest even).  The exponent
    is not bounded: an average of ratings is far from the overflow
    threshold and from the subnormal numbers. *)
Definition binary64 (q : Q) : Q :=
  if Qeq_bool q 0 then 0%Q
  else
    let e := ulp_exponent q in
    (inject_Z (round_half_even (q / 2 ^ e)) * 2 ^ e)%Q.

(** [aggregate(Avg('rating'))]: [None] over no rows; else the sum of the
    column divided by the number of rows, as a float (the output field of
    [Avg] over an integer column is a [FloatField]). *)
Definition Avg (l : list Z) : option Q :=
  match l with
  | [] => None
  | _ :: _ =>
      Some (binary64
              (inject_Z (sum_Z l) / inject_Z (Z.of_nat (List.length l))))%Q
  end.

(** [x or 0]: [None] and a zero average are false. *)
Definition or_0 (a : option Q) : Q :=
  match a with
  | None => 0%Q
  | Some q => if Qeq_bool q 0 then 0%Q else q
  end.

(** [round(x, 2)] of a float: the number of two decimal places nearest to
    the exact value of [x], a tie going to the even one, as a float; the
    integer 0 of [or 0] is left as it is. *)
Definition round2 (x : Q) : Q :=
  binary64 (inject_Z (round_half_even (x * 100)) / 100)%Q.

(** [InteractionStatsSerializer(data).data].  The view hands the
    serializer a dictionary in which [user_review] is already the output
    of [ReviewSerializer]; the [ReviewSerializer] field of the statistics
    reads that dictionary as a review once more, and the primary-key
    field [user] asks the integer stored there for its [pk]. *)
Definition InteractionStatsSerializer_data (data : Stats) : Exc + Stats :=
  match stats_user_review data with
  | Some _ => inl AttributeError
  | None => inr data
  end.

(** [InteractionStatsView.get] ([AllowAny]) *)
Definition InteractionStatsView_get (request : Request)
    : M DB (Response + Stats) :=
  match required_fields request with
  | None =>
      ret (inl (bad_request "content_type and object_id are required"))
  | Some (content_type_id, object_id) =>
      c <- try_ContentType_get content_type_id ;;
      match c with
      | None => ret (inl (bad_request "Invalid content_type"))
      | Some content_type =>
          let ct := ct_id content_type in
          likes_count <- gets (fun db => count (for_target ct object_id) (likes db)) ;;
          dislikes_count <-
            gets (fun db => count (for_target ct object_id) (dislikes db)) ;;
          reviews_ <-
            gets (fun db =>
                    filter (fun r => review_for_target ct object_id r
                                     && is_approved r)
                           (rows (reviews db))) ;;
          let reviews_count := List.length reviews_ in
          let average_rating := or_0 (Avg (map rating reviews_)) in
          (* User-specific data *)
          '(user_liked, user_disliked, user_bookmarked, user_review) <-
            match request_user request with
            | None => ret (false, false, false, None)
            | Some u =>
                user_liked <-
                  gets (fun db => exists_ (for_pair u ct object_id) (likes db)) ;;
                user_disliked <-
                  gets (fun db =>
                          exists_ (for_pair u ct object_id) (dislikes db)) ;;
                user_bookmarked <-
                  gets (fun db =>
                          exists_ (for_pair u ct object_id) (bookmarks db)) ;;
                user_review <-
                  (fun db =>
                     match get_where (review_for_pair u ct object_id)
                                     (reviews db) with
                     | inr r => (db, inr (Some r))
                     | inl DoesNotExist => (db, inr None)
                     | inl e => (db, inl e)
                     end) ;;
                ret (user_liked, user_disliked, user_bookmarked, user_review)
            end ;;
          let data :=
            mkStats likes_count dislikes_count reviews_count
                    (round2 average_rating) user_liked user_disliked
                    user_bookmarked user_review in
          serializer_data <- lift (InteractionStatsSerializer_data data) ;;
          ret (inr serializer_data)
      end
  end.

Definition review_key (r : Review) : Z * Z * string :=
  (review_user r, review_content_type r, review_object_id r).

(** The database's guarantee for the review table: one row per user and
    target. *)
Definition reviews_unique (db : DB) : Prop :=
  forall u ct oid,
    (count (review_for_pair u ct oid) (reviews db) <= 1)%nat.

(** *** Well-formed tables

    What the database itself guarantees for a table of interactions: the
    primary key is unique and below the sequence, and no two rows agree on
    [unique_together]. *)

Definition wf_table (t : Table Interaction) : Prop :=
  NoDup (map id (rows t)) /\
  (forall r, In r (rows t) -> id r < next_pk t) /\
  (forall u ct oid, (count (for_pair u ct oid) t <= 1)%nat).

(** A user holds a row of the table for the target. *)
Definition holds (t : Table Interaction) (u ct : Z) (oid : string) : bool :=
  exists_ (for_pair u ct oid) t.

(** No pair has both a Like and a Dislike. *)
Definition exclusive (db : DB) : Prop :=
  forall u ct oid,
    holds (likes db) u ct oid = true ->
    holds (dislikes db) u ct oid = true -> False.

(** The request is from user [u], names both fields, and its content type
    resolves: the handler reaches the toggle itself. *)
Definition resolves (request : Request) (db : DB) (u ct : Z) (oid : string)
    : Prop :=
  request_user request = Some u /\
  required_fields request = Some (ct, oid) /\
  exists c, find (fun c => ct_id c =? ct) (content_types db) = Some c.

(** *** What a toggle does to the store *)

Definition inserted (t : Table Interaction) (u ct : Z) (oid : string)
    (now : Z) : Table Interaction :=
  mkTable (rows t ++ [mkInteraction (next_pk t) u ct oid now]) (next_pk t + 1).

Definition toggled_on (message : string) (r : Interaction) : Response :=
  mkResponse HTTP_201_CREATED (ToggleBody message true (Some r)).

Definition toggled_off (message : string) : Response :=
  mkResponse HTTP_200_OK (ToggleBody message false None).

(** interactions/urls.py: the three toggle routes ([like-toggle],
    [dislike-toggle], [bookmark-toggle]) and the table each works on. *)
Inductive ToggleRoute : Type := like_toggle | dislike_toggle | bookmark_toggle.

Definition urlpatterns (route : ToggleRoute)
    : Request -> Z -> M DB Response :=
  match route with
  | like_toggle => LikeToggleView_post
  | dislike_toggle => DislikeToggleView_post
  | bookmark_toggle => BookmarkToggleView_post
  end.

Definition table_of (route : ToggleRoute) : DB -> Table Interaction :=
  match route with
  | like_toggle => likes
  | dislike_toggle => dislikes
  | bookmark_toggle => bookmarks
  end.

(** A toggle on the pair's own table, with the table of the opposite
    relation it clears on creation: the two tables afterwards and the
    reported flag.  [None] stands for [MultipleObjectsReturned]. *)
Definition toggle_effect (own other : Table Interaction) (u ct : Z)
    (oid : string) (now : Z)
    : option (Table Interaction * Table Interaction * bool) :=
  match filter (for_pair u ct oid) (rows own) with
  | [] =>
      Some (inserted own u ct oid now,
            delete_where (for_pair u ct oid) other, true)
  | [r] => Some (delete_instance r own, other, false)
  | _ :: _ :: _ => None
  end.

End Interactions.

(** ** The news application: the per-article like action *)

Module News.
Import Interactions.

(** [F('likes_count') + n] and [F('likes_count') - n]: an expression the
    database evaluates in the UPDATE; the instance attribute keeps the
    expression after [save]. *)
Inductive CombinedExpression : Type :=
| F_plus (field : string) (n : Z)
| F_minus (field : string) (n : Z).

Record ArticleRequest : Type := mkArticleRequest {
  article_request_user : option Z;
  is_staff : bool;
  kwargs_slug : string
}.

Record LikeResponse : Type := mkLikeResponse {
  liked : bool;
  response_likes_count : CombinedExpression
}.

(** [get_queryset] then [get_object]: the article of the slug, among the
    published ones unless the user is staff. *)
Definition get_object (request : ArticleRequest) : M DB NewsArticle :=
  fun db =>
    match find (fun a => String.eqb (slug a) (kwargs_slug request)
                         && (is_staff request
                             || String.eqb (status a) "published"))
               (news_articles db) with
    | Some a => (db, inr a)
    | None => (db, inl Http404)
    end.

Definition fresh_ct_id (l : list ContentType) : Z :=
  fold_right (fun c m => Z.max (ct_id c + 1) m) 1 l.

(** [ContentType.objects.get_for_model(NewsArticle)]: the row of the
    model, created on first use. *)
Definition ContentType_get_for_model (app name : string) : M DB ContentType :=
  fun db =>
    match find (fun c => String.eqb (app_label c) app
                         && String.eqb (model c) name)
               (content_types db) with
    | Some c => (db, inr c)
    | None =>
        let c := mkContentType (fresh_ct_id (content_types db)) app name in
        (set_content_types (content_types db ++ [c]) db, inr c)
    end.

Definition with_likes_count (n : Z) (a : NewsArticle) : NewsArticle :=
  mkNewsArticle (article_id a) (slug a) (status a) (views_count a) n
                (bookmarks_count a).

(** [article.likes_count = F('likes_count') + delta] followed by
    [article.save(update_fields=['likes_count'])]: one UPDATE of the row.
    [likes_count] is a [PositiveIntegerField]; the database refuses a
    negative value. *)
Definition save_likes_count (pk : string) (delta : Z) : M DB unit :=
  fun db =>
    match find (fun a => String.eqb (article_id a) pk) (news_articles db) with
    | None => (db, inl DatabaseError)
    | Some a =>
        if likes_count a + delta <? 0 then (db, inl IntegrityError)
        else
          (set_news_articles
             (map (fun x => if String.eqb (article_id x) pk
                            then with_likes_count (likes_count x + delta) x
                            else x)
                  (news_articles db)) db,
           inr tt)
    end.

(** [NewsArticleViewSet.like] *)
Definition NewsArticleViewSet_like (request : ArticleRequest) (now : Z)
    : M DB LikeResponse :=
  match article_request_user request with
  | None => raise NotAuthenticated
  | Some u =>
      article <- get_object request ;;
      content_type <- ContentType_get_for_model "news" "newsarticle" ;;
      '(like, created) <-
         Like_get_or_create u (ct_id content_type) (article_id article) now ;;
      if negb created then
        modify (fun db => set_likes (delete_instance like (likes db)) db) ;;;
        save_likes_count (article_id article) (-1) ;;;
        ret (mkLikeResponse false (F_minus "likes_count" 1))
      else
        save_likes_count (article_id article) 1 ;;;
        ret (mkLikeResponse true (F_plus "likes_count" 1))
  end.

(** The denormalized like counter of an article. *)
Definition likes_count_of (pk : string) (db : DB) : option Z :=
  option_map likes_count
    (find (fun a => String.eqb (article_id a) pk) (news_articles db)).

Definition is_newsarticle_ct (c : ContentType) : bool :=
  String.eqb (app_label c) "news" && String.eqb (model c) "newsarticle".

Definition visible_to (request : ArticleRequest) (a : NewsArticle) : bool :=
  String.eqb (slug a) (kwargs_slug request)
  && (is_staff request || String.eqb (status a) "published").

Definition bump (pk : string) (delta : Z) (x : NewsArticle) : NewsArticle :=
  if String.eqb (article_id x) pk
  then with_likes_count (likes_count x + delta) x else x.

(** The content type id under which the action files its Like rows. *)
Definition newsarticle_ct (db : DB) : Z :=
  match ContentType_get_for_model "news" "newsarticle" db with
  | (_, inr c) => ct_id c
  | (_, inl _) => 0
  end.

End News.

(** ** Threaded comments *)

Module Comments.

(** [Comment] (interactions/models.py) *)
Record Comment : Type := mkComment {
  id : string;               (* UUIDField, default uuid4 *)
  user : Z;
  content_type : Z;
  object_id : string;
  content : string;
  parent : option string;    (* parent_id *)
  is_edited : bool;
  edited_at : option Z;
  is_approved : bool;
  is_flagged : bool;
  like_count : Z;
  reply_count : Z;
  created_at : Z;
  updated_at : Z
}.

(** The Python values that [Comment.save] tests and compares. *)
Inductive Related : Type :=
| RelatedUser (pk : Z)
| RelatedContentType (pk : Z)
| RelatedComment (pk : string)
| RelatedObject (pk : string).

Inductive PyValue : Type :=
| PyNone
| PyStr (s : string)
| PyUUID (hex : string)
| PyModel (r : Related).

(** Truth value: [None] and the empty string are false; a UUID and a
    model instance define neither [__bool__] nor [__len__] and are true. *)
Definition py_truthy (v : PyValue) : bool :=
  match v with
  | PyNone => false
  | PyStr s => negb (String.eqb s "")
  | PyUUID _ => true
  | PyModel _ => true
  end.

Definition Related_eqb (a b : Related) : bool :=
  match a, b with
  | RelatedUser x, RelatedUser y => x =? y
  | RelatedContentType x, RelatedContentType y => x =? y
  | RelatedComment x, RelatedComment y => String.eqb x y
  | RelatedObject x, RelatedObject y => String.eqb x y
  | _, _ => false
  end.

(** [a != b]: values of different types are different. *)
Definition py_ne (a b : PyValue) : bool :=
  match a, b with
  | PyNone, PyNone => false
  | PyStr s, PyStr t => negb (String.eqb s t)
  | PyUUID s, PyUUID t => negb (String.eqb s t)
  | PyModel r, PyModel r' => negb (Related_eqb r r')
  | _, _ => true
  end.

(** [instance._state]: Django's [ModelState].  [fields_cache] holds the
    related objects already fetched, under the name of their relation
    field ([user], [content_type], [parent], [content_object]); the
    values of the columns are attributes of the instance, not entries of
    this cache. *)
Record ModelState : Type := mkModelState {
  adding : bool;
  fields_cache : list (string * Related)
}.

Record Instance : Type := mkInstance {
  fields : Comment;
  _state : ModelState
}.

(** [dict.get(key)] *)
Definition dict_get (d : list (string * Related)) (key : string) : PyValue :=
  match find (fun kv => String.eqb (fst kv) key) d with
  | Some (_, r) => PyModel r
  | None => PyNone
  end.

Definition dict_set (d : list (string * Related)) (key : string) (r : Related)
    : list (string * Related) :=
  (key, r) :: filter (fun kv => negb (String.eqb (fst kv) key)) d.

(** [Model.from_db]: an instance read from a row. *)
Definition from_db (row : Comment) : Instance :=
  mkInstance row (mkModelState false []).

Definition with_edit (now : Z) (c : Comment) : Comment :=
  mkComment (id c) (user c) (content_type c) (object_id c) (content c)
    (parent c) true (Some now) (is_approved c) (is_flagged c) (like_count c)
    (reply_count c) (created_at c) (updated_at c).

Definition with_content (s : string) (c : Comment) : Comment :=
  mkComment (id c) (user c) (content_type c) (object_id c) s
    (parent c) (is_edited c) (edited_at c) (is_approved c) (is_flagged c)
    (like_count c) (reply_count c) (created_at c) (updated_at c).

Definition with_reply_count (n : Z) (c : Comment) : Comment :=
  mkComment (id c) (user c) (content_type c) (object_id c) (content c)
    (parent c) (is_edited c) (edited_at c) (is_approved c) (is_flagged c)
    (like_count c) n (created_at c) (updated_at c).

Definition with_timestamps (created updated : Z) (c : Comment) : Comment :=
  mkComment (id c) (user c) (content_type c) (object_id c) (content c)
    (parent c) (is_edited c) (edited_at c) (is_approved c) (is_flagged c)
    (like_count c) (reply_count c) created updated.

(** The column [name] of [row] takes the value it has in [src]. *)
Definition set_column (src : Comment) (row : Comment) (name : string)
    : option Comment :=
  let mk u ct oid c p ie ea ia fl lc rc ca ua :=
    Some (mkComment (id row) u ct oid c p ie ea ia fl lc rc ca ua) in
  let r := row in
  if String.eqb name "user" then
    mk (user src) (content_type r) (object_id r) (content r) (parent r)
       (is_edited r) (edited_at r) (is_approved r) (is_flagged r)
       (like_count r) (reply_count r) (created_at r) (updated_at r)
  else if String.eqb name "content_type" then
    mk (user r) (content_type src) (object_id r) (content r) (parent r)
       (is_edited r) (edited_at r) (is_approved r) (is_flagged r)
       (like_count r) (reply_count r) (created_at r) (updated_at r)
  else if String.eqb name "object_id" then
    mk (user r) (content_type r) (object_id src) (content r) (parent r)
       (is_edited r) (edited_at r) (is_approved r) (is_flagged r)
       (like_count r) (reply_count r) (created_at r) (updated_at r)
  else if String.eqb name "content" then
    mk (user r) (content_type r) (object_id r) (content src) (parent r)
       (is_edited r) (edited_at r) (is_approved r) (is_flagged r)
       (like_count r) (reply_count r) (created_at r) (updated_at r)
  else if String.eqb name "parent" then
    mk (user r) (content_type r) (object_id r) (content r) (parent src)
       (is_edited r) (edited_at r) (is_approved r) (is_flagged r)
       (like_count r) (reply_count r) (created_at r) (updated_at r)
  else if String.eqb name "is_edited" then
    mk (user r) (content_type r) (object_id r) (content r) (parent r)
       (is_edited src) (edited_at r) (is_approved r) (is_flagged r)
       (like_count r) (reply_count r) (created_at r) (updated_at r)
  else if String.eqb name "edited_at" then
    mk (user r) (content_type r) (object_id r) (content r) (parent r)
       (is_edited r) (edited_at src) (is_approved r) (is_flagged r)
       (like_count r) (reply_count r) (created_at r) (updated_at r)
  else if String.eqb name "is_approved" then
    mk (user r) (content_type r) (object_id r) (content r) (parent r)
       (is_edited r) (edited_at r) (is_approved src) (is_flagged r)
       (like_count r) (reply_count r) (created_at r) (updated_at r)
  else if String.eqb name "is_flagged" then
    mk (user r) (content_type r) (object_id r) (content r) (parent r)
       (is_edited r) (edited_at r) (is_approved r) (is_flagged src)
       (like_count r) (reply_count r) (created_at r) (updated_at r)
  else if String.eqb name "like_count" then
    mk (user r) (content_type r) (object_id r) (content r) (parent r)
       (is_edited r) (edited_at r) (is_approved r) (is_flagged r)
       (like_count src) (reply_count r) (created_at r) (updated_at r)
  else if String.eqb name "reply_count" then
    mk (user r) (content_type r) (object_id r) (content r) (parent r)
       (is_edited r) (edited_at r) (is_approved r) (is_flagged r)
       (like_count r) (reply_count src) (created_at r) (updated_at r)
  else if String.eqb name "created_at" then
    mk (user r) (content_type r) (object_id r) (content r) (parent r)
       (is_edited r) (edited_at r) (is_approved r) (is_flagged r)
       (like_count r) (reply_count r) (created_at src) (updated_at r)
  else if String.eqb name "updated_at" then
    mk (user r) (content_type r) (object_id r) (content r) (parent r)
       (is_edited r) (edited_at r) (is_approved r) (is_flagged r)
       (like_count r) (reply_count r) (created_at r) (updated_at src)
  else None.

Fixpoint set_columns (src row : Comment) (names : list string)
    : option Comment :=
  match names with
  | [] => Some row
  | n :: names' =>
      match set_column src row n with
      | Some row' => set_columns src row' names'
      | None => None
      end
  end.

Definition has_pk (k : string) (c : Comment) : bool := String.eqb (id c) k.

(** [models.Model.save]: what the call of [super().save] does.
    - with [update_fields]: an UPDATE of those columns of the row of the
      primary key; an empty list does nothing; an unknown name is a
      [ValueError]; no row is a [DatabaseError];
    - otherwise an INSERT for an instance that is being added (the key
      has a default), else an UPDATE of every column, or an INSERT when
      no row has the key.
    [created_at] is [auto_now_add], [updated_at] is [auto_now]. *)
Definition Model_save (self : Instance) (update_fields : option (list string))
    (now : Z) : M (list Comment) Instance :=
  fun db =>
    let c := fields self in
    let saved x := mkInstance x (mkModelState false (fields_cache (_state self))) in
    match update_fields with
    | Some [] => (db, inr self)
    | Some names =>
        let c' := if existsb (String.eqb "updated_at") names
                  then with_timestamps (created_at c) now c else c in
        match find (has_pk (id c)) db with
        | None =>
            match set_columns c' c' names with
            | None => (db, inl ValueError)
            | Some _ => (db, inl DatabaseError)
            end
        | Some row =>
            match set_columns c' row names with
            | None => (db, inl ValueError)
            | Some _ =>
                (map (fun r => if has_pk (id c) r
                               then match set_columns c' r names with
                                    | Some r' => r'
                                    | None => r
                                    end
                               else r) db,
                 inr (saved c'))
            end
        end
    | None =>
        if adding (_state self) then
          if existsb (has_pk (id c)) db then (db, inl IntegrityError)
          else let c' := with_timestamps now now c in
               (db ++ [c'], inr (saved c'))
        else
          if existsb (has_pk (id c)) db then
            let c' := with_timestamps (created_at c) now c in
            (map (fun r => if has_pk (id c) r then c' else r) db,
             inr (saved c'))
          else let c' := with_timestamps now now c in
               (db ++ [c'], inr (saved c'))
    end.

(** [self.parent]: the cached parent or, on first access, the row of
    [parent_id].  Only [reply_count] of the parent is written below, so
    the instance is read from its row in either case. *)
Definition related_parent (parent_id : string) : M (list Comment) Instance :=
  fun db =>
    match find (has_pk parent_id) db with
    | Some row => (db, inr (from_db row))
    | None => (db, inl DoesNotExist)
    end.

(** [self.parent.replies.count()] *)
Definition replies_count (parent_id : string) (db : list Comment) : Z :=
  Z.of_nat
    (List.length
       (filter (fun c => match parent c with
                         | Some p => String.eqb p parent_id
                         | None => false
                         end) db)).

(** [Comment.save].  [fuel] is the depth of recursion left to the
    interpreter: saving a reply saves its parent. *)
Fixpoint Comment_save (fuel : nat) (self : Instance)
    (update_fields : option (list string)) (now : Z)
    : M (list Comment) Instance :=
  match fuel with
  | O => raise RecursionError
  | S fuel' =>
      let self :=
        if py_truthy (PyUUID (id (fields self)))
           && py_ne (PyStr (content (fields self)))
                    (dict_get (fields_cache (_state self)) "content")
        then mkInstance (with_edit now (fields self)) (_state self)
        else self in
      self <- Model_save self update_fields now ;;
      (* Update reply count on parent *)
      match parent (fields self) with
      | None => ret self
      | Some parent_id =>
          p <- related_parent parent_id ;;
          n <- gets (replies_count parent_id) ;;
          let p := mkInstance (with_reply_count n (fields p)) (_state p) in
          Comment_save fuel' p (Some ["reply_count"%string]) now ;;;
          ret (mkInstance (fields self)
                 (mkModelState (adding (_state self))
                    (dict_set (fields_cache (_state self)) "parent"
                              (RelatedComment parent_id))))
      end
  end.

(** A new, unsaved comment: [Comment(user=..., content=..., parent=...)]. *)
Definition new_comment (pk : string) (u ct : Z) (oid text : string)
    (parent_id : option string) : Instance :=
  mkInstance (mkComment pk u ct oid text parent_id false None true false 0 0 0 0)
             (mkModelState true []).

(** The stored comment of a key. *)
Definition stored (pk : string) (db : list Comment) : option Comment :=
  find (has_pk pk) db.

End Comments.

(** ** User interests (tags/models.py, tags/views.py) *)

Module Interest.

(** [UserInterest] *)
Record UserInterest : Type := mkUserInterest {
  id : Z;
  user : Z;
  category : option Z;       (* category_id, nullable *)
  tag : option Z;            (* tag_id, nullable *)
  score : Q;                 (* FloatField *)
  view_count : Z;
  like_count : Z;
  share_count : Z;
  time_spent : Z
}.

Record DB : Type := mkDB {
  user_interests : Table UserInterest;
  categories : list Z;       (* primary keys of Category *)
  tags : list Z              (* primary keys of Tag *)
}.

Definition set_user_interests (t : Table UserInterest) (db : DB) : DB :=
  mkDB t (categories db) (tags db).

Definition with_score (s : Q) (r : UserInterest) : UserInterest :=
  mkUserInterest (id r) (user r) (category r) (tag r) s (view_count r)
                 (like_count r) (share_count r) (time_spent r).

Definition with_counts (v l s t : Z) (r : UserInterest) : UserInterest :=
  mkUserInterest (id r) (user r) (category r) (tag r) (score r) v l s t.

(** The weighted sum of [UserInterest.calculate_score]. *)
Definition weighted_score (self : UserInterest) : Q :=
  (inject_Z ((view_count self * 1) +
             (like_count self * 5) +
             (share_count self * 10)) +
   (inject_Z (time_spent self) / 60 * 2))%Q.

Definition has_pk (k : Z) (r : UserInterest) : bool := id r =? k.

(** [UserInterest.calculate_score]: the score of the instance, stored with
    [save(update_fields=['score'])]: the other columns of the row are
    not written. *)
Definition calculate_score (self : UserInterest) : M DB (UserInterest * Q) :=
  fun db =>
    let score := weighted_score self in
    let self := with_score score self in
    let t := user_interests db in
    if existsb (has_pk (id self)) (rows t) then
      (set_user_interests
         (mkTable (map (fun r => if has_pk (id self) r
                                 then with_score score r else r) (rows t))
                  (next_pk t)) db,
       inr (self, score))
    else (db, inl DatabaseError).

Definition for_category (u c : Z) (r : UserInterest) : bool :=
  (user r =? u) && match category r with
                   | Some c' => c' =? c
                   | None => false
                   end.

Definition for_tag (u t : Z) (r : UserInterest) : bool :=
  (user r =? u) && match tag r with
                   | Some t' => t' =? t
                   | None => false
                   end.

(** [UserInterest.objects.get_or_create(user=..., category_id=...)] and the
    same with [tag_id]: a new row has zero counters and the other
    reference null; its foreign key must exist. *)
Definition get_or_create (lookup : UserInterest -> bool)
    (fresh : Z -> UserInterest) (fk_ok : bool) : M DB (UserInterest * bool) :=
  fun db =>
    let t := user_interests db in
    match filter lookup (rows t) with
    | [] =>
        if fk_ok then
          let r := fresh (next_pk t) in
          (set_user_interests (mkTable (rows t ++ [r]) (next_pk t + 1)) db,
           inr (r, true))
        else (db, inl IntegrityError)
    | [r] => (db, inr (r, false))
    | _ :: _ :: _ => (db, inl MultipleObjectsReturned)
    end.

Definition get_or_create_category (u c : Z) : M DB (UserInterest * bool) :=
  fun db =>
    get_or_create (for_category u c)
      (fun k => mkUserInterest k u (Some c) None 0 0 0 0 0)
      (existsb (Z.eqb c) (categories db)) db.

Definition get_or_create_tag (u t : Z) : M DB (UserInterest * bool) :=
  fun db =>
    get_or_create (for_tag u t)
      (fun k => mkUserInterest k u None (Some t) 0 0 0 0 0)
      (existsb (Z.eqb t) (tags db)) db.

Record Request : Type := mkRequest {
  request_user : option Z;
  data_type : option string;         (* request.data.get('type') *)
  data_category_id : option Z;
  data_tag_id : option Z;
  data_time_spent : option Z         (* request.data.get('time_spent', 0) *)
}.

Record Response : Type := mkResponse { status_code : Z; message : string }.

(** The in-memory updates of the handler: the counter of the interaction
    type, then the time spent when it is not zero. *)
Definition counted (interaction_type : string) (time_spent_ : Z)
    (interest : UserInterest) : UserInterest :=
  let interest :=
    if String.eqb interaction_type "view" then
      with_counts (view_count interest + 1) (like_count interest)
                  (share_count interest) (time_spent interest) interest
    else if String.eqb interaction_type "like" then
      with_counts (view_count interest) (like_count interest + 1)
                  (share_count interest) (time_spent interest) interest
    else if String.eqb interaction_type "share" then
      with_counts (view_count interest) (like_count interest)
                  (share_count interest + 1) (time_spent interest) interest
    else interest in
  if time_spent_ =? 0 then interest
  else with_counts (view_count interest) (like_count interest)
                   (share_count interest)
                   (time_spent interest + time_spent_) interest.

(** [if category_id:]: a missing id and 0 are false. *)
Definition truthy_id (v : option Z) : option Z :=
  match v with
  | Some k => if k =? 0 then None else Some k
  | None => None
  end.

(** [request.data.get('time_spent', 0)] *)
Definition time_spent_of (request : Request) : Z :=
  match data_time_spent request with
  | Some t => t
  | None => 0
  end.

(** [TrackInteractionView.post] ([IsAuthenticated]) *)
Definition TrackInteractionView_post (request : Request) : M DB Response :=
  match request_user request with
  | None => raise NotAuthenticated
  | Some u =>
      let interaction_type := data_type request in
      let category_id := data_category_id request in
      let tag_id := data_tag_id request in
      let time_spent_ := time_spent_of request in
      match interaction_type with
      | None => ret (mkResponse 400 "Interaction type is required")
      | Some interaction_type =>
          if String.eqb interaction_type "" then
            ret (mkResponse 400 "Interaction type is required")
          else
            (* Track category interest *)
            match truthy_id category_id with
            | Some c =>
                '(interest, created) <- get_or_create_category u c ;;
                calculate_score (counted interaction_type time_spent_ interest) ;;;
                ret tt
            | None => ret tt
            end ;;;
            (* Track tag interest *)
            match truthy_id tag_id with
            | Some t =>
                '(interest, created) <- get_or_create_tag u t ;;
                calculate_score (counted interaction_type time_spent_ interest) ;;;
                ret tt
            | None => ret tt
            end ;;;
            ret (mkResponse 200 "Interaction tracked successfully")
      end
  end.

(** The rows a lookup selects are at most one, and primary keys are
    unique: what the database guarantees for the table. *)
Definition wf (db : DB) : Prop :=
  NoDup (map id (rows (user_interests db))) /\
  (forall r, In r (rows (user_interests db)) -> id r < next_pk (user_interests db)) /\
  (forall u c, (count (for_category u c) (user_interests db) <= 1)%nat) /\
  (forall u t, (count (for_tag u t) (user_interests db) <= 1)%nat).

(** The row of a lookup before a call: the stored one, or the row
    [get_or_create] would insert. *)
Definition row_before (lookup : UserInterest -> bool)
    (fresh : Z -> UserInterest) (db : DB) : UserInterest :=
  match filter lookup (rows (user_interests db)) with
  | r :: _ => r
  | [] => fresh (next_pk (user_interests db))
  end.

(** One block of the handler in closed form: the row of the lookup is
    inserted when missing, and its stored score becomes the weighted sum
    of the counters as updated in memory. *)
Definition rescored (k : Z) (s : Q) (r : UserInterest) : UserInterest :=
  if has_pk k r then with_score s r else r.

Definition tracked (lookup : UserInterest -> bool) (fresh : Z -> UserInterest)
    (interaction_type : string) (time_spent_ : Z) (db : DB) : DB :=
  let t := user_interests db in
  let r0 := row_before lookup fresh db in
  let base := match filter lookup (rows t) with
              | [] => mkTable (rows t ++ [r0]) (next_pk t + 1)
              | _ :: _ => t
              end in
  set_user_interests
    (mkTable
       (map (rescored (id r0)
               (weighted_score (counted interaction_type time_spent_ r0)))
            (rows base))
       (next_pk base)) db.

Definition fresh_for_category (u c : Z) (k : Z) : UserInterest :=
  mkUserInterest k u (Some c) None 0 0 0 0 0.

Definition fresh_for_tag (u t : Z) (k : Z) : UserInterest :=
  mkUserInterest k u None (Some t) 0 0 0 0 0.

(** The store after the category block, after the tag block, and the row
    of each lookup before a call. *)
Definition after_category (u c : Z) (kind : string) (ts : Z) (db : DB) : DB :=
  tracked (for_category u c) (fresh_for_category u c) kind ts db.

Definition after_tag (u t : Z) (kind : string) (ts : Z) (db : DB) : DB :=
  tracked (for_tag u t) (fresh_for_tag u t) kind ts db.

Definition category_row (u c : Z) (db : DB) : UserInterest :=
  row_before (for_category u c) (fresh_for_category u c) db.

Definition tag_row (u t : Z) (db : DB) : UserInterest :=
  row_before (for_tag u t) (fresh_for_tag u t) db.

End Interest.

(** ** Web push: subscriptions and delivery (tags) *)

Module Push.

(** [PushSubscription]; [endpoint] is [unique=True]. *)
Record PushSubscription : Type := mkPushSubscription {
  id : Z;
  user : Z;
  endpoint : string;
  p256dh : string;
  auth : string;
  user_agent : string;
  device_name : string;
  is_active : bool;
  created_at : Z;
  updated_at : Z;
  last_used : Z
}.

Definition DB : Type := Table PushSubscription.

Definition for_endpoint (e : string) (r : PushSubscription) : bool :=
  String.eqb (endpoint r) e.

Definition has_pk (k : Z) (r : PushSubscription) : bool := id r =? k.

(** *** Subscribing (tags/views.py, tags/serializers.py) *)

Record PushData : Type := mkPushData {
  data_endpoint : option string;
  data_p256dh : option string;
  data_auth : option string;
  data_device_name : option string;
  data_is_active : option bool
}.

Record Request : Type := mkRequest {
  request_user : option Z;
  data : PushData;
  HTTP_USER_AGENT : option string     (* request.META *)
}.

Record Validated : Type := mkValidated {
  validated_endpoint : string;
  validated_p256dh : string;
  validated_auth : string;
  validated_device_name : option string;
  validated_is_active : option bool
}.

Inductive Body : Type :=
| Errors (fields : list string)
| Saved (message : string) (subscription : PushSubscription).

Record Response : Type := mkResponse { status_code : Z; body : Body }.

Section Subscribe.

(** Django's [URLValidator], which the serializer's [URLField] runs. *)
Variable URLValidator : string -> bool.

(** A required [CharField] of the serializer: present, trimmed, not
    blank, within [max_length]. *)
Definition required_char (v : option string) (max_length : nat)
    : option string :=
  match v with
  | None => None
  | Some s =>
      let s' := strip s in
      if String.eqb s' "" then None
      else if Nat.leb (String.length s') max_length then Some s' else None
  end.

(** [PushSubscriptionSerializer(data=request.data).is_valid()], as the
    [ModelSerializer] builds its fields from the model: [endpoint] is a
    [URLField] that carries, for [unique=True], a [UniqueValidator] over
    all the rows of the table; [p256dh] and [auth] are required;
    [device_name] may be blank or absent.  The names of the fields in
    error, or the validated data. *)
Definition PushSubscriptionSerializer_is_valid (d : PushData) (db : DB)
    : list string + Validated :=
  let endpoint_ :=
    match required_char (data_endpoint d) 500 with
    | Some e =>
        if URLValidator e && negb (exists_ (for_endpoint e) db)
        then Some e else None
    | None => None
    end in
  let p256dh_ := required_char (data_p256dh d) 255 in
  let auth_ := required_char (data_auth d) 255 in
  let device_ :=
    match data_device_name d with
    | None => Some None
    | Some s => if Nat.leb (String.length (strip s)) 100
                then Some (Some (strip s)) else None
    end in
  match endpoint_, p256dh_, auth_, device_ with
  | Some e, Some p, Some a, Some dn =>
      inr (mkValidated e p a dn (data_is_active d))
  | _, _, _, _ =>
      inl ((match endpoint_ with None => ["endpoint"%string] | _ => [] end)
           ++ (match p256dh_ with None => ["p256dh"%string] | _ => [] end)
           ++ (match auth_ with None => ["auth"%string] | _ => [] end)
           ++ (match device_ with None => ["device_name"%string] | _ => [] end))
  end.

(** [PushSubscription.objects.update_or_create(endpoint=..., defaults=...)] *)
Definition update_or_create (e : string) (u : Z) (p a dn ua : string)
    (now : Z) : M DB (PushSubscription * bool) :=
  fun db =>
    match filter (for_endpoint e) (rows db) with
    | [] =>
        let r := mkPushSubscription (next_pk db) u e p a ua dn true
                                    now now now in
        (mkTable (r :: rows db) (next_pk db + 1), inr (r, true))
    | [r] =>
        let r' := mkPushSubscription (id r) u (endpoint r) p a ua dn true
                                     (created_at r) now now in
        (mkTable (map (fun x => if has_pk (id r) x then r' else x) (rows db))
                 (next_pk db),
         inr (r', false))
    | _ :: _ :: _ => (db, inl MultipleObjectsReturned)
    end.

(** [PushSubscriptionView.post] ([IsAuthenticated]) *)
Definition PushSubscriptionView_post (request : Request) (now : Z)
    : M DB Response :=
  match request_user request with
  | None => raise NotAuthenticated
  | Some u =>
      fun db =>
        match PushSubscriptionSerializer_is_valid (data request) db with
        | inr validated =>
            (* Check if subscription already exists *)
            ('(subscription, created) <-
               update_or_create (validated_endpoint validated) u
                 (validated_p256dh validated) (validated_auth validated)
                 (match validated_device_name validated with
                  | Some s => s | None => ""%string end)
                 (match HTTP_USER_AGENT request with
                  | Some s => s | None => ""%string end)
                 now ;;
             ret (mkResponse (if created then 201 else 200)
                    (Saved "Push subscription saved successfully"
                           subscription))) db
        | inl errors => (db, inr (mkResponse 400 (Errors errors)))
        end
  end.

End Subscribe.

(** *** Delivery (tags/push_notifications.py) *)

(** The [requests.Response] that pywebpush attaches to a
    [WebPushException].  Its truth value is its [ok] property: false for
    a status from 400 to 599. *)
Record HTTPResponse : Type := mkHTTPResponse { http_status : Z }.

Definition ok (r : HTTPResponse) : bool :=
  negb ((400 <=? http_status r) && (http_status r <? 600)).

Definition HTTPResponse_bool (r : HTTPResponse) : bool := ok r.

(** What [webpush(...)] does for one subscription. *)
Inductive Outcome : Type :=
| Delivered
| WebPushException (response : option HTTPResponse)
| OtherException.

Record Payload : Type := mkPayload {
  payload_title : string;
  payload_body : string;
  payload_icon : string;
  payload_badge : string;
  payload_data : list (string * string)
}.

Record SubscriptionInfo : Type := mkSubscriptionInfo {
  info_endpoint : string;
  keys_p256dh : string;
  keys_auth : string
}.

Record Result : Type := mkResult {
  sent : Z;
  failed : Z;
  failed_subscriptions : option (list Z)   (* absent when nothing was tried *)
}.

(** [subscription.save(update_fields=['last_used'])]; [last_used] is
    [auto_now]. *)
Definition save_last_used (k : Z) (now : Z) (db : DB) : DB :=
  mkTable
    (map (fun r => if has_pk k r
                   then mkPushSubscription (id r) (user r) (endpoint r)
                          (p256dh r) (auth r) (user_agent r) (device_name r)
                          (is_active r) (created_at r) (updated_at r) now
                   else r) (rows db))
    (next_pk db).

(** [subscription.is_active = False] and
    [subscription.save(update_fields=['is_active'])]. *)
Definition save_inactive (k : Z) (db : DB) : DB :=
  mkTable
    (map (fun r => if has_pk k r
                   then mkPushSubscription (id r) (user r) (endpoint r)
                          (p256dh r) (auth r) (user_agent r) (device_name r)
                          false (created_at r) (updated_at r) (last_used r)
                   else r) (rows db))
    (next_pk db).

(** [e.response and e.response.status_code in [404, 410]] *)
Definition gone (response : option HTTPResponse) : bool :=
  match response with
  | None => false
  | Some r =>
      HTTPResponse_bool r
      && ((http_status r =? 404) || (http_status r =? 410))
  end.

(** The variables of the loop. *)
Record Loop : Type := mkLoop {
  loop_db : DB;
  sent_count : Z;
  failed_count : Z;
  failed_list : list Z
}.

Section Delivery.

(** The push transport. *)
Variable webpush : SubscriptionInfo -> Payload -> Outcome.

(** The body of [for subscription in subscriptions]. *)
Definition attempt (payload : Payload) (now : Z) (st : Loop)
    (subscription : PushSubscription) : Loop :=
  let subscription_info :=
    mkSubscriptionInfo (endpoint subscription) (p256dh subscription)
                       (auth subscription) in
  match webpush subscription_info payload with
  | Delivered =>
      mkLoop (save_last_used (id subscription) now (loop_db st))
             (sent_count st + 1) (failed_count st) (failed_list st)
  | WebPushException response =>
      (* If subscription is expired or invalid, mark as inactive *)
      if gone response then
        mkLoop (save_inactive (id subscription) (loop_db st))
               (sent_count st) (failed_count st + 1)
               (failed_list st ++ [id subscription])
      else
        mkLoop (loop_db st) (sent_count st) (failed_count st + 1)
               (failed_list st)
  | OtherException =>
      mkLoop (loop_db st) (sent_count st) (failed_count st + 1)
             (failed_list st)
  end.

(** The transport accepted the message for the subscription. *)
Definition delivered (payload : Payload) (s : PushSubscription) : bool :=
  match webpush (mkSubscriptionInfo (endpoint s) (p256dh s) (auth s)) payload with
  | Delivered => true
  | _ => false
  end.

(** [PushSubscription.objects.filter(user=user, is_active=True)], in the
    order of [Meta.ordering = ['-created_at']]. *)
Definition active_subscriptions (u : Z) (db : DB) : list PushSubscription :=
  sort_by (fun a b => created_at b <=? created_at a)
          (filter (fun r => (user r =? u) && is_active r) (rows db)).

(** [send_push_notification] *)
Definition send_push_notification (u : Z) (title body_ : string)
    (data_ : option (list (string * string))) (icon badge url : option string)
    (now : Z) (db : DB) : DB * Result :=
  let subscriptions := active_subscriptions u db in
  match subscriptions with
  | [] => (db, mkResult 0 0 None)
  | _ :: _ =>
      let or_default (v : option string) (d : string) :=
        match v with
        | Some s => if String.eqb s "" then d else s
        | None => d
        end in
      let data0 := match data_ with Some d => d | None => [] end in
      let payload :=
        mkPayload title body_
          (or_default icon "/static/images/logo.png"%string)
          (or_default badge "/static/images/badge.png"%string)
          (match url with
           | Some s => if String.eqb s "" then data0
                       else ("url"%string, s)
                            :: filter (fun kv => negb (String.eqb (fst kv) "url"))
                                      data0
           | None => data0
           end) in
      let st := fold_left (attempt payload now) subscriptions
                          (mkLoop db 0 0 []) in
      (loop_db st,
       mkResult (sent_count st) (failed_count st) (Some (failed_list st)))
  end.

End Delivery.

(** The flag of a stored subscription. *)
Definition active_flag (k : Z) (db : DB) : option bool :=
  option_map is_active (find (has_pk k) (rows db)).

End Push.

(** ** The recommended feed (tags/views.py) *)

Module Feed.

(** Modelled from the spec: [Article], the model the feed builders ask
    [news.models] for.  That module declares [NewsArticle] only (see
    [news_models] below); the columns are those the code after the import
    reads ([status], [published_at], [view_count], and the fields it
    copies), and the table is a list in the default order of the model. *)
Record Article : Type := mkArticle {
  id : Z;
  title : string;
  slug : string;
  excerpt : string;
  image : option string;       (* the url of the image, when there is one *)
  published_at : option Z;
  view_count : Z;
  status : string;
  category_name : string
}.

Record DB : Type := mkDB {
  articles : list Article;
  user_interests : list Interest.UserInterest;
  user_subscriptions : list (Z * Z)    (* UserSubscription: id, user *)
}.

(** A value of [request.query_params], as [int()] reads it. *)
Inductive QueryParam : Type :=
| absent                               (* the key is not in the query string *)
| integer (n : Z)                      (* text that [int] accepts *)
| not_an_integer.                      (* any other text *)

Record Request : Type := mkRequest {
  request_user : option Z;             (* None: anonymous *)
  query_page_size : QueryParam;
  query_page : QueryParam
}.

(** [int(request.query_params.get(key, default))] *)
Definition int_ (p : QueryParam) (default : Z) : Exc + Z :=
  match p with
  | absent => inr default
  | integer n => inr n
  | not_an_integer => inl ValueError
  end.

(** The names bound in news/models.py: what it imports, the upload-path
    function and its three models. *)
Definition news_models : list string :=
  ["models"; "settings"; "slugify"; "timezone"; "GenericRelation"; "uuid";
   "Like"; "Comment"; "Share"; "View"; "Bookmark"; "news_image_path";
   "NewsArticle"; "NewsImage"; "NewsRevision"]%string.

(** [from module import name], for a module that is not a package. *)
Definition from_import (module_ : list string) (name : string) : Exc + unit :=
  if existsb (String.eqb name) module_ then inr tt else inl ImportError.

Record Item : Type := mkItem {
  item_type : string;
  item_id : Z;
  item_title : string;
  item_slug : string;
  item_excerpt : string;
  item_image : option string;
  item_published_at : option Z;
  item_view_count : option Z;          (* trending items *)
  item_score : option Q;               (* personalized items *)
  item_category : string
}.

Record Response : Type := mkResponse {
  feed : list Item;
  page : Z;
  page_size : Z;
  total : nat;
  algorithm : string
}.

(** A queryset slice [qs[:stop]]; Django refuses a negative bound. *)
Definition limit {A : Type} (stop : Z) (l : list A) : Exc + list A :=
  if stop <? 0 then inl ValueError else inr (firstn (Z.to_nat stop) l).

Definition is_published (a : Article) : bool :=
  String.eqb (status a) "published".

(** [published_at__gte=week_ago]; a null date does not match. *)
Definition published_since (t : Z) (a : Article) : bool :=
  match published_at a with
  | Some p => t <=? p
  | None => false
  end.

Definition date_of (a : Article) : Z :=
  match published_at a with Some p => p | None => 0 end.

(** [order_by('-view_count', '-published_at')]: [a] comes no later than
    [b]. *)
Definition trending_order (a b : Article) : bool :=
  (view_count b <? view_count a)
  || ((view_count b =? view_count a) && (date_of b <=? date_of a)).

Definition days (n : Z) : Z := n * 86400.

(** [RecommendedFeedView._get_trending_feed] *)
Definition _get_trending_feed (page_size_ page_ : Z) (now : Z) (db : DB)
    : Exc + Response :=
  match from_import news_models "Article" with
  | inl e => inl e
  | inr _ =>
      let week_ago := now - days 7 in
      match limit (page_size_ * 2)
              (sort_by trending_order
                 (filter (fun a => is_published a
                                   && published_since week_ago a)
                         (articles db))) with
      | inl e => inl e
      | inr articles_ =>
          let content :=
            map (fun article =>
                   mkItem "article" (id article) (title article)
                          (slug article) (excerpt article) (image article)
                          (published_at article) (Some (view_count article))
                          None (category_name article))
                articles_ in
          (* Paginate *)
          let start := (page_ - 1) * page_size_ in
          let end_ := start + page_size_ in
          inr (mkResponse (slice content start end_) page_ page_size_
                          (List.length content) "trending")
      end
  end.

(** [max(a, b)] of two numbers: the first of the largest. *)
Definition max_ (a b : Q) : Q := if Qle_bool b a then a else b.

(** [RecommendedFeedView._calculate_content_score]: recency, 100 less 10
    a day and not below 0, plus a tenth of the view count. *)
Definition _calculate_content_score (content : Article)
    (interests : list Interest.UserInterest) (subscriptions : list (Z * Z))
    (now : Z) : Q :=
  let score := 0%Q in
  let score :=
    match published_at content with
    | Some p =>
        let age_hours := (inject_Z (now - p) / 3600)%Q in
        let recency_score := max_ 0 (100 - (age_hours / 24 * 10))%Q in
        (score + recency_score)%Q
    | None => score
    end in
  (score + inject_Z (view_count content) * (1 # 10))%Q.

Definition score_of (i : Item) : Q :=
  match item_score i with Some s => s | None => 0%Q end.

(** [RecommendedFeedView._get_personalized_feed] *)
Definition _get_personalized_feed (user_ : Z) (page_size_ page_ : Z) (now : Z)
    (db : DB) : Exc + Response :=
  match from_import news_models "Article" with
  | inl e => inl e
  | inr _ =>
      (* Get user interests *)
      let interests :=
        firstn 10
          (sort_by (fun a b => Qle_bool (Interest.score b) (Interest.score a))
             (filter (fun r => Interest.user r =? user_)
                     (user_interests db))) in
      let subscriptions :=
        filter (fun s => snd s =? user_) (user_subscriptions db) in
      (* Get recent articles with scoring *)
      match limit (page_size_ * 3) (filter is_published (articles db)) with
      | inl e => inl e
      | inr articles_ =>
          let scored_content :=
            map (fun article =>
                   mkItem "article" (id article) (title article)
                          (slug article) (excerpt article) (image article)
                          (published_at article) None
                          (Some (_calculate_content_score article interests
                                                          subscriptions now))
                          (category_name article))
                articles_ in
          (* Sort by score *)
          let scored_content :=
            sort_by (fun a b => Qle_bool (score_of b) (score_of a))
                    scored_content in
          (* Paginate *)
          let start := (page_ - 1) * page_size_ in
          let end_ := start + page_size_ in
          inr (mkResponse (slice scored_content start end_) page_ page_size_
                          (List.length scored_content) "personalized")
      end
  end.

(** [RecommendedFeedView.get] ([IsAuthenticatedOrReadOnly]) *)
Definition RecommendedFeedView_get (request : Request) (now : Z) (db : DB)
    : Exc + Response :=
  match int_ (query_page_size request) 20 with
  | inl e => inl e
  | inr page_size_ =>
      match int_ (query_page request) 1 with
      | inl e => inl e
      | inr page_ =>
          match request_user request with
          | Some u =>
              (* Personalized feed for authenticated users *)
              _get_personalized_feed u page_size_ page_ now db
          | None =>
              (* Trending feed for anonymous users *)
              _get_trending_feed page_size_ page_ now db
          end
      end
  end.

End Feed.

(** ** Concrete stores and requests *)

Module Fixtures.
Import Interactions.

Definition ct_newsarticle : ContentType := mkContentType 7 "news" "newsarticle".

Definition article_x : NewsArticle :=
  mkNewsArticle "x-0001" "budget-2025" "published" 0 0 0.

(** One published article, no interaction yet. *)
Definition store0 : DB :=
  mkDB [ct_newsarticle] empty_table empty_table empty_table empty_table
       [article_x].

(** User 1 addressing article X through the generic endpoints. *)
Definition alice_on_x : Request := mkRequest (Some 1) (Some 7) (Some "x-0001"%string).

(** User 1 on the like action of article X. *)
Definition alice_likes_x : News.ArticleRequest :=
  News.mkArticleRequest (Some 1) false "budget-2025".

(** User 1 submitting four stars on article X. *)
Definition alice_reviews_x : ReviewRequest :=
  mkReviewRequest (Some 1)
    (mkReviewData (Some 7) (Some "x-0001"%string) (Some 4)
                  (Some "Solid"%string) (Some "Clear and sourced."%string)).

(** Article X with two approved reviews (5 and 4 stars) and one that is
    not approved (1 star). *)
Definition store_rated : DB :=
  set_reviews
    (mkTable
       [mkReview 3 30 7 "x-0001" 1 "" "Spam" false 30 30;
        mkReview 2 20 7 "x-0001" 4 "" "Good" true 20 20;
        mkReview 1 10 7 "x-0001" 5 "" "Great" true 10 10] 4)
    store0.

(** An anonymous request for the statistics of article X. *)
Definition stats_of_x : Request := mkRequest None (Some 7) (Some "x-0001"%string).

(** The author of the five-star review asking for the same statistics. *)
Definition author_of_review_on_x : Request :=
  mkRequest (Some 10) (Some 7) (Some "x-0001"%string).

(** A stored top-level comment that was never edited, and a reply to it. *)
Definition comment_a : Comments.Comment :=
  Comments.mkComment "c-0001" 1 7 "x-0001" "First!" None false None true false
                     0 1 10 10.

Definition reply_b : Comments.Comment :=
  Comments.mkComment "c-0002" 2 7 "x-0001" "Agreed." (Some "c-0001"%string)
                     false None true false 0 0 20 20.

Definition thread : list Comments.Comment := [comment_a; reply_b].

(** The row of the scenario: 10 views, 2 likes, no share, 120 seconds. *)
Definition interest_t : Interest.UserInterest :=
  Interest.mkUserInterest 1 1 None (Some 5) 0 10 2 0 120.

(** Category 3 and tag 5 exist; user 1 has no interest row yet. *)
Definition interests0 : Interest.DB := Interest.mkDB empty_table [3] [5].

(** User 1 viewed, for 90 seconds, content of category 3 and tag 5. *)
Definition alice_viewed : Interest.Request :=
  Interest.mkRequest (Some 1) (Some "view"%string) (Some 3) (Some 5) (Some 90).

(** Two active subscriptions of user 1; the push service answers 410 Gone
    for the first endpoint and accepts the second. *)
Definition phone : Push.PushSubscription :=
  Push.mkPushSubscription 1 1 "https://push.example/a" "pk-a" "au-a" "" "phone"
                          true 10 10 10.

Definition laptop : Push.PushSubscription :=
  Push.mkPushSubscription 2 1 "https://push.example/b" "pk-b" "au-b" "" "laptop"
                          true 20 20 20.

Definition devices : Push.DB := mkTable [laptop; phone] 3.

Definition push_service (info : Push.SubscriptionInfo) (payload : Push.Payload)
    : Push.Outcome :=
  if String.eqb (Push.info_endpoint info) "https://push.example/a"
  then Push.WebPushException (Some (Push.mkHTTPResponse 410))
  else Push.Delivered.

(** The first endpoint is stored for user 1 and inactive; user 2 subscribes
    with the same endpoint and new keys. *)
Definition stale_device : Push.PushSubscription :=
  Push.mkPushSubscription 1 1 "https://push.example/a" "pk-a" "au-a" "" "phone"
                          false 10 10 10.

Definition stale_devices : Push.DB := mkTable [stale_device] 2.

Definition bob_subscribes : Push.Request :=
  Push.mkRequest (Some 2)
    (Push.mkPushData (Some "https://push.example/a"%string)
                     (Some "pk-new"%string) (Some "au-new"%string)
                     (Some "tablet"%string) None)
    (Some "Mozilla/5.0"%string).

(** A validator that accepts the http and https schemes. *)
Definition accepts_http (s : string) : bool :=
  String.prefix "https://" s || String.prefix "http://" s.

(** Three articles at time 1 000 000: one published two days ago with 50
    views, one published a day ago with 50 views, one published ten days
    ago with 900 views; no user has an interest row. *)
Definition feed_db : Feed.DB :=
  Feed.mkDB
    [Feed.mkArticle 1 "Budget" "budget" "" None (Some 827200) 50 "published"
                    "Politics";
     Feed.mkArticle 2 "Derby" "derby" "" None (Some 913600) 50 "published"
                    "Sport";
     Feed.mkArticle 3 "Archive" "archive" "" None (Some 136000) 900 "published"
                    "Politics"]
    [] [].

Definition anonymous_feed : Feed.Request :=
  Feed.mkRequest None Feed.absent Feed.absent.

Definition alice_feed : Feed.Request :=
  Feed.mkRequest (Some 1) Feed.absent Feed.absent.

(** The row of user 1 in the feed's store. *)
Definition alice_interested : Feed.DB :=
  Feed.mkDB (Feed.articles feed_db) [interest_t] [].

End Fixtures.

(** ** The views over the requester's own rows (interactions/views.py) *)

Module OwnedViews.
Import Interactions.

(** [Bookmark.Meta.ordering = ['-created_at']]: [a] may come before [b]. *)
Definition newest_first (a b : Interaction) : bool :=
  created_at b <=? created_at a.

(** [UserBookmarksView.get_queryset] ([IsAuthenticated]), in the order of
    the model. *)
Definition UserBookmarksView_get_queryset (request : Request) (db : DB)
    : Exc + list Bookmark :=
  match request_user request with
  | None => inl NotAuthenticated
  | Some u =>
      inr (sort_by newest_first
             (filter (fun r => user r =? u) (rows (bookmarks db))))
  end.

(** A request on [interactions/reviews/<int:pk>/]. *)
Record DetailRequest : Type := mkDetailRequest {
  detail_user : option Z;
  kwargs_pk : Z;
  detail_data : ReviewData
}.

(** [ReviewDetailView.get_queryset], for an authenticated user. *)
Definition ReviewDetailView_get_queryset (u : Z) (db : DB) : list Review :=
  filter (fun r => review_user r =? u) (rows (reviews db)).

(** [get_object]: [get_object_or_404(queryset, pk=kwargs['pk'])]. *)
Definition get_object (u pk : Z) : M DB Review :=
  fun db =>
    match filter (fun r => review_id r =? pk)
                 (ReviewDetailView_get_queryset u db) with
    | [] => (db, inl Http404)
    | [r] => (db, inr r)
    | _ :: _ :: _ => (db, inl MultipleObjectsReturned)
    end.

Definition HTTP_204_NO_CONTENT : Z := 204.

(** DELETE ([RetrieveUpdateDestroyAPIView.destroy]): an unsafe method,
    which [IsAuthenticatedOrReadOnly] admits for an authenticated user;
    [instance.delete()] removes the row of the primary key. *)
Definition ReviewDetailView_destroy (request : DetailRequest) : M DB Z :=
  match detail_user request with
  | None => raise NotAuthenticated
  | Some u =>
      instance <- get_object u (kwargs_pk request) ;;
      modify (fun db =>
        set_reviews
          (delete_where (fun r => review_id r =? review_id instance)
                        (reviews db)) db) ;;;
      ret HTTP_204_NO_CONTENT
  end.

(** One writable field of the serializer on an update.  A field that is
    absent is left out of the validated data when the update is partial
    or the field is not required, and is an error otherwise; a field that
    is present is checked.  [None]: the field is in error. *)
Definition field {A B : Type} (partial required : bool) (v : option A)
    (check : A -> option B) : option (option B) :=
  match v with
  | Some a => option_map Some (check a)
  | None => if partial || negb required then Some None else None
  end.

(** [setattr(instance, attr, value)] for the validated fields. *)
Definition or_kept {A : Type} (v : option A) (old : A) : A :=
  match v with Some a => a | None => old end.

(** PUT and PATCH ([update], [partial_update]): the serializer validates
    the submitted fields as on creation, [ModelSerializer.update] assigns
    them and saves the instance.  [user], [is_approved] and the
    timestamps are read-only; [updated_at] is [auto_now].  The UPDATE is
    refused by [unique_together] when another row of the user has the new
    target. *)
Definition ReviewDetailView_update (partial : bool) (request : DetailRequest)
    (now : Z) : M DB Review :=
  match detail_user request with
  | None => raise NotAuthenticated
  | Some u =>
      instance <- get_object u (kwargs_pk request) ;;
      fun db =>
        let d := detail_data request in
        match
          field partial true (submitted_content_type d)
            (fun ct => if existsb (fun c => ct_id c =? ct) (content_types db)
                       then Some ct else None),
          field partial true (submitted_object_id d)
            (fun s => required_text (Some s) (Some 255%nat)),
          field partial true (submitted_rating d)
            (fun value => if (value <? 1) || (value >? 5)
                          then None else Some value),
          field partial false (submitted_title d)
            (fun t => if Nat.leb (String.length (strip t)) 200
                      then Some (strip t) else None),
          field partial true (submitted_comment d)
            (fun s => required_text (Some s) None)
        with
        | Some ct, Some oid, Some value, Some t, Some text =>
            let r :=
              mkReview (review_id instance) (review_user instance)
                (or_kept ct (review_content_type instance))
                (or_kept oid (review_object_id instance))
                (or_kept value (rating instance))
                (or_kept t (title instance))
                (or_kept text (comment instance))
                (is_approved instance) (review_created_at instance) now in
            if existsb (fun x => negb (review_id x =? review_id instance)
                                 && review_for_pair (review_user r)
                                      (review_content_type r)
                                      (review_object_id r) x)
                       (rows (reviews db))
            then (db, inl IntegrityError)
            else
              (set_reviews
                 (mkTable
                    (map (fun x => if review_id x =? review_id instance
                                   then r else x) (rows (reviews db)))
                    (next_pk (reviews db))) db,
               inr r)
        | _, _, _, _, _ => (db, inl ValidationError)
        end
  end.

(** The primary key of a review is unique and below the sequence. *)
Definition reviews_keyed (db : DB) : Prop :=
  NoDup (map review_id (rows (reviews db))) /\
  (forall r, In r (rows (reviews db)) -> review_id r < next_pk (reviews db)).

End OwnedViews.

(** ** Removing a push subscription (tags/views.py) *)

Module PushDelete.
Import Push.

Record Response : Type := mkResponse { status_code : Z; message : string }.

(** [PushSubscriptionView.delete] ([IsAuthenticated]).  The endpoint is
    compared as it was sent; [delete()[0]] is the number of rows
    deleted. *)
Definition PushSubscriptionView_delete (request : Request) : M DB Response :=
  match request_user request with
  | None => raise NotAuthenticated
  | Some u =>
      match data_endpoint (data request) with
      | None => ret (mkResponse 400 "Endpoint is required")
      | Some endpoint_ =>
          if String.eqb endpoint_ "" then
            ret (mkResponse 400 "Endpoint is required")
          else
            let mine r := (user r =? u) && for_endpoint endpoint_ r in
            deleted_count <- gets (count mine) ;;
            modify (delete_where mine) ;;;
            if negb (Nat.eqb deleted_count 0) then
              ret (mkResponse 200 "Push subscription removed successfully")
            else
              ret (mkResponse 404 "Push subscription not found")
      end
  end.

(** [endpoint] is [unique=True]: the database's guarantee for the
    table. *)
Definition endpoints_unique (db : DB) : Prop :=
  forall e, (count (for_endpoint e) db <= 1)%nat.

End PushDelete.

(** ** The news viewset: the actions beside [like] (news/views.py,
    news/models.py) *)

Module Articles.

(** [NewsArticle], the columns that the actions and [save] read or
    write. *)
Record NewsArticle : Type := mkNewsArticle {
  id : string;                 (* UUIDField primary key *)
  title : string;
  slug : string;               (* unique, blank=True *)
  status : string;
  is_breaking : bool;
  is_featured : bool;
  views_count : Z;             (* PositiveIntegerField, as the four below *)
  likes_count : Z;
  comments_count : Z;
  shares_count : Z;
  bookmarks_count : Z;
  published_by : option Z;
  created_at : Z;              (* auto_now_add *)
  updated_at : Z;              (* auto_now *)
  published_at : option Z;
  breaking_expires_at : option Z
}.

(** [View] (interactions/models.py); no uniqueness is declared. *)
Record View : Type := mkView {
  view_id : Z;
  view_user : option Z;
  view_content_type : Z;
  view_object_id : string;
  ip_address : option string;
  user_agent : string;
  referrer : string;
  duration : Z;
  view_created_at : Z
}.

(** [Share] (interactions/models.py) *)
Record Share : Type := mkShare {
  share_id : Z;
  share_user : Z;
  share_content_type : Z;
  share_object_id : string;
  share_comment : string;
  is_quote : bool;
  share_count : Z;
  share_created_at : Z
}.

Record DB : Type := mkDB {
  content_types : list Interactions.ContentType;
  news_articles : list NewsArticle;
  bookmarks : Table Interactions.Interaction;
  views : Table View;
  shares : Table Share
}.

Definition set_content_types (l : list Interactions.ContentType) (db : DB) : DB :=
  mkDB l (news_articles db) (bookmarks db) (views db) (shares db).
Definition set_news_articles (l : list NewsArticle) (db : DB) : DB :=
  mkDB (content_types db) l (bookmarks db) (views db) (shares db).
Definition set_bookmarks (t : Table Interactions.Interaction) (db : DB) : DB :=
  mkDB (content_types db) (news_articles db) t (views db) (shares db).
Definition set_views (t : Table View) (db : DB) : DB :=
  mkDB (content_types db) (news_articles db) (bookmarks db) t (shares db).
Definition set_shares (t : Table Share) (db : DB) : DB :=
  mkDB (content_types db) (news_articles db) (bookmarks db) (views db) t.

(** *** Exceptions and handlers

    The exceptions of the store, and those that the actions below meet
    in addition.  [OutOfFuel] is no exception of the program: it marks a
    run of the loop of [NewsArticle.save] that has not ended when the
    fuel given to the model is spent. *)
Inductive Error : Type :=
| Raised (e : Exc)
| TypeError
| PermissionDenied
| OutOfFuel.

Definition H (A : Type) : Type := DB -> DB * (Error + A).

Definition pure {A : Type} (a : A) : H A := fun db => (db, inr a).

Definition throw {A : Type} (e : Error) : H A := fun db => (db, inl e).

Definition and_then {A B : Type} (m : H A) (k : A -> H B) : H B :=
  fun db =>
    match m db with
    | (db', inl e) => (db', inl e)
    | (db', inr a) => k a db'
    end.

Declare Scope handler_scope.
Delimit Scope handler_scope with handler.
Notation "x <- m ;; k" := (and_then m (fun x => k))
  (at level 61, m at next level, right associativity) : handler_scope.
Notation "' pat <- m ;; k" := (and_then m (fun x => match x with pat => k end))
  (at level 61, pat pattern, m at next level, right associativity)
  : handler_scope.
Notation "m ;;; k" := (and_then m (fun _ => k))
  (at level 61, right associativity) : handler_scope.
Local Open Scope handler_scope.

(** *** Requests and permissions *)

Record User : Type := mkUser { pk : Z; is_staff : bool }.

Record Request : Type := mkRequest {
  request_user : option User;         (* None: AnonymousUser *)
  kwargs_slug : string;
  data_platform : option string       (* request.data.get('platform') *)
}.

(** [request.user.is_staff]; the anonymous user is no staff. *)
Definition staff (request : Request) : bool :=
  match request_user request with
  | Some u => is_staff u
  | None => false
  end.

Inductive Action : Type :=
| create | update | partial_update | destroy | list_ | retrieve
| like | bookmark | share | comments | trending | breaking | featured
| publish | unpublish | revisions.

Inductive Permission : Type :=
| IsAuthenticated
| IsAuthenticatedOrReadOnly
| IsOwnerOrReadOnly
| IsStaffOrReadOnly.

(** [NewsArticleViewSet.get_permissions] *)
Definition get_permissions (action : Action) : list Permission :=
  match action with
  | create | update | partial_update | destroy =>
      [IsAuthenticated; IsOwnerOrReadOnly]
  | publish | unpublish => [IsAuthenticated; IsStaffOrReadOnly]
  | _ => [IsAuthenticatedOrReadOnly]
  end.

(** [has_permission] of each class; [safe] is a method among
    [SAFE_METHODS].  [IsOwnerOrReadOnly] decides on the object only. *)
Definition has_permission (p : Permission) (safe : bool) (request : Request)
    : bool :=
  match p with
  | IsAuthenticated =>
      match request_user request with Some _ => true | None => false end
  | IsAuthenticatedOrReadOnly =>
      safe || match request_user request with Some _ => true | None => false end
  | IsOwnerOrReadOnly => true
  | IsStaffOrReadOnly => safe || staff request
  end.

(** [APIView.check_permissions]: the first permission that refuses
    raises, [NotAuthenticated] for a request that carries no user. *)
Definition check_permissions (action : Action) (safe : bool) (request : Request)
    : H unit :=
  if forallb (fun p => has_permission p safe request) (get_permissions action)
  then pure tt
  else match request_user request with
       | None => throw (Raised NotAuthenticated)
       | Some _ => throw PermissionDenied
       end.

(** *** Instances *)

(** A model instance: the values of its columns, whether it has been
    saved, and the expressions [F(column) + delta] that were assigned to
    counters and stand for their value until the instance is reloaded. *)
Record Instance : Type := mkInstance {
  fields : NewsArticle;
  adding : bool;
  pending : list (string * Z)
}.

Definition from_db (row : NewsArticle) : Instance := mkInstance row false [].

(** [instance.<column> = F('<column>') + delta] *)
Definition assign_F (column : string) (delta : Z) (self : Instance) : Instance :=
  mkInstance (fields self) (adding self)
    ((column, delta)
       :: filter (fun kv => negb (String.eqb (fst kv) column)) (pending self)).

Definition with_slug (s : string) (a : NewsArticle) : NewsArticle :=
  mkNewsArticle (id a) (title a) s (status a) (is_breaking a) (is_featured a)
    (views_count a) (likes_count a) (comments_count a) (shares_count a)
    (bookmarks_count a) (published_by a) (created_at a) (updated_at a)
    (published_at a) (breaking_expires_at a).

Definition with_status (s : string) (a : NewsArticle) : NewsArticle :=
  mkNewsArticle (id a) (title a) (slug a) s (is_breaking a) (is_featured a)
    (views_count a) (likes_count a) (comments_count a) (shares_count a)
    (bookmarks_count a) (published_by a) (created_at a) (updated_at a)
    (published_at a) (breaking_expires_at a).

Definition with_published_at (t : option Z) (a : NewsArticle) : NewsArticle :=
  mkNewsArticle (id a) (title a) (slug a) (status a) (is_breaking a)
    (is_featured a) (views_count a) (likes_count a) (comments_count a)
    (shares_count a) (bookmarks_count a) (published_by a) (created_at a)
    (updated_at a) t (breaking_expires_at a).

Definition with_published_by (u : option Z) (a : NewsArticle) : NewsArticle :=
  mkNewsArticle (id a) (title a) (slug a) (status a) (is_breaking a)
    (is_featured a) (views_count a) (likes_count a) (comments_count a)
    (shares_count a) (bookmarks_count a) u (created_at a) (updated_at a)
    (published_at a) (breaking_expires_at a).

Definition with_breaking_expires_at (t : option Z) (a : NewsArticle)
    : NewsArticle :=
  mkNewsArticle (id a) (title a) (slug a) (status a) (is_breaking a)
    (is_featured a) (views_count a) (likes_count a) (comments_count a)
    (shares_count a) (bookmarks_count a) (published_by a) (created_at a)
    (updated_at a) (published_at a) t.

Definition with_timestamps (created updated : Z) (a : NewsArticle)
    : NewsArticle :=
  mkNewsArticle (id a) (title a) (slug a) (status a) (is_breaking a)
    (is_featured a) (views_count a) (likes_count a) (comments_count a)
    (shares_count a) (bookmarks_count a) (published_by a) created updated
    (published_at a) (breaking_expires_at a).

Definition with_counts (v l c s b : Z) (a : NewsArticle) : NewsArticle :=
  mkNewsArticle (id a) (title a) (slug a) (status a) (is_breaking a)
    (is_featured a) v l c s b (published_by a) (created_at a) (updated_at a)
    (published_at a) (breaking_expires_at a).

(** The counter columns by name. *)
Definition counter (name : string) (a : NewsArticle) : option Z :=
  if String.eqb name "views_count" then Some (views_count a)
  else if String.eqb name "likes_count" then Some (likes_count a)
  else if String.eqb name "comments_count" then Some (comments_count a)
  else if String.eqb name "shares_count" then Some (shares_count a)
  else if String.eqb name "bookmarks_count" then Some (bookmarks_count a)
  else None.

Definition set_counter (name : string) (n : Z) (a : NewsArticle)
    : option NewsArticle :=
  if String.eqb name "views_count" then
    Some (with_counts n (likes_count a) (comments_count a) (shares_count a)
            (bookmarks_count a) a)
  else if String.eqb name "likes_count" then
    Some (with_counts (views_count a) n (comments_count a) (shares_count a)
            (bookmarks_count a) a)
  else if String.eqb name "comments_count" then
    Some (with_counts (views_count a) (likes_count a) n (shares_count a)
            (bookmarks_count a) a)
  else if String.eqb name "shares_count" then
    Some (with_counts (views_count a) (likes_count a) (comments_count a) n
            (bookmarks_count a) a)
  else if String.eqb name "bookmarks_count" then
    Some (with_counts (views_count a) (likes_count a) (comments_count a)
            (shares_count a) n a)
  else None.

(** The column [name] of [row] takes the value it has in [src]. *)
Definition set_column (src row : NewsArticle) (name : string)
    : option NewsArticle :=
  match counter name src with
  | Some n => set_counter name n row
  | None =>
      if String.eqb name "title" then
        Some (mkNewsArticle (id row) (title src) (slug row) (status row)
                (is_breaking row) (is_featured row) (views_count row)
                (likes_count row) (comments_count row) (shares_count row)
                (bookmarks_count row) (published_by row) (created_at row)
                (updated_at row) (published_at row) (breaking_expires_at row))
      else if String.eqb name "slug" then Some (with_slug (slug src) row)
      else if String.eqb name "status" then Some (with_status (status src) row)
      else if String.eqb name "is_breaking" then
        Some (mkNewsArticle (id row) (title row) (slug row) (status row)
                (is_breaking src) (is_featured row) (views_count row)
                (likes_count row) (comments_count row) (shares_count row)
                (bookmarks_count row) (published_by row) (created_at row)
                (updated_at row) (published_at row) (breaking_expires_at row))
      else if String.eqb name "is_featured" then
        Some (mkNewsArticle (id row) (title row) (slug row) (status row)
                (is_breaking row) (is_featured src) (views_count row)
                (likes_count row) (comments_count row) (shares_count row)
                (bookmarks_count row) (published_by row) (created_at row)
                (updated_at row) (published_at row) (breaking_expires_at row))
      else if String.eqb name "published_by" then
        Some (with_published_by (published_by src) row)
      else if String.eqb name "created_at" then
        Some (with_timestamps (created_at src) (updated_at row) row)
      else if String.eqb name "updated_at" then
        Some (with_timestamps (created_at row) (updated_at src) row)
      else if String.eqb name "published_at" then
        Some (with_published_at (published_at src) row)
      else if String.eqb name "breaking_expires_at" then
        Some (with_breaking_expires_at (breaking_expires_at src) row)
      else None
  end.

Definition has_pk (k : string) (a : NewsArticle) : bool := String.eqb (id a) k.

(** The value an UPDATE gives to one column: the expression assigned to
    it, evaluated on the row, or the value of the instance.  A counter
    below zero is refused by the database. *)
Definition update_column (self : Instance) (row : NewsArticle) (name : string)
    : Error + NewsArticle :=
  match find (fun kv => String.eqb (fst kv) name) (pending self) with
  | Some (_, delta) =>
      match counter name row with
      | Some n =>
          if n + delta <? 0 then inl (Raised IntegrityError)
          else match set_counter name (n + delta) row with
               | Some row' => inr row'
               | None => inl (Raised ValueError)
               end
      | None => inl (Raised ValueError)
      end
  | None =>
      match set_column (fields self) row name with
      | Some row' => inr row'
      | None => inl (Raised ValueError)
      end
  end.

Fixpoint update_columns (self : Instance) (row : NewsArticle)
    (names : list string) : Error + NewsArticle :=
  match names with
  | [] => inr row
  | n :: names' =>
      match update_column self row n with
      | inr row' => update_columns self row' names'
      | inl e => inl e
      end
  end.

Definition all_columns : list string :=
  ["title"; "slug"; "status"; "is_breaking"; "is_featured"; "views_count";
   "likes_count"; "comments_count"; "shares_count"; "bookmarks_count";
   "published_by"; "created_at"; "updated_at"; "published_at";
   "breaking_expires_at"]%string.

(** [models.Model.save], what [super().save] does.
    - With [update_fields]: an UPDATE of those columns of the row of the
      primary key ([updated_at] takes the time of the save when it is
      among them); an empty list does nothing; no row is a
      [DatabaseError].
    - Otherwise an INSERT for an instance that is being added (the key
      has a default), else an UPDATE of every column, or an INSERT when
      no row has the key.  An expression cannot be inserted.
    [slug] is unique: a write that gives the row the slug of another row
    is refused. *)
Definition Model_save (self : Instance) (update_fields : option (list string))
    (now : Z) : H Instance :=
  fun db =>
    let a := fields self in
    let saved x := mkInstance x false (pending self) in
    let slug_taken x :=
      existsb (fun r => negb (has_pk (id x) r) && String.eqb (slug r) (slug x))
              (news_articles db) in
    let insert :=
      match pending self with
      | _ :: _ => (db, inl (Raised ValueError))
      | [] =>
          let a' := with_timestamps now now a in
          if existsb (has_pk (id a)) (news_articles db) || slug_taken a'
          then (db, inl (Raised IntegrityError))
          else (set_news_articles (news_articles db ++ [a']) db,
                inr (saved a'))
      end in
    let update names a' :=
      match find (has_pk (id a)) (news_articles db) with
      | None => (db, inl (Raised DatabaseError))
      | Some row =>
          match update_columns (mkInstance a' (adding self) (pending self))
                               row names with
          | inl e => (db, inl e)
          | inr row' =>
              if slug_taken row' then (db, inl (Raised IntegrityError))
              else
                (set_news_articles
                   (map (fun r => if has_pk (id a) r then row' else r)
                        (news_articles db)) db,
                 inr (saved a'))
          end
      end in
    match update_fields with
    | Some [] => (db, inr self)
    | Some names =>
        update names
          (if existsb (String.eqb "updated_at") names
           then with_timestamps (created_at a) now a else a)
    | None =>
        if adding self then insert
        else if existsb (has_pk (id a)) (news_articles db)
             then update all_columns (with_timestamps (created_at a) now a)
             else insert
    end.

Definition hours (n : Z) : Z := n * 3600.

Section Slug.

(** [django.utils.text.slugify] *)
Variable slugify : string -> string.

(** [f"{base_slug}-{counter}"] *)
Definition numbered (base_slug : string) (counter : nat) : string :=
  (base_slug ++ "-" ++ NilEmpty.string_of_uint (Nat.to_uint counter))%string.

(** The slugs the loop of [NewsArticle.save] tries, in order: the base
    slug, then the numbered ones. *)
Definition candidate (base_slug : string) (k : nat) : string :=
  match k with
  | O => base_slug
  | S _ => numbered base_slug k
  end.

(** [NewsArticle.objects.filter(slug=slug).exists()] *)
Definition slug_exists (slug_ : string) (db : DB) : bool :=
  existsb (fun a => String.eqb (slug a) slug_) (news_articles db).

(** The loop of [NewsArticle.save], entered with [slug = base_slug] and
    [counter = 1]:
    [while NewsArticle.objects.filter(slug=slug).exists(): ...].
    [None] when it has not ended after [fuel] tests. *)
Fixpoint free_slug (fuel : nat) (base_slug slug_ : string) (counter : nat)
    (db : DB) : option string :=
  match fuel with
  | O => None
  | S fuel' =>
      if slug_exists slug_ db
      then free_slug fuel' base_slug (numbered base_slug counter)
                     (S counter) db
      else Some slug_
  end.

(** [NewsArticle.save] *)
Definition NewsArticle_save (fuel : nat) (self : Instance)
    (update_fields : option (list string)) (now : Z) : H Instance :=
  fun db =>
    let a := fields self in
    match
      (if String.eqb (slug a) ""
       then free_slug fuel (slugify (title a)) (slugify (title a)) 1 db
       else Some (slug a))
    with
    | None => (db, inl OutOfFuel)
    | Some slug_ =>
        let a := with_slug slug_ a in
        (* Set published_at when status changes to published *)
        let a :=
          match published_at a with
          | None => if String.eqb (status a) "published"
                    then with_published_at (Some now) a else a
          | Some _ => a
          end in
        (* Auto-expire breaking news after 24 hours *)
        let a :=
          match breaking_expires_at a with
          | None => if is_breaking a
                    then with_breaking_expires_at (Some (now + hours 24)) a
                    else a
          | Some _ => a
          end in
        Model_save (mkInstance a (adding self) (pending self))
                   update_fields now db
    end.

(** *** The viewset *)

(** [NewsArticleViewSet.get_queryset] *)
Definition get_queryset (request : Request) (db : DB) : list NewsArticle :=
  if negb (staff request)
  then filter (fun a => String.eqb (status a) "published") (news_articles db)
  else news_articles db.

(** [get_object]: the article of the slug in the queryset. *)
Definition get_object (request : Request) : H Instance :=
  fun db =>
    match find (fun a => String.eqb (slug a) (kwargs_slug request))
               (get_queryset request db) with
    | Some a => (db, inr (from_db a))
    | None => (db, inl (Raised Http404))
    end.

(** [ContentType.objects.get_for_model(NewsArticle)] *)
Definition ContentType_get_for_model (app name : string)
    : H Interactions.ContentType :=
  fun db =>
    match find (fun c => String.eqb (Interactions.app_label c) app
                         && String.eqb (Interactions.model c) name)
               (content_types db) with
    | Some c => (db, inr c)
    | None =>
        let c := Interactions.mkContentType
                   (News.fresh_ct_id (content_types db)) app name in
        (set_content_types (content_types db ++ [c]) db, inr c)
    end.

Definition view_for_pair (u ct : Z) (oid : string) (v : View) : bool :=
  match view_user v with
  | Some u' => (u' =? u) && (view_content_type v =? ct)
               && String.eqb (view_object_id v) oid
  | None => false
  end.

(** [View.objects.get_or_create(user=..., content_type=...,
    object_id=...)] *)
Definition View_get_or_create (u ct : Z) (oid : string) (now : Z)
    : H (View * bool) :=
  fun db =>
    let t := views db in
    match filter (view_for_pair u ct oid) (rows t) with
    | [] =>
        let v := mkView (next_pk t) (Some u) ct oid None "" "" 0 now in
        (set_views (mkTable (v :: rows t) (next_pk t + 1)) db, inr (v, true))
    | [v] => (db, inr (v, false))
    | _ :: _ :: _ => (db, inl (Raised MultipleObjectsReturned))
    end.

(** The counters among the fields of [NewsArticleListSerializer], and of
    [NewsArticleDetailSerializer], which extends it. *)
Definition serialized_counters : list string :=
  ["views_count"; "likes_count"; "comments_count"; "shares_count"]%string.

(** [serializer.data] of an article.  An [IntegerField] represents its
    value with [int()], which raises [TypeError] for the expression that
    stands in the instance for a counter that was assigned [F(...)]. *)
Definition serializer_data (instance : Instance) : H Instance :=
  if existsb (fun kv => existsb (String.eqb (fst kv)) serialized_counters)
             (pending instance)
  then throw TypeError
  else pure instance.

(** [NewsArticleViewSet.retrieve] *)
Definition NewsArticleViewSet_retrieve (fuel : nat) (request : Request)
    (now : Z) : H Instance :=
  check_permissions retrieve true request ;;;
  instance <- get_object request ;;
  instance <-
    match request_user request with
    | Some u =>
        content_type <- ContentType_get_for_model "news" "newsarticle" ;;
        View_get_or_create (pk u) (Interactions.ct_id content_type)
                           (id (fields instance)) now ;;;
        let instance := assign_F "views_count" 1 instance in
        NewsArticle_save fuel instance (Some ["views_count"%string]) now
    | None => pure instance
    end ;;
  serializer_data instance.

(** [NewsArticleViewSet.bookmark] *)
Definition NewsArticleViewSet_bookmark (request : Request) (now : Z) : H bool :=
  check_permissions bookmark false request ;;;
  article <- get_object request ;;
  content_type <- ContentType_get_for_model "news" "newsarticle" ;;
  match request_user request with
  | None => throw (Raised NotAuthenticated)
  | Some u =>
      fun db =>
        match Interactions.get_or_create (pk u)
                (Interactions.ct_id content_type) (id (fields article)) now
                (bookmarks db) with
        | inl e => (db, inl (Raised e))
        | inr (t, bookmark_, created) =>
            if negb created then
              (set_bookmarks (Interactions.delete_instance bookmark_ t) db,
               inr false)
            else (set_bookmarks t db, inr true)
        end
  end.

(** The keyword arguments of a constructor call. *)
Inductive Value : Type :=
| VInt (z : Z)
| VStr (s : string)
| VBool (b : bool).

(** The names [Share(...)] accepts: the fields of the model and their
    column names, and the property [pk]. *)
Definition Share_fields : list string :=
  ["id"; "pk"; "user"; "user_id"; "content_type"; "content_type_id";
   "object_id"; "content_object"; "comment"; "is_quote"; "share_count";
   "created_at"]%string.

Definition kwarg (name : string) (kwargs : list (string * Value))
    : option Value :=
  option_map snd (find (fun kv => String.eqb (fst kv) name) kwargs).

(** [Share.objects.create] with keyword arguments: [Model.__init__] raises [TypeError]
    for a keyword that is neither a field nor a property; the row is
    inserted otherwise, with the defaults of the columns left out. *)
Definition Share_objects_create (kwargs : list (string * Value)) (now : Z)
    : H Share :=
  fun db =>
    if negb (forallb (fun kv => existsb (String.eqb (fst kv)) Share_fields)
                     kwargs)
    then (db, inl TypeError)
    else
      match kwarg "user" kwargs, kwarg "content_type" kwargs,
            kwarg "object_id" kwargs with
      | Some (VInt u), Some (VInt ct), Some (VStr oid) =>
          let t := shares db in
          let s :=
            mkShare (next_pk t) u ct oid
              (match kwarg "comment" kwargs with
               | Some (VStr c) => c | _ => ""%string end)
              (match kwarg "is_quote" kwargs with
               | Some (VBool b) => b | _ => false end)
              (match kwarg "share_count" kwargs with
               | Some (VInt n) => n | _ => 0 end)
              now in
          (set_shares (mkTable (s :: rows t) (next_pk t + 1)) db, inr s)
      | _, _, _ => (db, inl (Raised IntegrityError))
      end.

(** [NewsArticleViewSet.share] *)
Definition NewsArticleViewSet_share (fuel : nat) (request : Request) (now : Z)
    : H Instance :=
  check_permissions share false request ;;;
  article <- get_object request ;;
  content_type <- ContentType_get_for_model "news" "newsarticle" ;;
  match request_user request with
  | None => throw (Raised NotAuthenticated)
  | Some u =>
      let platform := match data_platform request with
                      | Some p => p
                      | None => "internal"%string
                      end in
      Share_objects_create
        [("user"%string, VInt (pk u));
         ("content_type"%string, VInt (Interactions.ct_id content_type));
         ("object_id"%string, VStr (id (fields article)));
         ("platform"%string, VStr platform)] now ;;;
      let article := assign_F "shares_count" 1 article in
      NewsArticle_save fuel article (Some ["shares_count"%string]) now
  end.

Inductive PublishResponse : Type :=
| BadRequest (detail : string)
| Published (article : Instance).

(** [NewsArticleViewSet.publish] *)
Definition NewsArticleViewSet_publish (fuel : nat) (request : Request)
    (now : Z) : H PublishResponse :=
  check_permissions publish false request ;;;
  article <- get_object request ;;
  if String.eqb (status (fields article)) "published" then
    pure (BadRequest "Article is already published")
  else
    let a := with_status "published" (fields article) in
    let a := with_published_at (Some now) a in
    let a := with_published_by (option_map pk (request_user request)) a in
    article <- NewsArticle_save fuel
                 (mkInstance a (adding article) (pending article)) None now ;;
    pure (Published article).

(** [published_at__gte=...]; a null date does not match. *)
Definition published_since (t : Z) (a : NewsArticle) : bool :=
  match published_at a with
  | Some p => t <=? p
  | None => false
  end.

(** The annotation [engagement_score] of [trending]. *)
Definition engagement_score (a : NewsArticle) : Z :=
  views_count a * 1 + likes_count a * 5 + comments_count a * 10
  + shares_count a * 15.

(** [NewsArticleViewSet.trending] *)
Definition NewsArticleViewSet_trending (request : Request) (now : Z) (db : DB)
    : list NewsArticle :=
  let seven_days_ago := now - Feed.days 7 in
  firstn 20
    (sort_by (fun a b => engagement_score b <=? engagement_score a)
       (filter (published_since seven_days_ago) (get_queryset request db))).

End Slug.

(** The content type id under which the actions file their rows. *)
Definition newsarticle_ct (db : DB) : Z :=
  match ContentType_get_for_model "news" "newsarticle" db with
  | (_, inr c) => Interactions.ct_id c
  | (_, inl _) => 0
  end.

(** The article the request addresses. *)
Definition addressed (request : Request) (db : DB) : option NewsArticle :=
  find (fun a => String.eqb (slug a) (kwargs_slug request))
       (get_queryset request db).

(** The row that [publish] leaves for an article that was not
    published: the status, the time and the user of the publication,
    and the expiry of a breaking article that had none. *)
Definition published_row (u : Z) (now : Z) (a : NewsArticle) : NewsArticle :=
  mkNewsArticle (id a) (title a) (slug a) "published" (is_breaking a)
    (is_featured a) (views_count a) (likes_count a) (comments_count a)
    (shares_count a) (bookmarks_count a) (Some u) (created_at a) now
    (Some now)
    (match breaking_expires_at a with
     | Some t => Some t
     | None => if is_breaking a then Some (now + hours 24) else None
     end).

(** The stored article of a key. *)
Definition stored (k : string) (db : DB) : option NewsArticle :=
  find (has_pk k) (news_articles db).

(** What the database guarantees for the article table: the primary key
    and the slug are unique. *)
Definition wf (db : DB) : Prop :=
  NoDup (map id (news_articles db)) /\ NoDup (map slug (news_articles db)).

End Articles.

(** ** Subscriptions to categories and tags (tags/views.py,
    tags/models.py) *)

Module Subscriptions.

(** [Category], [Tag] and [UserSubscription], with the columns the
    handlers read or write.  [slug] is [unique=True] on both. *)
Record Category : Type := mkCategory {
  category_id : Z;
  category_name : string;
  category_slug : string;
  category_is_active : bool
}.

Record Tag : Type := mkTag {
  tag_id : Z;
  tag_name : string;
  tag_slug : string;
  tag_category : option Z;        (* category_id, nullable *)
  usage_count : Z;
  tag_is_active : bool
}.

Record UserSubscription : Type := mkUserSubscription {
  id : Z;
  user : Z;
  category : option Z;            (* category_id, nullable *)
  tag : option Z;                 (* tag_id, nullable *)
  subtag : option Z;              (* subtag_id, nullable *)
  push_notifications : bool;
  email_notifications : bool;
  notification_frequency : string;
  created_at : Z;
  updated_at : Z
}.

Record DB : Type := mkDB {
  categories : list Category;
  tags : list Tag;
  user_subscriptions : Table UserSubscription
}.

Definition set_user_subscriptions (t : Table UserSubscription) (db : DB) : DB :=
  mkDB (categories db) (tags db) t.

(** A request to a detail action: the slug of the route, the query
    parameters [category] and [sort], and the preferences of
    [request.data], each a JSON boolean or string when sent. *)
Record Request : Type := mkRequest {
  request_user : option Z;
  kwargs_slug : string;
  query_category : option string;
  query_sort : option string;
  data_push_notifications : option bool;
  data_email_notifications : option bool;
  data_notification_frequency : option string
}.

Record Response : Type := mkResponse {
  status_code : Z;
  message : string;
  subscription : option UserSubscription
}.

Definition HTTP_200_OK : Z := 200.
Definition HTTP_201_CREATED : Z := 201.
Definition HTTP_404_NOT_FOUND : Z := 404.

(** [user=request.user, category=category] and the same for a tag. *)
Definition for_category (u c : Z) (r : UserSubscription) : bool :=
  (user r =? u) && match category r with
                   | Some c' => c' =? c
                   | None => false
                   end.

Definition for_tag (u t : Z) (r : UserSubscription) : bool :=
  (user r =? u) && match tag r with
                   | Some t' => t' =? t
                   | None => false
                   end.

(** [get_object_or_404(queryset, slug=...)] of the viewsets
    ([lookup_field = 'slug']). *)
Definition get_object {A : Type} (queryset : list A) (lookup : A -> bool)
    : Exc + A :=
  match filter lookup queryset with
  | [] => inl Http404
  | [x] => inr x
  | _ :: _ :: _ => inl MultipleObjectsReturned
  end.

(** [CategoryViewSet.get_queryset]: the active categories; the two
    annotations add columns, not rows. *)
Definition CategoryViewSet_get_queryset (db : DB) : list Category :=
  filter category_is_active (categories db).

(** [request.data.get(key, default)] *)
Definition get {A : Type} (v : option A) (default : A) : A :=
  match v with
  | Some x => x
  | None => default
  end.

(** The row [get_or_create] inserts for a category or for a tag: the
    defaults of the call, the other references null, both dates set. *)
Definition defaults (request : Request) (u : Z) (category_ tag_ : option Z)
    (now : Z) (k : Z) : UserSubscription :=
  mkUserSubscription k u category_ tag_ None
    (get (data_push_notifications request) true)
    (get (data_email_notifications request) true)
    (get (data_notification_frequency request) "instant"%string)
    now now.

Section Backend.

(** The database refuses a value for the [varchar(20)] column
    [notification_frequency] (PostgreSQL does so for a longer string,
    SQLite never does); Django does not check [max_length] or [choices]
    on [save]. *)
Variable overflows : string -> bool.

(** The order of the database on [name]. *)
Variable collation : string -> string -> bool.

(** [UserSubscription.objects.get_or_create(..., defaults=...)] *)
Definition get_or_create (lookup : UserSubscription -> bool)
    (fresh : Z -> UserSubscription) : M DB (UserSubscription * bool) :=
  fun db =>
    let t := user_subscriptions db in
    match filter lookup (rows t) with
    | [] =>
        let r := fresh (next_pk t) in
        if overflows (notification_frequency r) then (db, inl DatabaseError)
        else
          (set_user_subscriptions (mkTable (rows t ++ [r]) (next_pk t + 1)) db,
           inr (r, true))
    | [r] => (db, inr (r, false))
    | _ :: _ :: _ => (db, inl MultipleObjectsReturned)
    end.

(** [CategoryViewSet.subscribe] ([IsAuthenticated]) *)
Definition CategoryViewSet_subscribe (request : Request) (now : Z)
    : M DB Response :=
  match request_user request with
  | None => raise NotAuthenticated
  | Some u =>
      category_ <-
        (fun db =>
           (db, get_object (CategoryViewSet_get_queryset db)
                  (fun c => String.eqb (category_slug c) (kwargs_slug request)))) ;;
      (* Check if already subscribed *)
      '(subscription_, created) <-
        get_or_create (for_category u (category_id category_))
          (defaults request u (Some (category_id category_)) None now) ;;
      if negb created then
        ret (mkResponse HTTP_200_OK "Already subscribed to this category"
                        (Some subscription_))
      else
        ret (mkResponse HTTP_201_CREATED "Successfully subscribed to category"
                        (Some subscription_))
  end.

(** [CategoryViewSet.unsubscribe] ([IsAuthenticated]) *)
Definition CategoryViewSet_unsubscribe (request : Request) : M DB Response :=
  match request_user request with
  | None => raise NotAuthenticated
  | Some u =>
      category_ <-
        (fun db =>
           (db, get_object (CategoryViewSet_get_queryset db)
                  (fun c => String.eqb (category_slug c) (kwargs_slug request)))) ;;
      let mine := for_category u (category_id category_) in
      deleted_count <- gets (fun db => count mine (user_subscriptions db)) ;;
      modify (fun db =>
                set_user_subscriptions
                  (delete_where mine (user_subscriptions db)) db) ;;;
      if negb (Nat.eqb deleted_count 0) then
        ret (mkResponse HTTP_200_OK "Successfully unsubscribed from category"
                        None)
      else
        ret (mkResponse HTTP_404_NOT_FOUND "Not subscribed to this category"
                        None)
  end.

(** [filter(category__slug=category_slug)]: the category of the tag has
    that slug. *)
Definition category__slug (s : string) (db : DB) (t : Tag) : bool :=
  match tag_category t with
  | Some c =>
      existsb (fun x => (category_id x =? c) && String.eqb (category_slug x) s)
              (categories db)
  | None => false
  end.

(** [order_by('-usage_count', 'name')] and [order_by('name')] *)
Definition by_popularity (a b : Tag) : bool :=
  (usage_count b <? usage_count a)
  || ((usage_count b =? usage_count a) && collation (tag_name a) (tag_name b)).

Definition by_name (a b : Tag) : bool := collation (tag_name a) (tag_name b).

(** [TagViewSet.get_queryset] *)
Definition TagViewSet_get_queryset (request : Request) (db : DB) : list Tag :=
  let queryset := filter tag_is_active (tags db) in
  (* Filter by category if provided *)
  let queryset :=
    match query_category request with
    | Some category_slug_ =>
        if String.eqb category_slug_ "" then queryset
        else filter (category__slug category_slug_ db) queryset
    | None => queryset
    end in
  (* Sort by popularity or alphabetically *)
  let sort_by_ := get (query_sort request) "popular"%string in
  if String.eqb sort_by_ "popular" then sort_by by_popularity queryset
  else sort_by by_name queryset.

(** [TagViewSet.subscribe] ([IsAuthenticated]) *)
Definition TagViewSet_subscribe (request : Request) (now : Z)
    : M DB Response :=
  match request_user request with
  | None => raise NotAuthenticated
  | Some u =>
      tag_ <-
        (fun db =>
           (db, get_object (TagViewSet_get_queryset request db)
                  (fun t => String.eqb (tag_slug t) (kwargs_slug request)))) ;;
      '(subscription_, created) <-
        get_or_create (for_tag u (tag_id tag_))
          (defaults request u None (Some (tag_id tag_)) now) ;;
      if negb created then
        ret (mkResponse HTTP_200_OK "Already subscribed to this tag"
                        (Some subscription_))
      else
        ret (mkResponse HTTP_201_CREATED "Successfully subscribed to tag"
                        (Some subscription_))
  end.

(** [TagViewSet.unsubscribe] ([IsAuthenticated]) *)
Definition TagViewSet_unsubscribe (request : Request) : M DB Response :=
  match request_user request with
  | None => raise NotAuthenticated
  | Some u =>
      tag_ <-
        (fun db =>
           (db, get_object (TagViewSet_get_queryset request db)
                  (fun t => String.eqb (tag_slug t) (kwargs_slug request)))) ;;
      let mine := for_tag u (tag_id tag_) in
      deleted_count <- gets (fun db => count mine (user_subscriptions db)) ;;
      modify (fun db =>
                set_user_subscriptions
                  (delete_where mine (user_subscriptions db)) db) ;;;
      if negb (Nat.eqb deleted_count 0) then
        ret (mkResponse HTTP_200_OK "Successfully unsubscribed from tag" None)
      else
        ret (mkResponse HTTP_404_NOT_FOUND "Not subscribed to this tag" None)
  end.

End Backend.

(** [UserSubscriptionViewSet.get_queryset], in the order of
    [Meta.ordering = ['-created_at']]. *)
Definition UserSubscriptionViewSet_get_queryset (u : Z) (db : DB)
    : list UserSubscription :=
  sort_by (fun a b => created_at b <=? created_at a)
          (filter (fun r => user r =? u) (rows (user_subscriptions db))).

Record Stats : Type := mkStats {
  total_subscriptions : nat;
  category_subscriptions : nat;
  tag_subscriptions : nat;
  subtag_subscriptions : nat;
  push_enabled_count : nat;
  email_enabled_count : nat
}.

Definition isnull {A : Type} (v : option A) : bool :=
  match v with
  | Some _ => false
  | None => true
  end.

(** [UserSubscriptionViewSet.stats] ([IsAuthenticated]) *)
Definition UserSubscriptionViewSet_stats (request : Request) (db : DB)
    : Exc + Stats :=
  match request_user request with
  | None => inl NotAuthenticated
  | Some u =>
      let subscriptions := UserSubscriptionViewSet_get_queryset u db in
      let count_ (p : UserSubscription -> bool) :=
        List.length (filter p subscriptions) in
      inr (mkStats
             (List.length subscriptions)
             (count_ (fun r => negb (isnull (category r))))
             (count_ (fun r => negb (isnull (tag r))))
             (count_ (fun r => negb (isnull (subtag r))))
             (count_ push_notifications)
             (count_ email_notifications))
  end.

(** What the database guarantees for the table: primary keys are unique
    and below the next one, and the three conditional
    [UniqueConstraint]s of [UserSubscription.Meta] (the one on subtags
    constrains rows no handler here selects). *)
Definition wf (db : DB) : Prop :=
  NoDup (map id (rows (user_subscriptions db))) /\
  (forall r, In r (rows (user_subscriptions db)) ->
             id r < next_pk (user_subscriptions db)) /\
  (forall u c, (count (for_category u c) (user_subscriptions db) <= 1)%nat) /\
  (forall u t, (count (for_tag u t) (user_subscriptions db) <= 1)%nat).

End Subscriptions.

(** ** Notifications to many users (tags/push_notifications.py) *)

Module Bulk.
Import Push.

(** The keyword arguments [send_bulk_push_notification] and
    [notify_subscribers] pass on to [send_push_notification]. *)
Record Kwargs : Type := mkKwargs {
  kw_data : option (list (string * string));
  kw_icon : option string;
  kw_badge : option string;
  kw_url : option string
}.

(** The dictionary [send_bulk_push_notification] returns. *)
Record Totals : Type := mkTotals {
  total_users : Z;
  total_sent : Z;
  total_failed : Z
}.

(** What [notify_subscribers] returns: the dictionary with [sent] and
    [failed] when no subscriber has push notifications on, and the
    totals of [send_bulk_push_notification] otherwise. *)
Inductive Summary : Type :=
| NoSubscribers (sent_ failed_ : Z)
| Notified (results : Totals).

(** [subscription_type]: ['category'], ['tag'] or ['subtag'], the values
    the function is documented for. *)
Inductive SubscriptionType : Type := category | tag | subtag.

(** The column [f'{subscription_type}_id'] of a subscription. *)
Definition column (subscription_type : SubscriptionType)
    (s : Subscriptions.UserSubscription) : option Z :=
  match subscription_type with
  | category => Subscriptions.category s
  | tag => Subscriptions.tag s
  | subtag => Subscriptions.subtag s
  end.

(** [UserSubscription.objects.filter(push_notifications=True,
    <type>_id=subscription_id)] *)
Definition push_enabled_for (subscription_type : SubscriptionType)
    (subscription_id : Z) (s : Subscriptions.UserSubscription) : bool :=
  Subscriptions.push_notifications s
  && match column subscription_type s with
     | Some k => k =? subscription_id
     | None => false
     end.

(** The payload [send_push_notification] prepares from its arguments. *)
Definition notification_payload (title body_ : string) (kwargs : Kwargs)
    : Payload :=
  let or_default (v : option string) (d : string) :=
    match v with
    | Some s => if String.eqb s "" then d else s
    | None => d
    end in
  let data0 := match kw_data kwargs with Some d => d | None => [] end in
  mkPayload title body_
    (or_default (kw_icon kwargs) "/static/images/logo.png"%string)
    (or_default (kw_badge kwargs) "/static/images/badge.png"%string)
    (match kw_url kwargs with
     | Some s => if String.eqb s "" then data0
                 else ("url"%string, s)
                      :: filter (fun kv => negb (String.eqb (fst kv) "url"))
                                data0
     | None => data0
     end).

(** A stored push subscription but for its [last_used] date. *)
Definition but_last_used (r : PushSubscription) : PushSubscription :=
  mkPushSubscription (id r) (user r) (endpoint r) (p256dh r) (auth r)
                     (user_agent r) (device_name r) (is_active r)
                     (created_at r) (updated_at r) 0.

Section Delivery.

(** The push transport. *)
Variable webpush : SubscriptionInfo -> Payload -> Outcome.

(** [send_bulk_push_notification]; [users] holds the primary keys of
    the users.  The dictionary [data] of the keyword arguments is shared
    by the calls: the first one stores [url] in it, the later ones store
    the same [url] again. *)
Definition send_bulk_push_notification (users : list Z) (title body_ : string)
    (kwargs : Kwargs) (now : Z) (db : DB) : DB * Totals :=
  let results := mkTotals (Z.of_nat (List.length users)) 0 0 in
  fold_left
    (fun (st : DB * Totals) (user_ : Z) =>
       let '(db, results) := st in
       let '(db, result) :=
         send_push_notification webpush user_ title body_ (kw_data kwargs)
           (kw_icon kwargs) (kw_badge kwargs) (kw_url kwargs) now db in
       (db, mkTotals (total_users results)
                     (total_sent results + sent result)
                     (total_failed results + failed result)))
    users (db, results).

(** [notify_subscribers]; the subscriptions come in the order of
    [Meta.ordering = ['-created_at']]. *)
Definition notify_subscribers (subscription_type : SubscriptionType)
    (subscription_id : Z) (title body_ : string) (kwargs : Kwargs) (now : Z)
    (user_subscriptions : Table Subscriptions.UserSubscription) (db : DB)
    : DB * Summary :=
  (* Build filter based on subscription type *)
  let subscriptions :=
    sort_by (fun a b => Subscriptions.created_at b <=? Subscriptions.created_at a)
            (filter (push_enabled_for subscription_type subscription_id)
                    (rows user_subscriptions)) in
  (* Get unique users *)
  let users := map Subscriptions.user subscriptions in
  match users with
  | [] => (db, NoSubscribers 0 0)
  | _ :: _ =>
      let '(db, results) :=
        send_bulk_push_notification users title body_ kwargs now db in
      (db, Notified results)
  end.

(** The devices a notification to [users] is tried on: the active
    subscriptions of each user, as often as the user is listed. *)
Definition attempted (users : list Z) (db : DB) : list PushSubscription :=
  flat_map (fun u => active_subscriptions u db) users.

End Delivery.

End Bulk.

(** ** Counting views on the model (news/models.py) *)

Module ArticleMethods.
Import Articles.

Section Slug.

(** [django.utils.text.slugify] *)
Variable slugify : string -> string.

(** [NewsArticle.increment_views]: [self.views_count += 1] on the value
    the instance holds (an expression assigned before gets one more),
    then [self.save(update_fields=['views_count'])]. *)
Definition increment_views (fuel : nat) (self : Instance) (now : Z)
    : H Instance :=
  let self :=
    match find (fun kv => String.eqb (fst kv) "views_count") (pending self) with
    | Some (_, delta) => assign_F "views_count" (delta + 1) self
    | None =>
        let a := fields self in
        mkInstance
          (with_counts (views_count a + 1) (likes_count a) (comments_count a)
                       (shares_count a) (bookmarks_count a) a)
          (adding self) (pending self)
    end in
  NewsArticle_save slugify fuel self (Some ["views_count"%string]) now.

End Slug.

End ArticleMethods.

(** ** Further requests and stores *)

Module Scenarios.
Import Interactions.

Definition no_data : ReviewData := mkReviewData None None None None None.

(** User 10 on the review of key 1 (the user's own, five stars) and on
    the review of key 2 (of user 20). *)
Definition own_review : OwnedViews.DetailRequest :=
  OwnedViews.mkDetailRequest (Some 10) 1 no_data.

Definition foreign_review : OwnedViews.DetailRequest :=
  OwnedViews.mkDetailRequest (Some 10) 2 no_data.

Definition review_1 : Review :=
  mkReview 1 10 7 "x-0001" 5 "" "Great" true 10 10.

(** User 10 submits three stars for article X. *)
Definition second_thoughts : ReviewRequest :=
  mkReviewRequest (Some 10)
    (mkReviewData (Some 7) (Some "x-0001"%string) (Some 3) None
                  (Some "Changed my mind."%string)).

(** User 10 changes the rating of the review of key 1 to two stars. *)
Definition patch_rating : OwnedViews.DetailRequest :=
  OwnedViews.mkDetailRequest (Some 10) 1
    (mkReviewData None None (Some 2) None None).

(** User 1 removes the subscription of the phone; user 2 asks for the
    same. *)
Definition removal (u : Z) (e : string) : Push.Request :=
  Push.mkRequest (Some u) (Push.mkPushData (Some e) None None None None) None.

Definition alice_removes_phone : Push.Request :=
  removal 1 "https://push.example/a".

Definition bob_removes_phone : Push.Request :=
  removal 2 "https://push.example/a".

(** User 3 subscribes a new endpoint, sent with a trailing blank. *)
Definition carol_subscribes : Push.Request :=
  Push.mkRequest (Some 3)
    (Push.mkPushData (Some "https://push.example/c "%string)
                     (Some "pk-c"%string) (Some "au-c"%string) None None)
    None.

(** A newsroom with two articles of the same title, the second a draft
    marked as breaking; a reader and an editor (staff). *)
Definition budget : Articles.NewsArticle :=
  Articles.mkNewsArticle "a-0001" "Budget" "budget" "published" false false
    10 2 0 0 0 None 5 5 (Some 5) None.

Definition budget_again : Articles.NewsArticle :=
  Articles.mkNewsArticle "a-0002" "Budget" "budget-1" "draft" true false
    0 0 0 0 0 None 6 6 None None.

Definition newsroom : Articles.DB :=
  Articles.mkDB [Fixtures.ct_newsarticle] [budget; budget_again]
                empty_table empty_table empty_table.

Definition reader : Articles.User := Articles.mkUser 1 false.
Definition editor : Articles.User := Articles.mkUser 9 true.

Definition on_article (u : option Articles.User) (slug_ : string)
    : Articles.Request :=
  Articles.mkRequest u slug_ None.

(** A third article of that title, not yet saved. *)
Definition budget_draft : Articles.Instance :=
  Articles.mkInstance
    (Articles.mkNewsArticle "a-0003" "Budget" "" "draft" false false
       0 0 0 0 0 None 0 0 None None)
    true [].

(** A slugify that lowers the case of the letters A to Z. *)
Definition lower (s : string) : string :=
  string_of_list_ascii
    (map (fun c => let n := nat_of_ascii c in
                   if (Nat.leb 65 n && Nat.leb n 90)%bool
                   then ascii_of_nat (n + 32) else c)
         (list_ascii_of_string s)).

(** Two categories, one of them retired, and two tags; user 1 follows
    politics with push notifications off and a daily digest. *)
Definition politics : Subscriptions.Category :=
  Subscriptions.mkCategory 1 "Politics" "politics" true.

Definition retired : Subscriptions.Category :=
  Subscriptions.mkCategory 2 "Retired" "retired" false.

Definition elections : Subscriptions.Tag :=
  Subscriptions.mkTag 1 "Elections" "elections" (Some 1) 5 true.

Definition football : Subscriptions.Tag :=
  Subscriptions.mkTag 2 "Football" "football" None 9 true.

Definition follows_politics : Subscriptions.UserSubscription :=
  Subscriptions.mkUserSubscription 1 1 (Some 1) None None false true "daily"
                                   10 10.

Definition topics : Subscriptions.DB :=
  Subscriptions.mkDB [politics; retired] [elections; football]
                     (mkTable [follows_politics] 2).

(** A request of user [u] on the category or tag of a slug, with no
    preferences and no query parameters. *)
Definition follow (u : Z) (slug_ : string) : Subscriptions.Request :=
  Subscriptions.mkRequest (Some u) slug_ None None None None None.

(** User 1 also follows the tag elections, with push notifications on. *)
Definition follows_elections : Subscriptions.UserSubscription :=
  Subscriptions.mkUserSubscription 2 1 None (Some 1) None true true "instant"
                                   20 20.

Definition followers : Table Subscriptions.UserSubscription :=
  mkTable [follows_politics; follows_elections] 3.

Definition no_kwargs : Bulk.Kwargs := Bulk.mkKwargs None None None None.

(** Article X with a dislike of user 1, and article X with a like of
    user 1 that its counter does not show. *)
Definition store_disliked : Interactions.DB :=
  Interactions.mkDB [Fixtures.ct_newsarticle] empty_table
    (mkTable [Interactions.mkInteraction 1 1 7 "x-0001" 50] 2)
    empty_table empty_table [Fixtures.article_x].

Definition store_uncounted : Interactions.DB :=
  Interactions.mkDB [Fixtures.ct_newsarticle]
    (mkTable [Interactions.mkInteraction 1 1 7 "x-0001" 50] 2)
    empty_table empty_table empty_table [Fixtures.article_x].

(** A database that accepts a string of every length. *)
Definition never_overflows (s : string) : bool := false.

End Scenarios.

(** * Properties of the interactions application *)

Module InteractionsFacts.
Import Interactions.

Section TableFacts.

Lemma for_pair_true u ct oid r :
  for_pair u ct oid r = true <->
  user r = u /\ content_type r = ct /\ object_id r = oid.
Proof.
  unfold for_pair.
  rewrite !andb_true_iff, !Z.eqb_eq, String.eqb_eq. tauto.
Qed.

Lemma for_pair_self r :
  for_pair (user r) (content_type r) (object_id r) r = true.
Proof. apply for_pair_true; auto. Qed.

Lemma for_pair_other u ct oid u' ct' oid' r :
  (u, ct, oid) <> (u', ct', oid') ->
  for_pair u ct oid r = true -> for_pair u' ct' oid' r = false.
Proof.
  intros Hne H. apply for_pair_true in H as (H1 & H2 & H3).
  destruct (for_pair u' ct' oid' r) eqn:E; auto.
  apply for_pair_true in E as (E1 & E2 & E3). congruence.
Qed.

Lemma filter_filter_keep {A} (p q : A -> bool) l :
  (forall x, In x l -> p x = true -> q x = true) ->
  filter p (filter q l) = filter p l.
Proof.
  induction l as [|a l IH]; simpl; intros H; auto.
  destruct (q a) eqn:Q; simpl.
  - destruct (p a); rewrite IH; auto.
  - destruct (p a) eqn:P.
    + rewrite (H a) in Q; auto; discriminate.
    + apply IH; auto.
Qed.

Lemma filter_filter_drop {A} (p q : A -> bool) l :
  (forall x, In x l -> p x = true -> q x = false) ->
  filter p (filter q l) = [].
Proof.
  induction l as [|a l IH]; simpl; intros H; auto.
  destruct (q a) eqn:Q; simpl.
  - destruct (p a) eqn:P.
    + rewrite (H a) in Q; auto; discriminate.
    + apply IH; auto.
  - apply IH; auto.
Qed.

Lemma existsb_filter_nil {A} (p : A -> bool) l :
  existsb p l = false <-> filter p l = [].
Proof.
  induction l as [|a l IH]; simpl; [tauto|].
  destruct (p a); simpl; [split; discriminate|exact IH].
Qed.

Lemma holds_count t u ct oid :
  holds t u ct oid = true <-> (count (for_pair u ct oid) t >= 1)%nat.
Proof.
  unfold holds, exists_, count.
  destruct (existsb (for_pair u ct oid) (rows t)) eqn:E.
  - split; auto. intros _.
    destruct (filter (for_pair u ct oid) (rows t)) eqn:F; simpl; [|lia].
    apply existsb_filter_nil in F. congruence.
  - apply existsb_filter_nil in E. rewrite E. simpl. split; [discriminate|lia].
Qed.

Lemma holds_false_count t u ct oid :
  holds t u ct oid = false <-> count (for_pair u ct oid) t = 0%nat.
Proof.
  unfold holds, exists_, count. rewrite existsb_filter_nil.
  destruct (filter _ _); simpl; split; congruence.
Qed.

(** Under the uniqueness of the key, a lookup is empty or a single row. *)
Lemma wf_lookup t u ct oid :
  wf_table t ->
  filter (for_pair u ct oid) (rows t) = [] \/
  exists r, filter (for_pair u ct oid) (rows t) = [r].
Proof.
  intros (_ & _ & U). specialize (U u ct oid). unfold count in U.
  destruct (filter _ _) as [|r [|r' l]]; simpl in U; eauto; lia.
Qed.

Lemma filter_singleton_in {A} (p : A -> bool) l r :
  filter p l = [r] -> In r l /\ p r = true.
Proof.
  intros H. apply filter_In. rewrite H. left; reflexivity.
Qed.

(** Two rows with the same primary key are the same row. *)
Lemma NoDup_map_inj {A B} (f : A -> B) l x y :
  NoDup (map f l) -> In x l -> In y l -> f x = f y -> x = y.
Proof.
  induction l as [|a l IH]; simpl; [tauto|].
  intros ND [->|Hx] [->|Hy] E; auto; inversion ND; subst.
  - exfalso. apply H1. rewrite E. apply in_map; auto.
  - exfalso. apply H1. rewrite <- E. apply in_map; auto.
  - apply IH; auto.
Qed.

Lemma NoDup_map_filter {A B} (f : A -> B) (p : A -> bool) l :
  NoDup (map f l) -> NoDup (map f (filter p l)).
Proof.
  induction l as [|a l IH]; simpl; intros ND; auto.
  inversion ND; subst.
  destruct (p a); simpl; auto.
  constructor; auto.
  intros Hin. apply H1. apply in_map_iff in Hin as (x & E & Hx).
  apply filter_In in Hx as [Hx _]. rewrite <- E. apply in_map; auto.
Qed.

Lemma filter_length_le {A} (p q : A -> bool) l :
  (List.length (filter p (filter q l)) <= List.length (filter p l))%nat.
Proof.
  induction l as [|a l IH]; simpl; auto.
  destruct (q a); simpl; destruct (p a); simpl; lia.
Qed.

(** Deleting rows keeps a table well formed. *)
Lemma wf_delete_where p t : wf_table t -> wf_table (delete_where p t).
Proof.
  intros (ND & LT & U). unfold delete_where. repeat split; simpl.
  - apply NoDup_map_filter; auto.
  - intros r Hr. apply filter_In in Hr as [Hr _]. auto.
  - intros u ct oid. unfold count; simpl.
    specialize (U u ct oid). unfold count in U.
    pose proof (filter_length_le (for_pair u ct oid)
                  (fun r => negb (p r)) (rows t)). lia.
Qed.

(** After [QuerySet.delete()] on a pair, the pair has no row, and the
    rows of every other lookup [q] that the deleted rows do not match
    are as before. *)
Lemma delete_where_gone t u ct oid :
  filter (for_pair u ct oid)
         (rows (delete_where (for_pair u ct oid) t)) = [].
Proof.
  simpl. apply filter_filter_drop. intros x _ H. rewrite H. reflexivity.
Qed.

Lemma delete_where_other (q : Interaction -> bool) t u ct oid :
  (forall x, q x = true -> for_pair u ct oid x = false) ->
  filter q (rows (delete_where (for_pair u ct oid) t)) = filter q (rows t).
Proof.
  intros H. simpl. apply filter_filter_keep.
  intros x _ Hq. rewrite (H x Hq). reflexivity.
Qed.

(** [instance.delete()] of the single row of a pair. *)
Lemma delete_instance_gone t u ct oid r :
  wf_table t ->
  filter (for_pair u ct oid) (rows t) = [r] ->
  filter (for_pair u ct oid) (rows (delete_instance r t)) = [].
Proof.
  intros (ND & _ & _) F. unfold delete_instance. simpl.
  apply filter_filter_drop. intros x Hx Hp.
  assert (In x (filter (for_pair u ct oid) (rows t)))
    by (apply filter_In; auto).
  rewrite F in H. destruct H as [<-|[]].
  unfold has_pk. rewrite Z.eqb_refl. reflexivity.
Qed.

Lemma delete_instance_other (q : Interaction -> bool) t r :
  wf_table t -> In r (rows t) -> q r = false ->
  filter q (rows (delete_instance r t)) = filter q (rows t).
Proof.
  intros (ND & _ & _) Hr Hq. unfold delete_instance. simpl.
  apply filter_filter_keep. intros x Hx Hqx.
  unfold has_pk. destruct (id x =? id r) eqn:E; auto.
  apply Z.eqb_eq in E.
  assert (x = r) by (eapply NoDup_map_inj; eauto). subst. congruence.
Qed.

(** The row that [get_or_create] inserts. *)
Lemma wf_insert t u ct oid now :
  wf_table t ->
  filter (for_pair u ct oid) (rows t) = [] ->
  wf_table (mkTable (rows t ++ [mkInteraction (next_pk t) u ct oid now])
                    (next_pk t + 1)).
Proof.
  intros (ND & LT & U) F. repeat split; simpl.
  - rewrite map_app. simpl. apply NoDup_app_remove_l with (l := []).
    simpl. apply NoDup_rev in ND. rewrite <- (rev_involutive (_ ++ _)).
    apply NoDup_rev. rewrite rev_app_distr. simpl.
    constructor; auto.
    rewrite <- in_rev. intros Hin.
    apply in_map_iff in Hin as (x & E & Hx). apply LT in Hx. lia.
  - intros r Hr. apply in_app_iff in Hr as [Hr|[<-|[]]]; simpl.
    + apply LT in Hr. lia.
    + lia.
  - intros u' ct' oid'. unfold count. simpl. rewrite filter_app. simpl.
    rewrite length_app.
    destruct (for_pair u' ct' oid' _) eqn:E; simpl.
    + apply for_pair_true in E as (E1 & E2 & E3); simpl in *; subst.
      rewrite F. simpl. lia.
    + specialize (U u' ct' oid'). unfold count in U. lia.
Qed.

End TableFacts.

Section ToggleEffect.

Variables (own other : Table Interaction) (u ct : Z) (oid : string) (now : Z).
Hypothesis Wown : wf_table own.
Hypothesis Wother : wf_table other.

Lemma inserted_lookup :
  filter (for_pair u ct oid) (rows own) = [] ->
  filter (for_pair u ct oid) (rows (inserted own u ct oid now)) =
  [mkInteraction (next_pk own) u ct oid now].
Proof.
  intros E. unfold inserted. simpl. rewrite filter_app, E. simpl.
  replace (for_pair u ct oid _) with true; auto.
  symmetry. apply for_pair_true. auto.
Qed.

Lemma inserted_other (q : Interaction -> bool) :
  (forall x, q x = true -> for_pair u ct oid x = false) ->
  filter q (rows (inserted own u ct oid now)) = filter q (rows own).
Proof.
  intros H. unfold inserted. simpl. rewrite filter_app. simpl.
  destruct (q _) eqn:E.
  - apply H in E. rewrite (proj2 (for_pair_true u ct oid _)) in E; auto.
    discriminate.
  - apply app_nil_r.
Qed.

(** The toggle succeeds on well-formed tables, reports the negation of
    the state before, and leaves well-formed tables. *)
Lemma toggle_effect_total :
  exists own' other' b,
    toggle_effect own other u ct oid now = Some (own', other', b) /\
    b = negb (holds own u ct oid) /\
    holds own' u ct oid = b /\
    wf_table own' /\ wf_table other' /\
    (b = true -> holds other' u ct oid = false) /\
    (b = false -> other' = other) /\
    (forall q, (forall x, q x = true -> for_pair u ct oid x = false) ->
       filter q (rows own') = filter q (rows own) /\
       filter q (rows other') = filter q (rows other)).
Proof.
  unfold toggle_effect.
  destruct (wf_lookup own u ct oid Wown) as [E|[r E]]; rewrite E.
  - exists (inserted own u ct oid now),
           (delete_where (for_pair u ct oid) other), true.
    assert (Hh : holds own u ct oid = false).
    { apply holds_false_count. unfold count. rewrite E. reflexivity. }
    repeat split; auto.
    + rewrite Hh. reflexivity.
    + apply holds_count. unfold count. rewrite inserted_lookup; auto.
    + apply (wf_insert own u ct oid now Wown E).
    + apply (wf_insert own u ct oid now Wown E).
    + apply (wf_insert own u ct oid now Wown E).
    + apply wf_delete_where; auto.
    + apply wf_delete_where; auto.
    + apply wf_delete_where; auto.
    + intros _. apply holds_false_count. unfold count.
      rewrite delete_where_gone. reflexivity.
    + discriminate.
    + apply inserted_other; auto.
    + apply delete_where_other; auto.
  - exists (delete_instance r own), other, false.
    assert (Hh : holds own u ct oid = true).
    { apply holds_count. unfold count. rewrite E. simpl. lia. }
    destruct (filter_singleton_in _ _ _ E) as [Hin Hr].
    repeat split; auto; try apply wf_delete_where; auto;
      try apply Wother.
    + rewrite Hh. reflexivity.
    + apply holds_false_count. unfold count.
      rewrite (delete_instance_gone own u ct oid r); auto.
    + discriminate.
    + apply delete_instance_other; auto.
      destruct (q r) eqn:Q; auto. apply H in Q. congruence.
Qed.

End ToggleEffect.

Section ToggleCases.

Variables (request : Request) (db : DB) (u ct : Z) (oid : string) (now : Z).
Hypothesis Hreq : resolves request db u ct oid.

Lemma resolves_content_type :
  exists c, try_ContentType_get ct db = (db, inr (Some c)) /\ ct_id c = ct.
Proof.
  destruct Hreq as (_ & _ & c & Hc). exists c.
  unfold try_ContentType_get, ContentType_get. rewrite Hc. split; auto.
  apply find_some in Hc as [_ Hc]. apply Z.eqb_eq in Hc. exact Hc.
Qed.

Ltac enter_view :=
  let c := fresh "c" in
  let Hc := fresh "Hc" in
  let Ec := fresh "Ec" in
  destruct Hreq as (Hu & Hf & _);
  destruct resolves_content_type as (c & Hc & Ec);
  unfold bind, authenticated; rewrite Hu; unfold ret at 1;
  cbv beta iota; rewrite Hf; cbv beta iota; rewrite Hc; cbv beta iota;
  rewrite ?Ec.

Lemma LikeToggleView_post_eq :
  LikeToggleView_post request now db =
  match filter (for_pair u ct oid) (rows (likes db)) with
  | [] =>
      (set_dislikes (delete_where (for_pair u ct oid) (dislikes db))
         (set_likes (inserted (likes db) u ct oid now) db),
       inr (toggled_on "Liked"
              (mkInteraction (next_pk (likes db)) u ct oid now)))
  | [r] =>
      (set_likes (delete_instance r (likes db)) db,
       inr (toggled_off "Unliked"))
  | _ :: _ :: _ => (db, inl MultipleObjectsReturned)
  end.
Proof.
  unfold LikeToggleView_post. enter_view.
  unfold Like_get_or_create, get_or_create.
  destruct (filter _ _) as [|r [|r' l]]; reflexivity.
Qed.

Lemma DislikeToggleView_post_eq :
  DislikeToggleView_post request now db =
  match filter (for_pair u ct oid) (rows (dislikes db)) with
  | [] =>
      (set_likes (delete_where (for_pair u ct oid) (likes db))
         (set_dislikes (inserted (dislikes db) u ct oid now) db),
       inr (toggled_on "Disliked"
              (mkInteraction (next_pk (dislikes db)) u ct oid now)))
  | [r] =>
      (set_dislikes (delete_instance r (dislikes db)) db,
       inr (toggled_off "Dislike removed"))
  | _ :: _ :: _ => (db, inl MultipleObjectsReturned)
  end.
Proof.
  unfold DislikeToggleView_post. enter_view.
  unfold Dislike_get_or_create, get_or_create.
  destruct (filter _ _) as [|r [|r' l]]; reflexivity.
Qed.

Lemma BookmarkToggleView_post_eq :
  BookmarkToggleView_post request now db =
  match filter (for_pair u ct oid) (rows (bookmarks db)) with
  | [] =>
      (set_bookmarks (inserted (bookmarks db) u ct oid now) db,
       inr (toggled_on "Bookmarked"
              (mkInteraction (next_pk (bookmarks db)) u ct oid now)))
  | [r] =>
      (set_bookmarks (delete_instance r (bookmarks db)) db,
       inr (toggled_off "Bookmark removed"))
  | _ :: _ :: _ => (db, inl MultipleObjectsReturned)
  end.
Proof.
  unfold BookmarkToggleView_post. enter_view.
  unfold Bookmark_get_or_create, get_or_create.
  destruct (filter _ _) as [|r [|r' l]]; reflexivity.
Qed.

(** The handlers in terms of [toggle_effect]. *)
Lemma LikeToggleView_post_effect own' other' b :
  toggle_effect (likes db) (dislikes db) u ct oid now = Some (own', other', b) ->
  store_of (LikeToggleView_post request now db) =
    set_dislikes other' (set_likes own' db) /\
  exists r, outcome_of (LikeToggleView_post request now db) = inr r /\
            applied r = Some b.
Proof.
  rewrite LikeToggleView_post_eq. unfold toggle_effect.
  destruct (filter _ _) as [|r [|r' l]]; intros H; inversion H; subst.
  - split; [reflexivity|]. eexists. split; reflexivity.
  - split; [destruct db; reflexivity|]. eexists. split; reflexivity.
Qed.

Lemma DislikeToggleView_post_effect own' other' b :
  toggle_effect (dislikes db) (likes db) u ct oid now = Some (own', other', b) ->
  store_of (DislikeToggleView_post request now db) =
    set_likes other' (set_dislikes own' db) /\
  exists r, outcome_of (DislikeToggleView_post request now db) = inr r /\
            applied r = Some b.
Proof.
  rewrite DislikeToggleView_post_eq. unfold toggle_effect.
  destruct (filter _ _) as [|r [|r' l]]; intros H; inversion H; subst.
  - split; [reflexivity|]. eexists. split; reflexivity.
  - split; [destruct db; reflexivity|]. eexists. split; reflexivity.
Qed.

Lemma BookmarkToggleView_post_effect own' other' b :
  toggle_effect (bookmarks db) empty_table u ct oid now
    = Some (own', other', b) ->
  store_of (BookmarkToggleView_post request now db) = set_bookmarks own' db /\
  exists r, outcome_of (BookmarkToggleView_post request now db) = inr r /\
            applied r = Some b.
Proof.
  rewrite BookmarkToggleView_post_eq. unfold toggle_effect.
  destruct (filter _ _) as [|r [|r' l]]; intros H; inversion H; subst.
  - split; [reflexivity|]. eexists. split; reflexivity.
  - split; [reflexivity|]. eexists. split; reflexivity.
Qed.

End ToggleCases.


Lemma wf_empty_table : wf_table empty_table.
Proof.
  repeat split; simpl.
  - constructor.
  - intros r [].
  - intros. unfold count. simpl. lia.
Qed.

Lemma resolves_same_content_types request db db' u ct oid :
  content_types db' = content_types db ->
  resolves request db u ct oid -> resolves request db' u ct oid.
Proof.
  intros E (Hu & Hf & c & Hc). repeat split; auto. exists c. rewrite E. auto.
Qed.

(** The pair's state in the two tables after a like toggle, and every
    other lookup untouched. *)
Lemma LikeToggleView_post_state request db u ct oid now :
  resolves request db u ct oid ->
  wf_table (likes db) -> wf_table (dislikes db) ->
  let db' := store_of (LikeToggleView_post request now db) in
  wf_table (likes db') /\ wf_table (dislikes db') /\
  resolves request db' u ct oid /\
  holds (likes db') u ct oid = negb (holds (likes db) u ct oid) /\
  (holds (likes db) u ct oid = false -> holds (dislikes db') u ct oid = false) /\
  (holds (likes db) u ct oid = true -> dislikes db' = dislikes db) /\
  (forall q, (forall x, q x = true -> for_pair u ct oid x = false) ->
     filter q (rows (likes db')) = filter q (rows (likes db)) /\
     filter q (rows (dislikes db')) = filter q (rows (dislikes db))) /\
  bookmarks db' = bookmarks db /\ reviews db' = reviews db /\
  news_articles db' = news_articles db.
Proof.
  intros Hreq Wl Wd db'.
  destruct (toggle_effect_total (likes db) (dislikes db) u ct oid now Wl Wd)
    as (own' & other' & b & He & Hb & Hown & Wo & Wo' & Hon & Hoff & Hq).
  destruct (LikeToggleView_post_effect request db u ct oid now Hreq _ _ _ He)
    as [Hs _].
  subst db'. rewrite Hs. simpl.
  split_ands; try reflexivity.
  - exact Wo.
  - exact Wo'.
  - apply (resolves_same_content_types request db); auto.
  - rewrite Hown. exact Hb.
  - intros Hn. apply Hon. rewrite Hb, Hn. reflexivity.
  - intros Hy. apply Hoff. rewrite Hb, Hy. reflexivity.
  - intros q Hx. apply Hq; auto.
Qed.

Lemma DislikeToggleView_post_state request db u ct oid now :
  resolves request db u ct oid ->
  wf_table (likes db) -> wf_table (dislikes db) ->
  let db' := store_of (DislikeToggleView_post request now db) in
  wf_table (likes db') /\ wf_table (dislikes db') /\
  resolves request db' u ct oid /\
  holds (dislikes db') u ct oid = negb (holds (dislikes db) u ct oid) /\
  (holds (dislikes db) u ct oid = false -> holds (likes db') u ct oid = false) /\
  (holds (dislikes db) u ct oid = true -> likes db' = likes db) /\
  (forall q, (forall x, q x = true -> for_pair u ct oid x = false) ->
     filter q (rows (likes db')) = filter q (rows (likes db)) /\
     filter q (rows (dislikes db')) = filter q (rows (dislikes db))) /\
  bookmarks db' = bookmarks db /\ reviews db' = reviews db /\
  news_articles db' = news_articles db.
Proof.
  intros Hreq Wl Wd db'.
  destruct (toggle_effect_total (dislikes db) (likes db) u ct oid now Wd Wl)
    as (own' & other' & b & He & Hb & Hown & Wo & Wo' & Hon & Hoff & Hq).
  destruct (DislikeToggleView_post_effect request db u ct oid now Hreq _ _ _ He)
    as [Hs _].
  subst db'. rewrite Hs. simpl.
  split_ands; try reflexivity.
  - exact Wo'.
  - exact Wo.
  - apply (resolves_same_content_types request db); auto.
  - rewrite Hown. exact Hb.
  - intros Hn. apply Hon. rewrite Hb, Hn. reflexivity.
  - intros Hy. apply Hoff. rewrite Hb, Hy. reflexivity.
  - intros q Hx. destruct (Hq q Hx); auto.
Qed.

Lemma holds_ext t t' u ct oid :
  filter (for_pair u ct oid) (rows t') = filter (for_pair u ct oid) (rows t) ->
  holds t' u ct oid = holds t u ct oid.
Proof.
  intros E. unfold holds, exists_.
  destruct (existsb _ (rows t)) eqn:H.
  - destruct (existsb _ (rows t')) eqn:H'; auto.
    apply existsb_filter_nil in H'. rewrite E in H'.
    apply existsb_filter_nil in H'. congruence.
  - apply existsb_filter_nil in H. rewrite <- E in H.
    apply existsb_filter_nil in H. exact H.
Qed.

Lemma holds_wf_count t u ct oid :
  wf_table t -> holds t u ct oid = true ->
  count (for_pair u ct oid) t = 1%nat.
Proof.
  intros (_ & _ & U) H. apply holds_count in H. specialize (U u ct oid). lia.
Qed.

Lemma pair_eq_dec (a b : Z * Z * string) : {a = b} + {a <> b}.
Proof. repeat decide equality. Qed.

(** A toggle of either kind keeps Like and Dislike exclusive. *)
Lemma exclusive_after own other own' other' u ct oid :
  (forall u' ct' oid', holds own u' ct' oid' = true ->
                       holds other u' ct' oid' = true -> False) ->
  (holds own u ct oid = false -> holds other' u ct oid = false) ->
  (holds own u ct oid = true -> holds own' u ct oid = false) ->
  (forall q, (forall x, q x = true -> for_pair u ct oid x = false) ->
     filter q (rows own') = filter q (rows own) /\
     filter q (rows other') = filter q (rows other)) ->
  forall u' ct' oid', holds own' u' ct' oid' = true ->
                      holds other' u' ct' oid' = true -> False.
Proof.
  intros Hex Hoff Hon Hq u' ct' oid' H1 H2.
  destruct (pair_eq_dec (u', ct', oid') (u, ct, oid)) as [E|N].
  - inversion E; subst.
    destruct (holds own u ct oid) eqn:Ho.
    + rewrite Hon in H1; auto. discriminate.
    + rewrite Hoff in H2; auto. discriminate.
  - destruct (Hq (for_pair u' ct' oid')) as [Q1 Q2].
    { intros x Hx. eapply for_pair_other; eauto. }
    rewrite (holds_ext _ _ _ _ _ Q1) in H1.
    rewrite (holds_ext _ _ _ _ _ Q2) in H2.
    eauto.
Qed.

(** The two generic toggle endpoints, taken alone, keep Like and Dislike
    mutually exclusive: creating a Like deletes the Dislike of the same
    user and target, creating a Dislike deletes the Like, a toggle on a
    store without a pair that has both leaves none, and on such a store a
    like toggle followed by a dislike toggle leaves exactly one Dislike
    row and no Like row for the pair. *)
Lemma generic_toggles_exclude :
  forall request db u ct oid now,
    resolves request db u ct oid ->
    wf_table (likes db) -> wf_table (dislikes db) ->
    let liked := store_of (LikeToggleView_post request now db) in
    let disliked := store_of (DislikeToggleView_post request now db) in
    (holds (likes db) u ct oid = false ->
       holds (likes liked) u ct oid = true /\
       holds (dislikes liked) u ct oid = false) /\
    (holds (dislikes db) u ct oid = false ->
       holds (dislikes disliked) u ct oid = true /\
       holds (likes disliked) u ct oid = false) /\
    (exclusive db -> exclusive liked /\ exclusive disliked) /\
    (exclusive db -> forall now',
       let after := store_of (DislikeToggleView_post request now' liked) in
       count (for_pair u ct oid) (likes after) = 0%nat /\
       count (for_pair u ct oid) (dislikes after) = 1%nat).
Proof.
  intros request db u ct oid now Hreq Wl Wd liked disliked.
  destruct (LikeToggleView_post_state request db u ct oid now Hreq Wl Wd)
    as (Wl1 & Wd1 & Hreq1 & Hl1 & Hd1 & Hd1' & Hq1 & _).
  destruct (DislikeToggleView_post_state request db u ct oid now Hreq Wl Wd)
    as (Wl2 & Wd2 & Hreq2 & Hd2 & Hl2 & Hl2' & Hq2 & _).
  fold liked in Wl1, Wd1, Hreq1, Hl1, Hd1, Hd1', Hq1.
  fold disliked in Wl2, Wd2, Hreq2, Hd2, Hl2, Hl2', Hq2.
  split_ands.
  - intros Hn. split; [rewrite Hl1, Hn; reflexivity | auto].
  - intros Hn. split; [rewrite Hd2, Hn; reflexivity | auto].
  - intros Hex. split.
    + intros u' ct' oid'.
      apply (exclusive_after (likes db) (dislikes db) _ _ u ct oid); auto.
      intros Hy. rewrite Hl1, Hy. reflexivity.
    + intros u' ct' oid' H1 H2.
      apply (exclusive_after (dislikes db) (likes db)
               (dislikes disliked) (likes disliked) u ct oid)
        with (u' := u') (ct' := ct') (oid' := oid'); auto.
      * intros a b c Ha Hb. apply (Hex a b c); auto.
      * intros Hy. rewrite Hd2, Hy. reflexivity.
      * intros q Hx. destruct (Hq2 q Hx); auto.
  - intros Hex now' after.
    destruct (DislikeToggleView_post_state request liked u ct oid now'
                Hreq1 Wl1 Wd1)
      as (Wl3 & Wd3 & _ & Hd3 & Hl3 & _).
    fold after in Wl3, Wd3, Hd3, Hl3.
    assert (Hdl : holds (dislikes liked) u ct oid = false).
    { destruct (holds (likes db) u ct oid) eqn:Hy.
      - rewrite Hd1'; auto.
        destruct (holds (dislikes db) u ct oid) eqn:Hz; auto.
        exfalso. apply (Hex u ct oid); auto.
      - auto. }
    split.
    + apply holds_false_count. auto.
    + apply holds_wf_count; auto. rewrite Hd3, Hdl. reflexivity.
Qed.

Lemma alice_on_x_resolves :
  resolves Fixtures.alice_on_x Fixtures.store0 1 7 "x-0001"%string.
Proof.
  unfold resolves. split_ands; try reflexivity.
  exists Fixtures.ct_newsarticle. reflexivity.
Qed.

Lemma store0_exclusive : exclusive Fixtures.store0.
Proof. intros u ct oid H. discriminate H. Qed.

Example generic_toggles_exclude_on_store0 :
  resolves Fixtures.alice_on_x Fixtures.store0 1 7 "x-0001"%string /\
  wf_table (likes Fixtures.store0) /\ wf_table (dislikes Fixtures.store0) /\
  exclusive Fixtures.store0 /\
  let liked :=
    store_of (LikeToggleView_post Fixtures.alice_on_x 100 Fixtures.store0) in
  let after :=
    store_of (DislikeToggleView_post Fixtures.alice_on_x 200 liked) in
  count (for_pair 1 7 "x-0001"%string) (likes after) = 0%nat /\
  count (for_pair 1 7 "x-0001"%string) (dislikes after) = 1%nat.
Proof.
  split; [exact alice_on_x_resolves|].
  split; [exact wf_empty_table|].
  split; [exact wf_empty_table|].
  split; [exact store0_exclusive|].
  exact (proj2 (proj2 (proj2
    (generic_toggles_exclude Fixtures.alice_on_x Fixtures.store0
       1 7 "x-0001"%string 100 alice_on_x_resolves wf_empty_table
       wf_empty_table))) store0_exclusive 200).
Qed.

(** *** Two like toggles in a row *)

Lemma filter_fresh_pk (l : list Interaction) k r :
  (forall x, In x l -> id x < k) -> id r = k ->
  filter (fun x => negb (has_pk k x)) (l ++ [r]) = l.
Proof.
  intros LT E. rewrite filter_app. simpl.
  unfold has_pk at 2. rewrite E, Z.eqb_refl. simpl. rewrite app_nil_r.
  induction l as [|a l IH]; simpl; auto.
  unfold has_pk at 1.
  destruct (id a =? k) eqn:Q.
  - apply Z.eqb_eq in Q. specialize (LT a (or_introl eq_refl)). lia.
  - simpl. f_equal. apply IH. intros x Hx. apply LT. right; auto.
Qed.

Lemma count_without_row (q : Interaction -> bool) l r :
  NoDup (map id l) -> In r l ->
  (List.length (filter q (filter (fun x => negb (has_pk (id r) x)) l))
   + (if q r then 1 else 0))%nat
  = List.length (filter q l).
Proof.
  induction l as [|a l IH]; simpl; [tauto|].
  intros ND Hin. inversion ND as [|? ? Hn ND']; subst.
  destruct Hin as [->|Hin].
  - unfold has_pk at 1. rewrite Z.eqb_refl. simpl.
    rewrite filter_filter_keep.
    + destruct (q r); simpl; lia.
    + intros x Hx _. unfold has_pk.
      destruct (id x =? id r) eqn:Q; auto.
      apply Z.eqb_eq in Q. exfalso. apply Hn. rewrite <- Q.
      apply in_map; auto.
  - unfold has_pk at 1.
    destruct (id a =? id r) eqn:Q.
    + apply Z.eqb_eq in Q. exfalso. apply Hn. rewrite Q. apply in_map; auto.
    + simpl. specialize (IH ND' Hin).
      destruct (q a); simpl; lia.
Qed.

(** Toggling twice restores, for every lookup [q] that depends on the
    user and the target only, the number of rows it selects. *)
Lemma double_toggle_count own u ct oid now now' other other'
    own1 other1 b1 own2 other2 b2 (q : Interaction -> bool) :
  wf_table own ->
  (forall x y, user x = user y -> content_type x = content_type y ->
               object_id x = object_id y -> q x = q y) ->
  toggle_effect own other u ct oid now = Some (own1, other1, b1) ->
  toggle_effect own1 other' u ct oid now' = Some (own2, other2, b2) ->
  count q own2 = count q own /\ b2 = negb b1.
Proof.
  intros W Hq. unfold toggle_effect.
  destruct (wf_lookup own u ct oid W) as [E|[r E]]; rewrite E;
    intros H1; inversion H1; subst; clear H1.
  - rewrite (inserted_lookup own u ct oid now E).
    intros H2; inversion H2; subst; clear H2.
    split; auto. unfold count, delete_instance, inserted. simpl.
    destruct W as (_ & LT & _).
    rewrite (filter_fresh_pk (rows own) (next_pk own)
               (mkInteraction (next_pk own) u ct oid now)); auto.
  - rewrite (delete_instance_gone own u ct oid r W E).
    intros H2; inversion H2; subst; clear H2.
    split; auto. unfold count, inserted, delete_instance. simpl.
    destruct (filter_singleton_in _ _ _ E) as [Hin Hr].
    apply for_pair_true in Hr as (Hu & Hc & Ho).
    rewrite filter_app, length_app. simpl.
    destruct W as (ND & _ & _).
    rewrite <- (count_without_row q (rows own) r ND Hin).
    rewrite (Hq (mkInteraction (next_pk own) u ct oid now') r); auto.
    destruct (q r); simpl; lia.
Qed.

Lemma for_target_by_key ct oid x y :
  user x = user y -> content_type x = content_type y ->
  object_id x = object_id y -> for_target ct oid x = for_target ct oid y.
Proof. intros _ E1 E2. unfold for_target. rewrite E1, E2. reflexivity. Qed.

Lemma for_pair_by_key u ct oid x y :
  user x = user y -> content_type x = content_type y ->
  object_id x = object_id y -> for_pair u ct oid x = for_pair u ct oid y.
Proof. intros E0 E1 E2. unfold for_pair. rewrite E0, E1, E2. reflexivity. Qed.

(** The generic endpoint: two like toggles restore the liked status of
    the user and the number of Like rows of the target, and the second
    reports the opposite of the first. *)
Lemma LikeToggleView_post_twice request db u ct oid now now' :
  resolves request db u ct oid ->
  wf_table (likes db) -> wf_table (dislikes db) ->
  let first := LikeToggleView_post request now db in
  let second := LikeToggleView_post request now' (store_of first) in
  holds (likes (store_of second)) u ct oid = holds (likes db) u ct oid /\
  count (for_target ct oid) (likes (store_of second))
    = count (for_target ct oid) (likes db) /\
  (exists r1 r2,
     outcome_of first = inr r1 /\ outcome_of second = inr r2 /\
     applied r1 = Some (negb (holds (likes db) u ct oid)) /\
     applied r2 = Some (holds (likes db) u ct oid)).
Proof.
  intros Hreq Wl Wd first second.
  destruct (toggle_effect_total (likes db) (dislikes db) u ct oid now Wl Wd)
    as (own1 & other1 & b1 & He1 & Hb1 & _ & Wo1 & Wo1' & _).
  destruct (LikeToggleView_post_effect request db u ct oid now Hreq _ _ _ He1)
    as (Hs1 & r1 & Hr1 & Ha1).
  fold first in Hs1, Hr1.
  assert (Hreq1 : resolves request (store_of first) u ct oid).
  { apply (resolves_same_content_types request db); auto.
    rewrite Hs1. reflexivity. }
  assert (L1 : likes (store_of first) = own1) by (rewrite Hs1; reflexivity).
  assert (D1 : dislikes (store_of first) = other1) by (rewrite Hs1; reflexivity).
  destruct (toggle_effect_total own1 other1 u ct oid now' Wo1 Wo1')
    as (own2 & other2 & b2 & He2 & Hb2 & Hh2 & _).
  pose proof He2 as He2'. rewrite <- L1, <- D1 in He2'.
  destruct (LikeToggleView_post_effect request (store_of first) u ct oid now'
              Hreq1 _ _ _ He2') as (Hs2 & r2 & Hr2 & Ha2).
  fold second in Hs2, Hr2.
  assert (L2 : likes (store_of second) = own2) by (rewrite Hs2; reflexivity).
  destruct (double_toggle_count (likes db) u ct oid now now' _ _ _ _ _ _ _ _
              (for_target ct oid) Wl (for_target_by_key ct oid) He1 He2)
    as [Hc Hb].
  rewrite L2. split_ands.
  - rewrite Hh2, Hb, Hb1. apply negb_involutive.
  - exact Hc.
  - exists r1, r2. split_ands; auto.
    + rewrite Ha1, Hb1. reflexivity.
    + rewrite Ha2, Hb, Hb1, negb_involutive. reflexivity.
Qed.

End InteractionsFacts.

(** * Properties of the per-article like action *)

Module NewsFacts.
Import Interactions News InteractionsFacts.

Lemma find_map_same {A} (p : A -> bool) (f : A -> A) l :
  (forall x, p (f x) = p x) ->
  find p (map f l) = option_map f (find p l).
Proof.
  intros H. induction l as [|a l IH]; simpl; auto.
  rewrite H. destruct (p a); auto.
Qed.

Lemma bump_visible request pk delta x :
  visible_to request (bump pk delta x) = visible_to request x.
Proof. unfold bump. destruct (String.eqb _ pk); reflexivity. Qed.

Lemma bump_id pk' pk delta x :
  String.eqb (article_id (bump pk delta x)) pk' = String.eqb (article_id x) pk'.
Proof. unfold bump. destruct (String.eqb _ pk); reflexivity. Qed.

Lemma find_by_pk l a :
  NoDup (map article_id l) -> In a l ->
  find (fun x => String.eqb (article_id x) (article_id a)) l = Some a.
Proof.
  induction l as [|b l IH]; simpl; [tauto|].
  intros ND Hin. inversion ND as [|? ? Hn ND']; subst.
  destruct (String.eqb (article_id b) (article_id a)) eqn:E.
  - apply String.eqb_eq in E. destruct Hin as [->|Hin]; auto.
    exfalso. apply Hn. rewrite E. apply in_map; auto.
  - destruct Hin as [->|Hin]; auto.
    rewrite String.eqb_refl in E. discriminate.
Qed.

Lemma save_likes_count_ok db a delta :
  find (fun x => String.eqb (article_id x) (article_id a)) (news_articles db)
    = Some a ->
  0 <= likes_count a + delta ->
  save_likes_count (article_id a) delta db =
  (set_news_articles (map (bump (article_id a) delta) (news_articles db)) db,
   inr tt).
Proof.
  intros F H. unfold save_likes_count. rewrite F.
  destruct (likes_count a + delta <? 0) eqn:E; [apply Z.ltb_lt in E; lia|].
  reflexivity.
Qed.

Lemma get_for_model_found db c :
  find is_newsarticle_ct (content_types db) = Some c ->
  ContentType_get_for_model "news" "newsarticle" db = (db, inr c).
Proof.
  intros F. unfold ContentType_get_for_model.
  change (fun c0 => (String.eqb (app_label c0) "news"
                     && String.eqb (model c0) "newsarticle")%bool)
    with is_newsarticle_ct.
  rewrite F. reflexivity.
Qed.

Lemma find_app_none {A} (p : A -> bool) l x :
  find p l = None -> p x = true -> find p (l ++ [x]) = Some x.
Proof.
  induction l as [|a l IH]; simpl; intros F P.
  - rewrite P. reflexivity.
  - destruct (p a); [discriminate|auto].
Qed.

(** After its first use the content type of the model is in the store:
    the action behaves as on the store that already has it. *)
Lemma get_for_model_settles db :
  exists c,
    ContentType_get_for_model "news" "newsarticle" db
      = (store_of (ContentType_get_for_model "news" "newsarticle" db), inr c) /\
    find is_newsarticle_ct
      (content_types
         (store_of (ContentType_get_for_model "news" "newsarticle" db)))
      = Some c /\
    ct_id c = newsarticle_ct db.
Proof.
  unfold newsarticle_ct, ContentType_get_for_model.
  change (fun c0 => (String.eqb (app_label c0) "news"
                     && String.eqb (model c0) "newsarticle")%bool)
    with is_newsarticle_ct.
  destruct (find is_newsarticle_ct (content_types db)) as [c|] eqn:F.
  - exists c. simpl. auto.
  - eexists. simpl. split_ands; try reflexivity.
    apply find_app_none; auto.
Qed.

(** Once the user is authenticated and the article found, the action
    behaves as on the store that already has the content type. *)
Lemma like_settled request now db u a :
  article_request_user request = Some u ->
  find (visible_to request) (news_articles db) = Some a ->
  NewsArticleViewSet_like request now db =
  NewsArticleViewSet_like request now
    (store_of (ContentType_get_for_model "news" "newsarticle" db)).
Proof.
  intros Hu Ha. unfold NewsArticleViewSet_like. rewrite Hu.
  destruct (get_for_model_settles db) as (c & E & F & _).
  set (db' := store_of (ContentType_get_for_model "news" "newsarticle" db)) in *.
  unfold bind, get_object.
  change (fun a0 => (String.eqb (slug a0) (kwargs_slug request)
                     && (is_staff request || String.eqb (status a0) "published"))%bool)
    with (visible_to request).
  replace (news_articles db') with (news_articles db)
    by (unfold db', ContentType_get_for_model;
        destruct (find _ (content_types db)); reflexivity).
  rewrite Ha. rewrite E. rewrite (get_for_model_found db' c F). reflexivity.
Qed.

Section LikeAction.

Variables (request : ArticleRequest) (db : DB) (u : Z) (a : NewsArticle)
          (c : ContentType) (now : Z).
Hypothesis Huser : article_request_user request = Some u.
Hypothesis Hobj : find (visible_to request) (news_articles db) = Some a.
Hypothesis Hct : find is_newsarticle_ct (content_types db) = Some c.

Lemma NewsArticleViewSet_like_eq :
  NewsArticleViewSet_like request now db =
  match filter (for_pair u (ct_id c) (article_id a)) (rows (likes db)) with
  | [] =>
      (save_likes_count (article_id a) 1 ;;;
       ret (mkLikeResponse true (F_plus "likes_count" 1)))
        (set_likes (inserted (likes db) u (ct_id c) (article_id a) now) db)
  | [r] =>
      (save_likes_count (article_id a) (-1) ;;;
       ret (mkLikeResponse false (F_minus "likes_count" 1)))
        (set_likes (delete_instance r (likes db)) db)
  | _ :: _ :: _ => (db, inl MultipleObjectsReturned)
  end.
Proof.
  unfold NewsArticleViewSet_like. rewrite Huser.
  unfold bind, get_object.
  change (fun a0 => (String.eqb (slug a0) (kwargs_slug request)
                     && (is_staff request || String.eqb (status a0) "published"))%bool)
    with (visible_to request).
  rewrite Hobj. rewrite (get_for_model_found db c Hct).
  unfold Like_get_or_create, get_or_create.
  destruct (filter _ _) as [|r [|r' l]]; reflexivity.
Qed.

Hypothesis Hpk : NoDup (map article_id (news_articles db)).
Hypothesis Wl : wf_table (likes db).

Lemma article_by_pk :
  find (fun x => String.eqb (article_id x) (article_id a)) (news_articles db)
    = Some a.
Proof.
  apply find_by_pk; auto. apply find_some in Hobj. tauto.
Qed.

(** No Like yet: the row is created and the counter incremented. *)
Lemma like_creates :
  holds (likes db) u (ct_id c) (article_id a) = false ->
  0 <= likes_count a ->
  NewsArticleViewSet_like request now db =
  (set_news_articles (map (bump (article_id a) 1) (news_articles db))
     (set_likes (inserted (likes db) u (ct_id c) (article_id a) now) db),
   inr (mkLikeResponse true (F_plus "likes_count" 1))).
Proof.
  intros Hn Hc. rewrite NewsArticleViewSet_like_eq.
  apply holds_false_count in Hn. unfold count in Hn.
  destruct (filter _ _) as [|r l]; [|discriminate].
  unfold bind.
  rewrite (save_likes_count_ok _ a 1); [reflexivity| exact article_by_pk | lia].
Qed.

(** A Like exists and the counter is positive: the row is deleted and the
    counter decremented. *)
Lemma like_deletes :
  holds (likes db) u (ct_id c) (article_id a) = true ->
  1 <= likes_count a ->
  exists r,
    filter (for_pair u (ct_id c) (article_id a)) (rows (likes db)) = [r] /\
    NewsArticleViewSet_like request now db =
    (set_news_articles (map (bump (article_id a) (-1)) (news_articles db))
       (set_likes (delete_instance r (likes db)) db),
     inr (mkLikeResponse false (F_minus "likes_count" 1))).
Proof.
  intros Hy Hc. rewrite NewsArticleViewSet_like_eq.
  destruct (wf_lookup (likes db) u (ct_id c) (article_id a) Wl) as [E|[r E]].
  - apply holds_count in Hy. unfold count in Hy. rewrite E in Hy.
    simpl in Hy. lia.
  - exists r. split; auto. rewrite E. unfold bind.
    rewrite (save_likes_count_ok _ a (-1));
      [reflexivity| exact article_by_pk | lia].
Qed.

(** A Like exists but the counter is 0: the Like row is deleted, then the
    UPDATE is refused and the request fails. *)
Lemma like_deletes_at_zero :
  holds (likes db) u (ct_id c) (article_id a) = true ->
  likes_count a = 0 ->
  exists r,
    filter (for_pair u (ct_id c) (article_id a)) (rows (likes db)) = [r] /\
    NewsArticleViewSet_like request now db =
    (set_likes (delete_instance r (likes db)) db, inl IntegrityError).
Proof.
  intros Hy Hc. rewrite NewsArticleViewSet_like_eq.
  destruct (wf_lookup (likes db) u (ct_id c) (article_id a) Wl) as [E|[r E]].
  - apply holds_count in Hy. unfold count in Hy. rewrite E in Hy.
    simpl in Hy. lia.
  - exists r. split; auto. rewrite E. unfold bind, save_likes_count.
    simpl. rewrite article_by_pk. rewrite Hc. reflexivity.
Qed.

End LikeAction.

Lemma likes_count_of_bump db db' a delta :
  find (fun x => String.eqb (article_id x) (article_id a)) (news_articles db)
    = Some a ->
  news_articles db' = map (bump (article_id a) delta) (news_articles db) ->
  likes_count_of (article_id a) db' = Some (likes_count a + delta).
Proof.
  intros F E. unfold likes_count_of. rewrite E.
  rewrite find_map_same by (intros x; apply bump_id).
  rewrite F. simpl. unfold bump. rewrite String.eqb_refl. reflexivity.
Qed.

Lemma bump_keeps_pk pk delta l :
  map article_id (map (bump pk delta) l) = map article_id l.
Proof.
  rewrite map_map. apply map_ext. intros x. unfold bump.
  destruct (String.eqb _ pk); reflexivity.
Qed.

(** The like action twice, from "not liked": the Like row is created and
    deleted again, and the counter goes up by one and back. *)
Lemma NewsArticleViewSet_like_twice request db u a c now now' :
  article_request_user request = Some u ->
  find (visible_to request) (news_articles db) = Some a ->
  find is_newsarticle_ct (content_types db) = Some c ->
  NoDup (map article_id (news_articles db)) ->
  wf_table (likes db) ->
  0 <= likes_count a ->
  holds (likes db) u (ct_id c) (article_id a) = false ->
  let first := NewsArticleViewSet_like request now db in
  let second := NewsArticleViewSet_like request now' (store_of first) in
  outcome_of first = inr (mkLikeResponse true (F_plus "likes_count" 1)) /\
  holds (likes (store_of first)) u (ct_id c) (article_id a) = true /\
  likes_count_of (article_id a) (store_of first) = Some (likes_count a + 1) /\
  outcome_of second = inr (mkLikeResponse false (F_minus "likes_count" 1)) /\
  holds (likes (store_of second)) u (ct_id c) (article_id a) = false /\
  likes_count_of (article_id a) (store_of second) = Some (likes_count a) /\
  rows (likes (store_of second)) = rows (likes db).
Proof.
  intros Hu Ha Hc Hpk Wl H0 Hn first second.
  pose proof (like_creates request db u a c now Hu Ha Hc Hpk Hn H0) as E1.
  fold first in E1.
  pose proof (article_by_pk request db a Ha Hpk) as Fa.
  assert (En : filter (for_pair u (ct_id c) (article_id a)) (rows (likes db)) = []).
  { apply holds_false_count in Hn. unfold count in Hn.
    destruct (filter _ _); [reflexivity|discriminate]. }
  set (a1 := bump (article_id a) 1 a).
  assert (Ia : article_id a1 = article_id a).
  { unfold a1, bump. rewrite String.eqb_refl. reflexivity. }
  assert (Ca : likes_count a1 = likes_count a + 1).
  { unfold a1, bump. rewrite String.eqb_refl. reflexivity. }
  assert (Ha1 : find (visible_to request) (news_articles (store_of first))
                = Some a1).
  { rewrite E1. simpl.
    rewrite find_map_same by (intros x; apply bump_visible).
    rewrite Ha. reflexivity. }
  assert (Hc1 : find is_newsarticle_ct (content_types (store_of first)) = Some c)
    by (rewrite E1; exact Hc).
  assert (Hpk1 : NoDup (map article_id (news_articles (store_of first)))).
  { rewrite E1. simpl. rewrite bump_keeps_pk. exact Hpk. }
  assert (Wl1 : wf_table (likes (store_of first))).
  { rewrite E1. simpl. apply wf_insert; auto. }
  assert (Hy1 : holds (likes (store_of first)) u (ct_id c) (article_id a) = true).
  { rewrite E1. simpl. apply holds_count. unfold count.
    rewrite inserted_lookup; auto. }
  destruct (like_deletes request (store_of first) u a1 c now' Hu Ha1 Hc1 Hpk1 Wl1)
    as (r & Er & E2).
  { rewrite Ia. exact Hy1. }
  { lia. }
  fold second in E2. rewrite Ia in Er, E2.
  assert (Rr : r = mkInteraction (next_pk (likes db)) u (ct_id c)
                     (article_id a) now).
  { assert (L1 : likes (store_of first)
                 = inserted (likes db) u (ct_id c) (article_id a) now)
      by (rewrite E1; reflexivity).
    rewrite L1, inserted_lookup in Er; auto. congruence. }
  split_ands.
  - rewrite E1. reflexivity.
  - exact Hy1.
  - apply (likes_count_of_bump db); auto. rewrite E1. reflexivity.
  - rewrite E2. reflexivity.
  - rewrite E2. simpl. apply holds_false_count. unfold count.
    rewrite (delete_instance_gone _ u (ct_id c) (article_id a) r); auto.
  - replace (likes_count a) with (likes_count a1 + -1) by lia.
    rewrite <- Ia.
    apply (likes_count_of_bump (store_of first)).
    + rewrite Ia. rewrite E1. simpl.
      rewrite find_map_same by (intros x; apply bump_id).
      rewrite Fa. reflexivity.
    + rewrite E2, Ia. reflexivity.
  - rewrite E2. simpl. rewrite E1. simpl. rewrite Rr.
    destruct Wl as (_ & LT & _).
    apply (filter_fresh_pk (rows (likes db)) (next_pk (likes db))); auto.
Qed.



(** The store the first use of the content type leaves: same tables. *)
Lemma settled_store_tables db :
  let db' := store_of (ContentType_get_for_model "news" "newsarticle" db) in
  likes db' = likes db /\ news_articles db' = news_articles db /\
  dislikes db' = dislikes db.
Proof.
  unfold ContentType_get_for_model.
  destruct (find _ (content_types db)); simpl; auto.
Qed.

Lemma save_likes_count_keeps_dislikes pk delta db :
  dislikes (fst (save_likes_count pk delta db)) = dislikes db.
Proof.
  unfold save_likes_count.
  destruct (find _ (news_articles db)) as [x|]; [|reflexivity].
  destruct (likes_count x + delta <? 0); reflexivity.
Qed.

(** The like action of the news viewset has no code for Dislike rows:
    whatever it does, the Dislike table is as before. *)
Lemma NewsArticleViewSet_like_keeps_dislikes request now db :
  dislikes (store_of (NewsArticleViewSet_like request now db)) = dislikes db.
Proof.
  destruct (article_request_user request) as [u|] eqn:Hu;
    [|unfold NewsArticleViewSet_like; rewrite Hu; reflexivity].
  destruct (find (visible_to request) (news_articles db)) as [a|] eqn:Ha.
  - rewrite (like_settled request now db u a Hu Ha).
    destruct (get_for_model_settles db) as (c & _ & Hc & _).
    destruct (settled_store_tables db) as (El & En & Ed).
    set (db' := store_of (ContentType_get_for_model "news" "newsarticle" db))
      in *.
    rewrite <- En in Ha. rewrite <- Ed.
    rewrite (NewsArticleViewSet_like_eq request db' u a c now Hu Ha Hc).
    destruct (filter _ _) as [|r [|r' l]]; try reflexivity; unfold bind;
      match goal with
      | |- context [save_likes_count ?k ?d ?s] =>
          pose proof (save_likes_count_keeps_dislikes k d s) as K;
          destruct (save_likes_count k d s) as [s' [e|[]]]
      end; simpl in *; exact K.
  - unfold NewsArticleViewSet_like. rewrite Hu. unfold bind, get_object.
    change (fun a0 => (String.eqb (slug a0) (kwargs_slug request)
                       && (is_staff request
                           || String.eqb (status a0) "published"))%bool)
      with (visible_to request).
    rewrite Ha. reflexivity.
Qed.

End NewsFacts.

(** * The toggle contract *)

Module ToggleFacts.
Import Interactions News InteractionsFacts NewsFacts.

Lemma BookmarkToggleView_post_state request db u ct oid now :
  resolves request db u ct oid ->
  wf_table (bookmarks db) ->
  let result := BookmarkToggleView_post request now db in
  holds (bookmarks (store_of result)) u ct oid
    = negb (holds (bookmarks db) u ct oid) /\
  (exists r, outcome_of result = inr r /\
             applied r = Some (negb (holds (bookmarks db) u ct oid))) /\
  news_articles (store_of result) = news_articles db.
Proof.
  intros Hreq Wb result.
  destruct (toggle_effect_total (bookmarks db) empty_table u ct oid now Wb
              wf_empty_table)
    as (own' & other' & b & He & Hb & Hown & _).
  destruct (BookmarkToggleView_post_effect request db u ct oid now Hreq _ _ _ He)
    as (Hs & r & Hr & Ha).
  fold result in Hs, Hr. rewrite Hs. simpl. split_ands; auto.
  - rewrite Hown. exact Hb.
  - exists r. rewrite <- Hb. auto.
Qed.

(** C2 (as amended).  A toggle of any of the three generic routes, by an
    authenticated user on a resolvable content type, creates the record
    and reports [true] when the pair had none, deletes it and reports
    [false] when it had one, and leaves the denormalized counters of the
    content entity as they were.  The like action of the news viewset
    also moves the article's [likes_count]: up by one when it creates the
    Like, down by one when it deletes it and the counter is at least 1. *)
Theorem toggle_creates_or_deletes :
  (forall route request db u ct oid now,
     resolves request db u ct oid ->
     wf_table (likes db) -> wf_table (dislikes db) -> wf_table (bookmarks db) ->
     let before := holds (table_of route db) u ct oid in
     let result := urlpatterns route request now db in
     holds (table_of route (store_of result)) u ct oid = negb before /\
     (exists r, outcome_of result = inr r /\ applied r = Some (negb before)) /\
     news_articles (store_of result) = news_articles db) /\
  (forall request db u a now,
     article_request_user request = Some u ->
     find (visible_to request) (news_articles db) = Some a ->
     NoDup (map article_id (news_articles db)) ->
     wf_table (likes db) ->
     let ct := newsarticle_ct db in
     let result := NewsArticleViewSet_like request now db in
     (holds (likes db) u ct (article_id a) = false -> 0 <= likes_count a ->
        option_map liked (match outcome_of result with
                          | inr r => Some r | inl _ => None end) = Some true /\
        holds (likes (store_of result)) u ct (article_id a) = true /\
        likes_count_of (article_id a) (store_of result)
          = Some (likes_count a + 1)) /\
     (holds (likes db) u ct (article_id a) = true -> 1 <= likes_count a ->
        option_map liked (match outcome_of result with
                          | inr r => Some r | inl _ => None end) = Some false /\
        holds (likes (store_of result)) u ct (article_id a) = false /\
        likes_count_of (article_id a) (store_of result)
          = Some (likes_count a - 1))).
Proof.
  split.
  - intros route request db u ct oid now Hreq Wl Wd Wb before result.
    subst before. destruct route; simpl in *.
    + destruct (toggle_effect_total (likes db) (dislikes db) u ct oid now Wl Wd)
        as (own' & other' & b & He & Hb & Hown & _).
      destruct (LikeToggleView_post_effect request db u ct oid now Hreq _ _ _ He)
        as (Hs & r & Hr & Ha).
      fold result in Hs, Hr. rewrite Hs. simpl. split_ands; auto.
      * rewrite Hown. exact Hb.
      * exists r. rewrite <- Hb. auto.
    + destruct (toggle_effect_total (dislikes db) (likes db) u ct oid now Wd Wl)
        as (own' & other' & b & He & Hb & Hown & _).
      destruct (DislikeToggleView_post_effect request db u ct oid now Hreq _ _ _ He)
        as (Hs & r & Hr & Ha).
      fold result in Hs, Hr. rewrite Hs. simpl. split_ands; auto.
      * rewrite Hown. exact Hb.
      * exists r. rewrite <- Hb. auto.
    + apply BookmarkToggleView_post_state; auto.
  - intros request db u a now Hu Ha Hpk Wl ct result.
    destruct (get_for_model_settles db) as (c & _ & Hc & Ec).
    destruct (settled_store_tables db) as (El & En & _).
    set (db' := store_of (ContentType_get_for_model "news" "newsarticle" db)) in *.
    assert (Er : result = NewsArticleViewSet_like request now db')
      by (apply (like_settled request now db u a); auto).
    assert (Ha' : find (visible_to request) (news_articles db') = Some a)
      by (rewrite En; auto).
    assert (Hpk' : NoDup (map article_id (news_articles db')))
      by (rewrite En; auto).
    assert (Wl' : wf_table (likes db')) by (rewrite El; auto).
    unfold ct. rewrite <- Ec, <- El. split.
    + intros Hn H0.
      rewrite Er, (like_creates request db' u a c now Hu Ha' Hc Hpk' Hn H0).
      simpl. split_ands; auto.
      * apply holds_count. unfold count. rewrite inserted_lookup; auto.
        apply holds_false_count in Hn. unfold count in Hn.
        destruct (filter _ _); [reflexivity|discriminate].
      * apply (likes_count_of_bump db'); auto.
        apply (article_by_pk request); auto.
    + intros Hy H1.
      destruct (like_deletes request db' u a c now Hu Ha' Hc Hpk' Wl' Hy H1)
        as (r & Efil & E).
      rewrite Er, E. simpl. split_ands; auto.
      * apply holds_false_count. unfold count.
        rewrite (delete_instance_gone _ u (ct_id c) (article_id a) r); auto.
      * apply (likes_count_of_bump db'); auto.
        apply (article_by_pk request); auto.
Qed.

Lemma alice_likes_x_visible :
  find (visible_to Fixtures.alice_likes_x) (news_articles Fixtures.store0)
  = Some Fixtures.article_x.
Proof. reflexivity. Qed.

Lemma store0_article_pks :
  NoDup (map article_id (news_articles Fixtures.store0)).
Proof. simpl. constructor; [intros []|constructor]. Qed.

Lemma toggle_creates_or_deletes_witness :
  resolves Fixtures.alice_on_x Fixtures.store0 1 7 "x-0001"%string /\
  wf_table (likes Fixtures.store0) /\
  (let result := urlpatterns bookmark_toggle Fixtures.alice_on_x 100
                   Fixtures.store0 in
   holds (bookmarks (store_of result)) 1 7 "x-0001"%string = true /\
   news_articles (store_of result) = news_articles Fixtures.store0) /\
  likes_count_of "x-0001"
    (store_of (NewsArticleViewSet_like Fixtures.alice_likes_x 100
                 Fixtures.store0))
  = Some 1.
Proof.
  split; [exact alice_on_x_resolves|].
  split; [exact wf_empty_table|].
  split.
  - destruct (proj1 toggle_creates_or_deletes bookmark_toggle
                Fixtures.alice_on_x Fixtures.store0 1 7 "x-0001"%string 100
                alice_on_x_resolves wf_empty_table wf_empty_table
                wf_empty_table) as (H1 & _ & H3).
    split; [exact H1 | exact H3].
  - destruct (proj1 (proj2 toggle_creates_or_deletes Fixtures.alice_likes_x
                       Fixtures.store0 1 Fixtures.article_x 100 eq_refl
                       alice_likes_x_visible store0_article_pks wf_empty_table)
                eq_refl ltac:(simpl; lia)) as (_ & _ & H).
    exact H.
Defined.

(** C2 as stated fails on the generic like route: the pair has no Like,
    the toggle creates it and reports [true], and the [likes_count] of the
    article it names is still 0, not 1. *)
Lemma generic_toggle_leaves_counter :
  let result := LikeToggleView_post Fixtures.alice_on_x 100 Fixtures.store0 in
  holds (likes Fixtures.store0) 1 7 "x-0001"%string = false /\
  holds (likes (store_of result)) 1 7 "x-0001"%string = true /\
  likes_count_of "x-0001" Fixtures.store0 = Some 0 /\
  likes_count_of "x-0001" (store_of result) <> Some (0 + 1).
Proof.
  simpl. split_ands; try reflexivity. discriminate.
Qed.

(** Where two like toggles in a row are a round trip.  On the generic
    endpoint, from every store: the liked status of the user and the
    number of Like rows of the target are as before.  On the like action
    of the news viewset, from "not liked": the status is "not liked"
    again and [likes_count] is back at its value. *)
Lemma double_like_round_trips :
  (forall request db u ct oid now now',
     resolves request db u ct oid ->
     wf_table (likes db) -> wf_table (dislikes db) ->
     let first := LikeToggleView_post request now db in
     let second := LikeToggleView_post request now' (store_of first) in
     holds (likes (store_of second)) u ct oid = holds (likes db) u ct oid /\
     count (for_target ct oid) (likes (store_of second))
       = count (for_target ct oid) (likes db) /\
     exists r1 r2,
       outcome_of first = inr r1 /\ outcome_of second = inr r2 /\
       applied r1 = Some (negb (holds (likes db) u ct oid)) /\
       applied r2 = Some (holds (likes db) u ct oid)) /\
  (forall request db u a now now',
     article_request_user request = Some u ->
     find (visible_to request) (news_articles db) = Some a ->
     NoDup (map article_id (news_articles db)) ->
     wf_table (likes db) ->
     0 <= likes_count a ->
     let ct := newsarticle_ct db in
     holds (likes db) u ct (article_id a) = false ->
     let first := NewsArticleViewSet_like request now db in
     let second := NewsArticleViewSet_like request now' (store_of first) in
     outcome_of first = inr (mkLikeResponse true (F_plus "likes_count" 1)) /\
     likes_count_of (article_id a) (store_of first) = Some (likes_count a + 1) /\
     outcome_of second = inr (mkLikeResponse false (F_minus "likes_count" 1)) /\
     holds (likes (store_of second)) u ct (article_id a) = false /\
     likes_count_of (article_id a) (store_of second) = Some (likes_count a) /\
     rows (likes (store_of second)) = rows (likes db)).
Proof.
  split.
  - intros. apply LikeToggleView_post_twice; auto.
  - intros request db u a now now' Hu Ha Hpk Wl H0 ct Hn first second.
    destruct (get_for_model_settles db) as (c & _ & Hc & Ec).
    destruct (settled_store_tables db) as (El & En & _).
    set (db' := store_of (ContentType_get_for_model "news" "newsarticle" db)) in *.
    assert (Er : first = NewsArticleViewSet_like request now db')
      by (apply (like_settled request now db u a); auto).
    unfold ct in *. rewrite <- Ec in *. rewrite <- El in Hn.
    destruct (NewsArticleViewSet_like_twice request db' u a c now now' Hu)
      as (H1 & H2 & H3 & H4 & H5 & H6 & H7); auto;
      try (rewrite En; auto); try (rewrite El; auto).
    subst second. rewrite Er. rewrite <- El. split_ands; auto.
Qed.

Example double_like_round_trips_on_store0 :
  resolves Fixtures.alice_on_x Fixtures.store0 1 7 "x-0001"%string /\
  (let first := LikeToggleView_post Fixtures.alice_on_x 100 Fixtures.store0 in
   let second := LikeToggleView_post Fixtures.alice_on_x 200 (store_of first) in
   holds (likes (store_of second)) 1 7 "x-0001"%string = false /\
   count (for_target 7 "x-0001") (likes (store_of second)) = 0%nat) /\
  (let first := NewsArticleViewSet_like Fixtures.alice_likes_x 100
                  Fixtures.store0 in
   let second := NewsArticleViewSet_like Fixtures.alice_likes_x 200
                   (store_of first) in
   likes_count_of "x-0001" (store_of first) = Some 1 /\
   likes_count_of "x-0001" (store_of second) = Some 0).
Proof.
  split; [exact alice_on_x_resolves|]. split.
  - destruct (proj1 double_like_round_trips Fixtures.alice_on_x
                Fixtures.store0 1 7 "x-0001"%string 100 200
                alice_on_x_resolves wf_empty_table wf_empty_table)
      as (H1 & H2 & _).
    split; [exact H1 | exact H2].
  - destruct (proj2 double_like_round_trips Fixtures.alice_likes_x
                Fixtures.store0 1 Fixtures.article_x 100 200 eq_refl
                alice_likes_x_visible store0_article_pks wf_empty_table
                ltac:(simpl; lia) eq_refl)
      as (_ & H2 & _ & _ & H5 & _).
    split; [exact H2 | exact H5].
Qed.

End ToggleFacts.

(** * Reviews and statistics *)

Module ReviewFacts.
Import Interactions InteractionsFacts.

Section Submission.

Variables (request : ReviewRequest) (db : DB) (u : Z) (v : ValidatedReview)
          (now : Z).
Hypothesis Huser : review_request_user request = Some u.
Hypothesis Hvalid :
  ReviewSerializer_validate (review_request_data request) db = Some v.

Lemma ReviewListCreateView_create_eq :
  ReviewListCreateView_create request now db = Review_create u v now db.
Proof.
  unfold ReviewListCreateView_create. rewrite Huser. unfold bind.
  rewrite Hvalid. reflexivity.
Qed.

Lemma create_rejected :
  exists_ (review_for_pair u (validated_content_type v) (validated_object_id v))
          (reviews db) = true ->
  ReviewListCreateView_create request now db = (db, inl IntegrityError).
Proof.
  intros H. rewrite ReviewListCreateView_create_eq. unfold Review_create.
  rewrite H. reflexivity.
Qed.

Lemma create_accepted :
  exists_ (review_for_pair u (validated_content_type v) (validated_object_id v))
          (reviews db) = false ->
  let r := mkReview (next_pk (reviews db)) u (validated_content_type v)
             (validated_object_id v) (validated_rating v) (validated_title v)
             (validated_comment v) true now now in
  ReviewListCreateView_create request now db =
  (set_reviews (mkTable (r :: rows (reviews db)) (next_pk (reviews db) + 1)) db,
   inr r).
Proof.
  intros H r. rewrite ReviewListCreateView_create_eq. unfold Review_create.
  rewrite H. reflexivity.
Qed.

End Submission.

Lemma review_for_pair_true u ct oid r :
  review_for_pair u ct oid r = true <->
  review_user r = u /\ review_content_type r = ct /\ review_object_id r = oid.
Proof.
  unfold review_for_pair.
  rewrite !andb_true_iff, !Z.eqb_eq, String.eqb_eq. tauto.
Qed.

Lemma validate_same_content_types d db db' :
  content_types db' = content_types db ->
  ReviewSerializer_validate d db' = ReviewSerializer_validate d db.
Proof. intros E. unfold ReviewSerializer_validate. rewrite E. reflexivity. Qed.

(** C7.  One review per user and target.  A valid submission by a user
    who already has a review of the target is refused by the uniqueness
    constraint and the store is left exactly as it was; a submission keeps
    the table unique; and submitting the same review twice leaves, after
    the second attempt, the store of the first. *)
Theorem one_review_per_user_and_target :
  forall request db u v now,
    review_request_user request = Some u ->
    ReviewSerializer_validate (review_request_data request) db = Some v ->
    reviews_unique db ->
    let pair := review_for_pair u (validated_content_type v)
                                (validated_object_id v) in
    let first := ReviewListCreateView_create request now db in
    (exists_ pair (reviews db) = true -> first = (db, inl IntegrityError)) /\
    (exists_ pair (reviews db) = false ->
       exists r, outcome_of first = inr r /\
                 rows (reviews (store_of first)) = r :: rows (reviews db) /\
                 pair r = true /\ rating r = validated_rating v) /\
    reviews_unique (store_of first) /\
    count pair (reviews (store_of first)) = 1%nat /\
    (forall now',
       ReviewListCreateView_create request now' (store_of first)
       = (store_of first, inl IntegrityError)).
Proof.
  intros request db u v now Hu Hv Huniq pair first.
  assert (Hpair : forall r, review_user r = u ->
                            review_content_type r = validated_content_type v ->
                            review_object_id r = validated_object_id v ->
                            pair r = true).
  { intros r A B C. apply review_for_pair_true. auto. }
  destruct (exists_ pair (reviews db)) eqn:E.
  - assert (Ef : first = (db, inl IntegrityError))
      by (apply (create_rejected request db u v now); auto).
    rewrite Ef. simpl. split_ands; auto.
    + discriminate.
    + specialize (Huniq u (validated_content_type v) (validated_object_id v)).
      fold pair in Huniq. unfold count in *. unfold exists_ in E.
      destruct (filter pair (rows (reviews db))) eqn:F.
      * apply existsb_filter_nil in F. congruence.
      * simpl in *. lia.
    + intros now'. apply (create_rejected request db u v now'); auto.
  - pose proof (create_accepted request db u v now Hu Hv E) as Ef.
    simpl in Ef. fold first in Ef.
    assert (En : filter pair (rows (reviews db)) = [])
      by (apply existsb_filter_nil; exact E).
    rewrite Ef. simpl. split_ands.
    + discriminate.
    + intros _. eexists. split_ands; try reflexivity.
      apply Hpair; reflexivity.
    + intros u' ct' oid'. unfold count. simpl.
      destruct (review_for_pair u' ct' oid' _) eqn:Q; simpl.
      * apply review_for_pair_true in Q as (Q1 & Q2 & Q3). simpl in *. subst.
        fold pair. rewrite En. simpl. lia.
      * apply Huniq.
    + unfold count. simpl. rewrite Hpair by reflexivity. rewrite En. reflexivity.
    + intros now'. apply (create_rejected _ _ u v now').
      * exact Hu.
      * rewrite <- Hv. apply validate_same_content_types. reflexivity.
      * unfold exists_. simpl. fold pair. rewrite Hpair by reflexivity.
        reflexivity.
Qed.

Lemma alice_review_valid :
  ReviewSerializer_validate (review_request_data Fixtures.alice_reviews_x)
    Fixtures.store0
  = Some (mkValidatedReview 7 "x-0001" 4 "Solid" "Clear and sourced.").
Proof. reflexivity. Qed.

Lemma store0_reviews_unique : reviews_unique Fixtures.store0.
Proof. intros u ct oid. unfold count. simpl. lia. Qed.

Lemma one_review_per_user_and_target_witness :
  reviews_unique Fixtures.store0 /\
  let first := ReviewListCreateView_create Fixtures.alice_reviews_x 100
                 Fixtures.store0 in
  count (review_for_pair 1 7 "x-0001") (reviews (store_of first)) = 1%nat /\
  ReviewListCreateView_create Fixtures.alice_reviews_x 200 (store_of first)
  = (store_of first, inl IntegrityError).
Proof.
  split; [exact store0_reviews_unique|].
  destruct (one_review_per_user_and_target Fixtures.alice_reviews_x
              Fixtures.store0 1 _ 100 eq_refl alice_review_valid
              store0_reviews_unique)
    as (_ & _ & _ & H4 & H5).
  split; [exact H4 | exact (H5 200)].
Defined.

(** *** The rating average *)












Lemma unique_of_NoDup_keys db :
  NoDup (map review_key (rows (reviews db))) -> reviews_unique db.
Proof.
  intros ND u ct oid. unfold count.
  induction (rows (reviews db)) as [|a l IH]; simpl; [lia|].
  inversion ND as [|? ? Hn ND']; subst. specialize (IH ND').
  destruct (review_for_pair u ct oid a) eqn:P; simpl; [|lia].
  assert (E : filter (review_for_pair u ct oid) l = []).
  { destruct (filter (review_for_pair u ct oid) l) as [|x l'] eqn:F; auto.
    exfalso. apply Hn.
    assert (Hx : In x (filter (review_for_pair u ct oid) l))
      by (rewrite F; left; reflexivity).
    apply filter_In in Hx as [Hx Px].
    apply review_for_pair_true in P as (P1 & P2 & P3).
    apply review_for_pair_true in Px as (X1 & X2 & X3).
    replace (review_key a) with (review_key x)
      by (unfold review_key; congruence).
    apply in_map; auto. }
  rewrite E. simpl. lia.
Qed.

Lemma store_rated_unique : reviews_unique Fixtures.store_rated.
Proof.
  apply unique_of_NoDup_keys. unfold review_key. simpl.
  repeat (apply NoDup_cons; [simpl; intuition congruence|]).
  apply NoDup_nil.
Qed.


(** The same store, evaluated: two approved reviews, average 4.5; the
    empty store: no review, average 0; and the statistics asked by the
    author of one of the reviews. *)
Example stats_of_rated_store :
  exists stats,
    outcome_of (InteractionStatsView_get Fixtures.stats_of_x Fixtures.store_rated)
      = inr (inr stats) /\
    stats_reviews_count stats = 2%nat /\
    (stats_average_rating stats == 9#2)%Q.
Proof. eexists. split_ands; vm_compute; reflexivity. Qed.

Example stats_of_empty_store :
  exists stats,
    outcome_of (InteractionStatsView_get Fixtures.stats_of_x Fixtures.store0)
      = inr (inr stats) /\
    stats_reviews_count stats = 0%nat /\
    (stats_average_rating stats == 0)%Q.
Proof. eexists. split_ands; vm_compute; reflexivity. Qed.

Example stats_of_an_author :
  InteractionStatsView_get Fixtures.author_of_review_on_x Fixtures.store_rated
  = (Fixtures.store_rated, inl AttributeError).
Proof. reflexivity. Qed.

(** A mean that no double holds: 161 stars over 40 reviews are 4.025, the
    double nearest to it is above, and [round] gives 4.03. *)
Example round2_of_a_tie :
  (round2 (binary64 (161 # 40)) == binary64 (403 # 100))%Q /\
  round_half_even ((161 # 40) * 100) = 402.
Proof. split; vm_compute; reflexivity. Qed.

End ReviewFacts.

(** * Comment.save *)

Module CommentFacts.
Import Comments.

(** The test of [Comment.save] holds for every instance: the key is
    set, and the cache of related objects has no text to compare the
    content with. *)
Lemma edit_test_always_true (self : Instance) :
  (py_truthy (PyUUID (id (fields self)))
   && py_ne (PyStr (content (fields self)))
            (dict_get (fields_cache (_state self)) "content"))%bool = true.
Proof.
  simpl. unfold dict_get.
  destruct (find _ (fields_cache (_state self))) as [[k r]|]; reflexivity.
Qed.

Lemma Comment_save_unfold fuel self update_fields now :
  Comment_save (S fuel) self update_fields now =
  (self' <- Model_save (mkInstance (with_edit now (fields self)) (_state self))
                       update_fields now ;;
   match parent (fields self') with
   | None => ret self'
   | Some parent_id =>
       p <- related_parent parent_id ;;
       n <- gets (replies_count parent_id) ;;
       Comment_save fuel
         (mkInstance (with_reply_count n (fields p)) (_state p))
         (Some ["reply_count"%string]) now ;;;
       ret (mkInstance (fields self')
              (mkModelState (adding (_state self'))
                 (dict_set (fields_cache (_state self')) "parent"
                           (RelatedComment parent_id))))
   end).
Proof.
  cbn [Comment_save]. rewrite edit_test_always_true. reflexivity.
Qed.

Lemma find_map_replace (k : string) (c' : Comment) db :
  existsb (has_pk k) db = true -> has_pk k c' = true ->
  find (has_pk k) (map (fun r => if has_pk k r then c' else r) db) = Some c'.
Proof.
  intros E H. induction db as [|a l IH]; simpl in *; [discriminate|].
  destruct (has_pk k a) eqn:Q; simpl in *.
  - rewrite H. reflexivity.
  - rewrite Q. auto.
Qed.

(** Saving a stored top-level comment, whatever its content, stores it as
    edited at the time of the save. *)
Lemma save_of_stored_comment fuel row now db :
  In row db -> parent row = None ->
  let saved := with_timestamps (created_at row) now (with_edit now row) in
  store_of (Comment_save (S fuel) (from_db row) None now db)
    = map (fun r => if has_pk (id row) r then saved else r) db /\
  outcome_of (Comment_save (S fuel) (from_db row) None now db)
    = inr (mkInstance saved (mkModelState false [])) /\
  stored (id row) (store_of (Comment_save (S fuel) (from_db row) None now db))
    = Some saved.
Proof.
  intros Hin Hp saved.
  assert (Ex : existsb (has_pk (id row)) db = true).
  { apply existsb_exists. exists row. split; auto.
    unfold has_pk. apply String.eqb_refl. }
  assert (E : Comment_save (S fuel) (from_db row) None now db
              = (map (fun r => if has_pk (id row) r then saved else r) db,
                 inr (mkInstance saved (mkModelState false [])))).
  { rewrite Comment_save_unfold. unfold bind, Model_save. simpl.
    rewrite Ex. simpl. rewrite Hp. reflexivity. }
  rewrite E. simpl. split_ands; auto.
  unfold stored. apply find_map_replace; auto.
  unfold has_pk. simpl. apply String.eqb_refl.
Qed.

(** C9 on the code.  A stored comment that was never edited is read and
    saved with the content it already has: it is stored as edited, with
    the time of the save. *)
Theorem save_without_change_marks_edited :
  let before := Fixtures.comment_a in
  let db' := store_of (Comment_save 1000 (from_db before) None 500
                                    Fixtures.thread) in
  is_edited before = false /\
  option_map content (stored "c-0001" db') = Some (content before) /\
  option_map is_edited (stored "c-0001" db') = Some true /\
  option_map edited_at (stored "c-0001" db') = Some (Some 500).
Proof.
  destruct (save_of_stored_comment 999 Fixtures.comment_a 500 Fixtures.thread)
    as (_ & _ & H); [left; reflexivity | reflexivity |].
  cbv zeta. change (id Fixtures.comment_a) with "c-0001"%string in H.
  rewrite H. split_ands; reflexivity.
Qed.

(** The same for a comment that is created: its first save marks it. *)
Example new_comment_is_stored_as_edited :
  let db' := store_of (Comment_save 1000
                         (new_comment "c-0003" 3 7 "x-0001" "Hello" None)
                         None 500 Fixtures.thread) in
  option_map is_edited (stored "c-0003" db') = Some true.
Proof. reflexivity. Qed.

(** *** The reply count of the parent *)

Lemma set_columns_reply_count src r :
  set_columns src r ["reply_count"%string]
  = Some (with_reply_count (reply_count src) r).
Proof. reflexivity. Qed.

Lemma comment_by_pk db p :
  NoDup (map id db) -> In p db -> find (has_pk (id p)) db = Some p.
Proof.
  induction db as [|a l IH]; simpl; [tauto|].
  intros ND Hin. inversion ND as [|? ? Hn ND']; subst. unfold has_pk at 1.
  destruct (String.eqb (id a) (id p)) eqn:E.
  - apply String.eqb_eq in E. destruct Hin as [->|Hin]; auto.
    exfalso. apply Hn. rewrite E. apply in_map; auto.
  - destruct Hin as [->|Hin]; auto.
    rewrite String.eqb_refl in E. discriminate.
Qed.

Lemma find_app_left {A} (q : A -> bool) l l' x :
  find q l = Some x -> find q (l ++ l') = Some x.
Proof.
  induction l as [|a l IH]; simpl; [discriminate|].
  destruct (q a); auto.
Qed.

Lemma find_map_keeps_pk k (g : Comment -> Comment) db p :
  (forall r, id (g r) = id r) ->
  find (has_pk k) db = Some p ->
  find (has_pk k) (map g db) = Some (g p).
Proof.
  intros Hg. induction db as [|a l IH]; simpl; [discriminate|].
  unfold has_pk at 1 3. rewrite Hg.
  destruct (String.eqb (id a) k); [congruence|auto].
Qed.

Lemma replies_count_map k (g : Comment -> Comment) db :
  (forall r, parent (g r) = parent r) ->
  replies_count k (map g db) = replies_count k db.
Proof.
  intros Hg. unfold replies_count. f_equal.
  induction db as [|a l IH]; simpl; auto.
  rewrite Hg. destruct (parent a) as [q|]; [destruct (String.eqb q k)|];
    simpl; rewrite IH; reflexivity.
Qed.

Lemma insert_of_new_comment self now db :
  adding (_state self) = true ->
  existsb (has_pk (id (fields self))) db = false ->
  Model_save self None now db =
  (db ++ [with_timestamps now now (fields self)],
   inr (mkInstance (with_timestamps now now (fields self))
          (mkModelState false (fields_cache (_state self))))).
Proof.
  intros Ha He. unfold Model_save. rewrite Ha, He. reflexivity.
Qed.

(** Saving a top-level comment with [update_fields=['reply_count']]
    writes that column alone. *)
Lemma save_reply_count fuel p st n now db :
  find (has_pk (id p)) db = Some p -> parent p = None ->
  store_of (Comment_save (S fuel) (mkInstance (with_reply_count n p) st)
              (Some ["reply_count"%string]) now db)
  = map (fun r => if has_pk (id p) r then with_reply_count n r else r) db /\
  exists inst,
    outcome_of (Comment_save (S fuel) (mkInstance (with_reply_count n p) st)
                  (Some ["reply_count"%string]) now db) = inr inst.
Proof.
  intros Fp Hp. rewrite Comment_save_unfold.
  unfold bind, Model_save.
  cbn [fields with_edit with_reply_count id existsb String.eqb Ascii.eqb
       Bool.eqb orb].
  rewrite Fp. rewrite !set_columns_reply_count.
  cbn [fields _state with_edit with_reply_count parent reply_count].
  rewrite Hp. unfold ret. simpl. split; [|eexists; reflexivity].
  apply map_ext. intros r. destruct (has_pk (id p) r); reflexivity.
Qed.

(** Saving a new reply to a top-level comment stores, as the parent's
    [reply_count], the number of comments whose parent it is, the new
    reply included; no other column of the parent is written. *)
Lemma reply_save_recounts fuel reply p now db :
  NoDup (map id db) -> In p db -> parent p = None ->
  adding (_state reply) = true ->
  existsb (has_pk (id (fields reply))) db = false ->
  parent (fields reply) = Some (id p) ->
  let result := Comment_save (S (S fuel)) reply None now db in
  (exists inst, outcome_of result = inr inst) /\
  stored (id p) (store_of result)
    = Some (with_reply_count (replies_count (id p) (store_of result)) p) /\
  replies_count (id p) (store_of result) = replies_count (id p) db + 1.
Proof.
  intros ND Hin Hp Hadd Hnew Hpar result.
  set (c1 := with_timestamps now now (with_edit now (fields reply))).
  set (db1 := db ++ [c1]).
  assert (Fp : find (has_pk (id p)) db1 = Some p).
  { apply find_app_left. apply comment_by_pk; auto. }
  set (n := replies_count (id p) db1).
  assert (Hn : n = replies_count (id p) db + 1).
  { unfold n, db1, replies_count. rewrite filter_app, length_app. simpl.
    rewrite Hpar, String.eqb_refl. simpl. lia. }
  set (g := fun r => if has_pk (id p) r
                     then with_reply_count n r else r).
  destruct (save_reply_count fuel p (mkModelState false []) n now db1 Fp Hp)
    as (Es & inst & Eo).
  assert (E : exists inst', result = (map g db1, inr inst')).
  { unfold result. rewrite Comment_save_unfold.
    unfold bind at 1.
    rewrite (insert_of_new_comment
               (mkInstance (with_edit now (fields reply)) (_state reply))
               now db Hadd Hnew).
    cbn [fields _state with_timestamps with_edit parent].
    rewrite Hpar. fold c1. fold db1.
    unfold bind at 1. unfold related_parent. rewrite Fp.
    unfold bind at 1. unfold gets. fold n.
    unfold bind at 1. unfold from_db. cbn [fields _state].
    destruct (Comment_save (S fuel) _ _ now db1) as [s o] eqn:Q.
    unfold store_of, outcome_of in Es, Eo. simpl in Es, Eo. subst s o.
    unfold ret. eexists. reflexivity. }
  destruct E as [inst' E]. rewrite E. simpl.
  assert (Rc : replies_count (id p) (map g db1) = n).
  { apply replies_count_map. intros r. unfold g.
    destruct (has_pk (id p) r); reflexivity. }
  split_ands.
  - eexists; reflexivity.
  - rewrite Rc. unfold stored.
    rewrite (find_map_keeps_pk (id p) g db1 p); auto.
    + unfold g, has_pk. rewrite String.eqb_refl. reflexivity.
    + intros r. unfold g. destruct (has_pk (id p) r); reflexivity.
  - rewrite Rc. exact Hn.
Qed.

End CommentFacts.

(** * The interest score *)

Module InterestFacts.
Import Interest.

Lemma filter_map_invariant {A} (q : A -> bool) (f : A -> A) l :
  (forall r, q (f r) = q r) -> filter q (map f l) = map f (filter q l).
Proof.
  intros H. induction l as [|a l IH]; simpl; auto.
  rewrite H. destruct (q a); simpl; rewrite IH; reflexivity.
Qed.

Lemma rescored_id k s r : id (rescored k s r) = id r.
Proof. unfold rescored. destruct (has_pk k r); reflexivity. Qed.

Lemma rescored_for_category k s u c r :
  for_category u c (rescored k s r) = for_category u c r.
Proof. unfold rescored. destruct (has_pk k r); reflexivity. Qed.

Lemma rescored_for_tag k s u t r :
  for_tag u t (rescored k s r) = for_tag u t r.
Proof. unfold rescored. destruct (has_pk k r); reflexivity. Qed.

Lemma counted_id kind ts r : id (counted kind ts r) = id r.
Proof.
  unfold counted.
  destruct (String.eqb kind "view"); [|destruct (String.eqb kind "like");
    [|destruct (String.eqb kind "share")]];
    destruct (ts =? 0); reflexivity.
Qed.

(** The weighted sum reads the four counters only. *)
Lemma weighted_score_counted_same kind ts a b :
  view_count a = view_count b -> like_count a = like_count b ->
  share_count a = share_count b -> time_spent a = time_spent b ->
  weighted_score (counted kind ts a) = weighted_score (counted kind ts b).
Proof.
  intros V L S T. unfold counted.
  destruct (String.eqb kind "view"); [|destruct (String.eqb kind "like");
    [|destruct (String.eqb kind "share")]];
    destruct (ts =? 0); unfold weighted_score; simpl;
    rewrite ?V, ?L, ?S, ?T; reflexivity.
Qed.

Section Block.

Variables (lookup : UserInterest -> bool) (fresh : Z -> UserInterest)
          (kind : string) (ts : Z) (db : DB).
Hypothesis Hfresh_id : forall k, id (fresh k) = k.
Hypothesis Hfresh_lookup : forall k, lookup (fresh k) = true.
Hypothesis Hunique : (count lookup (user_interests db) <= 1)%nat.

(** The block of the handler is [tracked]. *)
Lemma block_eq :
  (x <- get_or_create lookup fresh true ;;
   (let '(interest, created) := x in
    calculate_score (counted kind ts interest) ;;; ret tt)) db
  = (tracked lookup fresh kind ts db, inr tt).
Proof.
  unfold bind, get_or_create, tracked, row_before, count in *.
  destruct (filter lookup (rows (user_interests db))) as [|r [|r' l]] eqn:F;
    simpl in Hunique; try lia.
  - unfold calculate_score.
    cbn [user_interests set_user_interests rows next_pk id with_score].
    rewrite !counted_id, Hfresh_id.
    rewrite existsb_app. simpl. unfold has_pk at 2. rewrite Hfresh_id.
    rewrite Z.eqb_refl, orb_true_r. unfold ret. reflexivity.
  - unfold calculate_score. cbn [id with_score]. rewrite !counted_id.
    assert (Hin : In r (rows (user_interests db))).
    { assert (In r (filter lookup (rows (user_interests db))))
        by (rewrite F; left; reflexivity).
      apply filter_In in H. tauto. }
    assert (E : existsb (has_pk (id r)) (rows (user_interests db)) = true).
    { apply existsb_exists. exists r. split; auto. apply Z.eqb_refl. }
    rewrite E. unfold ret. destruct db as [[rs nk] cs tg]. reflexivity.
Qed.

(** After the block the lookup selects one row, with the new score. *)
Lemma tracked_own :
  let r0 := row_before lookup fresh db in
  (forall k s r, lookup (rescored k s r) = lookup r) ->
  filter lookup (rows (user_interests (tracked lookup fresh kind ts db)))
  = [with_score (weighted_score (counted kind ts r0)) r0].
Proof.
  intros r0 Hinv. unfold tracked. fold r0. simpl.
  rewrite filter_map_invariant by (intros; apply Hinv).
  unfold count in Hunique. unfold r0, row_before.
  destruct (filter lookup (rows (user_interests db))) as [|r [|r' l]] eqn:F;
    simpl in Hunique; try lia; simpl.
  - rewrite filter_app, F. simpl. rewrite Hfresh_lookup. simpl.
    unfold rescored, has_pk. rewrite Z.eqb_refl. reflexivity.
  - rewrite F. simpl. unfold rescored, has_pk. rewrite Z.eqb_refl. reflexivity.
Qed.

(** Another lookup, which the inserted row does not match, selects the
    rows it selected, rescored. *)
Lemma tracked_other (q : UserInterest -> bool) :
  let r0 := row_before lookup fresh db in
  (forall k s r, q (rescored k s r) = q r) ->
  (forall k, q (fresh k) = false) ->
  filter q (rows (user_interests (tracked lookup fresh kind ts db)))
  = map (rescored (id r0) (weighted_score (counted kind ts r0)))
        (filter q (rows (user_interests db))).
Proof.
  intros r0 Hinv Hq. unfold tracked. fold r0. simpl.
  rewrite filter_map_invariant by (intros; apply Hinv). f_equal.
  destruct (filter lookup (rows (user_interests db))) eqn:F; simpl; auto.
  rewrite filter_app. simpl. unfold r0, row_before. rewrite F, Hq.
  apply app_nil_r.
Qed.

End Block.

Lemma fresh_category_not_tag u c u' t k :
  for_tag u' t (fresh_for_category u c k) = false.
Proof. unfold for_tag. simpl. apply andb_false_r. Qed.

Lemma fresh_tag_not_category u t u' c k :
  for_category u' c (fresh_for_tag u t k) = false.
Proof. unfold for_category. simpl. apply andb_false_r. Qed.

Lemma fresh_category_matches u c k :
  for_category u c (fresh_for_category u c k) = true.
Proof. unfold for_category. simpl. rewrite !Z.eqb_refl. reflexivity. Qed.

Lemma fresh_tag_matches u t k : for_tag u t (fresh_for_tag u t k) = true.
Proof. unfold for_tag. simpl. rewrite !Z.eqb_refl. reflexivity. Qed.

(** Primary keys stay unique and below the sequence. *)
Lemma tracked_keys lookup fresh kind ts db :
  (forall k, id (fresh k) = k) ->
  NoDup (map id (rows (user_interests db))) ->
  (forall r, In r (rows (user_interests db)) -> id r < next_pk (user_interests db)) ->
  let db' := tracked lookup fresh kind ts db in
  NoDup (map id (rows (user_interests db'))) /\
  (forall r, In r (rows (user_interests db')) -> id r < next_pk (user_interests db')).
Proof.
  intros Hid ND LT db'. unfold db', tracked, row_before. simpl.
  rewrite map_map.
  rewrite (map_ext _ id) by (intros; apply rescored_id).
  destruct (filter lookup (rows (user_interests db))) eqn:F; simpl.
  - split.
    + rewrite map_app. simpl. rewrite Hid.
      apply NoDup_rev in ND. rewrite <- (rev_involutive (_ ++ _)).
      apply NoDup_rev. rewrite rev_app_distr. simpl. constructor; auto.
      rewrite <- in_rev. intros Hin.
      apply in_map_iff in Hin as (x & E & Hx). apply LT in Hx. lia.
    + intros r Hr. apply in_map_iff in Hr as (x & E & Hx). subst r.
      rewrite rescored_id. apply in_app_iff in Hx as [Hx|[<-|[]]].
      * apply LT in Hx. lia.
      * rewrite Hid. lia.
  - split; auto.
    intros r Hr. apply in_map_iff in Hr as (x & E & Hx). subst r.
    rewrite rescored_id. auto.
Qed.

Section Post.

Variables (request : Request) (db : DB) (u c t : Z) (kind : string).
Hypothesis Huser : request_user request = Some u.
Hypothesis Hkind : data_type request = Some kind.
Hypothesis Hkind' : kind <> ""%string.
Hypothesis Hc : truthy_id (data_category_id request) = Some c.
Hypothesis Ht : truthy_id (data_tag_id request) = Some t.
Hypothesis Hcat : existsb (Z.eqb c) (categories db) = true.
Hypothesis Htag : existsb (Z.eqb t) (tags db) = true.
Hypothesis Hwf : wf db.

Local Abbreviation ts := (time_spent_of request).
Local Abbreviation db1 := (after_category u c kind ts db).
Local Abbreviation db2 := (after_tag u t kind ts db1).
Local Abbreviation r0c := (category_row u c db).
Local Abbreviation r0t := (tag_row u t db).
Local Abbreviation s1 := (weighted_score (counted kind ts r0c)).
Local Abbreviation r0t1 := (tag_row u t db1).
Local Abbreviation s2 := (weighted_score (counted kind ts r0t1)).

Lemma tag_rows_after_category :
  filter (for_tag u t) (rows (user_interests db1))
  = map (rescored (id r0c) s1) (filter (for_tag u t) (rows (user_interests db))).
Proof.
  apply (tracked_other (for_category u c) (fresh_for_category u c) kind ts db
           (for_tag u t)).
  - intros. apply rescored_for_tag.
  - intros. apply fresh_category_not_tag.
Qed.

Lemma tag_unique_after_category :
  (count (for_tag u t) (user_interests db1) <= 1)%nat.
Proof.
  unfold count. rewrite tag_rows_after_category, length_map.
  destruct Hwf as (_ & _ & _ & U). apply U.
Qed.

Lemma category_block_eq :
  ('(interest, created) <- get_or_create_category u c ;;
   calculate_score (counted kind ts interest) ;;; ret tt) db
  = (db1, inr tt).
Proof.
  pose proof (block_eq (for_category u c) (fresh_for_category u c) kind ts db
                (fun k => eq_refl)
                ltac:(destruct Hwf as (_ & _ & U & _); apply U)) as B.
  unfold bind at 1 in B. unfold bind at 1.
  unfold get_or_create_category. rewrite Hcat. exact B.
Qed.

Lemma tag_block_eq :
  ('(interest, created) <- get_or_create_tag u t ;;
   calculate_score (counted kind ts interest) ;;; ret tt) db1
  = (db2, inr tt).
Proof.
  pose proof (block_eq (for_tag u t) (fresh_for_tag u t) kind ts db1
                (fun k => eq_refl) tag_unique_after_category) as B.
  unfold bind at 1 in B. unfold bind at 1.
  unfold get_or_create_tag.
  replace (tags db1) with (tags db) by reflexivity. rewrite Htag. exact B.
Qed.

Lemma TrackInteractionView_post_eq :
  TrackInteractionView_post request db
  = (db2, inr (mkResponse 200 "Interaction tracked successfully")).
Proof.
  unfold TrackInteractionView_post. rewrite Huser, Hkind.
  destruct (String.eqb kind "") eqn:E;
    [apply String.eqb_eq in E; contradiction|].
  rewrite Hc, Ht. cbv zeta.
  unfold bind at 1. rewrite category_block_eq. cbv beta iota.
  unfold bind at 1. rewrite tag_block_eq. reflexivity.
Qed.

Lemma category_row_after_category :
  filter (for_category u c) (rows (user_interests db1)) = [with_score s1 r0c].
Proof.
  apply (tracked_own (for_category u c) (fresh_for_category u c) kind ts db).
  - intros. apply fresh_category_matches.
  - destruct Hwf as (_ & _ & U & _). apply U.
  - intros. apply rescored_for_category.
Qed.

Lemma tag_row_after_tag :
  filter (for_tag u t) (rows (user_interests db2)) = [with_score s2 r0t1].
Proof.
  apply (tracked_own (for_tag u t) (fresh_for_tag u t) kind ts db1).
  - intros. apply fresh_tag_matches.
  - apply tag_unique_after_category.
  - intros. apply rescored_for_tag.
Qed.

(** The tag row is scored from the counters it had before the call. *)
Lemma tag_score_from_before : s2 = weighted_score (counted kind ts r0t).
Proof.
  unfold tag_row, row_before. rewrite tag_rows_after_category.
  destruct (filter (for_tag u t) (rows (user_interests db))) as [|r l]; simpl.
  - apply weighted_score_counted_same; reflexivity.
  - apply weighted_score_counted_same; unfold rescored;
      destruct (has_pk _ r); reflexivity.
Qed.

Lemma db1_keys :
  NoDup (map id (rows (user_interests db1))) /\
  (forall r, In r (rows (user_interests db1)) ->
             id r < next_pk (user_interests db1)).
Proof.
  destruct Hwf as (ND & LT & _).
  apply (tracked_keys (for_category u c) (fresh_for_category u c) kind ts db);
    auto.
Qed.

(** The category row keeps, through the tag block, the score the category
    block gave it. *)
Lemma category_row_after_tag :
  exists rc, filter (for_category u c) (rows (user_interests db2)) = [rc] /\
             score rc = s1.
Proof.
  unfold after_tag at 1.
  rewrite (tracked_other (for_tag u t) (fresh_for_tag u t) kind ts db1
             (for_category u c)).
  2: intros; apply rescored_for_category.
  2: intros; apply fresh_tag_not_category.
  rewrite category_row_after_category.
  change (row_before (for_tag u t) (fresh_for_tag u t) db1) with r0t1.
  cbn [map].
  eexists. split; [reflexivity|].
  unfold rescored. destruct (has_pk (id r0t1) (with_score s1 r0c)) eqn:E;
    [|reflexivity].
  cbn [score with_score]. unfold has_pk in E. cbn [id with_score] in E.
  apply Z.eqb_eq in E.
  destruct db1_keys as [ND LT].
  assert (Hin : In (with_score s1 r0c) (rows (user_interests db1))).
  { assert (H : In (with_score s1 r0c)
                   (filter (for_category u c) (rows (user_interests db1))))
      by (rewrite category_row_after_category; left; reflexivity).
    apply filter_In in H. tauto. }
  revert E. unfold tag_row at 1 2. unfold row_before.
  destruct (filter (for_tag u t) (rows (user_interests db1))) as [|r l] eqn:F;
    intros E.
  - apply LT in Hin. cbn [id with_score fresh_for_tag] in Hin, E. lia.
  - assert (Hr : In r (rows (user_interests db1))).
    { assert (H : In r (filter (for_tag u t) (rows (user_interests db1))))
        by (rewrite F; left; reflexivity).
      apply filter_In in H. tauto. }
    assert (r = with_score s1 r0c).
    { apply (InteractionsFacts.NoDup_map_inj id
               (rows (user_interests db1))); auto. }
    subst r. apply weighted_score_counted_same; reflexivity.
Qed.

End Post.

Lemma find_rescored k s l :
  existsb (has_pk k) l = true ->
  option_map score (find (has_pk k) (map (rescored k s) l)) = Some s.
Proof.
  induction l as [|a l IH]; cbn [existsb map find]; [discriminate|].
  intros E.
  assert (H : has_pk k (rescored k s a) = has_pk k a).
  { unfold rescored. destruct (has_pk k a) eqn:Q; exact Q. }
  rewrite H. destruct (has_pk k a) eqn:Q.
  - unfold rescored. rewrite Q. reflexivity.
  - apply IH. exact E.
Qed.

(** The weighted sum, written out over the rationals. *)
Lemma weighted_score_formula self :
  (weighted_score self ==
   inject_Z (view_count self) * 1 + inject_Z (like_count self) * 5
   + inject_Z (share_count self) * 10
   + (inject_Z (time_spent self) / 60) * 2)%Q.
Proof.
  unfold weighted_score. rewrite !inject_Z_plus, !inject_Z_mult.
  reflexivity.
Qed.

(** C4.  [calculate_score] stores and returns the weighted sum
    view_count*1 + like_count*5 + share_count*10 + (time_spent/60)*2 of
    the instance; the row of the scenario scores 24; and a tracking call
    that names a category and a tag leaves one row for each, every one
    scored from its own counters as counted up by the call. *)
Theorem score_is_weighted_sum :
  (forall self db,
     existsb (has_pk (id self)) (rows (user_interests db)) = true ->
     exists db',
       calculate_score self db
         = (db', inr (with_score (weighted_score self) self,
                      weighted_score self)) /\
       option_map score (find (has_pk (id self)) (rows (user_interests db')))
         = Some (weighted_score self) /\
       (weighted_score self ==
        inject_Z (view_count self) * 1 + inject_Z (like_count self) * 5
        + inject_Z (share_count self) * 10
        + (inject_Z (time_spent self) / 60) * 2)%Q) /\
  (forall self,
     view_count self = 10 -> like_count self = 2 -> share_count self = 0 ->
     time_spent self = 120 -> (weighted_score self == 24)%Q) /\
  (forall request db u c t kind,
     request_user request = Some u ->
     data_type request = Some kind -> kind <> ""%string ->
     truthy_id (data_category_id request) = Some c ->
     truthy_id (data_tag_id request) = Some t ->
     existsb (Z.eqb c) (categories db) = true ->
     existsb (Z.eqb t) (tags db) = true ->
     wf db ->
     let ts := time_spent_of request in
     let result := TrackInteractionView_post request db in
     outcome_of result
       = inr (mkResponse 200 "Interaction tracked successfully") /\
     exists rc rt,
       filter (for_category u c) (rows (user_interests (store_of result)))
         = [rc] /\
       filter (for_tag u t) (rows (user_interests (store_of result))) = [rt] /\
       score rc = weighted_score
                    (counted kind ts
                       (row_before (for_category u c)
                                   (fresh_for_category u c) db)) /\
       score rt = weighted_score
                    (counted kind ts
                       (row_before (for_tag u t) (fresh_for_tag u t) db))).
Proof.
  split_ands.
  - intros self db E. unfold calculate_score. simpl. rewrite E.
    eexists. split_ands; [reflexivity| |apply weighted_score_formula].
    simpl. apply (find_rescored (id self)). exact E.
  - intros self V L S T. unfold weighted_score. rewrite V, L, S, T.
    reflexivity.
  - intros request db u c t kind Hu Hk Hk' Hc Ht Hcat Htag Hwf ts result.
    unfold result.
    rewrite (TrackInteractionView_post_eq request db u c t kind); auto.
    simpl. split; [reflexivity|].
    destruct (category_row_after_tag request db u c t kind Hwf)
      as (rc & Frc & Src).
    exists rc. eexists. split_ands.
    + exact Frc.
    + apply (tag_row_after_tag request db u c t kind Hwf).
    + exact Src.
    + simpl. apply (tag_score_from_before request db u c t kind).
Qed.

Lemma interests0_wf : wf Fixtures.interests0.
Proof.
  unfold wf, count. simpl.
  split_ands; [constructor | intros r [] | intros; lia | intros; lia].
Qed.

Lemma score_is_weighted_sum_witness :
  (weighted_score Fixtures.interest_t == 24)%Q /\
  wf Fixtures.interests0 /\
  let result := TrackInteractionView_post Fixtures.alice_viewed
                  Fixtures.interests0 in
  exists rc rt,
    filter (for_category 1 3) (rows (user_interests (store_of result))) = [rc] /\
    filter (for_tag 1 5) (rows (user_interests (store_of result))) = [rt] /\
    (score rc == 4)%Q /\ (score rt == 4)%Q.
Proof.
  split.
  { exact (proj1 (proj2 score_is_weighted_sum) Fixtures.interest_t
             eq_refl eq_refl eq_refl eq_refl). }
  split; [exact interests0_wf|].
  destruct (proj2 (proj2 score_is_weighted_sum) Fixtures.alice_viewed
              Fixtures.interests0 1 3 5 "view"%string eq_refl eq_refl
              ltac:(discriminate) eq_refl eq_refl eq_refl eq_refl interests0_wf)
    as (_ & rc & rt & H1 & H2 & H3 & H4).
  exists rc, rt. split; [exact H1|]. split; [exact H2|].
  split; [rewrite H3|rewrite H4]; reflexivity.
Defined.

(** The handler stores the score alone: every row that was in the table
    is still there with the counters it had. *)
Lemma tracked_counters_not_stored lookup fresh kind ts db r :
  In r (rows (user_interests db)) ->
  exists r',
    In r' (rows (user_interests (tracked lookup fresh kind ts db))) /\
    id r' = id r /\
    view_count r' = view_count r /\ like_count r' = like_count r /\
    share_count r' = share_count r /\ time_spent r' = time_spent r.
Proof.
  intros H. unfold tracked. simpl.
  set (k := id (row_before lookup fresh db)).
  set (s := weighted_score (counted kind ts (row_before lookup fresh db))).
  exists (rescored k s r). split.
  - apply in_map.
    destruct (filter lookup (rows (user_interests db))); simpl; auto.
    apply in_app_iff. left; auto.
  - unfold rescored. destruct (has_pk k r); simpl; auto.
Qed.

Example second_view_scores_the_same :
  let once := store_of (TrackInteractionView_post Fixtures.alice_viewed
                          Fixtures.interests0) in
  let twice := store_of (TrackInteractionView_post Fixtures.alice_viewed once) in
  map view_count (rows (user_interests once)) = [0; 0] /\
  map view_count (rows (user_interests twice)) = [0; 0] /\
  map score (rows (user_interests twice)) = map score (rows (user_interests once)).
Proof. vm_compute. split_ands; reflexivity. Qed.

End InterestFacts.

(** * Push subscriptions and delivery *)

Module PushFacts.
Import Push.

(** *** Delivery *)

(** A response that is true has a status outside 400..599: the test
    for an endpoint that is gone never holds. *)
Lemma gone_never response : gone response = false.
Proof.
  destruct response as [[st]|]; [|reflexivity].
  unfold gone, HTTPResponse_bool, ok. simpl.
  destruct (st =? 404) eqn:A; [apply Z.eqb_eq in A; subst; reflexivity|].
  destruct (st =? 410) eqn:B; [apply Z.eqb_eq in B; subst; reflexivity|].
  simpl. apply andb_false_r.
Qed.

Section Sending.

Variable webpush : SubscriptionInfo -> Payload -> Outcome.

Lemma save_last_used_flags k now db :
  map is_active (rows (save_last_used k now db)) = map is_active (rows db) /\
  map id (rows (save_last_used k now db)) = map id (rows db).
Proof.
  unfold save_last_used. simpl. rewrite !map_map.
  split; apply map_ext; intros r; destruct (has_pk k r); reflexivity.
Qed.

(** One attempt: one more sent or one more failed, no flag changed, no
    subscription listed as failed. *)
Lemma attempt_step payload now st s :
  let st' := attempt webpush payload now st s in
  map is_active (rows (loop_db st')) = map is_active (rows (loop_db st)) /\
  map id (rows (loop_db st')) = map id (rows (loop_db st)) /\
  failed_list st' = failed_list st /\
  sent_count st' = sent_count st + (if delivered webpush payload s then 1 else 0) /\
  failed_count st' = failed_count st + (if delivered webpush payload s then 0 else 1).
Proof.
  unfold attempt, delivered.
  destruct (webpush _ payload) as [|response|]; simpl.
  - destruct (save_last_used_flags (id s) now (loop_db st)) as [A B].
    split_ands; auto; lia.
  - rewrite gone_never. simpl. split_ands; auto; lia.
  - split_ands; auto; lia.
Qed.

Lemma loop_steps payload now subs st :
  let st' := fold_left (attempt webpush payload now) subs st in
  map is_active (rows (loop_db st')) = map is_active (rows (loop_db st)) /\
  map id (rows (loop_db st')) = map id (rows (loop_db st)) /\
  failed_list st' = failed_list st /\
  sent_count st'
    = sent_count st + Z.of_nat (List.length (filter (delivered webpush payload) subs)) /\
  failed_count st'
    = failed_count st
      + Z.of_nat (List.length (filter (fun s => negb (delivered webpush payload s)) subs)).
Proof.
  revert st. induction subs as [|s subs IH]; intros st;
    cbn [fold_left filter].
  - simpl. split_ands; auto; lia.
  - destruct (attempt_step payload now st s) as (A & B & C & D & E).
    destruct (IH (attempt webpush payload now st s)) as (A' & B' & C' & D' & E').
    split_ands; try congruence.
    + rewrite D', D. destruct (delivered webpush payload s);
        cbn [negb List.length]; lia.
    + rewrite E', E. destruct (delivered webpush payload s);
        cbn [negb List.length]; lia.
Qed.

(** What [send_push_notification] does, for every transport: it returns
    a result; every active subscription of the user is tried, [sent]
    counts those the transport accepted and [failed] the others; and the
    flags of the stored subscriptions are as before, also for an
    endpoint the service reports gone. *)
Lemma send_push_notification_effect u title body_ data_ icon badge url now db :
  let r := send_push_notification webpush u title body_ data_ icon badge url
             now db in
  exists payload,
    map is_active (rows (fst r)) = map is_active (rows db) /\
    map id (rows (fst r)) = map id (rows db) /\
    sent (snd r)
      = Z.of_nat (List.length (filter (delivered webpush payload)
                                      (active_subscriptions u db))) /\
    failed (snd r)
      = Z.of_nat (List.length
                    (filter (fun s => negb (delivered webpush payload s))
                            (active_subscriptions u db))) /\
    (failed_subscriptions (snd r) = None
     \/ failed_subscriptions (snd r) = Some []).
Proof.
  unfold send_push_notification.
  destruct (active_subscriptions u db) as [|s subs] eqn:A.
  - exists (mkPayload title body_ "" "" []). simpl. split_ands; auto.
  - cbv zeta.
    match goal with
    | |- context [fold_left (attempt webpush ?p now) ?l ?s0] =>
        destruct (loop_steps p now l s0) as (H1 & H2 & H3 & H4 & H5);
        exists p
    end.
    cbn [fst snd sent failed failed_subscriptions loop_db sent_count
         failed_count failed_list] in *.
    split_ands; auto.
    right. rewrite H3. reflexivity.
Qed.

End Sending.

(** C5 on the code.  Two active subscriptions, the service answers 410
    for the first and accepts the second: the result is one sent and one
    failed, and the first subscription is still active and is not listed
    as failed. *)
Theorem gone_endpoint_stays_active :
  let r := send_push_notification Fixtures.push_service 1 "News" "Budget"
             None None None None 100 Fixtures.devices in
  sent (snd r) = 1 /\ failed (snd r) = 1 /\
  failed_subscriptions (snd r) = Some [] /\
  active_flag 1 (fst r) = Some true /\
  active_flag 2 (fst r) = Some true.
Proof. vm_compute. split_ands; reflexivity. Qed.

(** *** Subscribing *)

Section Subscribing.

Variable URLValidator : string -> bool.

(** A subscription whose endpoint is already stored, for whichever user
    and in whichever state, does not pass the serializer: the answer is
    400 with an error on [endpoint], and the table is left as it was. *)
Lemma resubscription_is_rejected request now db u e :
  request_user request = Some u ->
  required_char (data_endpoint (data request)) 500 = Some e ->
  exists_ (for_endpoint e) db = true ->
  exists errors,
    PushSubscriptionView_post URLValidator request now db
      = (db, inr (mkResponse 400 (Errors ("endpoint"%string :: errors)))).
Proof.
  intros Hu He Hex. unfold PushSubscriptionView_post. rewrite Hu.
  unfold PushSubscriptionSerializer_is_valid. rewrite He, Hex.
  rewrite andb_false_r.
  destruct (required_char (data_p256dh (data request)) 255);
    destruct (required_char (data_auth (data request)) 255);
    destruct (data_device_name (data request)) as [dn|];
    try destruct (Nat.leb (String.length (strip dn)) 100);
    eexists; reflexivity.
Qed.

(** A valid subscription has an endpoint that no row has; it is stored
    for the requester, active, with the submitted keys. *)
Lemma first_subscription_is_stored request now db u v :
  request_user request = Some u ->
  PushSubscriptionSerializer_is_valid URLValidator (data request) db = inr v ->
  exists r,
    exists_ (for_endpoint (validated_endpoint v)) db = false /\
    PushSubscriptionView_post URLValidator request now db
      = (mkTable (r :: rows db) (next_pk db + 1),
         inr (mkResponse 201 (Saved "Push subscription saved successfully" r))) /\
    user r = u /\ endpoint r = validated_endpoint v /\
    p256dh r = validated_p256dh v /\ auth r = validated_auth v /\
    is_active r = true.
Proof.
  intros Hu Hv.
  assert (Hnew : exists_ (for_endpoint (validated_endpoint v)) db = false).
  { unfold PushSubscriptionSerializer_is_valid in Hv.
    destruct (required_char (data_endpoint (data request)) 500) as [e|];
      [|destruct (required_char (data_p256dh (data request)) 255);
        destruct (required_char (data_auth (data request)) 255);
        destruct (data_device_name (data request)) as [dn|];
        try destruct (Nat.leb (String.length (strip dn)) 100);
        discriminate].
    destruct (URLValidator e && negb (exists_ (for_endpoint e) db))%bool eqn:E.
    - apply andb_true_iff in E as [_ E]. apply negb_true_iff in E.
      destruct (required_char (data_p256dh (data request)) 255);
        destruct (required_char (data_auth (data request)) 255);
        destruct (data_device_name (data request)) as [dn|];
        try destruct (Nat.leb (String.length (strip dn)) 100);
        try discriminate; inversion Hv; subst; exact E.
    - destruct (required_char (data_p256dh (data request)) 255);
        destruct (required_char (data_auth (data request)) 255);
        destruct (data_device_name (data request)) as [dn|];
        try destruct (Nat.leb (String.length (strip dn)) 100);
        discriminate. }
  unfold PushSubscriptionView_post. rewrite Hu, Hv.
  unfold bind, update_or_create.
  assert (F : filter (for_endpoint (validated_endpoint v)) (rows db) = []).
  { unfold exists_ in Hnew.
    induction (rows db) as [|a l IH]; simpl in *; auto.
    destruct (for_endpoint (validated_endpoint v) a); [discriminate|auto]. }
  rewrite F. eexists. split_ands; try reflexivity. exact Hnew.
Qed.

End Subscribing.

(** C10 on the code.  The endpoint is stored, inactive, for user 1.  User
    2 subscribes with that endpoint and well-formed keys: the request is
    answered 400 and the row is as it was: still of user 1, with the old
    keys, inactive. *)
Theorem existing_endpoint_is_not_reassigned :
  let r := PushSubscriptionView_post Fixtures.accepts_http
             Fixtures.bob_subscribes 100 Fixtures.stale_devices in
  fst r = Fixtures.stale_devices /\
  option_map status_code (match snd r with
                          | inr x => Some x | inl _ => None end) = Some 400 /\
  map user (rows (fst r)) = [1] /\
  map is_active (rows (fst r)) = [false] /\
  map p256dh (rows (fst r)) = ["pk-a"%string].
Proof. vm_compute. split_ands; reflexivity. Qed.

End PushFacts.

(** * The recommended feed *)

Module FeedFacts.
Import Feed.

(** *** Sorting and slicing *)

Section Sorting.

Variable A : Type.
Variable leb : A -> A -> bool.
Hypothesis leb_total : forall a b, leb a b = true \/ leb b a = true.
Hypothesis leb_trans :
  forall a b c, leb a b = true -> leb b c = true -> leb a c = true.

Lemma insert_sorted_Forall (P : A -> Prop) x l :
  P x -> Forall P l -> Forall P (insert_sorted leb x l).
Proof.
  intros Hx. induction l as [|y l IH]; simpl; intros H.
  - constructor; auto.
  - inversion H; subst. destruct (leb x y); constructor; auto.
Qed.

Lemma sort_by_Forall (P : A -> Prop) l :
  Forall P l -> Forall P (sort_by leb l).
Proof.
  induction l as [|a l IH]; simpl; intros H; [constructor|].
  inversion H; subst. apply insert_sorted_Forall; auto.
Qed.

Lemma insert_sorted_sorted x l :
  StronglySorted (ordered_by leb) l -> StronglySorted (ordered_by leb) (insert_sorted leb x l).
Proof.
  induction l as [|y l IH]; simpl; intros H.
  - constructor; constructor.
  - inversion H as [|? ? Hs Hf]; subst.
    destruct (leb x y) eqn:E.
    + constructor; auto. constructor; auto.
      eapply Forall_impl; [|exact Hf]. intros z Hz. unfold ordered_by in *.
      eapply leb_trans; eauto.
    + constructor; auto.
      apply insert_sorted_Forall; auto.
      destruct (leb_total x y) as [T|T]; [congruence|exact T].
Qed.

Lemma sort_by_sorted l : StronglySorted (ordered_by leb) (sort_by leb l).
Proof.
  induction l as [|a l IH]; simpl; [constructor|].
  apply insert_sorted_sorted; auto.
Qed.

End Sorting.

Section Sublists.

Variable A : Type.
Variable R : A -> A -> Prop.

Lemma firstn_Forall (P : A -> Prop) n l : Forall P l -> Forall P (firstn n l).
Proof.
  revert l. induction n as [|n IH]; intros [|a l] H; simpl; auto.
  inversion H; subst. constructor; auto.
Qed.

Lemma skipn_Forall (P : A -> Prop) n l : Forall P l -> Forall P (skipn n l).
Proof.
  revert l. induction n as [|n IH]; intros [|a l] H; simpl; auto.
  inversion H; subst. auto.
Qed.

Lemma firstn_sorted n l : StronglySorted R l -> StronglySorted R (firstn n l).
Proof.
  revert l. induction n as [|n IH]; intros [|a l] H; simpl;
    try constructor.
  - inversion H; subst. auto.
  - inversion H; subst. apply firstn_Forall; auto.
Qed.

Lemma skipn_sorted n l : StronglySorted R l -> StronglySorted R (skipn n l).
Proof.
  revert l. induction n as [|n IH]; intros [|a l] H; simpl; auto.
  inversion H; subst. auto.
Qed.

Lemma slice_Forall (P : A -> Prop) l a b :
  Forall P l -> Forall P (slice l a b).
Proof. intros H. unfold slice. apply firstn_Forall, skipn_Forall, H. Qed.

Lemma slice_sorted l a b : StronglySorted R l -> StronglySorted R (slice l a b).
Proof. intros H. unfold slice. apply firstn_sorted, skipn_sorted, H. Qed.

(** A page is no longer than the page size. *)
Lemma slice_page_length (l : list A) page_ page_size_ :
  1 <= page_ -> 0 <= page_size_ ->
  (List.length (slice l ((page_ - 1) * page_size_)
                        ((page_ - 1) * page_size_ + page_size_))
   <= Z.to_nat page_size_)%nat.
Proof.
  intros Hp Hs. unfold slice. rewrite length_firstn.
  set (len := Z.of_nat (List.length l)).
  assert (0 <= (page_ - 1) * page_size_) by nia.
  unfold clamp_index.
  destruct ((page_ - 1) * page_size_ <? 0) eqn:E1; [apply Z.ltb_lt in E1; lia|].
  destruct ((page_ - 1) * page_size_ + page_size_ <? 0) eqn:E2;
    [apply Z.ltb_lt in E2; lia|].
  apply Nat.le_trans with (1 := Nat.le_min_l _ _). lia.
Qed.

End Sublists.

Lemma map_sorted {A B} (R : A -> A -> Prop) (R' : B -> B -> Prop)
    (P : A -> Prop) (f : A -> B) l :
  (forall a b, P a -> P b -> R a b -> R' (f a) (f b)) ->
  Forall P l -> StronglySorted R l -> StronglySorted R' (map f l).
Proof.
  intros H HP HS. induction HS as [|a l HS IH Hf]; simpl; [constructor|].
  inversion HP; subst. constructor; auto.
  apply Forall_map. rewrite Forall_forall in *. intros x Hx. auto.
Qed.

(** *** The recommended feed *)

Example Article_is_not_in_news_models :
  from_import news_models "Article" = inl ImportError /\
  from_import news_models "NewsArticle" = inr tt.
Proof. split; reflexivity. Qed.

(** C6 on the code.  Every request to the recommended feed ends in an
    exception
    before a row is read: [ValueError] when [page_size] or [page] is not
    an integer, and otherwise [ImportError], since both feed builders
    start by importing [Article] from [news.models], which has no such
    name.  No request receives a feed, trending or personalized. *)
Theorem feed_import_fails :
  forall request now db,
    RecommendedFeedView_get request now db
    = match query_page_size request, query_page request with
      | not_an_integer, _ => inl ValueError
      | _, not_an_integer => inl ValueError
      | _, _ => inl ImportError
      end.
Proof.
  intros [u ps pg] now db. unfold RecommendedFeedView_get.
  cbn [query_page_size query_page request_user].
  destruct ps, pg; cbn [int_]; try reflexivity; destruct u; reflexivity.
Qed.

(** The requests of the scenario: an anonymous one, and one of a user
    with an interest row. *)
Example feed_of_the_scenario :
  RecommendedFeedView_get Fixtures.anonymous_feed 1000000 Fixtures.feed_db
  = inl ImportError /\
  filter (fun r => Interest.user r =? 1)
         (user_interests Fixtures.alice_interested) <> [] /\
  RecommendedFeedView_get Fixtures.alice_feed 1000000 Fixtures.alice_interested
  = inl ImportError.
Proof. split_ands; [reflexivity|discriminate|reflexivity]. Qed.

End FeedFacts.

(** * The generic endpoints: refusals, lists and statistics *)

Module EndpointFacts.
Import Interactions OwnedViews InteractionsFacts.

(** X1.  A toggle request of an authenticated user that leaves out
    [content_type] or [object_id] (or sends 0 or the empty string), or
    that names a content type that does not exist, is answered 400 by
    each of the three toggle endpoints, and the store is as before. *)
Theorem toggle_bad_request_changes_nothing route request now db u :
  request_user request = Some u ->
  (required_fields request = None \/
   exists ct oid, required_fields request = Some (ct, oid) /\
                  find (fun c => ct_id c =? ct) (content_types db) = None) ->
  exists r, urlpatterns route request now db = (db, inr r) /\
            status_code r = HTTP_400_BAD_REQUEST /\ applied r = None.
Proof.
  intros Hu [Hf|(ct & oid & Hf & Hc)].
  - destruct route; simpl;
      [unfold LikeToggleView_post | unfold DislikeToggleView_post
       | unfold BookmarkToggleView_post];
      unfold bind, authenticated; rewrite Hu; unfold ret at 1;
      cbv beta iota; rewrite Hf; eexists; split_ands; reflexivity.
  - destruct route; simpl;
      [unfold LikeToggleView_post | unfold DislikeToggleView_post
       | unfold BookmarkToggleView_post];
      unfold bind, authenticated; rewrite Hu; unfold ret at 1;
      cbv beta iota; rewrite Hf; cbv beta iota;
      unfold try_ContentType_get, ContentType_get; rewrite Hc;
      eexists; split_ands; reflexivity.
Qed.

Lemma toggle_bad_request_changes_nothing_witness :
  exists r,
    urlpatterns bookmark_toggle (mkRequest (Some 1) (Some 99) (Some "x-0001"%string))
                100 Fixtures.store0 = (Fixtures.store0, inr r) /\
    status_code r = HTTP_400_BAD_REQUEST /\ applied r = None.
Proof.
  apply (toggle_bad_request_changes_nothing bookmark_toggle
           (mkRequest (Some 1) (Some 99) (Some "x-0001"%string)) 100
           Fixtures.store0 1 eq_refl).
  right. exists 99, "x-0001"%string. split; reflexivity.
Defined.

(** *** The list of a user's bookmarks *)

Lemma insert_sorted_In {A} (leb : A -> A -> bool) x y l :
  In y (insert_sorted leb x l) <-> y = x \/ In y l.
Proof.
  induction l as [|a l IH]; simpl.
  - intuition.
  - destruct (leb x a); simpl; [intuition|]. rewrite IH. intuition.
Qed.

Lemma sort_by_In {A} (leb : A -> A -> bool) y l :
  In y (sort_by leb l) <-> In y l.
Proof.
  induction l as [|a l IH]; simpl; [tauto|].
  rewrite insert_sorted_In, IH. intuition.
Qed.

Lemma sort_by_length {A} (leb : A -> A -> bool) l :
  List.length (sort_by leb l) = List.length l.
Proof.
  induction l as [|a l IH]; simpl; auto.
  rewrite <- IH. generalize (sort_by leb l). intros m.
  induction m as [|b m IHm]; simpl; auto.
  destruct (leb a b); simpl; auto.
Qed.

Lemma newest_first_sorted l :
  StronglySorted (fun a b => created_at b <= created_at a)
                 (sort_by newest_first l).
Proof.
  assert (H : StronglySorted (ordered_by newest_first) (sort_by newest_first l)).
  { apply FeedFacts.sort_by_sorted.
    - intros a b. unfold newest_first.
      destruct (Z.leb_spec (created_at b) (created_at a)); auto.
      right. apply Z.leb_le. lia.
    - intros a b c. unfold newest_first. rewrite !Z.leb_le. lia. }
  induction H as [|a m Hs IH Hf]; constructor; auto.
  eapply Forall_impl; [|exact Hf]. intros b Hb. apply Z.leb_le. exact Hb.
Qed.

(** X2.  The bookmark list of an authenticated user holds exactly the
    stored bookmarks of that user, each once, the newest first. *)
Theorem user_bookmarks_are_own_newest_first request db u :
  request_user request = Some u ->
  exists l,
    UserBookmarksView_get_queryset request db = inr l /\
    (forall r, In r l <-> In r (rows (bookmarks db)) /\ user r = u) /\
    List.length l = count (fun r => user r =? u) (bookmarks db) /\
    StronglySorted (fun a b => created_at b <= created_at a) l.
Proof.
  intros Hu. unfold UserBookmarksView_get_queryset. rewrite Hu.
  eexists. split; [reflexivity|]. split_ands.
  - intros r. rewrite sort_by_In, filter_In, Z.eqb_eq. tauto.
  - apply sort_by_length.
  - apply newest_first_sorted.
Qed.

Lemma user_bookmarks_are_own_newest_first_witness :
  exists l,
    UserBookmarksView_get_queryset Fixtures.alice_on_x
      (store_of (BookmarkToggleView_post Fixtures.alice_on_x 100
                   Fixtures.store0)) = inr l /\
    List.length l = 1%nat.
Proof.
  destruct (user_bookmarks_are_own_newest_first Fixtures.alice_on_x
              (store_of (BookmarkToggleView_post Fixtures.alice_on_x 100
                           Fixtures.store0)) 1 eq_refl)
    as (l & E & _ & L & _).
  exists l. split; [exact E|]. rewrite L. reflexivity.
Defined.

(** The target is in the list of the user exactly when the user holds a
    bookmark of it. *)
Lemma listed_iff_holds db u ct oid :
  existsb (for_target ct oid)
    (sort_by newest_first (filter (fun r => user r =? u) (rows (bookmarks db))))
  = holds (bookmarks db) u ct oid.
Proof.
  unfold holds, exists_. apply eq_true_iff_eq.
  rewrite !existsb_exists. split.
  - intros (x & Hin & Hx). apply sort_by_In, filter_In in Hin.
    destruct Hin as [Hin Hu]. exists x. split; auto.
    unfold for_pair, for_target in *. rewrite Hu. exact Hx.
  - intros (x & Hin & Hx). exists x.
    unfold for_pair in Hx. apply andb_true_iff in Hx as [Hx Ho].
    apply andb_true_iff in Hx as [Hu Hc]. split.
    + apply sort_by_In, filter_In. auto.
    + unfold for_target. rewrite Hc, Ho. reflexivity.
Qed.

(** X3.  A bookmark toggle and the list: the flag the toggle reports is
    whether the target is in the user's bookmark list afterwards, which
    is the opposite of before; every other entry of the list is as
    before, and no other table of the store is written. *)
Theorem bookmark_toggle_updates_the_list request db u ct oid now :
  resolves request db u ct oid ->
  wf_table (bookmarks db) ->
  let result := BookmarkToggleView_post request now db in
  exists r before after,
    outcome_of result = inr r /\
    UserBookmarksView_get_queryset request db = inr before /\
    UserBookmarksView_get_queryset request (store_of result) = inr after /\
    applied r = Some (existsb (for_target ct oid) after) /\
    existsb (for_target ct oid) after
      = negb (existsb (for_target ct oid) before) /\
    (forall b, for_target ct oid b = false -> In b after <-> In b before) /\
    likes (store_of result) = likes db /\
    dislikes (store_of result) = dislikes db /\
    reviews (store_of result) = reviews db.
Proof.
  intros Hreq Wb result.
  destruct (toggle_effect_total (bookmarks db) empty_table u ct oid now Wb
              wf_empty_table)
    as (own' & other' & b & He & Hb & Hown & _ & _ & _ & _ & Hq).
  destruct (BookmarkToggleView_post_effect request db u ct oid now Hreq _ _ _ He)
    as (Hs & r & Hr & Ha).
  fold result in Hs, Hr.
  assert (Hu : request_user request = Some u) by apply Hreq.
  unfold UserBookmarksView_get_queryset. rewrite Hu.
  exists r. do 2 eexists. split; [exact Hr|].
  split; [reflexivity|]. split; [reflexivity|].
  rewrite !listed_iff_holds. rewrite Hs. simpl.
  split_ands; auto.
  - rewrite Hown. exact Ha.
  - rewrite Hown. exact Hb.
  - intros x Hx. rewrite !sort_by_In, !filter_In.
    destruct (user x =? u) eqn:Eu; [|intuition discriminate].
    set (q := fun y : Interaction => negb (for_pair u ct oid y)).
    assert (Q : q x = true).
    { unfold q, for_pair. rewrite Eu. simpl.
      unfold for_target in Hx. rewrite Hx. reflexivity. }
    destruct (Hq q) as [E _].
    { intros y Hy. unfold q in Hy. apply negb_true_iff in Hy. exact Hy. }
    split; intros [Hin _]; split; auto.
    + assert (K : In x (filter q (rows own'))) by (apply filter_In; auto).
      rewrite E in K. apply filter_In in K. tauto.
    + assert (K : In x (filter q (rows (bookmarks db))))
        by (apply filter_In; auto).
      rewrite <- E in K. apply filter_In in K. tauto.
Qed.

Lemma bookmark_toggle_updates_the_list_witness :
  exists r before after,
    outcome_of (BookmarkToggleView_post Fixtures.alice_on_x 100 Fixtures.store0)
      = inr r /\
    UserBookmarksView_get_queryset Fixtures.alice_on_x Fixtures.store0
      = inr before /\
    UserBookmarksView_get_queryset Fixtures.alice_on_x
      (store_of (BookmarkToggleView_post Fixtures.alice_on_x 100
                   Fixtures.store0)) = inr after /\
    applied r = Some (existsb (for_target 7 "x-0001") after).
Proof.
  destruct (bookmark_toggle_updates_the_list Fixtures.alice_on_x
              Fixtures.store0 1 7 "x-0001"%string 100 alice_on_x_resolves
              wf_empty_table)
    as (r & before & after & H1 & H2 & H3 & H4 & _).
  exists r, before, after. auto.
Defined.

(** *** Statistics after a write *)

Lemma filter_split_length {A} (p r : A -> bool) l :
  List.length (filter p l)
  = (List.length (filter (fun x => p x && r x) l)
     + List.length (filter (fun x => p x && negb (r x)) l))%nat.
Proof.
  induction l as [|a l IH]; simpl; auto.
  destruct (p a), (r a); simpl; lia.
Qed.

(** The rows of a target: the one of the user, when there is one, and
    those of the other users. *)
Lemma count_for_target t u ct oid :
  wf_table t ->
  count (for_target ct oid) t
  = ((if holds t u ct oid then 1 else 0)
     + List.length (filter (fun x => for_target ct oid x
                                     && negb (for_pair u ct oid x))
                           (rows t)))%nat.
Proof.
  intros W. unfold count.
  rewrite (filter_split_length (for_target ct oid) (for_pair u ct oid)).
  f_equal.
  rewrite (filter_ext (fun x => for_target ct oid x && for_pair u ct oid x)
                      (for_pair u ct oid)).
  - destruct (holds t u ct oid) eqn:Hh.
    + apply (holds_wf_count t u ct oid W Hh).
    + apply holds_false_count in Hh. exact Hh.
  - intros x. unfold for_target, for_pair.
    destruct (user x =? u), (content_type x =? ct),
             (String.eqb (object_id x) oid); reflexivity.
Qed.

(** The statistics of a request that names an existing content type,
    for a requester who holds no review of the target. *)
Lemma InteractionStatsView_get_eq request db u ct oid :
  resolves request db u ct oid ->
  count (review_for_pair u ct oid) (reviews db) = 0%nat ->
  exists s,
    InteractionStatsView_get request db = (db, inr (inr s)) /\
    stats_likes_count s = count (for_target ct oid) (likes db) /\
    stats_dislikes_count s = count (for_target ct oid) (dislikes db) /\
    stats_reviews_count s
      = count (fun r => review_for_target ct oid r && is_approved r)
              (reviews db) /\
    stats_user_liked s = holds (likes db) u ct oid /\
    stats_user_disliked s = holds (dislikes db) u ct oid /\
    stats_user_bookmarked s = holds (bookmarks db) u ct oid /\
    stats_user_review s = None.
Proof.
  intros (Hu & Hf & c & Hc) Hnone.
  assert (Ec : ct_id c = ct).
  { apply find_some in Hc as [_ Hc]. apply Z.eqb_eq in Hc. exact Hc. }
  unfold InteractionStatsView_get. rewrite Hf.
  unfold bind, try_ContentType_get, ContentType_get. rewrite Hc.
  cbv beta iota. rewrite Ec, Hu.
  unfold gets, get_where, lift, ret, InteractionStatsSerializer_data.
  unfold count in Hnone. apply length_zero_iff_nil in Hnone. rewrite Hnone.
  eexists; split; [reflexivity|]; simpl; split_ands; reflexivity.
Qed.

(** The same request from a requester who holds a review of the target:
    the response is not serialized. *)
Lemma InteractionStatsView_get_own_review request db u ct oid :
  resolves request db u ct oid ->
  count (review_for_pair u ct oid) (reviews db) = 1%nat ->
  InteractionStatsView_get request db = (db, inl AttributeError).
Proof.
  intros (Hu & Hf & c & Hc) Hone.
  assert (Ec : ct_id c = ct).
  { apply find_some in Hc as [_ Hc]. apply Z.eqb_eq in Hc. exact Hc. }
  unfold InteractionStatsView_get. rewrite Hf.
  unfold bind, try_ContentType_get, ContentType_get. rewrite Hc.
  cbv beta iota. rewrite Ec, Hu.
  unfold gets, get_where, lift, ret, InteractionStatsSerializer_data.
  unfold count in Hone.
  destruct (filter (review_for_pair u ct oid) (rows (reviews db)))
    as [|r [|r' l]]; simpl in Hone; try lia.
  reflexivity.
Qed.

(** X4.  The statistics after a like toggle, asked by the same user for
    the same target.  When the user holds no review of the target:
    [user_liked] is the opposite of what it was, [likes_count] has moved
    by one in that direction, the user is not reported as both liking and
    disliking, and a dislike of the user that the new like replaced is no
    longer counted.  When the user holds a review of the target, the
    serializer of the response raises [AttributeError]. *)
Theorem stats_follow_a_like_toggle request db u ct oid now :
  resolves request db u ct oid ->
  wf_table (likes db) -> wf_table (dislikes db) ->
  reviews_unique db ->
  let before := holds (likes db) u ct oid in
  let db' := store_of (LikeToggleView_post request now db) in
  let own := count (review_for_pair u ct oid) (reviews db) in
  (own = 0%nat ->
   exists s,
     InteractionStatsView_get request db' = (db', inr (inr s)) /\
     stats_user_liked s = negb before /\
     (stats_user_liked s = true -> stats_user_disliked s = false) /\
     Z.of_nat (stats_likes_count s)
       = Z.of_nat (count (for_target ct oid) (likes db))
         + (if before then -1 else 1) /\
     Z.of_nat (stats_dislikes_count s)
       = Z.of_nat (count (for_target ct oid) (dislikes db))
         - (if negb before && holds (dislikes db) u ct oid then 1 else 0) /\
     stats_user_bookmarked s = holds (bookmarks db) u ct oid) /\
  (own <> 0%nat ->
   InteractionStatsView_get request db' = (db', inl AttributeError)).
Proof.
  intros Hreq Wl Wd Hu before db' own.
  destruct (LikeToggleView_post_state request db u ct oid now Hreq Wl Wd)
    as (Wl' & Wd' & Hreq' & Hl & Hon & Hoff & Hq & Hb & Hr & _).
  fold db' in Wl', Wd', Hreq', Hl, Hon, Hoff, Hq, Hb, Hr.
  split.
  - intros Hown.
    assert (Hown' : count (review_for_pair u ct oid) (reviews db') = 0%nat).
    { rewrite Hr. exact Hown. }
    destruct (InteractionStatsView_get_eq request db' u ct oid Hreq' Hown')
      as (s & Es & Sl & Sd & _ & Ul & Ud & Ub & _).
    exists s. split; [exact Es|].
    set (q := fun x => for_target ct oid x && negb (for_pair u ct oid x)).
    destruct (Hq q) as [Ql Qd].
    { intros x Hx. unfold q in Hx. apply andb_true_iff in Hx as [_ Hx].
      apply negb_true_iff in Hx. exact Hx. }
    fold before in Hl, Hon, Hoff.
    split_ands.
    + rewrite Ul. exact Hl.
    + rewrite Ul, Ud, Hl. intros Hn. apply Hon.
      destruct before; [discriminate|reflexivity].
    + rewrite Sl, (count_for_target _ u ct oid Wl'),
              (count_for_target _ u ct oid Wl).
      fold q. rewrite Ql, Hl. fold before. destruct before; cbn [negb]; lia.
    + rewrite Sd, (count_for_target _ u ct oid Wd'),
              (count_for_target _ u ct oid Wd).
      fold q. rewrite Qd. destruct before eqn:B; cbn [negb andb].
      * rewrite (Hoff eq_refl). lia.
      * rewrite (Hon eq_refl).
        destruct (holds (dislikes db) u ct oid); lia.
    + rewrite Ub, Hb. reflexivity.
  - intros Hown.
    apply (InteractionStatsView_get_own_review request db' u ct oid Hreq').
    rewrite Hr. pose proof (Hu u ct oid) as H1. fold own in H1. lia.
Qed.

Lemma stats_follow_a_like_toggle_witness :
  exists s,
    InteractionStatsView_get Fixtures.alice_on_x
      (store_of (LikeToggleView_post Fixtures.alice_on_x 100 Fixtures.store0))
    = (store_of (LikeToggleView_post Fixtures.alice_on_x 100 Fixtures.store0),
       inr (inr s)) /\
    stats_user_liked s = true /\ Z.of_nat (stats_likes_count s) = 1.
Proof.
  destruct (stats_follow_a_like_toggle Fixtures.alice_on_x Fixtures.store0
              1 7 "x-0001"%string 100 alice_on_x_resolves wf_empty_table
              wf_empty_table ReviewFacts.store0_reviews_unique)
    as [H _].
  destruct (H eq_refl) as (s & E & L & _ & C & _).
  exists s. split; [exact E|]. split; [exact L | exact C].
Defined.

End EndpointFacts.

(** * A review and its owner *)

Module ReviewDetailFacts.
Import Interactions OwnedViews InteractionsFacts.

Lemma filter_by_unique_key {A} (f : A -> Z) (p : A -> bool) l k :
  NoDup (map f l) ->
  filter (fun r => f r =? k) (filter p l) = [] \/
  exists r, filter (fun r => f r =? k) (filter p l) = [r] /\
            In r l /\ f r = k /\ p r = true.
Proof.
  induction l as [|a l IH]; simpl; intros ND; [left; reflexivity|].
  inversion ND as [|? ? Hn ND']; subst.
  assert (Hnone : forall q, f a = k ->
            filter (fun r => f r =? k) (filter q l) = []).
  { intros q Ek. apply (proj1 (existsb_filter_nil _ _)).
    destruct (existsb _ _) eqn:E; auto.
    apply existsb_exists in E as (x & Hin & Hx).
    apply filter_In in Hin as [Hin _]. apply Z.eqb_eq in Hx.
    exfalso. apply Hn. rewrite Ek, <- Hx. apply in_map. exact Hin. }
  destruct (p a) eqn:Pa; simpl.
  - destruct (f a =? k) eqn:Ek.
    + apply Z.eqb_eq in Ek. right. exists a. rewrite (Hnone p Ek). auto.
    + destruct (IH ND') as [E|(r & E & Hin & Hk & Hp)]; [left; exact E|].
      right. exists r. auto.
  - destruct (IH ND') as [E|(r & E & Hin & Hk & Hp)]; [left; exact E|].
    right. exists r. auto.
Qed.

(** [get_object]: the review of the key when it is the user's, a 404
    otherwise. *)
Lemma get_object_cases u k db :
  reviews_keyed db ->
  (get_object u k db = (db, inl Http404) /\
   forall r, In r (rows (reviews db)) -> review_id r = k -> review_user r <> u)
  \/
  (exists r, get_object u k db = (db, inr r) /\ In r (rows (reviews db)) /\
             review_id r = k /\ review_user r = u).
Proof.
  intros [ND _]. unfold get_object, ReviewDetailView_get_queryset.
  destruct (filter_by_unique_key review_id (fun r => review_user r =? u)
              (rows (reviews db)) k ND) as [E|(r & E & Hin & Hk & Hp)].
  - left. rewrite E. split; [reflexivity|].
    intros r Hin Hk Hu.
    assert (K : In r (filter (fun r => review_id r =? k)
                        (filter (fun r => review_user r =? u)
                                (rows (reviews db))))).
    { apply filter_In. split; [apply filter_In; split; auto|];
        apply Z.eqb_eq; auto. }
    rewrite E in K. exact K.
  - right. exists r. rewrite E. apply Z.eqb_eq in Hp. auto.
Qed.

(** X5.  Deleting a review through its detail endpoint is scoped to the
    requester: when the key is not that of a review of the requester the
    answer is 404 and the store is as before; otherwise that one review
    is removed.  In both cases every review of another user, and every
    review with another key, is still stored, and no row is added. *)
Theorem destroy_is_scoped_to_the_owner request db u :
  detail_user request = Some u ->
  reviews_keyed db ->
  let result := ReviewDetailView_destroy request db in
  (forall r, In r (rows (reviews db)) ->
     review_user r <> u \/ review_id r <> kwargs_pk request ->
     In r (rows (reviews (store_of result)))) /\
  (forall r, In r (rows (reviews (store_of result))) ->
     In r (rows (reviews db))) /\
  ((forall r, In r (rows (reviews db)) -> review_id r = kwargs_pk request ->
      review_user r <> u) ->
   result = (db, inl Http404)) /\
  (forall r, In r (rows (reviews db)) -> review_id r = kwargs_pk request ->
     review_user r = u ->
     outcome_of result = inr HTTP_204_NO_CONTENT /\
     ~ In r (rows (reviews (store_of result)))).
Proof.
  intros Hu K result.
  assert (ND : NoDup (map review_id (rows (reviews db)))) by apply K.
  unfold result, ReviewDetailView_destroy. rewrite Hu. unfold bind.
  destruct (get_object_cases u (kwargs_pk request) db K)
    as [[E Hn]|(r0 & E & Hin0 & Hk0 & Hu0)]; rewrite E.
  - simpl. split_ands; auto.
    intros r Hin Hk Hr. exfalso. exact (Hn r Hin Hk Hr).
  - unfold modify, ret, store_of, outcome_of. simpl. split_ands.
    + intros r Hin Hor. apply filter_In. split; auto.
      apply negb_true_iff, Z.eqb_neq. rewrite Hk0.
      destruct Hor as [Hx|Hx]; auto.
      intros Ek. apply Hx.
      rewrite <- Hk0 in Ek.
      rewrite (NoDup_map_inj review_id _ r r0 ND Hin Hin0 Ek). exact Hu0.
    + intros r Hin. apply filter_In in Hin. tauto.
    + intros Hn. exfalso. exact (Hn r0 Hin0 Hk0 Hu0).
    + intros r Hin Hk Hr. split; [reflexivity|].
      intros Hin'. apply filter_In in Hin' as [_ Hx].
      apply negb_true_iff, Z.eqb_neq in Hx. congruence.
Qed.

Lemma store_rated_keyed : reviews_keyed Fixtures.store_rated.
Proof.
  split.
  - simpl. repeat (apply NoDup_cons; [simpl; intuition lia|]). apply NoDup_nil.
  - simpl. intros r [<-|[<-|[<-|[]]]]; simpl; lia.
Qed.

Lemma destroy_is_scoped_to_the_owner_witness :
  ReviewDetailView_destroy Scenarios.foreign_review Fixtures.store_rated
    = (Fixtures.store_rated, inl Http404) /\
  outcome_of (ReviewDetailView_destroy Scenarios.own_review Fixtures.store_rated)
    = inr HTTP_204_NO_CONTENT.
Proof.
  split.
  - apply (destroy_is_scoped_to_the_owner Scenarios.foreign_review
             Fixtures.store_rated 10 eq_refl store_rated_keyed).
    simpl. intros r [<-|[<-|[<-|[]]]]; simpl; intros; lia.
  - apply (proj2 (proj2 (proj2
             (destroy_is_scoped_to_the_owner Scenarios.own_review
                Fixtures.store_rated 10 eq_refl store_rated_keyed)))
             Scenarios.review_1).
    + simpl. auto.
    + reflexivity.
    + reflexivity.
Defined.

(** X6.  A user who has reviewed a target cannot submit a second review
    of it; once the user has deleted the review through its detail
    endpoint, the same submission is accepted and stored. *)
Theorem review_can_be_resubmitted_after_destroy request submit db u r v now :
  detail_user request = Some u ->
  kwargs_pk request = review_id r ->
  In r (rows (reviews db)) -> review_user r = u ->
  reviews_keyed db -> reviews_unique db ->
  review_request_user submit = Some u ->
  ReviewSerializer_validate (review_request_data submit) db = Some v ->
  validated_content_type v = review_content_type r ->
  validated_object_id v = review_object_id r ->
  let deleted := store_of (ReviewDetailView_destroy request db) in
  ReviewListCreateView_create submit now db = (db, inl IntegrityError) /\
  exists r',
    outcome_of (ReviewListCreateView_create submit now deleted) = inr r' /\
    In r' (rows (reviews (store_of
             (ReviewListCreateView_create submit now deleted)))) /\
    review_user r' = u /\ rating r' = validated_rating v /\
    review_content_type r' = review_content_type r /\
    review_object_id r' = review_object_id r.
Proof.
  intros Hu Hk Hin Hr K U Hs Hv Ect Eoid deleted.
  assert (Hpair : review_for_pair u (validated_content_type v)
                    (validated_object_id v) r = true).
  { apply ReviewFacts.review_for_pair_true. rewrite Ect, Eoid. auto. }
  split.
  - apply (ReviewFacts.create_rejected submit db u v now Hs Hv).
    unfold exists_. apply existsb_exists. exists r. auto.
  - assert (ND : NoDup (map review_id (rows (reviews db)))) by apply K.
    assert (Ed : deleted
                 = set_reviews (delete_where (fun x => review_id x =? review_id r)
                                             (reviews db)) db).
    { unfold deleted, ReviewDetailView_destroy. rewrite Hu. unfold bind.
      destruct (get_object_cases u (kwargs_pk request) db K)
        as [[E Hn]|(r0 & E & Hin0 & Hk0 & Hu0)].
      - exfalso. exact (Hn r Hin (eq_sym Hk) Hr).
      - rewrite E. unfold modify, ret, store_of. simpl.
        assert (r0 = r).
        { apply (NoDup_map_inj review_id _ r0 r ND Hin0 Hin). congruence. }
        subst r0. reflexivity. }
    assert (Hv' : ReviewSerializer_validate (review_request_data submit) deleted
                  = Some v).
    { rewrite (ReviewFacts.validate_same_content_types _ db); auto.
      rewrite Ed. reflexivity. }
    assert (Hfree : exists_ (review_for_pair u (validated_content_type v)
                               (validated_object_id v)) (reviews deleted)
                    = false).
    { rewrite Ed. unfold exists_. simpl.
      apply existsb_filter_nil.
      destruct (filter _ (filter _ _)) as [|x l] eqn:F; auto. exfalso.
      assert (Hx : In x (x :: l)) by (left; reflexivity).
      rewrite <- F in Hx. apply filter_In in Hx as [Hx Px].
      apply filter_In in Hx as [Hx Nx].
      apply negb_true_iff, Z.eqb_neq in Nx.
      specialize (U u (validated_content_type v) (validated_object_id v)).
      unfold count in U.
      assert (Hxr : x <> r) by congruence.
      assert (L : (2 <= List.length
                     (filter (review_for_pair u (validated_content_type v)
                                (validated_object_id v))
                             (rows (reviews db))))%nat).
      { clear - Hx Px Hin Hpair Hxr.
        induction (rows (reviews db)) as [|a m IH]; [destruct Hin|].
        simpl. destruct Hx as [->|Hx], Hin as [->|Hin].
        - congruence.
        - rewrite Px. simpl.
          assert (In r (filter (review_for_pair u (validated_content_type v)
                                  (validated_object_id v)) m))
            by (apply filter_In; auto).
          destruct (filter _ m); [contradiction|simpl; lia].
        - rewrite Hpair. simpl.
          assert (In x (filter (review_for_pair u (validated_content_type v)
                                  (validated_object_id v)) m))
            by (apply filter_In; auto).
          destruct (filter _ m); [contradiction|simpl; lia].
        - specialize (IH Hin Hx). destruct (review_for_pair _ _ _ a); simpl; lia. }
      lia. }
    pose proof (ReviewFacts.create_accepted submit deleted u v now Hs Hv' Hfree)
      as E. cbv zeta in E. rewrite E.
    eexists. split; [reflexivity|]. unfold store_of. simpl.
    split_ands; auto.
Qed.

Lemma review_1_stored : In Scenarios.review_1 (rows (reviews Fixtures.store_rated)).
Proof. simpl. auto. Qed.

Lemma review_can_be_resubmitted_after_destroy_witness :
  ReviewListCreateView_create Scenarios.second_thoughts 100 Fixtures.store_rated
    = (Fixtures.store_rated, inl IntegrityError) /\
  exists r',
    outcome_of (ReviewListCreateView_create Scenarios.second_thoughts 100
                  (store_of (ReviewDetailView_destroy Scenarios.own_review
                               Fixtures.store_rated))) = inr r' /\
    rating r' = 3.
Proof.
  destruct (review_can_be_resubmitted_after_destroy Scenarios.own_review
              Scenarios.second_thoughts Fixtures.store_rated 10
              Scenarios.review_1
              (mkValidatedReview 7 "x-0001" 3 "" "Changed my mind.") 100
              eq_refl eq_refl review_1_stored eq_refl store_rated_keyed
              ReviewFacts.store_rated_unique eq_refl eq_refl eq_refl eq_refl)
    as (H1 & r' & H2 & _ & _ & H3 & _).
  split; [exact H1|]. exists r'. split; [exact H2 | exact H3].
Defined.

(** *** Updating a review *)

Lemma replaced_count (p : Review -> bool) k r' l :
  NoDup (map review_id l) ->
  (List.length (filter p (map (fun x => if (review_id x =? k)%Z then r' else x) l))
   <= List.length (filter (fun x => negb (review_id x =? k)%Z && p x) l)
      + (if p r' then 1 else 0))%nat.
Proof.
  induction l as [|a l IH]; simpl; intros ND; [lia|].
  inversion ND as [|? ? Hn ND']; subst.
  destruct (review_id a =? k) eqn:E; simpl.
  - apply Z.eqb_eq in E.
    assert (Z : forall q : Review -> bool,
              filter q (map (fun x => if review_id x =? k then r' else x) l)
              = filter q l).
    { intros q. f_equal. rewrite <- (map_id l) at 2. apply map_ext_in.
      intros x Hx. destruct (review_id x =? k) eqn:Ex; auto.
      apply Z.eqb_eq in Ex. exfalso. apply Hn. rewrite E, <- Ex.
      apply in_map. exact Hx. }
    rewrite Z.
    assert (Y : filter (fun x => negb (review_id x =? k) && p x) l = filter p l).
    { apply filter_ext_in. intros x Hx.
      destruct (review_id x =? k) eqn:Ex; auto.
      apply Z.eqb_eq in Ex. exfalso. apply Hn. rewrite E, <- Ex.
      apply in_map. exact Hx. }
    rewrite Y. destruct (p r'); simpl; lia.
  - specialize (IH ND'). destruct (p a); simpl; lia.
Qed.

(** X7.  An update of a review through its detail endpoint (PUT or
    PATCH) that succeeds has changed a review of the requester, the one
    of the key: its owner, its approval flag and its creation time are
    as before, whatever was submitted; [updated_at] is the time of the
    update; every other review is untouched; and the table still has at
    most one review per user and target. *)
Theorem update_keeps_owner_and_approval partial request now db db' r' :
  reviews_keyed db ->
  ReviewDetailView_update partial request now db = (db', inr r') ->
  exists r,
    In r (rows (reviews db)) /\ review_id r = kwargs_pk request /\
    detail_user request = Some (review_user r) /\
    review_id r' = review_id r /\ review_user r' = review_user r /\
    is_approved r' = is_approved r /\
    review_created_at r' = review_created_at r /\
    review_updated_at r' = now /\
    rows (reviews db')
      = map (fun x => if review_id x =? review_id r then r' else x)
            (rows (reviews db)) /\
    (reviews_unique db -> reviews_unique db').
Proof.
  intros K. unfold ReviewDetailView_update.
  destruct (detail_user request) as [u|] eqn:Hu; [|discriminate].
  unfold bind.
  destruct (get_object_cases u (kwargs_pk request) db K)
    as [[E _]|(r & E & Hin & Hk & Hr)]; rewrite E; [discriminate|].
  destruct (field partial true (submitted_content_type _) _) as [ct|];
    [|discriminate].
  destruct (field partial true (submitted_object_id _) _) as [oid|];
    [|discriminate].
  destruct (field partial true (submitted_rating _) _) as [value|];
    [|discriminate].
  destruct (field partial false (submitted_title _) _) as [t|];
    [|discriminate].
  destruct (field partial true (submitted_comment _) _) as [text|];
    [|discriminate].
  match goal with
  | |- context [mkReview ?a ?b ?c ?d ?e ?f ?g ?h ?i ?j] =>
      set (new := mkReview a b c d e f g h i j)
  end.
  cbn [review_user review_content_type review_object_id].
  destruct (existsb _ (rows (reviews db))) eqn:X; [discriminate|].
  intros H. inversion H; subst db' r'. clear H.
  exists r. rewrite Hr. simpl. split_ands; auto.
  intros U a b c. unfold count. simpl.
  assert (ND : NoDup (map review_id (rows (reviews db)))) by apply K.
  pose proof (replaced_count (review_for_pair a b c) (review_id r) new
                (rows (reviews db)) ND) as L.
  destruct (review_for_pair a b c new) eqn:P.
  - apply ReviewFacts.review_for_pair_true in P.
    destruct P as (Pa & Pb & Pc). subst a b c.
    apply existsb_filter_nil in X. rewrite X in L. simpl in L. exact L.
  - specialize (U a b c). unfold count in U.
    pose proof (filter_length_le (review_for_pair a b c)
                  (fun x => negb (review_id x =? review_id r))
                  (rows (reviews db))) as M.
    assert (F : filter (fun x => negb (review_id x =? review_id r)
                                 && review_for_pair a b c x)
                       (rows (reviews db))
                = filter (review_for_pair a b c)
                    (filter (fun x => negb (review_id x =? review_id r))
                            (rows (reviews db)))).
    { clear. induction (rows (reviews db)) as [|x l IH]; simpl; auto.
      destruct (negb (review_id x =? review_id r)); simpl; rewrite IH; auto. }
    rewrite F in L. lia.
Qed.

Lemma update_keeps_owner_and_approval_witness :
  exists db' r',
    ReviewDetailView_update true Scenarios.patch_rating 100 Fixtures.store_rated
      = (db', inr r') /\
    exists r, In r (rows (reviews Fixtures.store_rated)) /\
              review_user r' = review_user r /\
              is_approved r' = is_approved r /\
              review_updated_at r' = 100.
Proof.
  destruct (ReviewDetailView_update true Scenarios.patch_rating 100
              Fixtures.store_rated) as [db' [e|r']] eqn:E;
    [vm_compute in E; discriminate|].
  exists db', r'. split; [reflexivity|].
  destruct (update_keeps_owner_and_approval true Scenarios.patch_rating 100
              Fixtures.store_rated db' r' store_rated_keyed E)
    as (r & Hin & _ & _ & _ & Hr & Ha & _ & Ht & _).
  exists r. auto.
Defined.

End ReviewDetailFacts.

(** * Removing a push subscription *)

Module PushDeleteFacts.
Import Push PushDelete.

Lemma table_eta {A} (t : Table A) : mkTable (rows t) (next_pk t) = t.
Proof. destruct t; reflexivity. Qed.

Lemma filter_all {A} (p : A -> bool) l :
  (forall x, In x l -> p x = true) -> filter p l = l.
Proof.
  induction l as [|a l IH]; simpl; intros H; auto.
  rewrite (H a) by auto. f_equal. apply IH. auto.
Qed.

Lemma delete_where_none {A} (p : A -> bool) (t : Table A) :
  count p t = 0%nat -> delete_where p t = t.
Proof.
  intros H. unfold delete_where. rewrite filter_all; [apply table_eta|].
  intros x Hx. destruct (p x) eqn:E; auto.
  unfold count in H.
  assert (K : In x (filter p (rows t))) by (apply filter_In; auto).
  destruct (filter p (rows t)); [destruct K|discriminate].
Qed.

(** X8.  Removing a push subscription is scoped to the requester and to
    the endpoint sent: every subscription of another user, and every
    subscription with another endpoint, is still stored, and no row is
    added; an answer other than 200 (no endpoint sent, or no such
    subscription of the requester) leaves the table as it was; after a
    200 the requester has no subscription with that endpoint. *)
Theorem push_delete_is_scoped request db u :
  request_user request = Some u ->
  let result := PushSubscriptionView_delete request db in
  exists resp,
    outcome_of result = inr resp /\
    (forall r, In r (rows db) ->
       user r <> u \/ data_endpoint (data request) <> Some (endpoint r) ->
       In r (rows (store_of result))) /\
    (forall r, In r (rows (store_of result)) -> In r (rows db)) /\
    (status_code resp <> 200 -> store_of result = db) /\
    (status_code resp = 200 ->
       (exists r, In r (rows db) /\ user r = u /\
                  data_endpoint (data request) = Some (endpoint r)) /\
       forall r, In r (rows (store_of result)) ->
                 user r = u ->
                 data_endpoint (data request) <> Some (endpoint r)).
Proof.
  intros Hu result. unfold result, PushSubscriptionView_delete. rewrite Hu.
  destruct (data_endpoint (data request)) as [e|];
    [|eexists; simpl; split_ands; auto; discriminate].
  destruct (String.eqb e "") eqn:Ee;
    [eexists; simpl; split_ands; auto; discriminate|].
  unfold bind, gets, modify. cbv beta iota.
  set (mine := fun r => (user r =? u) && for_endpoint e r).
  destruct (Nat.eqb (count mine db) 0) eqn:C; cbn [negb].
  - apply Nat.eqb_eq in C. rewrite (delete_where_none mine db C).
    eexists. unfold ret. simpl. split_ands; auto. discriminate.
  - apply Nat.eqb_neq in C.
    eexists. unfold ret, store_of, outcome_of. simpl.
    split; [reflexivity|]. split_ands.
    + intros r Hin Hor. apply filter_In. split; auto.
      apply negb_true_iff. unfold mine, for_endpoint.
      destruct Hor as [H|H].
      * apply Z.eqb_neq in H. rewrite H. reflexivity.
      * destruct (String.eqb_spec (endpoint r) e) as [Heq|Hne];
          [congruence|apply andb_false_r].
    + intros r Hin. apply filter_In in Hin. tauto.
    + intros H. exfalso. apply H. reflexivity.
    + intros _. split.
      * unfold count in C.
        destruct (filter mine (rows db)) as [|r l] eqn:F;
          [exfalso; apply C; reflexivity|].
        assert (K : In r (filter mine (rows db))) by (rewrite F; left; auto).
        apply filter_In in K as [Hin Hm]. unfold mine in Hm.
        apply andb_true_iff in Hm as [H1 H2]. exists r.
        apply Z.eqb_eq in H1. apply String.eqb_eq in H2.
        split_ands; auto. congruence.
      * intros r Hin Hr He. apply filter_In in Hin as [_ Hm].
        apply negb_true_iff in Hm. unfold mine, for_endpoint in Hm.
        inversion He; subst e. rewrite Hr, Z.eqb_refl, String.eqb_refl in Hm.
        discriminate.
Qed.

Lemma push_delete_is_scoped_witness :
  exists resp,
    outcome_of (PushSubscriptionView_delete Scenarios.bob_removes_phone
                  Fixtures.devices) = inr resp /\
    In Fixtures.phone
       (rows (store_of (PushSubscriptionView_delete Scenarios.bob_removes_phone
                          Fixtures.devices))).
Proof.
  destruct (push_delete_is_scoped Scenarios.bob_removes_phone Fixtures.devices
              2 eq_refl) as (resp & H1 & H2 & _).
  exists resp. split; [exact H1|].
  apply H2; [simpl; auto | left; simpl; lia].
Defined.

Section Subscribing.

Variable URLValidator : string -> bool.

Lemma required_char_not_blank v n s :
  required_char v n = Some s -> String.eqb s "" = false.
Proof.
  unfold required_char. destruct v as [x|]; [|discriminate].
  destruct (String.eqb (strip x) "") eqn:E; [discriminate|].
  destruct (Nat.leb _ n); [|discriminate].
  intros H. inversion H; subst. exact E.
Qed.

Lemma is_valid_endpoint d db v :
  PushSubscriptionSerializer_is_valid URLValidator d db = inr v ->
  required_char (data_endpoint d) 500 = Some (validated_endpoint v) /\
  exists_ (for_endpoint (validated_endpoint v)) db = false.
Proof.
  unfold PushSubscriptionSerializer_is_valid.
  destruct (required_char (data_endpoint d) 500) as [e|];
    [destruct (URLValidator e && negb (exists_ (for_endpoint e) db)) eqn:E|];
    destruct (required_char (data_p256dh d) 255);
    destruct (required_char (data_auth d) 255);
    destruct (data_device_name d) as [dn|];
    try destruct (Nat.leb (String.length (strip dn)) 100);
    intros H; inversion H; subst; simpl;
    apply andb_true_iff in E as [_ E]; apply negb_true_iff in E; auto.
Qed.

Lemma is_valid_same_rows d (db db' : DB) :
  rows db' = rows db ->
  PushSubscriptionSerializer_is_valid URLValidator d db'
  = PushSubscriptionSerializer_is_valid URLValidator d db.
Proof.
  intros E. unfold PushSubscriptionSerializer_is_valid, exists_.
  rewrite E. reflexivity.
Qed.

(** X9.  A subscription that was accepted can be removed by its user
    with the endpoint as it was stored (trimmed): the answer is 200 and
    the rows of the table are those from before the subscription.  After
    that the same subscription is accepted again. *)
Theorem push_subscribe_then_delete request now db u v :
  request_user request = Some u ->
  PushSubscriptionSerializer_is_valid URLValidator (data request) db = inr v ->
  let subscribed :=
    store_of (PushSubscriptionView_post URLValidator request now db) in
  let removed :=
    PushSubscriptionView_delete
      (Scenarios.removal u (validated_endpoint v)) subscribed in
  exists resp,
    outcome_of removed = inr resp /\ status_code resp = 200 /\
    rows (store_of removed) = rows db /\
    exists r,
      outcome_of (PushSubscriptionView_post URLValidator request now
                    (store_of removed))
      = inr (Push.mkResponse 201
               (Saved "Push subscription saved successfully" r)).
Proof.
  intros Hu Hv subscribed removed.
  destruct (is_valid_endpoint _ _ _ Hv) as [He Hnew].
  pose proof (required_char_not_blank _ _ _ He) as Hne.
  destruct (PushFacts.first_subscription_is_stored URLValidator request now db
              u v Hu Hv) as (r & _ & Es & Ru & Re & _).
  assert (S1 : subscribed = mkTable (r :: rows db) (next_pk db + 1)).
  { unfold subscribed. rewrite Es. reflexivity. }
  set (mine := fun x => (user x =? u) && for_endpoint (validated_endpoint v) x).
  assert (Hold : forall x, In x (rows db) -> mine x = false).
  { intros x Hx. unfold mine.
    destruct (for_endpoint (validated_endpoint v) x) eqn:F;
      [|apply andb_false_r].
    exfalso. unfold exists_ in Hnew.
    assert (K : existsb (for_endpoint (validated_endpoint v)) (rows db) = true)
      by (apply existsb_exists; exists x; auto).
    congruence. }
  assert (Hr : mine r = true).
  { unfold mine, for_endpoint. rewrite Ru, Re, Z.eqb_refl, String.eqb_refl.
    reflexivity. }
  assert (Er : removed
               = (mkTable (rows db) (next_pk db + 1),
                  inr (PushDelete.mkResponse 200
                         "Push subscription removed successfully"))).
  { unfold removed, PushSubscriptionView_delete, Scenarios.removal. simpl.
    rewrite Hne. unfold bind, gets, modify. cbv beta iota.
    fold mine. rewrite S1. unfold count, delete_where. simpl.
    rewrite Hr. simpl. unfold ret. f_equal. f_equal.
    apply filter_all. intros x Hx. rewrite (Hold x Hx). reflexivity. }
  rewrite Er. unfold store_of, outcome_of. simpl.
  eexists. split_ands; try reflexivity.
  assert (Hv' : PushSubscriptionSerializer_is_valid URLValidator (data request)
                  (mkTable (rows db) (next_pk db + 1)) = inr v).
  { rewrite (is_valid_same_rows _ db); auto. }
  destruct (PushFacts.first_subscription_is_stored URLValidator request now
              _ u v Hu Hv') as (r' & _ & Es' & _).
  exists r'. rewrite Es'. reflexivity.
Qed.

End Subscribing.

Lemma push_subscribe_then_delete_witness :
  exists resp,
    outcome_of
      (PushSubscriptionView_delete
         (Scenarios.removal 3 "https://push.example/c")
         (store_of (PushSubscriptionView_post Fixtures.accepts_http
                      Scenarios.carol_subscribes 100 Fixtures.devices)))
    = inr resp /\ status_code resp = 200.
Proof.
  destruct (push_subscribe_then_delete Fixtures.accepts_http
              Scenarios.carol_subscribes 100 Fixtures.devices 3
              (mkValidated "https://push.example/c" "pk-c" "au-c" None None)
              eq_refl eq_refl) as (resp & H1 & H2 & _).
  exists resp. split; [exact H1 | exact H2].
Defined.

End PushDeleteFacts.

(** * The news viewset *)

Module ArticleFacts.
Import Articles.

(** *** The slug of a new article *)

Lemma append_inj_l (a b c : string) : (a ++ b = a ++ c)%string -> b = c.
Proof.
  induction a as [|x a IH]; simpl; intros H; auto.
  inversion H. auto.
Qed.

Lemma length_append (a b : string) :
  String.length (a ++ b) = (String.length a + String.length b)%nat.
Proof. induction a as [|x a IH]; simpl; auto. Qed.

Lemma numbered_inj base j k : numbered base j = numbered base k -> j = k.
Proof.
  unfold numbered. intros H. apply append_inj_l in H. simpl in H.
  inversion H as [E].
  assert (U : Some (Nat.to_uint j) = Some (Nat.to_uint k)).
  { rewrite <- !NilEmpty.usu. rewrite E. reflexivity. }
  inversion U as [V].
  rewrite <- (Unsigned.of_to j), <- (Unsigned.of_to k), V. reflexivity.
Qed.

Lemma numbered_not_base base k : numbered base k <> base.
Proof.
  unfold numbered. intros H.
  assert (L : String.length (base ++ "-" ++ NilEmpty.string_of_uint (Nat.to_uint k))
              = String.length base) by (rewrite H; reflexivity).
  rewrite length_append in L. simpl in L. lia.
Qed.

Lemma candidate_inj base j k : candidate base j = candidate base k -> j = k.
Proof.
  destruct j, k; simpl; intros H; auto.
  - symmetry in H. destruct (numbered_not_base _ _ H).
  - destruct (numbered_not_base _ _ H).
  - apply numbered_inj in H. exact H.
Qed.

(** A run of the loop from the [k]-th candidate: it ends on the first
    candidate from [k] on that no article has, or every candidate it
    tested is taken. *)
Lemma free_slug_run fuel base k db :
  match free_slug fuel base (candidate base k) (S k) db with
  | Some s =>
      exists j, (k <= j < k + fuel)%nat /\ s = candidate base j /\
                slug_exists s db = false /\
                forall i, (k <= i < j)%nat ->
                          slug_exists (candidate base i) db = true
  | None =>
      forall i, (k <= i < k + fuel)%nat ->
                slug_exists (candidate base i) db = true
  end.
Proof.
  revert k. induction fuel as [|fuel IH]; intros k; simpl.
  - intros i Hi. lia.
  - destruct (slug_exists (candidate base k) db) eqn:E.
    + specialize (IH (S k)). change (numbered base (S k))
        with (candidate base (S k)).
      destruct (free_slug fuel base (candidate base (S k)) (S (S k)) db)
        as [s|].
      * destruct IH as (j & Hj & Hs & Hf & Hall). exists j.
        split; [lia|]. split; [exact Hs|]. split; [exact Hf|].
        intros i Hi. destruct (Nat.eq_dec i k) as [->|]; auto.
        apply Hall. lia.
      * intros i Hi. destruct (Nat.eq_dec i k) as [->|]; auto.
        apply IH. lia.
    + exists k. split; [lia|]. split; [reflexivity|]. split; [exact E|].
      intros i Hi. lia.
Qed.

Lemma slug_exists_In s db :
  slug_exists s db = true -> In s (map slug (news_articles db)).
Proof.
  unfold slug_exists. intros H. apply existsb_exists in H as (a & Hin & Ha).
  apply String.eqb_eq in Ha. subst s. apply in_map. exact Hin.
Qed.

Lemma candidates_NoDup base n : NoDup (map (candidate base) (seq 0 n)).
Proof.
  generalize 0%nat. induction n as [|n IH]; intros a; simpl; constructor.
  - intros H. apply in_map_iff in H as (k & E & Hk).
    apply candidate_inj in E. apply in_seq in Hk. lia.
  - apply IH.
Qed.

(** X10.  The loop of [NewsArticle.save] that looks for a free slug
    ends: with more fuel than there are articles it returns a slug, the
    first of the candidates [base], [base-1], [base-2], ... that no
    stored article has; it is found among the first [n + 1] candidates
    when there are [n] articles. *)
Theorem free_slug_is_the_first_free_candidate fuel base db :
  (List.length (news_articles db) < fuel)%nat ->
  exists j,
    free_slug fuel base base 1 db = Some (candidate base j) /\
    (j <= List.length (news_articles db))%nat /\
    slug_exists (candidate base j) db = false /\
    forall i, (i < j)%nat -> slug_exists (candidate base i) db = true.
Proof.
  intros Hfuel.
  assert (P : forall m,
             (forall i, (i < m)%nat -> slug_exists (candidate base i) db = true) ->
             (m <= List.length (news_articles db))%nat).
  { intros m Hall.
    rewrite <- (length_map slug (news_articles db)).
    replace m with (List.length (map (candidate base) (seq 0%nat m))) at 1
      by (rewrite length_map, length_seq; reflexivity).
    apply NoDup_incl_length; [apply candidates_NoDup|].
    intros s Hs. apply in_map_iff in Hs as (i & <- & Hi).
    apply in_seq in Hi. apply slug_exists_In, Hall. lia. }
  pose proof (free_slug_run fuel base 0 db) as R. simpl in R.
  destruct (free_slug fuel base base 1 db) as [s|].
  - destruct R as (j & Hj & -> & Hf & Hall). exists j. split_ands; auto.
    + apply P. intros i Hi. apply Hall. lia.
    + intros i Hi. apply Hall. lia.
  - exfalso. specialize (P fuel). assert (fuel <= List.length (news_articles db))%nat.
    { apply P. intros i Hi. apply R. lia. }
    lia.
Qed.

Lemma free_slug_is_the_first_free_candidate_witness :
  free_slug 3 "budget" "budget" 1 Scenarios.newsroom = Some "budget-2"%string.
Proof.
  destruct (free_slug_is_the_first_free_candidate 3 "budget" Scenarios.newsroom
              ltac:(simpl; lia)) as (j & E & Hj & Hf & Hall).
  rewrite E. simpl in Hj.
  destruct j as [|[|[|j]]]; try (vm_compute in Hf; discriminate);
    [reflexivity | lia].
Defined.

Section Saving.

Variable slugify : string -> string.

Lemma not_taken_when_free s (l : list NewsArticle) (q : NewsArticle -> bool) :
  existsb (fun a => String.eqb (slug a) s) l = false ->
  existsb (fun r => q r && String.eqb (slug r) s) l = false.
Proof.
  induction l as [|a l IH]; simpl; auto.
  intros H. apply orb_false_iff in H as [H1 H2].
  rewrite H1, andb_false_r. simpl. auto.
Qed.

Lemma NoDup_snoc {A} (l : list A) x : NoDup l -> ~ In x l -> NoDup (l ++ [x]).
Proof.
  intros ND Hn. induction ND as [|a l Ha ND IH]; simpl.
  - constructor; [intros []|constructor].
  - constructor.
    + intros H. apply in_app_iff in H as [H|[H|[]]]; [auto|].
      subst. apply Hn. left. reflexivity.
    + apply IH. intros H. apply Hn. right. exact H.
Qed.

(** X11.  Saving a new article that has no slug: with more fuel than
    there are articles the save succeeds and stores the article under
    the first of the candidates [slugify(title)], [slugify(title)-1],
    ... that no stored article has; the primary keys and the slugs of
    the table are still unique, and the stored rows are as before. *)
Theorem new_article_gets_a_fresh_slug fuel self now db :
  wf db ->
  adding self = true -> pending self = [] ->
  slug (fields self) = ""%string ->
  existsb (has_pk (id (fields self))) (news_articles db) = false ->
  (List.length (news_articles db) < fuel)%nat ->
  let base := slugify (title (fields self)) in
  exists j inst,
    NewsArticle_save slugify fuel self None now db
      = (set_news_articles (news_articles db ++ [fields inst]) db, inr inst) /\
    slug (fields inst) = candidate base j /\
    slug_exists (candidate base j) db = false /\
    (forall i, (i < j)%nat -> slug_exists (candidate base i) db = true) /\
    id (fields inst) = id (fields self) /\
    title (fields inst) = title (fields self) /\
    wf (set_news_articles (news_articles db ++ [fields inst]) db).
Proof.
  intros [Wid Wslug] Hadd Hpend Hslug Hnew Hfuel base.
  destruct (free_slug_is_the_first_free_candidate fuel base db Hfuel)
    as (j & E & _ & Hf & Hall).
  unfold NewsArticle_save. rewrite Hslug. cbn [String.eqb]. fold base.
  rewrite E.
  match goal with
  | |- context [Model_save (mkInstance ?x _ _)] => set (a := x)
  end.
  assert (Ha : slug a = candidate base j /\ id a = id (fields self)
               /\ title a = title (fields self)).
  { unfold a, with_slug, with_published_at, with_breaking_expires_at. simpl.
    destruct (published_at (fields self));
      destruct (String.eqb (status (fields self)) "published"); simpl;
      destruct (breaking_expires_at (fields self));
      destruct (is_breaking (fields self)); auto. }
  destruct Ha as (Hs & Hi & Ht).
  unfold Model_save. cbn [fields adding pending]. rewrite Hadd, Hpend.
  set (a' := with_timestamps now now a).
  assert (Hs' : slug a' = candidate base j) by exact Hs.
  assert (Hi' : id a' = id (fields self)) by exact Hi.
  rewrite Hi, Hnew. rewrite Hs'.
  rewrite (not_taken_when_free _ _ (fun r => negb (has_pk (id a') r)) Hf).
  cbn [orb].
  exists j, (mkInstance a' false []). cbn [fields].
  split_ands; auto.
  split; cbn [news_articles set_news_articles]; rewrite map_app; simpl;
    apply NoDup_snoc; auto.
  - rewrite Hi. intros H. apply in_map_iff in H as (x & Ex & Hx).
    assert (K : existsb (has_pk (id (fields self))) (news_articles db) = true).
    { apply existsb_exists. exists x. split; auto. unfold has_pk.
      rewrite Ex. apply String.eqb_refl. }
    congruence.
  - rewrite Hs. intros H. apply in_map_iff in H as (x & Ex & Hx).
    assert (K : slug_exists (candidate base j) db = true).
    { apply existsb_exists. exists x. split; auto. rewrite Ex.
      apply String.eqb_refl. }
    congruence.
Qed.

End Saving.

Lemma newsroom_wf : wf Scenarios.newsroom.
Proof.
  split; simpl; repeat (apply NoDup_cons; [simpl; intuition discriminate|]);
    apply NoDup_nil.
Qed.

Lemma new_article_gets_a_fresh_slug_witness :
  exists inst,
    snd (NewsArticle_save Scenarios.lower 3 Scenarios.budget_draft None 100
           Scenarios.newsroom) = inr inst /\
    slug_exists (slug (fields inst)) Scenarios.newsroom = false.
Proof.
  destruct (new_article_gets_a_fresh_slug Scenarios.lower 3
              Scenarios.budget_draft 100 Scenarios.newsroom newsroom_wf
              eq_refl eq_refl eq_refl eq_refl ltac:(simpl; lia))
    as (j & inst & E & Hs & Hf & _).
  exists inst. rewrite E, Hs. split; [reflexivity | exact Hf].
Defined.

(** *** The actions *)

Lemma and_then_ret {A B} (m : H A) (k : A -> H B) db db' a :
  m db = (db', inr a) -> and_then m k db = k a db'.
Proof. unfold and_then. intros ->. reflexivity. Qed.

Lemma and_then_assoc {A B C} (m : H A) (k : A -> H B) (k' : B -> H C) db :
  and_then (and_then m k) k' db = and_then m (fun x => and_then (k x) k') db.
Proof. unfold and_then. destruct (m db) as [db' [e|a]]; reflexivity. Qed.

Lemma and_then_err {A B} (m : H A) (k : A -> H B) db db' e :
  m db = (db', inl e) -> and_then m k db = (db', inl e).
Proof. unfold and_then. intros ->. reflexivity. Qed.

(** A request that carries a user passes the permissions of every
    action but [publish] and [unpublish]. *)
Lemma check_permissions_user action safe request u db :
  request_user request = Some u ->
  action <> publish -> action <> unpublish ->
  check_permissions action safe request db = (db, inr tt).
Proof.
  intros Hu H1 H2. unfold check_permissions.
  destruct action; try congruence; simpl; rewrite Hu;
    rewrite ?orb_true_r; reflexivity.
Qed.

Lemma check_permissions_anonymous action request db :
  request_user request = None ->
  check_permissions action false request db = (db, inl (Raised NotAuthenticated)).
Proof.
  intros Hu. unfold check_permissions.
  destruct action; simpl; rewrite Hu; reflexivity.
Qed.

Lemma get_for_model_cases db :
  exists c,
    ContentType_get_for_model "news" "newsarticle" db
      = (set_content_types (content_types (fst (ContentType_get_for_model
                                                  "news" "newsarticle" db)))
                           db, inr c) /\
    Interactions.ct_id c = newsarticle_ct db.
Proof.
  unfold newsarticle_ct, ContentType_get_for_model.
  destruct (find _ (content_types db)) as [c|]; eexists; split;
    try reflexivity.
  destruct db; reflexivity.
Qed.

Lemma get_object_found request db a :
  addressed request db = Some a ->
  get_object request db = (db, inr (from_db a)).
Proof. unfold addressed, get_object. intros ->. reflexivity. Qed.

Lemma get_object_missing request db :
  addressed request db = None ->
  get_object request db = (db, inl (Raised Http404)).
Proof. unfold addressed, get_object. intros ->. reflexivity. Qed.

Section Actions.

Variable slugify : string -> string.

(** X12.  The share action never records a share.  [Share] has no
    column [platform], so the constructor call of the action raises
    [TypeError] for every authenticated request on an article the user
    can see; for every request whatever, the action ends in an
    exception, no [Share] row is stored and no article is changed:
    [shares_count] is never written. *)
Theorem share_never_records fuel request now db :
  let result := NewsArticleViewSet_share slugify fuel request now db in
  shares (fst result) = shares db /\
  news_articles (fst result) = news_articles db /\
  (exists e, snd result = inl e) /\
  (forall u a, request_user request = Some u ->
               addressed request db = Some a ->
               snd result = inl TypeError).
Proof.
  unfold NewsArticleViewSet_share.
  destruct (request_user request) as [u|] eqn:Hu.
  - rewrite (and_then_ret _ _ _ _ _
               (check_permissions_user share false request u db Hu
                  ltac:(discriminate) ltac:(discriminate))).
    destruct (addressed request db) as [a|] eqn:Ha.
    + rewrite (and_then_ret _ _ _ _ _ (get_object_found _ _ _ Ha)).
      destruct (get_for_model_cases db) as (c & Ec & _).
      rewrite (and_then_ret _ _ _ _ _ Ec).
      rewrite (and_then_err _ _ _ _ TypeError) by reflexivity.
      simpl. split_ands; eauto.
    + rewrite (and_then_err _ _ _ _ _ (get_object_missing _ _ Ha)).
      simpl. split_ands; eauto. discriminate.
  - rewrite (and_then_err _ _ _ _ _
               (check_permissions_anonymous share request db Hu)).
    simpl. split_ands; eauto. discriminate.
Qed.

End Actions.

Lemma bookmark_action_eq request now db u a :
  request_user request = Some u ->
  addressed request db = Some a ->
  let db1 := fst (ContentType_get_for_model "news" "newsarticle" db) in
  NewsArticleViewSet_bookmark request now db =
  match filter (Interactions.for_pair (pk u) (newsarticle_ct db) (id a))
               (rows (bookmarks db)) with
  | [] =>
      (set_bookmarks
         (Interactions.inserted (bookmarks db) (pk u) (newsarticle_ct db)
                                (id a) now) db1, inr true)
  | [r] =>
      (set_bookmarks (Interactions.delete_instance r (bookmarks db)) db1,
       inr false)
  | _ :: _ :: _ => (db1, inl (Raised MultipleObjectsReturned))
  end.
Proof.
  intros Hu Ha db1.
  unfold NewsArticleViewSet_bookmark.
  rewrite (and_then_ret _ _ _ _ _
             (check_permissions_user bookmark false request u db Hu
                ltac:(discriminate) ltac:(discriminate))).
  rewrite (and_then_ret _ _ _ _ _ (get_object_found _ _ _ Ha)).
  destruct (get_for_model_cases db) as (c & Ec & Hc).
  rewrite (and_then_ret _ _ _ _ _ Ec). rewrite Hu.
  unfold db1. rewrite Ec. cbn [fst fields from_db].
  unfold Interactions.get_or_create. rewrite Hc.
  cbn [bookmarks set_content_types].
  destruct (filter _ _) as [|r [|r' l]]; reflexivity.
Qed.

(** X13.  The bookmark action of the viewset toggles the bookmark of
    the user for the article and answers with the new state; no article
    is changed by it, so [bookmarks_count] is never written, and neither
    are the views and the shares. *)
Theorem news_bookmark_toggles_without_counting request now db u a :
  request_user request = Some u ->
  addressed request db = Some a ->
  Interactions.wf_table (bookmarks db) ->
  let ct := newsarticle_ct db in
  let before := Interactions.holds (bookmarks db) (pk u) ct (id a) in
  let result := NewsArticleViewSet_bookmark request now db in
  snd result = inr (negb before) /\
  Interactions.holds (bookmarks (fst result)) (pk u) ct (id a) = negb before /\
  Interactions.wf_table (bookmarks (fst result)) /\
  news_articles (fst result) = news_articles db /\
  views (fst result) = views db /\ shares (fst result) = shares db.
Proof.
  intros Hu Ha W ct before result.
  destruct (InteractionsFacts.toggle_effect_total (bookmarks db) empty_table
              (pk u) ct (id a) now W InteractionsFacts.wf_empty_table)
    as (own' & other' & b & He & Hb & Hown & Wown & _).
  unfold result. rewrite (bookmark_action_eq request now db u a Hu Ha).
  fold ct. unfold Interactions.toggle_effect in He. fold before in Hb.
  destruct (get_for_model_cases db) as (c & Ec & _). rewrite Ec.
  destruct (filter _ _) as [|r [|r' l]]; try discriminate;
    injection He as E1 E2 E3; subst own' other'; rewrite <- E3 in *;
    cbn [fst snd bookmarks set_bookmarks set_content_types news_articles
         views shares];
    rewrite <- Hb; split_ands; auto.
Qed.

Lemma news_bookmark_toggles_without_counting_witness :
  let request := Scenarios.on_article (Some Scenarios.reader) "budget" in
  snd (NewsArticleViewSet_bookmark request 100 Scenarios.newsroom) = inr true /\
  news_articles (fst (NewsArticleViewSet_bookmark request 100 Scenarios.newsroom))
    = news_articles Scenarios.newsroom.
Proof.
  destruct (news_bookmark_toggles_without_counting
              (Scenarios.on_article (Some Scenarios.reader) "budget") 100
              Scenarios.newsroom Scenarios.reader Scenarios.budget
              eq_refl eq_refl InteractionsFacts.wf_empty_table)
    as (H1 & _ & _ & H2 & _).
  split; [exact H1 | exact H2].
Defined.

(** *** Reading an article *)

Lemma addressed_In request db a :
  addressed request db = Some a ->
  In a (news_articles db) /\ slug a = kwargs_slug request /\
  (staff request = false -> status a = "published"%string).
Proof.
  unfold addressed, get_queryset. intros H. apply find_some in H as [Hin Hs].
  apply String.eqb_eq in Hs. destruct (staff request); simpl in Hin.
  - split_ands; auto. discriminate.
  - apply filter_In in Hin as [Hin Hp]. apply String.eqb_eq in Hp.
    split_ands; auto.
Qed.

Lemma find_article_by_pk db a :
  wf db -> In a (news_articles db) ->
  find (has_pk (id a)) (news_articles db) = Some a.
Proof.
  intros [ND _]. induction (news_articles db) as [|x l IH]; simpl; [tauto|].
  inversion ND as [|? ? Hn ND']; subst. intros [->|Hin].
  - unfold has_pk. rewrite String.eqb_refl. reflexivity.
  - unfold has_pk at 1. destruct (String.eqb (id x) (id a)) eqn:E; auto.
    apply String.eqb_eq in E. exfalso. apply Hn. rewrite E.
    apply in_map. exact Hin.
Qed.

Lemma slug_not_taken db a x :
  wf db -> In a (news_articles db) -> slug x = slug a -> id x = id a ->
  existsb (fun r => negb (has_pk (id x) r) && String.eqb (slug r) (slug x))
          (news_articles db) = false.
Proof.
  intros [_ ND] Hin Es Ei. rewrite Es, Ei.
  destruct (existsb _ _) eqn:E; auto.
  apply existsb_exists in E as (r & Hr & Hc).
  apply andb_true_iff in Hc as [Hn He].
  apply String.eqb_eq in He.
  rewrite (InteractionsFacts.NoDup_map_inj slug _ r a ND Hr Hin He) in Hn.
  unfold has_pk in Hn. rewrite String.eqb_refl in Hn. discriminate.
Qed.

Lemma find_replaced db a row' :
  wf db -> In a (news_articles db) -> id row' = id a ->
  find (has_pk (id a))
       (map (fun r => if has_pk (id a) r then row' else r) (news_articles db))
  = Some row' /\
  forall k, k <> id a ->
    find (has_pk k)
         (map (fun r => if has_pk (id a) r then row' else r) (news_articles db))
    = find (has_pk k) (news_articles db).
Proof.
  intros [ND _] Hin Ei. split.
  - clear ND. induction (news_articles db) as [|x l IH]; simpl; [destruct Hin|].
    destruct (has_pk (id a) x) eqn:E.
    + unfold has_pk at 1. rewrite Ei, String.eqb_refl. reflexivity.
    + rewrite E. destruct Hin as [->|Hin]; auto.
      unfold has_pk in E. rewrite String.eqb_refl in E. discriminate.
  - intros k Hk. clear ND Hin.
    induction (news_articles db) as [|x l IH]; simpl; auto.
    destruct (has_pk (id a) x) eqn:E.
    + unfold has_pk in *. apply String.eqb_eq in E. rewrite Ei, E.
      destruct (String.eqb_spec (id a) k); [congruence|]. exact IH.
    + rewrite IH. reflexivity.
Qed.

Section Reading.

Variable slugify : string -> string.

(** Saving the view counter of a stored article with
    [F('views_count') + 1]. *)
Lemma save_views_count fuel a now db :
  wf db -> In a (news_articles db) -> slug a <> ""%string ->
  0 <= views_count a ->
  let row' := with_counts (views_count a + 1) (likes_count a)
                (comments_count a) (shares_count a) (bookmarks_count a) a in
  exists inst,
    NewsArticle_save slugify fuel (assign_F "views_count" 1 (from_db a))
                     (Some ["views_count"%string]) now db
    = (set_news_articles
         (map (fun r => if has_pk (id a) r then row' else r) (news_articles db))
         db, inr inst) /\
    pending inst = [("views_count"%string, 1)].
Proof.
  intros W Hin Hs Hv row'. unfold NewsArticle_save.
  cbn [fields from_db assign_F adding pending].
  apply String.eqb_neq in Hs. rewrite Hs.
  match goal with
  | |- context [Model_save (mkInstance ?x _ _)] => set (a2 := x)
  end.
  assert (Hi : id a2 = id a).
  { unfold a2, with_slug, with_published_at, with_breaking_expires_at. simpl.
    destruct (published_at a); destruct (String.eqb (status a) "published");
      simpl; destruct (breaking_expires_at a); destruct (is_breaking a); auto. }
  unfold Model_save. cbn [fields adding pending existsb String.eqb orb].
  change (existsb (String.eqb "updated_at") ["views_count"%string]) with false.
  cbv iota. rewrite Hi, (find_article_by_pk db a W Hin).
  unfold update_columns, update_column.
  cbn [find fst String.eqb Ascii.eqb Bool.eqb andb pending filter negb].
  change (counter "views_count" a) with (Some (views_count a)).
  cbv iota beta.
  destruct (views_count a + 1 <? 0) eqn:L; [apply Z.ltb_lt in L; lia|].
  change (set_counter "views_count" (views_count a + 1) a) with (Some row').
  cbv iota beta.
  rewrite (slug_not_taken db a row' W Hin eq_refl eq_refl).
  eexists. split; reflexivity.
Qed.

Lemma View_get_or_create_cases u ct oid now db :
  (count (view_for_pair u ct oid) (views db) <= 1)%nat ->
  exists t r,
    View_get_or_create u ct oid now db = (set_views t db, inr r) /\
    count (view_for_pair u ct oid) t = 1%nat.
Proof.
  unfold View_get_or_create, count. intros H.
  destruct (filter _ (rows (views db))) as [|v [|v' l]] eqn:F;
    [| |simpl in H; lia].
  - do 2 eexists. split; [reflexivity|]. simpl. rewrite F.
    unfold view_for_pair. simpl. rewrite !Z.eqb_refl, String.eqb_refl.
    reflexivity.
  - exists (views db). eexists. split; [destruct db; reflexivity|].
    rewrite F. reflexivity.
Qed.

(** X14.  Reading an article.  An anonymous read returns the article
    and writes nothing.  A read by an authenticated user adds one to
    [views_count] of the article, every time, and leaves every other
    article as it was, while the user has one [View] row for the article
    however often it is read: the counter counts reads, not readers.
    That read is not answered with the article: the instance still holds
    the expression [F('views_count') + 1] when it is serialized, and
    [serializer.data] raises [TypeError] after the writes. *)
Theorem retrieve_counts_every_read fuel request now db a :
  wf db ->
  addressed request db = Some a ->
  kwargs_slug request <> ""%string ->
  0 <= views_count a ->
  let result := NewsArticleViewSet_retrieve slugify fuel request now db in
  match request_user request with
  | None => result = (db, inr (from_db a))
  | Some u =>
      let mine := view_for_pair (pk u) (newsarticle_ct db) (id a) in
      (count mine (views db) <= 1)%nat ->
      snd result = inl TypeError /\
      stored (id a) (fst result)
        = Some (with_counts (views_count a + 1) (likes_count a)
                  (comments_count a) (shares_count a) (bookmarks_count a) a) /\
      (forall k, k <> id a -> stored k (fst result) = stored k db) /\
      count mine (views (fst result)) = 1%nat /\
      wf (fst result)
  end.
Proof.
  intros W Ha Hk Hv result. unfold result, NewsArticleViewSet_retrieve.
  destruct (addressed_In _ _ _ Ha) as (Hin & Hs & _).
  assert (Hslug : slug a <> ""%string) by congruence.
  destruct (request_user request) as [u|] eqn:Hu.
  - cbv iota. intros Hc1.
    set (mine := view_for_pair (pk u) (newsarticle_ct db) (id a)).
    rewrite (and_then_ret _ _ _ _ _
               (check_permissions_user retrieve true request u db Hu
                  ltac:(discriminate) ltac:(discriminate))).
    rewrite (and_then_ret _ _ _ _ _ (get_object_found _ _ _ Ha)).
    destruct (get_for_model_cases db) as (c & Ec & Hc).
    rewrite and_then_assoc, (and_then_ret _ _ _ _ _ Ec).
    set (db1 := set_content_types _ db).
    cbn [fields from_db]. rewrite Hc. fold mine.
    destruct (View_get_or_create_cases (pk u) (newsarticle_ct db) (id a) now
                db1 Hc1) as (t & r & Ev & Ct).
    rewrite and_then_assoc, (and_then_ret _ _ _ _ _ Ev).
    destruct (save_views_count fuel a now (set_views t db1) W Hin Hslug Hv)
      as (inst & E & Ep).
    rewrite (and_then_ret _ _ _ _ _ E).
    unfold serializer_data. rewrite Ep.
    change (existsb _ [("views_count"%string, 1)]) with true.
    cbv iota. unfold throw. cbn [fst snd].
    unfold stored. cbn [news_articles set_news_articles set_views views].
    destruct (find_replaced db a
                (with_counts (views_count a + 1) (likes_count a)
                   (comments_count a) (shares_count a) (bookmarks_count a) a)
                W Hin eq_refl) as [R1 R2].
    split_ands; eauto.
    destruct W as [W1 W2]. split; cbn [news_articles set_news_articles];
      rewrite map_map.
    + erewrite map_ext; [exact W1|]. intros x. simpl.
      destruct (has_pk (id a) x) eqn:P; auto.
      apply String.eqb_eq in P. auto.
    + erewrite map_ext_in; [exact W2|]. intros x Hx. simpl.
      destruct (has_pk (id a) x) eqn:P; auto. simpl.
      apply String.eqb_eq in P.
      rewrite (InteractionsFacts.NoDup_map_inj id _ x a W1 Hx Hin P).
      reflexivity.
  - unfold check_permissions. simpl. unfold and_then, pure.
    rewrite (get_object_found _ _ _ Ha). reflexivity.
Qed.

End Reading.

Lemma retrieve_counts_every_read_witness :
  let request := Scenarios.on_article (Some Scenarios.reader) "budget" in
  let result := NewsArticleViewSet_retrieve Scenarios.lower 0 request 100
                  Scenarios.newsroom in
  snd result = inl TypeError /\
  option_map views_count (stored "a-0001" (fst result)) = Some 11 /\
  count (view_for_pair 1 7 "a-0001") (views (fst result)) = 1%nat.
Proof.
  destruct (retrieve_counts_every_read Scenarios.lower 0
              (Scenarios.on_article (Some Scenarios.reader) "budget") 100
              Scenarios.newsroom Scenarios.budget newsroom_wf eq_refl
              ltac:(discriminate) ltac:(vm_compute; discriminate)
              ltac:(vm_compute; repeat constructor))
    as (H0 & H1 & _ & H2 & _).
  split; [exact H0|]. split; [| exact H2].
  change (id Scenarios.budget) with "a-0001"%string in H1.
  rewrite H1. reflexivity.
Defined.

(** The two reads of the scenario, evaluated. *)
Example retrieve_of_the_scenario :
  snd (NewsArticleViewSet_retrieve Scenarios.lower 0
         (Scenarios.on_article (Some Scenarios.reader) "budget") 100
         Scenarios.newsroom) = inl TypeError /\
  NewsArticleViewSet_retrieve Scenarios.lower 0
    (Scenarios.on_article None "budget") 100 Scenarios.newsroom
  = (Scenarios.newsroom, inr (from_db Scenarios.budget)).
Proof. split; vm_compute; reflexivity. Qed.

(** *** Publishing *)

Section Publishing.

Variable slugify : string -> string.

(** X15.  Publishing is for staff: a request of a user who is not
    staff, or of no user, is refused before anything is read, and the
    store is as before. *)
Theorem publish_is_for_staff fuel request now db :
  staff request = false ->
  NewsArticleViewSet_publish slugify fuel request now db
  = (db, inl match request_user request with
             | None => Raised NotAuthenticated
             | Some _ => PermissionDenied
             end).
Proof.
  intros Hs. unfold NewsArticleViewSet_publish, and_then, check_permissions.
  cbn [get_permissions forallb has_permission orb andb]. rewrite Hs.
  rewrite andb_false_r.
  destruct (request_user request); reflexivity.
Qed.

Lemma update_all_columns x add row :
  id row = id x ->
  update_columns (mkInstance x add []) row all_columns = inr x.
Proof.
  destruct x, row. cbn [id]. intros ->. vm_compute. reflexivity.
Qed.

Lemma find_by_slug_replaced db a row' :
  wf db -> In a (news_articles db) -> slug row' = slug a ->
  find (fun r => String.eqb (slug r) (slug a))
       (map (fun r => if has_pk (id a) r then row' else r) (news_articles db))
  = Some row'.
Proof.
  intros [Wi Ws] Hin Es.
  induction (news_articles db) as [|x l IH]; simpl; [destruct Hin|].
  inversion Wi as [|? ? Hni Wi']; inversion Ws as [|? ? Hns Ws']; subst.
  destruct (has_pk (id a) x) eqn:P.
  - rewrite Es, String.eqb_refl. reflexivity.
  - destruct Hin as [->|Hin];
      [unfold has_pk in P; rewrite String.eqb_refl in P; discriminate|].
    destruct (String.eqb (slug x) (slug a)) eqn:Q; [|auto].
    apply String.eqb_eq in Q. exfalso. apply Hns. rewrite Q.
    apply in_map. exact Hin.
Qed.

(** The save of [publish]: the row of the article becomes
    [published_row]. *)
Lemma publish_save fuel u now a db :
  wf db -> In a (news_articles db) ->
  String.eqb (slug a) "" = false ->
  NewsArticle_save slugify fuel
    (mkInstance
       (with_published_by (Some u)
          (with_published_at (Some now) (with_status "published" a)))
       false []) None now db
  = (set_news_articles
       (map (fun r => if has_pk (id a) r then published_row u now a else r)
            (news_articles db)) db,
     inr (mkInstance (published_row u now a) false [])).
Proof.
  intros W Hin Hslug.
  pose proof (find_article_by_pk db a W Hin) as F.
  pose proof (slug_not_taken db a (published_row u now a) W Hin eq_refl eq_refl)
    as T.
  assert (X : existsb (has_pk (id a)) (news_articles db) = true).
  { apply existsb_exists. exists a. split; auto. apply String.eqb_refl. }
  unfold published_row in *.
  destruct a as [i t s st br ft v l c sh b pb ca ua pa be].
  cbn [id slug title status is_breaking is_featured views_count likes_count
       comments_count shares_count bookmarks_count published_by created_at
       updated_at published_at breaking_expires_at] in *.
  unfold NewsArticle_save, with_published_by, with_published_at, with_status.
  cbn [fields adding pending id slug title status is_breaking is_featured
       views_count likes_count comments_count shares_count bookmarks_count
       published_by created_at updated_at published_at breaking_expires_at].
  rewrite Hslug.
  unfold with_slug, with_breaking_expires_at.
  cbn [fields adding pending id slug title status is_breaking is_featured
       views_count likes_count comments_count shares_count bookmarks_count
       published_by created_at updated_at published_at breaking_expires_at].
  destruct be as [e|]; [|destruct br];
    unfold Model_save, with_timestamps;
    cbn [fields adding pending id slug title status is_breaking is_featured
         views_count likes_count comments_count shares_count bookmarks_count
         published_by created_at updated_at published_at breaking_expires_at];
    rewrite X, F;
    match goal with
    | |- context [update_columns (mkInstance ?x ?ad []) ?row all_columns] =>
        rewrite (update_all_columns x ad row eq_refl)
    end;
    cbn [id slug]; rewrite T; reflexivity.
Qed.

(** X16.  Staff publishing an article that is not yet published: the
    stored article gets the status [published], the time of the request
    as [published_at] and the user as [published_by] (and an expiry a
    day later when it is breaking and had none); its key, title, slug
    and counters are as before, and so is every other article.  A
    second publish request for it is answered 400 and changes nothing,
    so [published_at] keeps the time of the first. *)
Theorem publish_sets_the_status_once fuel request now now' db u a :
  wf db ->
  request_user request = Some u -> is_staff u = true ->
  addressed request db = Some a ->
  kwargs_slug request <> ""%string ->
  status a <> "published"%string ->
  let result := NewsArticleViewSet_publish slugify fuel request now db in
  (exists inst, snd result = inr (Published inst)) /\
  stored (id a) (fst result) = Some (published_row (pk u) now a) /\
  (forall k, k <> id a -> stored k (fst result) = stored k db) /\
  NewsArticleViewSet_publish slugify fuel request now' (fst result)
  = (fst result, inr (BadRequest "Article is already published")).
Proof.
  intros W Hu Hst Ha Hk Hp result.
  destruct (addressed_In _ _ _ Ha) as (Hin & Hs & _).
  assert (Hslug : String.eqb (slug a) "" = false)
    by (apply String.eqb_neq; congruence).
  assert (Hstaff : staff request = true) by (unfold staff; rewrite Hu; exact Hst).
  assert (Hperm : forall s, check_permissions publish false request s = (s, inr tt)).
  { intros s. unfold check_permissions.
    cbn [get_permissions forallb has_permission orb andb].
    rewrite Hu, Hstaff. reflexivity. }
  set (row' := published_row (pk u) now a).
  set (l' := map (fun r => if has_pk (id a) r then row' else r)
                 (news_articles db)).
  assert (E : result = (set_news_articles l' db,
                        inr (Published (mkInstance row' false [])))).
  { unfold result, NewsArticleViewSet_publish.
    rewrite (and_then_ret _ _ _ _ _ (Hperm db)).
    rewrite (and_then_ret _ _ _ _ _ (get_object_found _ _ _ Ha)).
    cbn [fields from_db adding pending].
    apply String.eqb_neq in Hp. rewrite Hp. rewrite Hu.
    cbn [option_map].
    rewrite (and_then_ret _ _ _ (set_news_articles l' db)
               (mkInstance row' false [])); [reflexivity|].
    apply publish_save; auto. }
  rewrite E. cbn [fst snd]. unfold stored. cbn [news_articles set_news_articles].
  destruct (find_replaced db a row' W Hin eq_refl) as [R1 R2].
  split; [eauto|]. split; [exact R1|]. split; [exact R2|].
  unfold NewsArticleViewSet_publish.
  rewrite (and_then_ret _ _ _ _ _ (Hperm _)).
  assert (Ha' : addressed request (set_news_articles l' db) = Some row').
  { unfold addressed, get_queryset. rewrite Hstaff. simpl. rewrite <- Hs.
    apply (find_by_slug_replaced db a row' W Hin eq_refl). }
  rewrite (and_then_ret _ _ _ _ _ (get_object_found _ _ _ Ha')).
  reflexivity.
Qed.

End Publishing.

Lemma publish_is_for_staff_witness :
  NewsArticleViewSet_publish Scenarios.lower 0
    (Scenarios.on_article (Some Scenarios.reader) "budget-1") 100
    Scenarios.newsroom
  = (Scenarios.newsroom, inl PermissionDenied).
Proof.
  exact (publish_is_for_staff Scenarios.lower 0
           (Scenarios.on_article (Some Scenarios.reader) "budget-1") 100
           Scenarios.newsroom eq_refl).
Defined.

Lemma publish_sets_the_status_once_witness :
  let request := Scenarios.on_article (Some Scenarios.editor) "budget-1" in
  let result := NewsArticleViewSet_publish Scenarios.lower 0 request 100
                  Scenarios.newsroom in
  stored "a-0002" (fst result)
    = Some (published_row 9 100 Scenarios.budget_again) /\
  NewsArticleViewSet_publish Scenarios.lower 0 request 200 (fst result)
    = (fst result, inr (BadRequest "Article is already published")).
Proof.
  destruct (publish_sets_the_status_once Scenarios.lower 0
              (Scenarios.on_article (Some Scenarios.editor) "budget-1")
              100 200 Scenarios.newsroom Scenarios.editor
              Scenarios.budget_again newsroom_wf eq_refl eq_refl eq_refl
              ltac:(discriminate) ltac:(discriminate))
    as (_ & H1 & _ & H2).
  split; [exact H1 | exact H2].
Defined.

(** *** Trending *)

Lemma sorted_app_order {A} (R : A -> A -> Prop) l1 l2 :
  StronglySorted R (l1 ++ l2) ->
  forall a b, In a l1 -> In b l2 -> R a b.
Proof.
  induction l1 as [|x l1 IH]; simpl; intros S a b Ha Hb; [destruct Ha|].
  inversion S as [|? ? S' F]; subst. destruct Ha as [->|Ha].
  - rewrite Forall_forall in F. apply F. apply in_app_iff. right. exact Hb.
  - apply IH; auto.
Qed.

Lemma In_firstn {A} n (l : list A) a : In a (firstn n l) -> In a l.
Proof.
  revert l. induction n as [|n IH]; intros l H; simpl in H; [destruct H|].
  destruct l as [|x l]; simpl in H; [destruct H|].
  destruct H as [->|H]; [left; reflexivity|right; auto].
Qed.

Lemma by_engagement_sorted l :
  StronglySorted (fun a b => engagement_score b <= engagement_score a)
    (sort_by (fun a b => engagement_score b <=? engagement_score a) l).
Proof.
  assert (S : StronglySorted
                (ordered_by (fun a b => engagement_score b <=? engagement_score a))
                (sort_by (fun a b => engagement_score b <=? engagement_score a) l)).
  { apply FeedFacts.sort_by_sorted.
    - intros a b.
      destruct (Z.leb_spec (engagement_score b) (engagement_score a)); auto.
      right. apply Z.leb_le. lia.
    - intros a b c. rewrite !Z.leb_le. lia. }
  induction S as [|a m S IH F]; constructor; auto.
  eapply Forall_impl; [|exact F]. intros b Hb. apply Z.leb_le. exact Hb.
Qed.

(** X17.  The trending list is the top twenty by engagement: it has at
    most twenty articles, each of them stored, published within the last
    seven days and, unless the user is staff, with the status
    [published]; it is ordered by the engagement score
    [views + 5 likes + 10 comments + 15 shares], highest first; and an
    article that qualifies but is not listed is not above any of the
    twenty that are. *)
Theorem trending_is_the_top_twenty request now db :
  let l := NewsArticleViewSet_trending request now db in
  (List.length l <= 20)%nat /\
  (forall a, In a l ->
     In a (news_articles db) /\
     (exists p, published_at a = Some p /\ now - Feed.days 7 <= p) /\
     (staff request = false -> status a = "published"%string)) /\
  StronglySorted (fun a b => engagement_score b <= engagement_score a) l /\
  (forall b, In b (get_queryset request db) ->
     published_since (now - Feed.days 7) b = true ->
     ~ In b l ->
     List.length l = 20%nat /\
     forall a, In a l -> engagement_score b <= engagement_score a).
Proof.
  intros l. unfold l, NewsArticleViewSet_trending.
  set (leb := fun a b => engagement_score b <=? engagement_score a).
  set (c := filter (published_since (now - Feed.days 7))
                   (get_queryset request db)).
  set (s := sort_by leb c).
  split_ands.
  - rewrite length_firstn. lia.
  - intros a Ha. apply In_firstn in Ha.
    apply EndpointFacts.sort_by_In in Ha. apply filter_In in Ha as [Hq Hp].
    split_ands.
    + unfold get_queryset in Hq. destruct (staff request); simpl in Hq; auto.
      apply filter_In in Hq. tauto.
    + unfold published_since in Hp. destruct (published_at a) as [p|];
        [|discriminate]. exists p. split; auto. apply Z.leb_le. exact Hp.
    + intros Hs. unfold get_queryset in Hq. rewrite Hs in Hq. simpl in Hq.
      apply filter_In in Hq as [_ Hq]. apply String.eqb_eq. exact Hq.
  - apply FeedFacts.firstn_sorted. apply by_engagement_sorted.
  - intros b Hq Hp Hn.
    assert (Hb : In b s).
    { apply EndpointFacts.sort_by_In. apply filter_In. auto. }
    rewrite <- (firstn_skipn 20 s) in Hb. apply in_app_iff in Hb as [Hb|Hb];
      [contradiction|].
    split.
    + rewrite length_firstn.
      destruct (Nat.le_gt_cases (List.length s) 20) as [L|L]; [|lia].
      rewrite skipn_all2 in Hb by exact L. destruct Hb.
    + intros a Ha.
      pose proof (by_engagement_sorted c) as S. fold leb in S. fold s in S.
      rewrite <- (firstn_skipn 20 s) in S.
      apply (sorted_app_order _ _ _ S a b Ha Hb).
Qed.

End ArticleFacts.

(** * The recommended feed: scores *)

Module FeedPageFacts.
Import Feed.

(** X19.  The score of an article does not depend on the user: neither
    the interests nor the subscriptions handed to
    [_calculate_content_score] are read, so any two users get the same
    score for the same article at the same time. *)
Theorem content_score_ignores_the_user :
  forall content now interests subscriptions interests' subscriptions',
    _calculate_content_score content interests subscriptions now
    = _calculate_content_score content interests' subscriptions' now.
Proof. intros. reflexivity. Qed.

Lemma max_0_cases (x : Q) :
  (x <= 0 /\ max_ 0 x == 0)%Q \/ (0 <= x /\ max_ 0 x == x)%Q.
Proof.
  unfold max_. destruct (Qle_bool x 0) eqn:E.
  - left. apply Qle_bool_iff in E. split; [exact E|reflexivity].
  - right. split; [|reflexivity].
    destruct (Qlt_le_dec x 0) as [H|H]; auto.
    apply Qlt_le_weak, Qle_bool_iff in H. congruence.
Qed.

(** X20.  The score of an article published in the past lies between
    a tenth of the view count and that plus 100; once the article is
    ten days old recency adds nothing and the score is exactly a tenth
    of the view count; and of two such articles with the same view
    count the one published later does not score lower. *)
Theorem content_score_bounds content interests subscriptions now p :
  published_at content = Some p -> p <= now ->
  let s := _calculate_content_score content interests subscriptions now in
  let tenth := (inject_Z (view_count content) * (1 # 10))%Q in
  (tenth <= s /\ s <= 100 + tenth)%Q /\
  (days 10 <= now - p -> (s == tenth)%Q) /\
  (forall other q,
     published_at other = Some q -> p <= q ->
     view_count other = view_count content ->
     (s <= _calculate_content_score other interests subscriptions now)%Q).
Proof.
  intros Hp Hle s tenth.
  assert (S : forall a d, published_at a = Some d ->
            (_calculate_content_score a interests subscriptions now
             == max_ 0 (100 - inject_Z (now - d) / 3600 / 24 * 10)
                + inject_Z (view_count a) * (1 # 10))%Q).
  { intros a d Hd. unfold _calculate_content_score. rewrite Hd.
    rewrite Qplus_0_l. reflexivity. }
  assert (Age : forall d, (inject_Z (now - d) / 3600 / 24 * 10
                           == inject_Z (now - d) / 8640)%Q).
  { intros d. field. }
  assert (X : (0 <= inject_Z (now - p))%Q).
  { change 0%Q with (inject_Z 0). rewrite <- Zle_Qle. lia. }
  unfold s, tenth. rewrite (S content p Hp).
  set (x := (100 - inject_Z (now - p) / 3600 / 24 * 10)%Q).
  assert (Hx : (x <= 100)%Q).
  { unfold x. rewrite Age.
    assert (0 <= inject_Z (now - p) / 8640)%Q.
    { apply Qle_shift_div_l; [reflexivity|]. rewrite Qmult_0_l. exact X. }
    lra. }
  split_ands.
  - destruct (max_0_cases x) as [[_ E]|[H E]]; rewrite E; lra.
  - destruct (max_0_cases x) as [[_ E]|[H E]]; rewrite E; lra.
  - intros Hd.
    assert (Hx0 : (x <= 0)%Q).
    { unfold x. rewrite Age.
      assert (100 <= inject_Z (now - p) / 8640)%Q.
      { apply Qle_shift_div_l; [reflexivity|].
        change (100 * 8640)%Q with (inject_Z 864000).
        rewrite <- Zle_Qle. unfold days in Hd. lia. }
      lra. }
    destruct (max_0_cases x) as [[_ E]|[H E]]; rewrite E; [lra|].
    assert (x == 0)%Q by lra. lra.
  - intros other q Hq Hpq Hv. rewrite (S other q Hq), Hv, (S content p Hp).
    fold x.
    set (y := (100 - inject_Z (now - q) / 3600 / 24 * 10)%Q).
    assert (Hxy : (x <= y)%Q).
    { unfold x, y. rewrite !Age.
      assert (inject_Z (now - q) / 8640 <= inject_Z (now - p) / 8640)%Q.
      { apply Qmult_le_compat_r; [|discriminate].
        rewrite <- Zle_Qle. lia. }
      lra. }
    destruct (max_0_cases x) as [[Hx0 E]|[Hx0 E]];
      destruct (max_0_cases y) as [[Hy0 E']|[Hy0 E']];
      set (mx := max_ 0 x) in *; set (my := max_ 0 y) in *; lra.
Qed.

Lemma content_score_bounds_witness :
  Qeq (_calculate_content_score
         (mkArticle 3 "Archive" "archive" "" None (Some 136000) 900 "published"
                    "Politics") [] [] 1000000)
      (inject_Z 90).
Proof.
  destruct (content_score_bounds
              (mkArticle 3 "Archive" "archive" "" None (Some 136000) 900
                         "published" "Politics") [] [] 1000000 136000
              eq_refl ltac:(lia)) as (_ & H & _).
  rewrite H; [reflexivity|]. vm_compute. discriminate.
Defined.

End FeedPageFacts.

(** * Subscriptions to categories and tags *)

Module SubscriptionFacts.
Import Subscriptions.

Lemma get_object_inr {A} (queryset : list A) lookup x :
  get_object queryset lookup = inr x ->
  filter lookup queryset = [x] /\ In x queryset /\ lookup x = true.
Proof.
  unfold get_object. intros H.
  destruct (filter lookup queryset) as [|y [|z l]] eqn:F; try discriminate.
  inversion H; subst y. split; auto.
  apply filter_In. rewrite F. left. reflexivity.
Qed.

Lemma get_object_refused {A} (queryset : list A) lookup e :
  get_object queryset lookup = inl e ->
  e = Http404 \/ e = MultipleObjectsReturned.
Proof.
  unfold get_object.
  destruct (filter lookup queryset) as [|y [|z l]]; intros H;
    inversion H; auto.
Qed.

Lemma filter_nil_all {A} (p : A -> bool) l :
  filter p l = [] -> forall x, In x l -> p x = false.
Proof.
  intros F x Hx. destruct (p x) eqn:E; auto.
  assert (K : In x (filter p l)) by (apply filter_In; auto).
  rewrite F in K. destruct K.
Qed.

Lemma filter_none {A} (p : A -> bool) l :
  (forall x, In x l -> p x = false) -> filter p l = [].
Proof.
  induction l as [|a l IH]; simpl; intros H; auto.
  rewrite (H a) by auto. apply IH. auto.
Qed.

Lemma filter_insert_length {A} (p : A -> bool) leb x l :
  List.length (filter p (insert_sorted leb x l))
  = List.length (filter p (x :: l)).
Proof.
  induction l as [|a l IH]; [reflexivity|].
  cbn [insert_sorted]. destruct (leb x a); [reflexivity|].
  cbn [filter] in *. destruct (p a), (p x); cbn [List.length] in *; lia.
Qed.

Lemma filter_sort_length {A} (p : A -> bool) leb l :
  List.length (filter p (sort_by leb l)) = List.length (filter p l).
Proof.
  induction l as [|a l IH]; [reflexivity|].
  cbn [sort_by fold_right]. fold (sort_by leb l).
  rewrite filter_insert_length. cbn [filter].
  destruct (p a); cbn [List.length]; rewrite IH; reflexivity.
Qed.

Section Backend.

Variable overflows : string -> bool.
Variable collation : string -> string -> bool.

(** The category of the route. *)
Local Abbreviation addressed request db :=
  (get_object (CategoryViewSet_get_queryset db)
     (fun c => String.eqb (category_slug c) (kwargs_slug request))).

Lemma category_subscribe_cases request now db u :
  request_user request = Some u ->
  match addressed request db with
  | inl e => CategoryViewSet_subscribe overflows request now db = (db, inl e)
  | inr c =>
      let t := user_subscriptions db in
      match filter (for_category u (category_id c)) (rows t) with
      | [] =>
          let r := defaults request u (Some (category_id c)) None now
                            (next_pk t) in
          if overflows (notification_frequency r)
          then CategoryViewSet_subscribe overflows request now db
               = (db, inl DatabaseError)
          else CategoryViewSet_subscribe overflows request now db
               = (set_user_subscriptions
                    (mkTable (rows t ++ [r]) (next_pk t + 1)) db,
                  inr (mkResponse 201 "Successfully subscribed to category"
                                  (Some r)))
      | [r] =>
          CategoryViewSet_subscribe overflows request now db
          = (db, inr (mkResponse 200 "Already subscribed to this category"
                                 (Some r)))
      | _ :: _ :: _ =>
          CategoryViewSet_subscribe overflows request now db
          = (db, inl MultipleObjectsReturned)
      end
  end.
Proof.
  intros Hu. unfold CategoryViewSet_subscribe. rewrite Hu.
  unfold bind.
  destruct (get_object _ _) as [e|c]; [reflexivity|].
  unfold get_or_create. cbv zeta.
  destruct (filter _ (rows (user_subscriptions db))) as [|r [|r' l]];
    try reflexivity.
  destruct (overflows _); reflexivity.
Qed.

Lemma category_unsubscribe_cases request db u :
  request_user request = Some u ->
  match addressed request db with
  | inl e => CategoryViewSet_unsubscribe request db = (db, inl e)
  | inr c =>
      let mine := for_category u (category_id c) in
      CategoryViewSet_unsubscribe request db
      = (set_user_subscriptions (delete_where mine (user_subscriptions db)) db,
         inr (if negb (Nat.eqb (count mine (user_subscriptions db)) 0)
              then mkResponse 200 "Successfully unsubscribed from category" None
              else mkResponse 404 "Not subscribed to this category" None))
  end.
Proof.
  intros Hu. unfold CategoryViewSet_unsubscribe. rewrite Hu.
  unfold bind, gets, modify.
  destruct (get_object _ _) as [e|c]; [reflexivity|].
  cbv beta iota zeta.
  destruct (negb _); reflexivity.
Qed.

Lemma defaults_for_category request u c now k :
  for_category u c (defaults request u (Some c) None now k) = true.
Proof. unfold for_category, defaults. simpl. rewrite !Z.eqb_refl. reflexivity. Qed.

(** X21.  Subscribing to a category twice keeps the first subscription.
    When a subscribe request of a user is answered (201 for a new
    subscription, with the preferences sent or else push and e-mail
    notifications on and the instant frequency; 200 for one that was
    stored, which is left as it was), every further subscribe request of
    that user for the category, whatever preferences it sends, is
    answered 200 with the stored subscription and writes nothing. *)
Theorem resubscribing_keeps_the_first_preferences
    request request' now now' db u resp :
  (forall c, (count (for_category u c) (user_subscriptions db) <= 1)%nat) ->
  request_user request = Some u ->
  request_user request' = Some u ->
  kwargs_slug request' = kwargs_slug request ->
  outcome_of (CategoryViewSet_subscribe overflows request now db) = inr resp ->
  let db1 := store_of (CategoryViewSet_subscribe overflows request now db) in
  exists c s,
    In c (categories db) /\ category_is_active c = true /\
    category_slug c = kwargs_slug request /\
    subscription resp = Some s /\
    user s = u /\ category s = Some (category_id c) /\
    In s (rows (user_subscriptions db1)) /\
    ((status_code resp = 201 /\
      rows (user_subscriptions db1) = rows (user_subscriptions db) ++ [s] /\
      push_notifications s = get (data_push_notifications request) true /\
      email_notifications s = get (data_email_notifications request) true /\
      notification_frequency s
      = get (data_notification_frequency request) "instant"%string)
     \/ (status_code resp = 200 /\ db1 = db /\
         In s (rows (user_subscriptions db)))) /\
    CategoryViewSet_subscribe overflows request' now' db1
    = (db1, inr (mkResponse 200 "Already subscribed to this category"
                            (Some s))).
Proof.
  intros Huniq Hu Hu' Hslug Hout db1.
  pose proof (category_subscribe_cases request now db u Hu) as C.
  destruct (addressed request db) as [e|c] eqn:A;
    [unfold db1 in *; rewrite C in Hout; discriminate|].
  destruct (get_object_inr _ _ _ A) as (Fc & Hc & Hs).
  apply filter_In in Hc as [Hc Hact]. apply String.eqb_eq in Hs.
  cbv zeta in C.
  assert (A' : forall d, categories d = categories db ->
                         addressed request' d = inr c).
  { intros d Hd. unfold CategoryViewSet_get_queryset in *.
    rewrite Hslug, Hd. exact A. }
  destruct (filter (for_category u (category_id c))
                   (rows (user_subscriptions db))) as [|r [|r' l]] eqn:F.
  - destruct (overflows _) eqn:O;
      [unfold db1 in *; rewrite C in Hout; discriminate|].
    unfold db1 in *. rewrite C in *. unfold outcome_of, store_of in *.
    cbn [fst snd] in *. inversion Hout; subst resp; clear Hout.
    set (s := defaults request u (Some (category_id c)) None now
                       (next_pk (user_subscriptions db))).
    exists c, s. split_ands; auto.
    + cbn. apply in_or_app. right. left. reflexivity.
    + left. split_ands; reflexivity.
    + pose proof (category_subscribe_cases request' now'
                    (set_user_subscriptions
                       (mkTable (rows (user_subscriptions db) ++ [s])
                                (next_pk (user_subscriptions db) + 1)) db)
                    u Hu') as C'.
      rewrite (A' (set_user_subscriptions
                     (mkTable (rows (user_subscriptions db) ++ [s])
                              (next_pk (user_subscriptions db) + 1)) db)
                  eq_refl) in C'.
      cbv zeta in C'.
      cbn [user_subscriptions set_user_subscriptions rows] in C'.
      rewrite filter_app, F in C'. cbn [filter app] in C'.
      unfold s in C' at 1. rewrite defaults_for_category in C'.
      exact C'.
  - unfold db1 in *. rewrite C in *. unfold outcome_of, store_of in *.
    cbn [fst snd] in *. inversion Hout; subst resp; clear Hout.
    assert (Hr : In r (filter (for_category u (category_id c))
                              (rows (user_subscriptions db))))
      by (rewrite F; left; reflexivity).
    apply filter_In in Hr as [Hin Hr].
    unfold for_category in Hr. apply andb_true_iff in Hr as [H1 H2].
    apply Z.eqb_eq in H1.
    destruct (category r) as [c'|] eqn:Ec; [|discriminate].
    apply Z.eqb_eq in H2. subst c'.
    exists c, r. split_ands; auto.
    pose proof (category_subscribe_cases request' now' db u Hu') as C'.
    rewrite (A' db eq_refl) in C'. cbv zeta in C'. rewrite F in C'.
    exact C'.
  - exfalso. specialize (Huniq (category_id c)). unfold count in Huniq.
    rewrite F in Huniq. simpl in Huniq. lia.
Qed.

(** X22.  Unsubscribing undoes a new subscription.  After a subscribe
    request answered 201, the same user's unsubscribe request for that
    category is answered 200 and the subscription rows are those from
    before the subscription; one more unsubscribe request is answered
    404 and changes nothing. *)
Theorem unsubscribe_undoes_subscribe request now db u resp :
  request_user request = Some u ->
  outcome_of (CategoryViewSet_subscribe overflows request now db) = inr resp ->
  status_code resp = 201 ->
  let db1 := store_of (CategoryViewSet_subscribe overflows request now db) in
  let db2 := store_of (CategoryViewSet_unsubscribe request db1) in
  outcome_of (CategoryViewSet_unsubscribe request db1)
  = inr (mkResponse 200 "Successfully unsubscribed from category" None) /\
  rows (user_subscriptions db2) = rows (user_subscriptions db) /\
  categories db2 = categories db /\ tags db2 = tags db /\
  CategoryViewSet_unsubscribe request db2
  = (db2, inr (mkResponse 404 "Not subscribed to this category" None)).
Proof.
  intros Hu Hout Hst db1 db2.
  pose proof (category_subscribe_cases request now db u Hu) as C.
  destruct (addressed request db) as [e|c] eqn:A;
    [unfold db1 in *; rewrite C in Hout; discriminate|].
  cbv zeta in C.
  destruct (filter (for_category u (category_id c))
                   (rows (user_subscriptions db))) as [|r [|r' l]] eqn:F;
    [|unfold db1 in *; rewrite C in Hout; inversion Hout; subst resp;
      discriminate
     |unfold db1 in *; rewrite C in Hout; discriminate].
  destruct (overflows _) eqn:O;
    [unfold db1 in *; rewrite C in Hout; discriminate|].
  set (s := defaults request u (Some (category_id c)) None now
                     (next_pk (user_subscriptions db))) in *.
  set (mine := for_category u (category_id c)) in *.
  assert (E1 : db1 = set_user_subscriptions
                       (mkTable (rows (user_subscriptions db) ++ [s])
                                (next_pk (user_subscriptions db) + 1)) db).
  { unfold db1. rewrite C. reflexivity. }
  assert (A1 : addressed request db1 = inr c).
  { rewrite E1. exact A. }
  assert (Hs : mine s = true) by apply defaults_for_category.
  assert (Hold : filter (fun r => negb (mine r)) (rows (user_subscriptions db))
                 = rows (user_subscriptions db)).
  { apply PushDeleteFacts.filter_all. intros x Hx.
    rewrite (filter_nil_all _ _ F x Hx). reflexivity. }
  pose proof (category_unsubscribe_cases request db1 u Hu) as U.
  rewrite A1 in U. cbv zeta in U. fold mine in U.
  assert (Cn : count mine (user_subscriptions db1) = 1%nat).
  { rewrite E1. unfold count. cbn [user_subscriptions set_user_subscriptions rows].
    rewrite filter_app, F. cbn [filter app]. rewrite Hs. reflexivity. }
  rewrite Cn in U. cbn [Nat.eqb negb] in U.
  assert (E2 : db2 = set_user_subscriptions
                       (mkTable (rows (user_subscriptions db))
                                (next_pk (user_subscriptions db) + 1)) db).
  { unfold db2. rewrite U. unfold store_of. cbn [fst]. rewrite E1.
    unfold delete_where, set_user_subscriptions.
    cbn [user_subscriptions rows next_pk categories tags].
    rewrite filter_app, Hold. cbn [filter]. rewrite Hs. cbn [negb].
    rewrite app_nil_r. reflexivity. }
  split_ands.
  - rewrite U. reflexivity.
  - rewrite E2. reflexivity.
  - rewrite E2. reflexivity.
  - rewrite E2. reflexivity.
  - pose proof (category_unsubscribe_cases request db2 u Hu) as U2.
    assert (A2 : addressed request db2 = inr c) by (rewrite E2; exact A).
    rewrite A2 in U2. cbv zeta in U2. fold mine in U2.
    assert (Cn2 : count mine (user_subscriptions db2) = 0%nat).
    { rewrite E2. unfold count.
      cbn [user_subscriptions set_user_subscriptions rows].
      fold mine in F. rewrite F. reflexivity. }
    rewrite Cn2 in U2. cbn [Nat.eqb negb] in U2. rewrite U2.
    f_equal. rewrite E2. unfold delete_where, set_user_subscriptions.
    cbn [user_subscriptions rows next_pk categories tags].
    rewrite Hold. reflexivity.
Qed.

End Backend.

Lemma resubscribing_keeps_the_first_preferences_witness :
  exists s,
    CategoryViewSet_subscribe Scenarios.never_overflows
      (mkRequest (Some 2) "politics" None None (Some false) None
                 (Some "weekly"%string)) 40
      (store_of (CategoryViewSet_subscribe Scenarios.never_overflows
                   (Scenarios.follow 2 "politics") 30 Scenarios.topics))
    = (store_of (CategoryViewSet_subscribe Scenarios.never_overflows
                   (Scenarios.follow 2 "politics") 30 Scenarios.topics),
       inr (mkResponse 200 "Already subscribed to this category" (Some s))) /\
    push_notifications s = true /\
    notification_frequency s = "instant"%string.
Proof.
  destruct (resubscribing_keeps_the_first_preferences
              Scenarios.never_overflows
              (Scenarios.follow 2 "politics")
              (mkRequest (Some 2) "politics" None None (Some false) None
                         (Some "weekly"%string))
              30 40 Scenarios.topics 2
              (mkResponse 201 "Successfully subscribed to category"
                 (Some (mkUserSubscription 2 2 (Some 1) None None true true
                                           "instant" 30 30)))
              ltac:(intros c; vm_compute; destruct (1 =? c); cbn; lia)
              eq_refl eq_refl eq_refl eq_refl)
    as (c & s & _ & _ & _ & Hs & _ & _ & _ & _ & H).
  exists s. split; [exact H|].
  cbn in Hs. inversion Hs; subst s. split; reflexivity.
Defined.

Lemma unsubscribe_undoes_subscribe_witness :
  rows (user_subscriptions
          (store_of (CategoryViewSet_unsubscribe (Scenarios.follow 2 "politics")
             (store_of (CategoryViewSet_subscribe Scenarios.never_overflows
                          (Scenarios.follow 2 "politics") 30
                          Scenarios.topics)))))
  = [Scenarios.follows_politics].
Proof.
  destruct (unsubscribe_undoes_subscribe Scenarios.never_overflows
              (Scenarios.follow 2 "politics") 30 Scenarios.topics 2
              (mkResponse 201 "Successfully subscribed to category"
                 (Some (mkUserSubscription 2 2 (Some 1) None None true true
                                           "instant" 30 30)))
              eq_refl eq_refl eq_refl) as (_ & H & _).
  exact H.
Defined.

Section Tags.

Variable overflows : string -> bool.
Variable collation : string -> string -> bool.

(** The tag of the route. *)
Local Abbreviation addressed_tag request db :=
  (get_object (TagViewSet_get_queryset collation request db)
     (fun t => String.eqb (tag_slug t) (kwargs_slug request))).

Lemma tag_queryset_In request db t :
  In t (TagViewSet_get_queryset collation request db) ->
  In t (tags db) /\ tag_is_active t = true /\
  forall s, query_category request = Some s -> s <> ""%string ->
            category__slug s db t = true.
Proof.
  unfold TagViewSet_get_queryset. cbv zeta. intros H.
  assert (K : In t (match query_category request with
                    | Some category_slug_ =>
                        if String.eqb category_slug_ ""
                        then filter tag_is_active (tags db)
                        else filter (category__slug category_slug_ db)
                                    (filter tag_is_active (tags db))
                    | None => filter tag_is_active (tags db)
                    end)).
  { destruct (String.eqb _ _);
      apply EndpointFacts.sort_by_In in H; exact H. }
  clear H. destruct (query_category request) as [s|].
  - destruct (String.eqb_spec s "") as [E|E].
    + apply filter_In in K as [K1 K2]. split_ands; auto.
      intros s' Hs' Hne. inversion Hs'; subst. contradiction.
    + apply filter_In in K as [K1 K3]. apply filter_In in K1 as [K1 K2].
      split_ands; auto. intros s' Hs' _. inversion Hs'; subst. exact K3.
  - apply filter_In in K as [K1 K2]. split_ands; auto. discriminate.
Qed.

Lemma tag_queryset_same_tags request db db' :
  categories db' = categories db -> tags db' = tags db ->
  TagViewSet_get_queryset collation request db'
  = TagViewSet_get_queryset collation request db.
Proof.
  intros Hc Ht. unfold TagViewSet_get_queryset, category__slug.
  rewrite Hc, Ht. reflexivity.
Qed.

Lemma tag_subscribe_cases request now db u :
  request_user request = Some u ->
  match addressed_tag request db with
  | inl e =>
      TagViewSet_subscribe overflows collation request now db = (db, inl e)
  | inr t =>
      let tbl := user_subscriptions db in
      match filter (for_tag u (tag_id t)) (rows tbl) with
      | [] =>
          let r := defaults request u None (Some (tag_id t)) now
                            (next_pk tbl) in
          if overflows (notification_frequency r)
          then TagViewSet_subscribe overflows collation request now db
               = (db, inl DatabaseError)
          else TagViewSet_subscribe overflows collation request now db
               = (set_user_subscriptions
                    (mkTable (rows tbl ++ [r]) (next_pk tbl + 1)) db,
                  inr (mkResponse 201 "Successfully subscribed to tag"
                                  (Some r)))
      | [r] =>
          TagViewSet_subscribe overflows collation request now db
          = (db, inr (mkResponse 200 "Already subscribed to this tag"
                                 (Some r)))
      | _ :: _ :: _ =>
          TagViewSet_subscribe overflows collation request now db
          = (db, inl MultipleObjectsReturned)
      end
  end.
Proof.
  intros Hu. unfold TagViewSet_subscribe. rewrite Hu.
  unfold bind.
  destruct (get_object _ _) as [e|t]; [reflexivity|].
  unfold get_or_create. cbv zeta.
  destruct (filter _ (rows (user_subscriptions db))) as [|r [|r' l]];
    try reflexivity.
  destruct (overflows _); reflexivity.
Qed.

Lemma tag_unsubscribe_cases request db u :
  request_user request = Some u ->
  match addressed_tag request db with
  | inl e => TagViewSet_unsubscribe collation request db = (db, inl e)
  | inr t =>
      let mine := for_tag u (tag_id t) in
      TagViewSet_unsubscribe collation request db
      = (set_user_subscriptions (delete_where mine (user_subscriptions db)) db,
         inr (if negb (Nat.eqb (count mine (user_subscriptions db)) 0)
              then mkResponse 200 "Successfully unsubscribed from tag" None
              else mkResponse 404 "Not subscribed to this tag" None))
  end.
Proof.
  intros Hu. unfold TagViewSet_unsubscribe. rewrite Hu.
  unfold bind, gets, modify.
  destruct (get_object _ _) as [e|t]; [reflexivity|].
  cbv beta iota zeta.
  destruct (negb _); reflexivity.
Qed.

Lemma for_tag_iff u t r :
  for_tag u t r = true <-> user r = u /\ tag r = Some t.
Proof.
  unfold for_tag. rewrite andb_true_iff, Z.eqb_eq.
  destruct (tag r) as [t'|].
  - rewrite Z.eqb_eq. split; intros [H1 H2]; split; congruence.
  - split; intros [H1 H2]; discriminate.
Qed.

Lemma db_eta db :
  set_user_subscriptions (user_subscriptions db) db = db.
Proof. destruct db; reflexivity. Qed.

(** X23.  Unsubscribing from a tag is scoped to the requester and the
    tag.  The tag of the route is looked up among the active tags,
    narrowed by the query parameter [category] when one is sent: when
    that finds no tag the request ends with 404 and nothing is written.
    Otherwise exactly the subscriptions of the requester to that tag are
    deleted: every other row, such as a subscription of another user to
    the tag or of the requester to a category, stays; the answer is 200
    when a row was deleted and 404, with the store unchanged, when
    there was none.  Categories and tags are never written. *)
Theorem tag_unsubscribe_is_scoped request db u :
  request_user request = Some u ->
  let result := TagViewSet_unsubscribe collation request db in
  let kept := rows (user_subscriptions (store_of result)) in
  categories (store_of result) = categories db /\
  tags (store_of result) = tags db /\
  match outcome_of result with
  | inl e => (e = Http404 \/ e = MultipleObjectsReturned) /\
             store_of result = db
  | inr resp =>
      exists t,
        In t (tags db) /\ tag_is_active t = true /\
        tag_slug t = kwargs_slug request /\
        (forall s, query_category request = Some s -> s <> ""%string ->
                   category__slug s db t = true) /\
        (forall r, In r kept <->
                   In r (rows (user_subscriptions db)) /\
                   (user r <> u \/ tag r <> Some (tag_id t))) /\
        ((status_code resp = 200 /\
          exists r, In r (rows (user_subscriptions db)) /\
                    user r = u /\ tag r = Some (tag_id t))
         \/ (status_code resp = 404 /\ store_of result = db))
  end.
Proof.
  intros Hu result kept.
  pose proof (tag_unsubscribe_cases request db u Hu) as U.
  destruct (addressed_tag request db) as [e|t] eqn:A.
  - unfold result. rewrite U. cbn. split_ands; auto.
    apply (get_object_refused _ _ _ A).
  - cbv zeta in U. unfold kept, result. rewrite U.
    unfold store_of, outcome_of. cbn [fst snd].
    split; [reflexivity|]. split; [reflexivity|].
    destruct (get_object_inr _ _ _ A) as (_ & Hin & Hs).
    apply String.eqb_eq in Hs.
    destruct (tag_queryset_In _ _ _ Hin) as (Ht & Hact & Hcat).
    exists t. split_ands; auto.
    + intros r. cbn [user_subscriptions set_user_subscriptions delete_where rows].
      rewrite filter_In, negb_true_iff. split; intros [H1 H2]; split; auto.
      * destruct (Z.eq_dec (user r) u) as [E1|E1]; [|left; exact E1].
        right. intros E2.
        assert (K : for_tag u (tag_id t) r = true)
          by (apply for_tag_iff; auto).
        congruence.
      * destruct (for_tag u (tag_id t) r) eqn:K; auto.
        apply for_tag_iff in K. destruct K, H2; contradiction.
    + destruct (Nat.eqb (count (for_tag u (tag_id t)) (user_subscriptions db)) 0)
        eqn:C; cbn [negb].
      * right. split; [reflexivity|].
        apply Nat.eqb_eq in C.
        rewrite (PushDeleteFacts.delete_where_none _ _ C). apply db_eta.
      * left. split; [reflexivity|].
        apply Nat.eqb_neq in C. unfold count in C.
        destruct (filter (for_tag u (tag_id t)) (rows (user_subscriptions db)))
          as [|r l] eqn:F; [exfalso; apply C; reflexivity|].
        assert (K : In r (filter (for_tag u (tag_id t))
                                 (rows (user_subscriptions db))))
          by (rewrite F; left; reflexivity).
        apply filter_In in K as [K1 K2]. apply for_tag_iff in K2.
        exists r. tauto.
Qed.

Lemma filter_snoc_length {A} (p : A -> bool) l x :
  List.length (filter p (l ++ [x]))
  = (List.length (filter p l) + if p x then 1 else 0)%nat.
Proof.
  rewrite filter_app, length_app. cbn [filter].
  destruct (p x); reflexivity.
Qed.

(** X24.  The statistics of a user count a new tag subscription once.
    After a subscribe request for a tag that was answered, the
    statistics of the requester are those from before when the answer
    was 200; after a 201 the total and the number of tag subscriptions
    are one higher, the numbers of category and subtag subscriptions are
    as before, and the push and e-mail counts are one higher exactly
    when the stored subscription has that preference on.  The
    statistics of every other requester are as before. *)
Theorem stats_count_a_new_subscription request now db u resp :
  request_user request = Some u ->
  outcome_of (TagViewSet_subscribe overflows collation request now db)
  = inr resp ->
  let db1 :=
    store_of (TagViewSet_subscribe overflows collation request now db) in
  exists before after s,
    UserSubscriptionViewSet_stats request db = inr before /\
    UserSubscriptionViewSet_stats request db1 = inr after /\
    subscription resp = Some s /\
    (status_code resp = 200 \/ status_code resp = 201) /\
    (status_code resp = 200 -> after = before) /\
    (status_code resp = 201 ->
       total_subscriptions after = S (total_subscriptions before) /\
       tag_subscriptions after = S (tag_subscriptions before) /\
       category_subscriptions after = category_subscriptions before /\
       subtag_subscriptions after = subtag_subscriptions before /\
       push_enabled_count after
       = (push_enabled_count before
          + if push_notifications s then 1 else 0)%nat /\
       email_enabled_count after
       = (email_enabled_count before
          + if email_notifications s then 1 else 0)%nat) /\
    (forall request',
       request_user request' <> Some u ->
       UserSubscriptionViewSet_stats request' db1
       = UserSubscriptionViewSet_stats request' db).
Proof.
  intros Hu Hout db1.
  pose proof (tag_subscribe_cases request now db u Hu) as C.
  destruct (addressed_tag request db) as [e|t] eqn:A;
    [unfold db1 in *; rewrite C in Hout; discriminate|].
  cbv zeta in C.
  destruct (filter (for_tag u (tag_id t)) (rows (user_subscriptions db)))
    as [|r [|r' l]] eqn:F;
    [|
     |unfold db1 in *; rewrite C in Hout; discriminate].
  - destruct (overflows _) eqn:O;
      [unfold db1 in *; rewrite C in Hout; discriminate|].
    set (s := defaults request u None (Some (tag_id t)) now
                       (next_pk (user_subscriptions db))) in *.
    unfold db1 in *. rewrite C in *. unfold store_of, outcome_of in *.
    cbn [fst snd] in *. inversion Hout; subst resp; clear Hout.
    unfold UserSubscriptionViewSet_stats. rewrite Hu.
    do 2 eexists. exists s. split; [reflexivity|]. split; [reflexivity|].
    split; [reflexivity|]. split; [right; reflexivity|].
    split; [discriminate|]. split.
    + intros _. cbn [total_subscriptions tag_subscriptions
                     category_subscriptions subtag_subscriptions
                     push_enabled_count email_enabled_count].
      unfold UserSubscriptionViewSet_get_queryset.
      cbn [user_subscriptions set_user_subscriptions rows].
      rewrite !filter_sort_length, !EndpointFacts.sort_by_length.
      rewrite filter_app. cbn [filter].
      replace (user s =? u) with true
        by (unfold s, defaults; cbn; symmetry; apply Z.eqb_refl).
      rewrite !filter_snoc_length, length_app. cbn [List.length].
      unfold s at 1 2 3. cbn [defaults tag category subtag isnull negb].
      split_ands; lia.
    + intros request' Hne.
      destruct (request_user request') as [v|]; [|reflexivity].
      assert (Hv : (user s =? v) = false).
      { apply Z.eqb_neq. unfold s, defaults. cbn. congruence. }
      unfold UserSubscriptionViewSet_get_queryset.
      cbn [user_subscriptions set_user_subscriptions rows].
      rewrite filter_app. cbn [filter]. rewrite Hv, app_nil_r. reflexivity.
  - unfold db1 in *. rewrite C in *. unfold store_of, outcome_of in *.
    cbn [fst snd] in *. inversion Hout; subst resp; clear Hout.
    unfold UserSubscriptionViewSet_stats. rewrite Hu.
    do 2 eexists. exists r. split; [reflexivity|]. split; [reflexivity|].
    split; [reflexivity|]. split; [left; reflexivity|].
    split; [reflexivity|]. split; [discriminate|]. reflexivity.
Qed.

End Tags.

Lemma tag_unsubscribe_is_scoped_witness :
  exists e,
    outcome_of (TagViewSet_unsubscribe String.leb
                  (mkRequest (Some 1) "football" (Some "politics"%string) None
                             None None None) Scenarios.topics) = inl e /\
    (e = Http404 \/ e = MultipleObjectsReturned).
Proof.
  pose proof (tag_unsubscribe_is_scoped String.leb
                (mkRequest (Some 1) "football" (Some "politics"%string) None
                           None None None) Scenarios.topics 1 eq_refl)
    as (_ & _ & H).
  destruct (outcome_of _) as [e|resp] eqn:E; [|vm_compute in E; discriminate].
  exists e. split; [reflexivity|apply H].
Defined.

Lemma stats_count_a_new_subscription_witness :
  exists before after,
    UserSubscriptionViewSet_stats (Scenarios.follow 1 "elections")
      Scenarios.topics = inr before /\
    UserSubscriptionViewSet_stats (Scenarios.follow 1 "elections")
      (store_of (TagViewSet_subscribe Scenarios.never_overflows String.leb
                   (Scenarios.follow 1 "elections") 30 Scenarios.topics))
    = inr after /\
    total_subscriptions after = S (total_subscriptions before).
Proof.
  destruct (stats_count_a_new_subscription Scenarios.never_overflows
              String.leb (Scenarios.follow 1 "elections") 30 Scenarios.topics 1
              (mkResponse 201 "Successfully subscribed to tag"
                 (Some (mkUserSubscription 2 1 None (Some 1) None true true
                                           "instant" 30 30)))
              eq_refl eq_refl)
    as (before & after & s & H1 & H2 & _ & _ & _ & H & _).
  exists before, after. split; [exact H1|]. split; [exact H2|].
  apply H. reflexivity.
Defined.

End SubscriptionFacts.

(** * Notifications to many users *)

Module BulkFacts.
Import Push Bulk.

Lemma map_filter_same {A} (g : A -> A) (f : A -> bool) l :
  (forall x, f (g x) = f x) -> map g (filter f l) = filter f (map g l).
Proof.
  intros H. induction l as [|a l IH]; simpl; auto.
  rewrite H. destruct (f a); simpl; rewrite IH; reflexivity.
Qed.

Lemma map_insert_sorted {A} (g : A -> A) leb x l :
  (forall a b, leb (g a) (g b) = leb a b) ->
  map g (insert_sorted leb x l) = insert_sorted leb (g x) (map g l).
Proof.
  intros H. induction l as [|a l IH]; simpl; auto.
  rewrite H. destruct (leb x a); simpl; [reflexivity|].
  rewrite IH. reflexivity.
Qed.

Lemma map_sort_by {A} (g : A -> A) leb l :
  (forall a b, leb (g a) (g b) = leb a b) ->
  map g (sort_by leb l) = sort_by leb (map g l).
Proof.
  intros H. induction l as [|a l IH]; simpl; auto.
  fold (sort_by leb l). fold (sort_by leb (map g l)).
  rewrite map_insert_sorted by exact H. rewrite IH. reflexivity.
Qed.

Lemma filter_map_length {A} (g : A -> A) (p : A -> bool) l :
  (forall x, p (g x) = p x) ->
  List.length (filter p (map g l)) = List.length (filter p l).
Proof.
  intros H. rewrite <- map_filter_same by exact H. apply length_map.
Qed.

Lemma same_key_same_row {A} (f : A -> Z) l a b :
  NoDup (map f l) -> In a l -> In b l -> f a = f b -> a = b.
Proof.
  induction l as [|x l IH]; simpl; intros ND Ha Hb E; [tauto|].
  inversion ND as [|? ? Hn ND']; subst.
  destruct Ha as [->|Ha], Hb as [->|Hb]; auto.
  - exfalso. apply Hn. rewrite E. apply in_map. exact Hb.
  - exfalso. apply Hn. rewrite <- E. apply in_map. exact Ha.
Qed.

Lemma ids_but_last_used l :
  map id (map but_last_used l) = map id l.
Proof. rewrite map_map. reflexivity. Qed.

Lemma active_subscriptions_but u db db' :
  map but_last_used (rows db') = map but_last_used (rows db) ->
  map but_last_used (active_subscriptions u db')
  = map but_last_used (active_subscriptions u db).
Proof.
  intros E. unfold active_subscriptions.
  rewrite !map_sort_by by reflexivity.
  rewrite !(map_filter_same but_last_used) by reflexivity.
  rewrite E. reflexivity.
Qed.

Section Sending.

Variable webpush : SubscriptionInfo -> Payload -> Outcome.

Lemma delivered_but payload s :
  delivered webpush payload (but_last_used s) = delivered webpush payload s.
Proof. reflexivity. Qed.

Lemma tried_the_same (p : PushSubscription -> bool) u db db' :
  (forall s, p (but_last_used s) = p s) ->
  map but_last_used (rows db') = map but_last_used (rows db) ->
  List.length (filter p (active_subscriptions u db'))
  = List.length (filter p (active_subscriptions u db)).
Proof.
  intros Hp E.
  rewrite <- (filter_map_length but_last_used p (active_subscriptions u db'))
    by exact Hp.
  rewrite (active_subscriptions_but u db db' E).
  apply filter_map_length. exact Hp.
Qed.

Lemma save_last_used_but k now db :
  map but_last_used (rows (save_last_used k now db))
  = map but_last_used (rows db).
Proof.
  unfold save_last_used. cbn [rows]. rewrite map_map. apply map_ext.
  intros r. destruct (has_pk k r); reflexivity.
Qed.

Lemma attempt_but payload now st s :
  map but_last_used (rows (loop_db (attempt webpush payload now st s)))
  = map but_last_used (rows (loop_db st)).
Proof.
  unfold attempt. destruct (webpush _ payload) as [|response|]; cbn [loop_db].
  - apply save_last_used_but.
  - rewrite PushFacts.gone_never. reflexivity.
  - reflexivity.
Qed.

Lemma loop_but payload now subs st :
  map but_last_used
      (rows (loop_db (fold_left (attempt webpush payload now) subs st)))
  = map but_last_used (rows (loop_db st)).
Proof.
  revert st. induction subs as [|s subs IH]; intros st; cbn [fold_left];
    [reflexivity|].
  rewrite IH. apply attempt_but.
Qed.

Lemma send_push_notification_eq u title body_ kwargs now db :
  send_push_notification webpush u title body_ (kw_data kwargs)
    (kw_icon kwargs) (kw_badge kwargs) (kw_url kwargs) now db
  = match active_subscriptions u db with
    | [] => (db, mkResult 0 0 None)
    | _ :: _ =>
        let st := fold_left
                    (attempt webpush (notification_payload title body_ kwargs)
                             now)
                    (active_subscriptions u db) (mkLoop db 0 0 []) in
        (loop_db st,
         mkResult (sent_count st) (failed_count st) (Some (failed_list st)))
    end.
Proof.
  unfold send_push_notification, notification_payload.
  destruct (active_subscriptions u db); reflexivity.
Qed.

Lemma send_push_notification_counts u title body_ kwargs now db :
  let r := send_push_notification webpush u title body_ (kw_data kwargs)
             (kw_icon kwargs) (kw_badge kwargs) (kw_url kwargs) now db in
  let accepted := delivered webpush (notification_payload title body_ kwargs) in
  map but_last_used (rows (fst r)) = map but_last_used (rows db) /\
  sent (snd r)
  = Z.of_nat (List.length (filter accepted (active_subscriptions u db))) /\
  failed (snd r)
  = Z.of_nat (List.length (filter (fun s => negb (accepted s))
                                  (active_subscriptions u db))).
Proof.
  cbv zeta. rewrite send_push_notification_eq.
  destruct (active_subscriptions u db) as [|s subs] eqn:A.
  - cbn. auto.
  - cbv zeta. cbn [fst snd sent failed].
    set (p := notification_payload title body_ kwargs).
    destruct (PushFacts.loop_steps webpush p now (s :: subs) (mkLoop db 0 0 []))
      as (_ & _ & _ & H4 & H5).
    split_ands.
    + apply loop_but.
    + rewrite H4. reflexivity.
    + rewrite H5. reflexivity.
Qed.

(** The rows of the other users are not written. *)
Lemma loop_others payload now u db subs :
  NoDup (map id (rows db)) ->
  (forall s, In s subs -> In s (rows db) /\ user s = u) ->
  forall st,
    map but_last_used (rows (loop_db st)) = map but_last_used (rows db) ->
    forall d, user d <> u -> In d (rows (loop_db st)) ->
              In d (rows (loop_db (fold_left (attempt webpush payload now)
                                             subs st))).
Proof.
  intros ND. induction subs as [|s subs IH]; intros Hs st E d Hd Hin;
    cbn [fold_left]; [exact Hin|].
  apply IH.
  - intros x Hx. apply Hs. right. exact Hx.
  - rewrite attempt_but. exact E.
  - exact Hd.
  - unfold attempt. destruct (webpush _ payload) as [|response|];
      cbn [loop_db]; [|rewrite PushFacts.gone_never; exact Hin|exact Hin].
    unfold save_last_used. cbn [rows].
    assert (K : has_pk (id s) d = false).
    { unfold has_pk. apply Z.eqb_neq. intros Eid.
      assert (Hb : In (but_last_used d) (map but_last_used (rows db))).
      { rewrite <- E. apply in_map. exact Hin. }
      apply in_map_iff in Hb as (d0 & Hd0 & Hin0).
      destruct (Hs s (or_introl eq_refl)) as [Hsin Hsu].
      assert (d0 = s).
      { apply (same_key_same_row id (rows db)); auto.
        transitivity (id d); [|exact Eid].
        change (id d0) with (id (but_last_used d0)). rewrite Hd0. reflexivity. }
      subst d0. apply Hd. rewrite <- Hsu.
      change (user d) with (user (but_last_used d)). rewrite <- Hd0.
      reflexivity. }
    apply in_map_iff. exists d. rewrite K. auto.
Qed.

Lemma active_subscriptions_of u db s :
  In s (active_subscriptions u db) -> In s (rows db) /\ user s = u.
Proof.
  unfold active_subscriptions. intros H.
  apply EndpointFacts.sort_by_In in H. apply filter_In in H as [H1 H2].
  apply andb_true_iff in H2 as [H2 _]. apply Z.eqb_eq in H2. auto.
Qed.

Lemma send_push_notification_others u title body_ kwargs now db d :
  NoDup (map id (rows db)) ->
  user d <> u -> In d (rows db) ->
  In d (rows (fst (send_push_notification webpush u title body_
                     (kw_data kwargs) (kw_icon kwargs) (kw_badge kwargs)
                     (kw_url kwargs) now db))).
Proof.
  intros ND Hd Hin. rewrite send_push_notification_eq.
  destruct (active_subscriptions u db) as [|s subs] eqn:A; [exact Hin|].
  cbv zeta. cbn [fst]. rewrite <- A.
  apply (loop_others _ now u db); auto.
  intros x Hx. apply (active_subscriptions_of u db x Hx).
Qed.

(** The loop of [send_bulk_push_notification], from any totals. *)
Lemma bulk_loop title body_ kwargs now db0 users :
  forall db results,
    map but_last_used (rows db) = map but_last_used (rows db0) ->
    let accepted :=
      delivered webpush (notification_payload title body_ kwargs) in
    let r :=
      fold_left
        (fun (st : DB * Totals) (user_ : Z) =>
           let '(db, results) := st in
           let '(db, result) :=
             send_push_notification webpush user_ title body_ (kw_data kwargs)
               (kw_icon kwargs) (kw_badge kwargs) (kw_url kwargs) now db in
           (db, mkTotals (total_users results)
                         (total_sent results + sent result)
                         (total_failed results + failed result)))
        users (db, results) in
    map but_last_used (rows (fst r)) = map but_last_used (rows db0) /\
    total_users (snd r) = total_users results /\
    total_sent (snd r)
    = total_sent results
      + Z.of_nat (List.length (filter accepted (attempted users db0))) /\
    total_failed (snd r)
    = total_failed results
      + Z.of_nat (List.length (filter (fun s => negb (accepted s))
                                      (attempted users db0))) /\
    (NoDup (map id (rows db0)) ->
     forall d, ~ In (user d) users -> In d (rows db) -> In d (rows (fst r))).
Proof.
  induction users as [|u users IH]; intros db results E; cbv zeta.
  - cbn. split_ands; auto; lia.
  - cbn [fold_left]. cbv beta iota.
    pose proof (send_push_notification_counts u title body_ kwargs now db)
      as S. cbv zeta in S.
    pose proof (fun d => send_push_notification_others u title body_ kwargs
                           now db d) as O.
    destruct (send_push_notification webpush u title body_ (kw_data kwargs)
                (kw_icon kwargs) (kw_badge kwargs) (kw_url kwargs) now db)
      as [db' result].
    cbv beta iota. cbn [fst snd] in S, O. destruct S as (S1 & S2 & S3).
    assert (E' : map but_last_used (rows db') = map but_last_used (rows db0))
      by congruence.
    specialize (IH db' (mkTotals (total_users results)
                                 (total_sent results + sent result)
                                 (total_failed results + failed result)) E').
    cbv zeta in IH. destruct IH as (I1 & I2 & I3 & I4 & I5).
    split; [exact I1|]. split; [exact I2|].
    split_ands.
    + etransitivity; [exact I3|]. cbn [total_sent attempted flat_map].
      fold (attempted users db0).
      rewrite filter_app, length_app, S2.
      rewrite (tried_the_same
                 (delivered webpush (notification_payload title body_ kwargs))
                 u db0 db (fun s => eq_refl) E). lia.
    + etransitivity; [exact I4|]. cbn [total_failed attempted flat_map].
      fold (attempted users db0).
      rewrite filter_app, length_app, S3.
      rewrite (tried_the_same
                 (fun s => negb (delivered webpush
                                   (notification_payload title body_ kwargs) s))
                 u db0 db (fun s => eq_refl) E). lia.
    + intros ND d Hd Hin. apply I5; auto.
      * intros H. apply Hd. right. exact H.
      * apply O; auto.
        -- rewrite <- (ids_but_last_used (rows db)), E, ids_but_last_used.
           exact ND.
        -- intros H. apply Hd. left. symmetry. exact H.
Qed.

Lemma bulk_effect users title body_ kwargs now db :
  let r := send_bulk_push_notification webpush users title body_ kwargs now
             db in
  let accepted :=
    delivered webpush (notification_payload title body_ kwargs) in
  map but_last_used (rows (fst r)) = map but_last_used (rows db) /\
  total_users (snd r) = Z.of_nat (List.length users) /\
  total_sent (snd r)
  = Z.of_nat (List.length (filter accepted (attempted users db))) /\
  total_failed (snd r)
  = Z.of_nat (List.length (filter (fun s => negb (accepted s))
                                  (attempted users db))) /\
  (NoDup (map id (rows db)) ->
   forall d, ~ In (user d) users -> In d (rows db) -> In d (rows (fst r))).
Proof.
  cbv zeta. unfold send_bulk_push_notification.
  destruct (bulk_loop title body_ kwargs now db users db
              (mkTotals (Z.of_nat (List.length users)) 0 0) eq_refl)
    as (H1 & H2 & H3 & H4 & H5).
  cbn [total_users total_sent total_failed] in *.
  split_ands; auto.
Qed.

Lemma accepted_or_not {A} (p : A -> bool) l :
  (List.length (filter p l) + List.length (filter (fun s => negb (p s)) l))%nat
  = List.length l.
Proof.
  induction l as [|a l IH]; simpl; auto.
  destruct (p a); simpl; lia.
Qed.

(** X25.  The totals of a bulk notification count every attempt.  For
    every transport and every list of users, [total_users] is the length
    of the list, [total_sent] the number of active subscriptions of the
    listed users that the transport accepted and [total_failed] the
    number of those it did not, a user listed twice being tried twice;
    together they are the number of attempts.  The stored subscriptions
    are as before in every column but [last_used]: none is deactivated
    or removed. *)
Theorem bulk_totals_count_every_attempt users title body_ kwargs now db :
  let r := send_bulk_push_notification webpush users title body_ kwargs now
             db in
  let tried := attempted users db in
  let accepted :=
    delivered webpush (notification_payload title body_ kwargs) in
  total_users (snd r) = Z.of_nat (List.length users) /\
  total_sent (snd r) = Z.of_nat (List.length (filter accepted tried)) /\
  total_failed (snd r)
  = Z.of_nat (List.length (filter (fun s => negb (accepted s)) tried)) /\
  total_sent (snd r) + total_failed (snd r) = Z.of_nat (List.length tried) /\
  map but_last_used (rows (fst r)) = map but_last_used (rows db).
Proof.
  cbv zeta.
  destruct (bulk_effect users title body_ kwargs now db)
    as (H1 & H2 & H3 & H4 & _).
  split_ands; auto.
  rewrite H3, H4, <- Nat2Z.inj_add, accepted_or_not. reflexivity.
Qed.

(** X26.  [notify_subscribers] reaches the subscribers that have push
    notifications on, and only them.  With no such subscription of the
    category, tag or subtag the result is the dictionary with [sent] 0
    and [failed] 0 and nothing is written.  Otherwise the result has the
    totals of the bulk notification to the users of those
    subscriptions: as many users as subscriptions, and as many attempts
    as they have active devices.  A device of a user who has no such
    subscription is left exactly as stored, and every device is as
    before but for [last_used]. *)
Theorem notify_reaches_the_push_subscribers
    subscription_type subscription_id title body_ kwargs now subs db :
  NoDup (map id (rows db)) ->
  let r := notify_subscribers webpush subscription_type subscription_id
             title body_ kwargs now subs db in
  let subscribers :=
    filter (push_enabled_for subscription_type subscription_id) (rows subs) in
  (subscribers = [] -> r = (db, NoSubscribers 0 0)) /\
  (subscribers <> [] ->
   exists results users,
     snd r = Notified results /\
     (forall u, In u users <-> In u (map Subscriptions.user subscribers)) /\
     total_users results = Z.of_nat (List.length subscribers) /\
     total_sent results + total_failed results
     = Z.of_nat (List.length (attempted users db))) /\
  (forall d, In d (rows db) ->
             ~ In (user d) (map Subscriptions.user subscribers) ->
             In d (rows (fst r))) /\
  map but_last_used (rows (fst r)) = map but_last_used (rows db).
Proof.
  intros ND r subscribers. unfold r, notify_subscribers. cbv zeta.
  fold subscribers.
  remember (map Subscriptions.user
                (sort_by (fun a b => Subscriptions.created_at b
                                     <=? Subscriptions.created_at a)
                         subscribers)) as users eqn:U.
  assert (Hu : forall u, In u users
                         <-> In u (map Subscriptions.user subscribers)).
  { intros u. rewrite U, !in_map_iff.
    split; intros (s & H1 & H2); exists s; split; auto;
      eapply EndpointFacts.sort_by_In; exact H2. }
  assert (Hl : List.length users = List.length subscribers).
  { rewrite U, length_map. apply EndpointFacts.sort_by_length. }
  clear U. destruct users as [|u0 users'].
  - assert (subscribers = []).
    { destruct subscribers; [reflexivity|discriminate]. }
    split_ands; auto. intros H'. contradiction.
  - cbv iota.
    destruct (bulk_effect (u0 :: users') title body_ kwargs now db)
      as (H1 & H2 & H3 & H4 & H5).
    destruct (send_bulk_push_notification webpush (u0 :: users') title body_
                kwargs now db) as [db' results].
    cbn [fst snd] in *.
    split_ands.
    + intros H. rewrite H in Hl. discriminate.
    + intros _. exists results, (u0 :: users'). split_ands; auto.
      * rewrite H2, Hl. reflexivity.
      * rewrite H3, H4, <- Nat2Z.inj_add, accepted_or_not. reflexivity.
    + intros d Hin Hd. apply H5; auto. intros H. apply Hd, Hu. exact H.
    + exact H1.
Qed.

End Sending.

Lemma notify_reaches_the_push_subscribers_witness :
  exists results,
    snd (notify_subscribers Fixtures.push_service tag 1 "News" "Results"
           Scenarios.no_kwargs 100 Scenarios.followers Fixtures.devices)
    = Notified results /\
    total_users results = 1 /\
    total_sent results + total_failed results = 2.
Proof.
  destruct (notify_reaches_the_push_subscribers Fixtures.push_service tag 1
              "News" "Results" Scenarios.no_kwargs 100 Scenarios.followers
              Fixtures.devices
              ltac:(vm_compute; repeat constructor; simpl; intuition lia))
    as (_ & H & _).
  destruct (H ltac:(vm_compute; discriminate))
    as (results & users & H1 & Hu & H2 & H3).
  exists results. split; [exact H1|]. split; [exact H2|].
  rewrite H1 in *. vm_compute in H1. inversion H1; subst results.
  reflexivity.
Defined.

End BulkFacts.

(** * Counting views on the model *)

Module ArticleMethodFacts.
Import Articles ArticleMethods.

Section Counting.

Variable slugify : string -> string.

(** X27.  [increment_views] writes the counter of the instance, not an
    increment of the stored one.  For an instance that holds the article
    as it was loaded ([a]), whatever the row of that key has become in
    the meantime ([row]), the call succeeds and stores
    [views_count a + 1]; every other column of the row, and every other
    article, is as stored.  So of two instances loaded from the same row
    and incremented in turn the second overwrites the first: the counter
    ends one higher, not two. *)
Theorem increment_views_overwrites_the_counter fuel a row now db :
  wf db -> In row (news_articles db) -> id a = id row ->
  slug a <> ""%string -> 0 <= views_count a ->
  let result := increment_views slugify fuel (from_db a) now db in
  let row' := with_counts (views_count a + 1) (likes_count row)
                (comments_count row) (shares_count row)
                (bookmarks_count row) row in
  (exists inst, snd result = inr inst /\
                views_count (fields inst) = views_count a + 1) /\
  stored (id a) (fst result) = Some row' /\
  (forall k, k <> id a -> stored k (fst result) = stored k db) /\
  (views_count row = views_count a + 1 -> fst result = db).
Proof.
  intros W Hin Hid Hs Hv result row'.
  unfold result, increment_views, NewsArticle_save.
  cbn [fields from_db adding pending find].
  assert (Es : String.eqb (slug (with_counts (views_count a + 1)
                                   (likes_count a) (comments_count a)
                                   (shares_count a) (bookmarks_count a) a))
                          "" = false).
  { apply String.eqb_neq. exact Hs. }
  rewrite Es.
  match goal with
  | |- context [Model_save (mkInstance ?x _ _)] => set (a2 := x)
  end.
  assert (Hi : id a2 = id row).
  { rewrite <- Hid. unfold a2, with_slug, with_published_at,
      with_breaking_expires_at, with_counts.
    cbn [id slug published_at status breaking_expires_at is_breaking].
    destruct (published_at a); destruct (String.eqb (status a) "published");
      cbn [id breaking_expires_at is_breaking];
      destruct (breaking_expires_at a); destruct (is_breaking a);
      reflexivity. }
  assert (Hc : views_count a2 = views_count a + 1).
  { unfold a2, with_slug, with_published_at, with_breaking_expires_at,
      with_counts.
    cbn [views_count slug published_at status breaking_expires_at is_breaking].
    destruct (published_at a); destruct (String.eqb (status a) "published");
      cbn [views_count breaking_expires_at is_breaking];
      destruct (breaking_expires_at a); destruct (is_breaking a);
      reflexivity. }
  clearbody a2.
  unfold Model_save.
  change (existsb (String.eqb "updated_at") ["views_count"%string]) with false.
  cbv iota. cbn [fields adding pending]. rewrite Hi, (ArticleFacts.find_article_by_pk db row W Hin).
  unfold update_columns, update_column.
  cbn [find fst pending].
  unfold set_column. cbn [fields].
  change (counter "views_count" a2) with (Some (views_count a2)).
  cbv iota beta.
  change (set_counter "views_count" (views_count a2) row)
    with (Some (with_counts (views_count a2) (likes_count row)
                  (comments_count row) (shares_count row)
                  (bookmarks_count row) row)).
  cbv iota beta. rewrite Hc. fold row'.
  rewrite (ArticleFacts.slug_not_taken db row row' W Hin eq_refl eq_refl).
  cbn [fst snd]. rewrite Hid.
  destruct (ArticleFacts.find_replaced db row row' W Hin eq_refl) as [R1 R2].
  split_ands.
  - eexists. split; [reflexivity|]. cbn [fields]. exact Hc.
  - exact R1.
  - exact R2.
  - intros E.
    assert (Er : row' = row).
    { unfold row'. rewrite <- E. destruct row; reflexivity. }
    rewrite Er.
    replace (map (fun r => if has_pk (id row) r then row else r)
                 (news_articles db)) with (news_articles db).
    + destruct db; reflexivity.
    + rewrite <- (map_id (news_articles db)) at 1.
      apply map_ext_in. intros x Hx.
      destruct (has_pk (id row) x) eqn:P; auto.
      apply String.eqb_eq in P. destruct W as [W1 _].
      apply (InteractionsFacts.NoDup_map_inj id _ x row W1 Hx Hin P).
Qed.

End Counting.

Lemma increment_views_overwrites_the_counter_witness :
  let first := increment_views Scenarios.lower 0
                 (from_db Scenarios.budget) 100 Scenarios.newsroom in
  let second := increment_views Scenarios.lower 0
                  (from_db Scenarios.budget) 101 (fst first) in
  option_map views_count (stored "a-0001" (fst first)) = Some 11 /\
  option_map views_count (stored "a-0001" (fst second)) = Some 11.
Proof.
  cbv zeta. split.
  - destruct (increment_views_overwrites_the_counter Scenarios.lower 0
                Scenarios.budget Scenarios.budget 100 Scenarios.newsroom
                ArticleFacts.newsroom_wf ltac:(simpl; auto) eq_refl
                ltac:(discriminate) ltac:(simpl; lia)) as (_ & H & _).
    change (id Scenarios.budget) with "a-0001"%string in H.
    rewrite H. reflexivity.
  - vm_compute. reflexivity.
Defined.

End ArticleMethodFacts.

(** * The like action of the news viewset and the other tables *)

Module NewsLikeFacts.
Import Interactions News InteractionsFacts NewsFacts.

(** X28.  The like action of the news viewset leaves a dislike in
    place.  A user who has a dislike of an article, and so no like, and
    likes it through the action of the viewset has both afterwards: the
    like is stored and counted, the dislike is still there, and the
    store no longer keeps likes and dislikes exclusive.  The same like
    sent to the generic toggle removes the dislike. *)
Theorem news_like_keeps_the_dislike request now db u a c :
  article_request_user request = Some u ->
  find (visible_to request) (news_articles db) = Some a ->
  find is_newsarticle_ct (content_types db) = Some c ->
  NoDup (map article_id (news_articles db)) ->
  wf_table (likes db) -> wf_table (dislikes db) ->
  0 <= likes_count a ->
  exclusive db ->
  holds (dislikes db) u (ct_id c) (article_id a) = true ->
  let result := NewsArticleViewSet_like request now db in
  outcome_of result = inr (mkLikeResponse true (F_plus "likes_count" 1)) /\
  holds (likes (store_of result)) u (ct_id c) (article_id a) = true /\
  holds (dislikes (store_of result)) u (ct_id c) (article_id a) = true /\
  likes_count_of (article_id a) (store_of result) = Some (likes_count a + 1) /\
  ~ exclusive (store_of result) /\
  (forall toggle,
     resolves toggle db u (ct_id c) (article_id a) ->
     let db' := store_of (LikeToggleView_post toggle now db) in
     holds (likes db') u (ct_id c) (article_id a) = true /\
     holds (dislikes db') u (ct_id c) (article_id a) = false).
Proof.
  intros Hu Ha Hc Hpk Wl Wd H0 Hex Hd result.
  assert (Hn : holds (likes db) u (ct_id c) (article_id a) = false).
  { destruct (holds (likes db) u (ct_id c) (article_id a)) eqn:E; auto.
    exfalso. exact (Hex _ _ _ E Hd). }
  pose proof (like_creates request db u a c now Hu Ha Hc Hpk Hn H0) as E1.
  fold result in E1.
  assert (En : filter (for_pair u (ct_id c) (article_id a)) (rows (likes db))
               = []).
  { apply holds_false_count in Hn. unfold count in Hn.
    destruct (filter _ _); [reflexivity|discriminate]. }
  assert (Hl : holds (likes (store_of result)) u (ct_id c) (article_id a)
               = true).
  { rewrite E1. simpl. apply holds_count. unfold count.
    rewrite inserted_lookup; auto. }
  assert (Hd' : holds (dislikes (store_of result)) u (ct_id c) (article_id a)
                = true).
  { rewrite E1. simpl. exact Hd. }
  split_ands; auto.
  - rewrite E1. reflexivity.
  - apply (likes_count_of_bump db).
    + apply (article_by_pk request db a Ha Hpk).
    + rewrite E1. reflexivity.
  - intros X. exact (X _ _ _ Hl Hd').
  - intros toggle Hr db'.
    destruct (LikeToggleView_post_state toggle db u (ct_id c) (article_id a)
                now Hr Wl Wd) as (_ & _ & _ & H4 & H5 & _).
    fold db' in H4, H5. split.
    + rewrite H4, Hn. reflexivity.
    + apply H5. exact Hn.
Qed.

Lemma store_disliked_tables :
  wf_table (likes Scenarios.store_disliked) /\
  wf_table (dislikes Scenarios.store_disliked) /\
  exclusive Scenarios.store_disliked.
Proof.
  split; [apply wf_empty_table|]. split.
  - repeat split; simpl.
    + constructor; [intros []|constructor].
    + intros r [<-|[]]. simpl. lia.
    + intros u ct oid. unfold count. simpl.
      destruct (for_pair u ct oid _); simpl; lia.
  - intros u ct oid H. discriminate H.
Qed.

Lemma news_like_keeps_the_dislike_witness :
  let result := NewsArticleViewSet_like Fixtures.alice_likes_x 100
                  Scenarios.store_disliked in
  holds (likes (store_of result)) 1 7 "x-0001" = true /\
  holds (dislikes (store_of result)) 1 7 "x-0001" = true.
Proof.
  destruct store_disliked_tables as (Wl & Wd & Ex).
  destruct (news_like_keeps_the_dislike Fixtures.alice_likes_x 100
              Scenarios.store_disliked 1 Fixtures.article_x
              Fixtures.ct_newsarticle eq_refl eq_refl eq_refl
              ToggleFacts.store0_article_pks Wl Wd ltac:(simpl; lia) Ex eq_refl)
    as (_ & H1 & H2 & _).
  split; [exact H1 | exact H2].
Defined.

(** X29.  Unliking an article whose counter is 0.  When the user has a
    like of the article but the stored [likes_count] is 0, the action
    deletes the like and then fails on the counter, which cannot go
    below zero: the request ends with [IntegrityError], the like is
    gone, and the articles and the dislikes are as before. *)
Theorem unlike_at_zero_fails_after_the_delete request now db u a c :
  article_request_user request = Some u ->
  find (visible_to request) (news_articles db) = Some a ->
  find is_newsarticle_ct (content_types db) = Some c ->
  NoDup (map article_id (news_articles db)) ->
  wf_table (likes db) ->
  holds (likes db) u (ct_id c) (article_id a) = true ->
  likes_count a = 0 ->
  let result := NewsArticleViewSet_like request now db in
  outcome_of result = inl IntegrityError /\
  holds (likes (store_of result)) u (ct_id c) (article_id a) = false /\
  (forall r, In r (rows (likes (store_of result))) -> In r (rows (likes db))) /\
  news_articles (store_of result) = news_articles db /\
  dislikes (store_of result) = dislikes db.
Proof.
  intros Hu Ha Hc Hpk Wl Hy H0 result.
  destruct (like_deletes_at_zero request db u a c now Hu Ha Hc Hpk Wl Hy H0)
    as (r & F & E).
  fold result in E. rewrite E. unfold outcome_of, store_of. cbn [fst snd].
  split_ands; try reflexivity.
  - apply holds_false_count. unfold count. cbn [likes set_likes].
    rewrite (delete_instance_gone _ u (ct_id c) (article_id a) r); auto.
  - cbn [likes set_likes]. unfold delete_instance. cbn [rows].
    intros x Hx. apply filter_In in Hx. tauto.
Qed.

Lemma store_uncounted_likes : wf_table (likes Scenarios.store_uncounted).
Proof.
  repeat split; simpl.
  - constructor; [intros []|constructor].
  - intros r [<-|[]]. simpl. lia.
  - intros u ct oid. unfold count. simpl.
    destruct (for_pair u ct oid _); simpl; lia.
Qed.

Lemma unlike_at_zero_fails_after_the_delete_witness :
  let result := NewsArticleViewSet_like Fixtures.alice_likes_x 100
                  Scenarios.store_uncounted in
  outcome_of result = inl IntegrityError /\
  holds (likes (store_of result)) 1 7 "x-0001" = false.
Proof.
  destruct (unlike_at_zero_fails_after_the_delete Fixtures.alice_likes_x 100
              Scenarios.store_uncounted 1 Fixtures.article_x
              Fixtures.ct_newsarticle eq_refl eq_refl eq_refl
              ToggleFacts.store0_article_pks store_uncounted_likes eq_refl eq_refl)
    as (H1 & H2 & _).
  split; [exact H1 | exact H2].
Defined.

(** *** The like action beside the generic toggles *)

(** C1 on the code.  A pair with both a Like and a Dislike is reached,
    and it stays.
    User 1 dislikes article X through the generic toggle and then likes
    it through the like action of the news viewset, which does not look
    at the Dislike table: the pair has one Like row and one Dislike row.
    From that store a like toggle followed by a dislike toggle removes
    both rows, where the specification has exactly one Dislike and no
    Like. *)
Theorem like_beside_dislike :
  let pair := for_pair 1 7 "x-0001" in
  let disliked :=
    store_of (DislikeToggleView_post Fixtures.alice_on_x 100 Fixtures.store0) in
  let both :=
    store_of (NewsArticleViewSet_like Fixtures.alice_likes_x 200 disliked) in
  let toggled := LikeToggleView_post Fixtures.alice_on_x 300 both in
  let after :=
    DislikeToggleView_post Fixtures.alice_on_x 400 (store_of toggled) in
  (count pair (likes disliked) = 0 /\ count pair (dislikes disliked) = 1)%nat /\
  (count pair (likes both) = 1 /\ count pair (dislikes both) = 1)%nat /\
  ~ exclusive both /\
  (exists r, outcome_of toggled = inr r /\ applied r = Some false) /\
  (exists r, outcome_of after = inr r /\ applied r = Some false) /\
  (count pair (likes (store_of after)) = 0
   /\ count pair (dislikes (store_of after)) = 0)%nat.
Proof.
  cbv zeta. split_ands; try (vm_compute; reflexivity).
  - intros X. apply (X 1 7 "x-0001"%string); vm_compute; reflexivity.
  - eexists. split; vm_compute; reflexivity.
  - eexists. split; vm_compute; reflexivity.
Qed.

(** C3 on the code.  Two like actions in a row that are no round trip.
    User 1 likes article X through the generic toggle, which stores the Like and leaves
    [likes_count] at 0.  The first like action of the news viewset then
    deletes the Like and fails on the counter, which cannot go below
    zero; the second stores a Like again and counts it.  The user started
    as liked with a counter of 0 and ends as liked with a counter of 1. *)
Theorem double_like_from_an_uncounted_like :
  let start :=
    store_of (LikeToggleView_post Fixtures.alice_on_x 100 Fixtures.store0) in
  let first := NewsArticleViewSet_like Fixtures.alice_likes_x 200 start in
  let second :=
    NewsArticleViewSet_like Fixtures.alice_likes_x 300 (store_of first) in
  (holds (likes start) 1 7 "x-0001" = true
   /\ likes_count_of "x-0001" start = Some 0) /\
  (outcome_of first = inl IntegrityError
   /\ holds (likes (store_of first)) 1 7 "x-0001" = false
   /\ likes_count_of "x-0001" (store_of first) = Some 0) /\
  (outcome_of second = inr (mkLikeResponse true (F_plus "likes_count" 1))
   /\ holds (likes (store_of second)) 1 7 "x-0001" = true
   /\ likes_count_of "x-0001" (store_of second) = Some 1).
Proof. cbv zeta. split_ands; vm_compute; reflexivity. Qed.

End NewsLikeFacts.

(** * Tracking an interaction again *)

Module TrackingFacts.
Import Interest InterestFacts.

Lemma with_score_same r : with_score (score r) r = r.
Proof. destruct r; reflexivity. Qed.

Lemma set_user_interests_same db :
  set_user_interests (mkTable (rows (user_interests db))
                              (next_pk (user_interests db))) db = db.
Proof. destruct db as [[rs nk] cs tg]. reflexivity. Qed.

Section Blocks.

Variables (kind : string) (ts : Z).

(** One block of the handler, for every outcome of the lookup. *)
Lemma block_value lookup fresh fk db :
  (forall k, id (fresh k) = k) ->
  (x <- get_or_create lookup fresh fk ;;
   (let '(interest, created) := x in
    calculate_score (counted kind ts interest) ;;; ret tt)) db
  = match filter lookup (rows (user_interests db)) with
    | [] => if fk then (tracked lookup fresh kind ts db, inr tt)
            else (db, inl IntegrityError)
    | [_] => (tracked lookup fresh kind ts db, inr tt)
    | _ :: _ :: _ => (db, inl MultipleObjectsReturned)
    end.
Proof.
  intros Hfresh_id.
  unfold bind, get_or_create, tracked, row_before.
  destruct (filter lookup (rows (user_interests db))) as [|r [|r' l]] eqn:F;
    [destruct fk| |]; try reflexivity.
  - unfold calculate_score.
    cbn [user_interests set_user_interests rows next_pk id with_score].
    rewrite !counted_id, Hfresh_id.
    rewrite existsb_app. simpl. unfold has_pk at 2. rewrite Hfresh_id.
    rewrite Z.eqb_refl, orb_true_r. unfold ret. reflexivity.
  - unfold calculate_score. cbn [id with_score]. rewrite !counted_id.
    assert (Hin : In r (rows (user_interests db))).
    { assert (In r (filter lookup (rows (user_interests db))))
        by (rewrite F; left; reflexivity).
      apply filter_In in H. tauto. }
    assert (E : existsb (has_pk (id r)) (rows (user_interests db)) = true).
    { apply existsb_exists. exists r. split; auto. apply Z.eqb_refl. }
    rewrite E. unfold ret. destruct db as [[rs nk] cs tg]. reflexivity.
Qed.

(** A store in which the row of the lookup has the score of its
    counters is not changed by the block. *)
Lemma tracked_settled lookup fresh db r :
  NoDup (map id (rows (user_interests db))) ->
  filter lookup (rows (user_interests db)) = [r] ->
  score r = weighted_score (counted kind ts r) ->
  tracked lookup fresh kind ts db = db.
Proof.
  intros ND F S. unfold tracked, row_before. rewrite F. cbv zeta iota.
  assert (Hin : In r (rows (user_interests db))).
  { assert (In r (filter lookup (rows (user_interests db))))
      by (rewrite F; left; reflexivity).
    apply filter_In in H. tauto. }
  replace (map (rescored (id r) (weighted_score (counted kind ts r)))
               (rows (user_interests db)))
    with (rows (user_interests db)).
  - apply set_user_interests_same.
  - rewrite <- (map_id (rows (user_interests db))) at 1.
    apply map_ext_in. intros x Hx. unfold rescored.
    destruct (has_pk (id r) x) eqn:P; auto.
    apply Z.eqb_eq in P.
    assert (x = r)
      by (apply (InteractionsFacts.NoDup_map_inj id _ x r ND Hx Hin P)).
    subst x. rewrite <- S. symmetry. apply with_score_same.
Qed.

Lemma settled_own lookup fresh db :
  (forall k, lookup (fresh k) = true) ->
  (count lookup (user_interests db) <= 1)%nat ->
  (forall k s r, lookup (rescored k s r) = lookup r) ->
  exists r,
    filter lookup (rows (user_interests (tracked lookup fresh kind ts db)))
    = [r] /\
    score r = weighted_score (counted kind ts r).
Proof.
  intros Hl Hu Hinv. eexists. split.
  - apply (tracked_own lookup fresh kind ts db Hl Hu Hinv).
  - cbn [score with_score].
    apply weighted_score_counted_same; reflexivity.
Qed.

Lemma settled_other p fresh_p (q : UserInterest -> bool) db :
  NoDup (map id (rows (user_interests db))) ->
  (forall r, In r (rows (user_interests db)) ->
             id r < next_pk (user_interests db)) ->
  (forall k, id (fresh_p k) = k) ->
  (forall k s r, q (rescored k s r) = q r) ->
  (forall k, q (fresh_p k) = false) ->
  (exists r, filter q (rows (user_interests db)) = [r] /\
             score r = weighted_score (counted kind ts r)) ->
  exists r,
    filter q (rows (user_interests (tracked p fresh_p kind ts db))) = [r] /\
    score r = weighted_score (counted kind ts r).
Proof.
  intros ND LT Hid Hinv Hq (r & F & S).
  rewrite (tracked_other p fresh_p kind ts db q Hinv Hq), F. cbn [map].
  eexists. split; [reflexivity|].
  assert (Hin : In r (rows (user_interests db))).
  { assert (In r (filter q (rows (user_interests db))))
      by (rewrite F; left; reflexivity).
    apply filter_In in H. tauto. }
  unfold rescored.
  destruct (has_pk (id (row_before p fresh_p db)) r) eqn:P; [|exact S].
  apply Z.eqb_eq in P. cbn [score with_score].
  transitivity (weighted_score (counted kind ts r)).
  - unfold row_before in *.
    destruct (filter p (rows (user_interests db))) as [|r1 l] eqn:Fp.
    + rewrite Hid in P. apply LT in Hin. lia.
    + assert (Hin1 : In r1 (rows (user_interests db))).
      { assert (In r1 (filter p (rows (user_interests db))))
          by (rewrite Fp; left; reflexivity).
        apply filter_In in H. tauto. }
      rewrite (InteractionsFacts.NoDup_map_inj id _ r r1 ND Hin Hin1 P).
      reflexivity.
  - apply weighted_score_counted_same; reflexivity.
Qed.

Lemma empty_other p fresh_p (q : UserInterest -> bool) db :
  (forall k s r, q (rescored k s r) = q r) ->
  (forall k, q (fresh_p k) = false) ->
  filter q (rows (user_interests db)) = [] ->
  filter q (rows (user_interests (tracked p fresh_p kind ts db))) = [].
Proof.
  intros Hinv Hq F.
  rewrite (tracked_other p fresh_p kind ts db q Hinv Hq), F. reflexivity.
Qed.

(** The rows after a block: those from before with their counters, and
    the row the block inserted. *)
Lemma tracked_rows_from lookup fresh db r' :
  In r' (rows (user_interests (tracked lookup fresh kind ts db))) ->
  (exists r, In r (rows (user_interests db)) /\ id r' = id r /\
             view_count r' = view_count r /\ like_count r' = like_count r /\
             share_count r' = share_count r /\ time_spent r' = time_spent r)
  \/ (exists k, view_count r' = view_count (fresh k) /\
                like_count r' = like_count (fresh k) /\
                share_count r' = share_count (fresh k) /\
                time_spent r' = time_spent (fresh k)).
Proof.
  unfold tracked. cbn [user_interests set_user_interests rows].
  intros H. apply in_map_iff in H as (x & E & Hx). subst r'.
  assert (C : forall k s,
             id (rescored k s x) = id x /\
             view_count (rescored k s x) = view_count x /\
             like_count (rescored k s x) = like_count x /\
             share_count (rescored k s x) = share_count x /\
             time_spent (rescored k s x) = time_spent x).
  { intros k s. unfold rescored. destruct (has_pk k x); simpl; auto. }
  destruct (filter lookup (rows (user_interests db))) as [|r0 l] eqn:F.
  - cbn [rows] in Hx. apply in_app_iff in Hx as [Hx|[<-|[]]].
    + left. exists x. split; [exact Hx|apply C].
    + right. exists (next_pk (user_interests db)).
      unfold row_before in *. rewrite F in *.
      destruct (C (id (fresh (next_pk (user_interests db))))
                  (weighted_score
                     (counted kind ts (fresh (next_pk (user_interests db))))))
        as (_ & C').
      exact C'.
  - left. exists x. split; [exact Hx|apply C].
Qed.

(** The category block and the tag block of the handler. *)
Lemma category_block_value u c db :
  ('(interest, created) <- get_or_create_category u c ;;
   calculate_score (counted kind ts interest) ;;; ret tt) db
  = match filter (for_category u c) (rows (user_interests db)) with
    | [] => if existsb (Z.eqb c) (categories db)
            then (after_category u c kind ts db, inr tt)
            else (db, inl IntegrityError)
    | [_] => (after_category u c kind ts db, inr tt)
    | _ :: _ :: _ => (db, inl MultipleObjectsReturned)
    end.
Proof.
  pose proof (block_value (for_category u c) (fresh_for_category u c)
                (existsb (Z.eqb c) (categories db)) db (fun k => eq_refl))
    as B.
  unfold bind at 1 in B. unfold bind at 1.
  unfold get_or_create_category. exact B.
Qed.

Lemma tag_block_value u t db :
  ('(interest, created) <- get_or_create_tag u t ;;
   calculate_score (counted kind ts interest) ;;; ret tt) db
  = match filter (for_tag u t) (rows (user_interests db)) with
    | [] => if existsb (Z.eqb t) (tags db)
            then (after_tag u t kind ts db, inr tt)
            else (db, inl IntegrityError)
    | [_] => (after_tag u t kind ts db, inr tt)
    | _ :: _ :: _ => (db, inl MultipleObjectsReturned)
    end.
Proof.
  pose proof (block_value (for_tag u t) (fresh_for_tag u t)
                (existsb (Z.eqb t) (tags db)) db (fun k => eq_refl))
    as B.
  unfold bind at 1 in B. unfold bind at 1.
  unfold get_or_create_tag. exact B.
Qed.

End Blocks.

(** Keys are unique and below the next one. *)
Local Abbreviation keyed d :=
  (NoDup (map id (rows (user_interests d))) /\
   forall r, In r (rows (user_interests d)) -> id r < next_pk (user_interests d)).

(** The lookup selects one row, which has the score of its counters. *)
Local Abbreviation settled kind ts lookup d :=
  (exists r, filter lookup (rows (user_interests d)) = [r] /\
             score r = weighted_score (counted kind ts r)).

Section TwoSteps.

Variables (A B : M DB unit) (GA GB Inv : DB -> Prop)
          (afterA afterB : DB -> DB).
Hypothesis A_step :
  forall d, Inv d ->
    (exists e, A d = (d, inl e))
    \/ (A d = (afterA d, inr tt) /\ Inv (afterA d) /\ GA (afterA d)).
Hypothesis B_step :
  forall d, Inv d ->
    (exists e, B d = (d, inl e))
    \/ (B d = (afterB d, inr tt) /\ Inv (afterB d) /\ GB (afterB d)).
Hypothesis A_again : forall d, Inv d -> GA d -> A d = (d, inr tt).
Hypothesis B_again : forall d, Inv d -> GB d -> B d = (d, inr tt).
Hypothesis A_kept : forall d, Inv d -> GA d -> GA (afterB d).

Lemma two_steps_again (resp : Response) d :
  Inv d ->
  let run := (A ;;; B ;;; ret resp) in
  run (store_of (run d)) = (store_of (run d), outcome_of (run d)) /\
  (store_of (run d) = d \/ store_of (run d) = afterA d
   \/ store_of (run d) = afterB (afterA d)).
Proof.
  intros I run.
  assert (Run : forall x,
            run x = match A x with
                    | (s, inl e) => (s, inl e)
                    | (s, inr _) =>
                        match B s with
                        | (s', inl e) => (s', inl e)
                        | (s', inr _) => (s', inr resp)
                        end
                    end).
  { intros x. unfold run, bind, ret. destruct (A x) as [s [e|[]]]; auto. }
  unfold store_of, outcome_of.
  destruct (A_step d I) as [[e E]|(E & I1 & G1)].
  - rewrite (Run d), E. cbn [fst snd]. rewrite (Run d), E. split; auto.
  - destruct (B_step (afterA d) I1) as [[e E2]|(E2 & I2 & G2)].
    + rewrite (Run d), E, E2. cbn [fst snd].
      rewrite (Run (afterA d)), (A_again _ I1 G1), E2. split; auto.
    + rewrite (Run d), E, E2. cbn [fst snd].
      rewrite (Run (afterB (afterA d))),
        (A_again _ I2 (A_kept _ I1 G1)), (B_again _ I2 G2).
      split; auto.
Qed.

End TwoSteps.

Section Steps.

Variables (kind : string) (ts : Z) (u : Z).

Lemma category_step c d :
  keyed d ->
  (exists e,
     ('(interest, created) <- get_or_create_category u c ;;
      calculate_score (counted kind ts interest) ;;; ret tt) d = (d, inl e))
  \/ (('(interest, created) <- get_or_create_category u c ;;
       calculate_score (counted kind ts interest) ;;; ret tt) d
      = (after_category u c kind ts d, inr tt) /\
      keyed (after_category u c kind ts d) /\
      settled kind ts (for_category u c) (after_category u c kind ts d)).
Proof.
  intros [ND LT]. rewrite category_block_value.
  assert (K : keyed (after_category u c kind ts d)).
  { apply tracked_keys; auto. }
  assert (S : (count (for_category u c) (user_interests d) <= 1)%nat ->
              settled kind ts (for_category u c)
                      (after_category u c kind ts d)).
  { intros Hc. apply settled_own; auto.
    - intros. apply fresh_category_matches.
    - intros. apply rescored_for_category. }
  unfold count in S.
  destruct (filter (for_category u c) (rows (user_interests d)))
    as [|r [|r' l]].
  - destruct (existsb (Z.eqb c) (categories d)).
    + right. split_ands; auto; try apply K; try (apply S; simpl; lia).
    + left. eexists. reflexivity.
  - right. split_ands; auto; try apply K; try (apply S; simpl; lia).
  - left. eexists. reflexivity.
Qed.

Lemma tag_step t d :
  keyed d ->
  (exists e,
     ('(interest, created) <- get_or_create_tag u t ;;
      calculate_score (counted kind ts interest) ;;; ret tt) d = (d, inl e))
  \/ (('(interest, created) <- get_or_create_tag u t ;;
       calculate_score (counted kind ts interest) ;;; ret tt) d
      = (after_tag u t kind ts d, inr tt) /\
      keyed (after_tag u t kind ts d) /\
      settled kind ts (for_tag u t) (after_tag u t kind ts d)).
Proof.
  intros [ND LT]. rewrite tag_block_value.
  assert (K : keyed (after_tag u t kind ts d)).
  { apply tracked_keys; auto. }
  assert (S : (count (for_tag u t) (user_interests d) <= 1)%nat ->
              settled kind ts (for_tag u t) (after_tag u t kind ts d)).
  { intros Hc. apply settled_own; auto.
    - intros. apply fresh_tag_matches.
    - intros. apply rescored_for_tag. }
  unfold count in S.
  destruct (filter (for_tag u t) (rows (user_interests d))) as [|r [|r' l]].
  - destruct (existsb (Z.eqb t) (tags d)).
    + right. split_ands; auto; try apply K; try (apply S; simpl; lia).
    + left. eexists. reflexivity.
  - right. split_ands; auto; try apply K; try (apply S; simpl; lia).
  - left. eexists. reflexivity.
Qed.

Lemma category_again c d :
  keyed d -> settled kind ts (for_category u c) d ->
  ('(interest, created) <- get_or_create_category u c ;;
   calculate_score (counted kind ts interest) ;;; ret tt) d = (d, inr tt).
Proof.
  intros [ND _] (r & F & S). rewrite category_block_value, F.
  unfold after_category.
  rewrite (tracked_settled kind ts _ _ d r ND F S). reflexivity.
Qed.

Lemma tag_again t d :
  keyed d -> settled kind ts (for_tag u t) d ->
  ('(interest, created) <- get_or_create_tag u t ;;
   calculate_score (counted kind ts interest) ;;; ret tt) d = (d, inr tt).
Proof.
  intros [ND _] (r & F & S). rewrite tag_block_value, F.
  unfold after_tag.
  rewrite (tracked_settled kind ts _ _ d r ND F S). reflexivity.
Qed.

Lemma category_kept c t d :
  keyed d -> settled kind ts (for_category u c) d ->
  settled kind ts (for_category u c) (after_tag u t kind ts d).
Proof.
  intros [ND LT] S. unfold after_tag.
  apply settled_other; auto.
  - intros. apply rescored_for_category.
  - intros. apply fresh_tag_not_category.
Qed.

End Steps.

(** The rows of a store [d'] are those of [d] with their counters, and
    rows with all counters 0. *)
Local Abbreviation same_counters r r' :=
  (id r' = id r /\
   view_count r' = view_count r /\ like_count r' = like_count r /\
   share_count r' = share_count r /\ time_spent r' = time_spent r).

Local Abbreviation counters_kept d d' :=
  ((forall r, In r (rows (user_interests d)) ->
      exists r', In r' (rows (user_interests d')) /\ same_counters r r') /\
   (forall r', In r' (rows (user_interests d')) ->
      (exists r, In r (rows (user_interests d)) /\ same_counters r r')
      \/ (view_count r' = 0 /\ like_count r' = 0 /\
          share_count r' = 0 /\ time_spent r' = 0))).

Lemma counters_kept_refl d : counters_kept d d.
Proof.
  split; intros r Hr; [|left]; exists r; split_ands; auto.
Qed.

Lemma counters_kept_tracked lookup fresh kind ts d d0 :
  (forall k, view_count (fresh k) = 0 /\ like_count (fresh k) = 0 /\
             share_count (fresh k) = 0 /\ time_spent (fresh k) = 0) ->
  counters_kept d0 d ->
  counters_kept d0 (tracked lookup fresh kind ts d).
Proof.
  intros Hz [K1 K2]. split.
  - intros r Hr. destruct (K1 r Hr) as (r1 & H1 & E1).
    destruct (tracked_counters_not_stored lookup fresh kind ts d r1 H1)
      as (r2 & H2 & E2).
    exists r2. split; [exact H2|]. intuition congruence.
  - intros r' Hr'.
    destruct (tracked_rows_from kind ts lookup fresh d r' Hr')
      as [(r1 & H1 & E1)|(k & E)].
    + destruct (K2 r1 H1) as [(r0 & H0 & E0)|Z0].
      * left. exists r0. split; [exact H0|]. intuition congruence.
      * right. intuition congruence.
    + right. destruct (Hz k) as (Z1 & Z2 & Z3 & Z4). intuition congruence.
Qed.

(** X30.  Tracking an interaction never stores a counter, so tracking
    it again changes nothing.  For every request, the handler leaves
    each stored row with the view, like and share counts and the time
    spent it had, and a row it adds has all four at 0: only scores are
    written.  The same request sent again is answered as the first time
    and leaves the store exactly as the first call left it. *)
Theorem tracking_again_changes_nothing request db :
  wf db ->
  let once := TrackInteractionView_post request db in
  TrackInteractionView_post request (store_of once)
  = (store_of once, outcome_of once) /\
  (forall r, In r (rows (user_interests db)) ->
     exists r', In r' (rows (user_interests (store_of once))) /\
                id r' = id r /\
                view_count r' = view_count r /\ like_count r' = like_count r /\
                share_count r' = share_count r /\
                time_spent r' = time_spent r) /\
  (forall r', In r' (rows (user_interests (store_of once))) ->
     (exists r, In r (rows (user_interests db)) /\
                id r' = id r /\
                view_count r' = view_count r /\ like_count r' = like_count r /\
                share_count r' = share_count r /\
                time_spent r' = time_spent r)
     \/ (view_count r' = 0 /\ like_count r' = 0 /\
         share_count r' = 0 /\ time_spent r' = 0)).
Proof.
  intros (ND & LT & _) once.
  assert (I : keyed db) by (split; assumption).
  unfold once, TrackInteractionView_post.
  destruct (request_user request) as [u|];
    [|split; [reflexivity|apply (counters_kept_refl db)]].
  destruct (data_type request) as [kind|];
    [|split; [reflexivity|apply (counters_kept_refl db)]].
  destruct (String.eqb kind "");
    [split; [reflexivity|apply (counters_kept_refl db)]|].
  set (ts := time_spent_of request).
  set (resp := mkResponse 200 "Interaction tracked successfully").
  assert (Zc : forall c k,
            view_count (fresh_for_category u c k) = 0 /\
            like_count (fresh_for_category u c k) = 0 /\
            share_count (fresh_for_category u c k) = 0 /\
            time_spent (fresh_for_category u c k) = 0)
    by (intros; repeat split).
  assert (Zt : forall t k,
            view_count (fresh_for_tag u t k) = 0 /\
            like_count (fresh_for_tag u t k) = 0 /\
            share_count (fresh_for_tag u t k) = 0 /\
            time_spent (fresh_for_tag u t k) = 0)
    by (intros; repeat split).
  destruct (truthy_id (data_category_id request)) as [c|];
    destruct (truthy_id (data_tag_id request)) as [t|]; cbv zeta.
  - destruct (two_steps_again _ _
                (fun d => settled kind ts (for_category u c) d)
                (fun d => settled kind ts (for_tag u t) d)
                (fun d => keyed d)
                (after_category u c kind ts) (after_tag u t kind ts)
                (category_step kind ts u c) (tag_step kind ts u t)
                (category_again kind ts u c) (tag_again kind ts u t)
                (category_kept kind ts u c t) resp db I) as [R S].
    split; [exact R|].
    destruct S as [S|[S|S]]; rewrite S.
    + apply (counters_kept_refl db).
    + apply counters_kept_tracked; [apply Zc|apply (counters_kept_refl db)].
    + apply counters_kept_tracked; [apply Zt|].
      apply counters_kept_tracked; [apply Zc|apply (counters_kept_refl db)].
  - destruct (two_steps_again _ (ret tt)
                (fun d => settled kind ts (for_category u c) d)
                (fun d => True)
                (fun d => keyed d)
                (after_category u c kind ts) (fun d => d)
                (category_step kind ts u c)
                (fun d H => or_intror (conj eq_refl (conj H Logic.I)))
                (category_again kind ts u c) (fun d _ _ => eq_refl)
                (fun d _ G => G) resp db I) as [R S].
    split; [exact R|].
    destruct S as [S|[S|S]]; rewrite S.
    + apply (counters_kept_refl db).
    + apply counters_kept_tracked; [apply Zc|apply (counters_kept_refl db)].
    + apply counters_kept_tracked; [apply Zc|apply (counters_kept_refl db)].
  - destruct (two_steps_again (ret tt) _
                (fun d => True)
                (fun d => settled kind ts (for_tag u t) d)
                (fun d => keyed d)
                (fun d => d) (after_tag u t kind ts)
                (fun d H => or_intror (conj eq_refl (conj H Logic.I)))
                (tag_step kind ts u t)
                (fun d _ _ => eq_refl) (tag_again kind ts u t)
                (fun d _ _ => Logic.I) resp db I) as [R S].
    split; [exact R|].
    destruct S as [S|[S|S]]; rewrite S.
    + apply (counters_kept_refl db).
    + apply (counters_kept_refl db).
    + apply counters_kept_tracked; [apply Zt|apply (counters_kept_refl db)].
  - split; [reflexivity|apply (counters_kept_refl db)].
Qed.

Lemma tracking_again_changes_nothing_witness :
  let once := TrackInteractionView_post Fixtures.alice_viewed
                Fixtures.interests0 in
  TrackInteractionView_post Fixtures.alice_viewed (store_of once)
  = (store_of once, outcome_of once).
Proof.
  destruct (tracking_again_changes_nothing Fixtures.alice_viewed
              Fixtures.interests0 interests0_wf) as [H _].
  exact H.
Defined.

End TrackingFacts.
